(** * alfa-cls: broker XML report parsers

    A shallow embedding of the three report parsers ([xml_trades],
    [xml_transfers], [xml_fin_ops]), of the helpers of [utils] and
    [xml_parser_base], and of the parts of the Python runtime they call
    ([str], [float], [decimal.Decimal], [re], [datetime.strptime]).

    Python [str] values are lists of Unicode code points, [bytes] are lists
    of bytes, [dict]s with string keys are finite maps, exceptions are the
    [Raise] results of an error monad, and the file system touched by the
    staging helper is an explicit state. *)

From Stdlib Require Import ZArith NArith Lia List Bool.
From Stdlib Require Import Strings.String Strings.Ascii Strings.Byte.
From Stdlib Require Import Floats.SpecFloat.
From stdpp Require Import base option list gmap strings.

Local Open Scope Z_scope.

(** ** Python strings *)

Module Py.

(** A [str] is a sequence of code points. *)
Definition pystr := list N.

(** UTF-8 decoding, used to write literals: [u "qty"]. *)
Fixpoint utf8_decode (fuel : nat) (bs : list N) : pystr :=
  match fuel with
  | O => []
  | S fuel' =>
    match bs with
    | [] => []
    | b0 :: r0 =>
      if (b0 <? 128)%N then b0 :: utf8_decode fuel' r0
      else if (b0 <? 224)%N then
        match r0 with
        | b1 :: r1 => ((b0 - 192) * 64 + (b1 - 128))%N :: utf8_decode fuel' r1
        | _ => []
        end
      else if (b0 <? 240)%N then
        match r0 with
        | b1 :: b2 :: r2 =>
          ((b0 - 224) * 4096 + (b1 - 128) * 64 + (b2 - 128))%N :: utf8_decode fuel' r2
        | _ => []
        end
      else
        match r0 with
        | b1 :: b2 :: b3 :: r3 =>
          ((b0 - 240) * 262144 + (b1 - 128) * 4096 + (b2 - 128) * 64 + (b3 - 128))%N
            :: utf8_decode fuel' r3
        | _ => []
        end
    end
  end.

Definition u (s : string) : pystr :=
  let bs := map Byte.to_N (list_byte_of_string s) in
  utf8_decode (length bs) bs.

Definition str_eqb (a b : pystr) : bool := bool_decide (a = b).

(** [str.isspace] for one code point (the Unicode White_Space characters
    plus the four information separators). *)
Definition isspace (c : N) : bool :=
  ((9 <=? c) && (c <=? 13) || (28 <=? c) && (c <=? 32)
   || (c =? 133) || (c =? 160) || (c =? 5760)
   || (8192 <=? c) && (c <=? 8202)
   || (c =? 8232) || (c =? 8233) || (c =? 8239) || (c =? 8287) || (c =? 12288))%N.

Fixpoint lstrip (s : pystr) : pystr :=
  match s with
  | c :: r => if isspace c then lstrip r else s
  | [] => []
  end.

Definition rstrip (s : pystr) : pystr := rev (lstrip (rev s)).

(** [s.strip()] *)
Definition strip (s : pystr) : pystr := rstrip (lstrip s).

(** Case mappings.  The tables cover Basic Latin and the Cyrillic letters
    U+0400..U+045F, the scripts of the reports; the upper case table also
    holds the two letters beyond them that [[A-Z]] matches under
    [re.IGNORECASE] and that have an upper case form, U+0131 (I) and U+017F
    (S).  Every other code point is mapped to itself. *)
Definition lower_char (c : N) : N :=
  (if (65 <=? c) && (c <=? 90) then c + 32
   else if (1040 <=? c) && (c <=? 1071) then c + 32
   else if (1024 <=? c) && (c <=? 1039) then c + 80
   else c)%N.

Definition upper_char (c : N) : N :=
  (if (97 <=? c) && (c <=? 122) then c - 32
   else if (1072 <=? c) && (c <=? 1103) then c - 32
   else if (1104 <=? c) && (c <=? 1119) then c - 80
   else if c =? 305 then 73
   else if c =? 383 then 83
   else c)%N.

(** [s.lower()], [s.upper()] *)
Definition lower (s : pystr) : pystr := map lower_char s.
Definition upper (s : pystr) : pystr := map upper_char s.

Fixpoint starts_with (p s : pystr) : bool :=
  match p, s with
  | [], _ => true
  | a :: p', b :: s' => (a =? b)%N && starts_with p' s'
  | _ :: _, [] => false
  end.

(** [sub in s] *)
Fixpoint contains (sub s : pystr) : bool :=
  starts_with sub s ||
  match s with
  | [] => false
  | _ :: r => contains sub r
  end.

(** [s.replace(old, new)] for a one-character [old]. *)
Definition replace_char (old : N) (new : pystr) (s : pystr) : pystr :=
  flat_map (fun c => if (c =? old)%N then new else [c]) s.

(** [s.split(sep)[-1]] and [s.split(sep)[0]] for a one-character [sep]. *)
Fixpoint after_last (sep : N) (s : pystr) : pystr :=
  match s with
  | [] => []
  | c :: r =>
    if existsb (N.eqb sep) r then after_last sep r
    else if (c =? sep)%N then r else s
  end.

Fixpoint before_first (sep : N) (s : pystr) : pystr :=
  match s with
  | [] => []
  | c :: r => if (c =? sep)%N then [] else c :: before_first sep r
  end.

(** [s.split()]: the maximal runs of non-whitespace characters. *)
Fixpoint split_ws_aux (cur : pystr) (s : pystr) : list pystr :=
  match s with
  | [] => match cur with [] => [] | _ => [rev cur] end
  | c :: r =>
    if isspace c then
      match cur with
      | [] => split_ws_aux [] r
      | _ => rev cur :: split_ws_aux [] r
      end
    else split_ws_aux (c :: cur) r
  end.

Definition split_ws (s : pystr) : list pystr := split_ws_aux [] s.

(** Line boundaries of [str.splitlines]. *)
Definition islinebreak (c : N) : bool :=
  ((10 <=? c) && (c <=? 13) || (28 <=? c) && (c <=? 30)
   || (c =? 133) || (c =? 8232) || (c =? 8233))%N.

(** [s.splitlines()[0]] of a non-empty [s]. *)
Fixpoint first_line (s : pystr) : pystr :=
  match s with
  | [] => []
  | c :: r => if islinebreak c then [] else c :: first_line r
  end.

(** Decimal rendering of integers, [str(n)]. *)
Fixpoint digits_of_pos_aux (fuel : nat) (n : N) (acc : pystr) : pystr :=
  match fuel with
  | O => acc
  | S fuel' =>
    let acc' := (48 + n mod 10)%N :: acc in
    if (n <? 10)%N then acc' else digits_of_pos_aux fuel' (n / 10)%N acc'
  end.

Definition str_of_N (n : N) : pystr :=
  digits_of_pos_aux (S (N.to_nat (N.log2 n))) n [].

Definition str_of_Z (z : Z) : pystr :=
  match z with
  | Zneg p => 45%N :: str_of_N (Npos p)
  | _ => str_of_N (Z.to_N z)
  end.

(** Truthiness of [str] and of [Optional[str]]. *)
Definition truthy (s : pystr) : bool := match s with [] => false | _ => true end.

Definition otruthy (o : option pystr) : bool :=
  match o with Some s => truthy s | None => false end.

(** [a or b] on [Optional[str]] operands. *)
Definition or_ (a b : option pystr) : option pystr := if otruthy a then a else b.

(** [a or "literal"] *)
Definition or_str (a : option pystr) (b : pystr) : pystr :=
  match a with Some (c :: r) => c :: r | _ => b end.

(** ** Character classes of the Unicode database

    [str.isalnum], [str.isdecimal] and the digit values are tables of the
    interpreter; these are the tables of Unicode 14.0.0, the version of
    CPython 3.11. *)

(** The code points for which [str.isalnum] holds, as inclusive ranges. *)
Definition alnum_ranges : list (N * N) :=
  [(48, 57); (65, 90); (97, 122); (170, 170); (178, 179); (181, 181); (185, 186);
   (188, 190); (192, 214); (216, 246); (248, 705); (710, 721); (736, 740); (748, 748);
   (750, 750); (880, 884); (886, 887); (890, 893); (895, 895); (902, 902); (904, 906);
   (908, 908); (910, 929); (931, 1013); (1015, 1153); (1162, 1327); (1329, 1366);
   (1369, 1369); (1376, 1416); (1488, 1514); (1519, 1522); (1568, 1610); (1632, 1641);
   (1646, 1647); (1649, 1747); (1749, 1749); (1765, 1766); (1774, 1788); (1791, 1791);
   (1808, 1808); (1810, 1839); (1869, 1957); (1969, 1969); (1984, 2026); (2036, 2037);
   (2042, 2042); (2048, 2069); (2074, 2074); (2084, 2084); (2088, 2088); (2112, 2136);
   (2144, 2154); (2160, 2183); (2185, 2190); (2208, 2249); (2308, 2361); (2365, 2365);
   (2384, 2384); (2392, 2401); (2406, 2415); (2417, 2432); (2437, 2444); (2447, 2448);
   (2451, 2472); (2474, 2480); (2482, 2482); (2486, 2489); (2493, 2493); (2510, 2510);
   (2524, 2525); (2527, 2529); (2534, 2545); (2548, 2553); (2556, 2556); (2565, 2570);
   (2575, 2576); (2579, 2600); (2602, 2608); (2610, 2611); (2613, 2614); (2616, 2617);
   (2649, 2652); (2654, 2654); (2662, 2671); (2674, 2676); (2693, 2701); (2703, 2705);
   (2707, 2728); (2730, 2736); (2738, 2739); (2741, 2745); (2749, 2749); (2768, 2768);
   (2784, 2785); (2790, 2799); (2809, 2809); (2821, 2828); (2831, 2832); (2835, 2856);
   (2858, 2864); (2866, 2867); (2869, 2873); (2877, 2877); (2908, 2909); (2911, 2913);
   (2918, 2927); (2929, 2935); (2947, 2947); (2949, 2954); (2958, 2960); (2962, 2965);
   (2969, 2970); (2972, 2972); (2974, 2975); (2979, 2980); (2984, 2986); (2990, 3001);
   (3024, 3024); (3046, 3058); (3077, 3084); (3086, 3088); (3090, 3112); (3114, 3129);
   (3133, 3133); (3160, 3162); (3165, 3165); (3168, 3169); (3174, 3183); (3192, 3198);
   (3200, 3200); (3205, 3212); (3214, 3216); (3218, 3240); (3242, 3251); (3253, 3257);
   (3261, 3261); (3293, 3294); (3296, 3297); (3302, 3311); (3313, 3314); (3332, 3340);
   (3342, 3344); (3346, 3386); (3389, 3389); (3406, 3406); (3412, 3414); (3416, 3425);
   (3430, 3448); (3450, 3455); (3461, 3478); (3482, 3505); (3507, 3515); (3517, 3517);
   (3520, 3526); (3558, 3567); (3585, 3632); (3634, 3635); (3648, 3654); (3664, 3673);
   (3713, 3714); (3716, 3716); (3718, 3722); (3724, 3747); (3749, 3749); (3751, 3760);
   (3762, 3763); (3773, 3773); (3776, 3780); (3782, 3782); (3792, 3801); (3804, 3807);
   (3840, 3840); (3872, 3891); (3904, 3911); (3913, 3948); (3976, 3980); (4096, 4138);
   (4159, 4169); (4176, 4181); (4186, 4189); (4193, 4193); (4197, 4198); (4206, 4208);
   (4213, 4225); (4238, 4238); (4240, 4249); (4256, 4293); (4295, 4295); (4301, 4301);
   (4304, 4346); (4348, 4680); (4682, 4685); (4688, 4694); (4696, 4696); (4698, 4701);
   (4704, 4744); (4746, 4749); (4752, 4784); (4786, 4789); (4792, 4798); (4800, 4800);
   (4802, 4805); (4808, 4822); (4824, 4880); (4882, 4885); (4888, 4954); (4969, 4988);
   (4992, 5007); (5024, 5109); (5112, 5117); (5121, 5740); (5743, 5759); (5761, 5786);
   (5792, 5866); (5870, 5880); (5888, 5905); (5919, 5937); (5952, 5969); (5984, 5996);
   (5998, 6000); (6016, 6067); (6103, 6103); (6108, 6108); (6112, 6121); (6128, 6137);
   (6160, 6169); (6176, 6264); (6272, 6276); (6279, 6312); (6314, 6314); (6320, 6389);
   (6400, 6430); (6470, 6509); (6512, 6516); (6528, 6571); (6576, 6601); (6608, 6618);
   (6656, 6678); (6688, 6740); (6784, 6793); (6800, 6809); (6823, 6823); (6917, 6963);
   (6981, 6988); (6992, 7001); (7043, 7072); (7086, 7141); (7168, 7203); (7232, 7241);
   (7245, 7293); (7296, 7304); (7312, 7354); (7357, 7359); (7401, 7404); (7406, 7411);
   (7413, 7414); (7418, 7418); (7424, 7615); (7680, 7957); (7960, 7965); (7968, 8005);
   (8008, 8013); (8016, 8023); (8025, 8025); (8027, 8027); (8029, 8029); (8031, 8061);
   (8064, 8116); (8118, 8124); (8126, 8126); (8130, 8132); (8134, 8140); (8144, 8147);
   (8150, 8155); (8160, 8172); (8178, 8180); (8182, 8188); (8304, 8305); (8308, 8313);
   (8319, 8329); (8336, 8348); (8450, 8450); (8455, 8455); (8458, 8467); (8469, 8469);
   (8473, 8477); (8484, 8484); (8486, 8486); (8488, 8488); (8490, 8493); (8495, 8505);
   (8508, 8511); (8517, 8521); (8526, 8526); (8528, 8585); (9312, 9371); (9450, 9471);
   (10102, 10131); (11264, 11492); (11499, 11502); (11506, 11507); (11517, 11517);
   (11520, 11557); (11559, 11559); (11565, 11565); (11568, 11623); (11631, 11631);
   (11648, 11670); (11680, 11686); (11688, 11694); (11696, 11702); (11704, 11710);
   (11712, 11718); (11720, 11726); (11728, 11734); (11736, 11742); (11823, 11823);
   (12293, 12295); (12321, 12329); (12337, 12341); (12344, 12348); (12353, 12438);
   (12445, 12447); (12449, 12538); (12540, 12543); (12549, 12591); (12593, 12686);
   (12690, 12693); (12704, 12735); (12784, 12799); (12832, 12841); (12872, 12879);
   (12881, 12895); (12928, 12937); (12977, 12991); (13312, 19903); (19968, 42124);
   (42192, 42237); (42240, 42508); (42512, 42539); (42560, 42606); (42623, 42653);
   (42656, 42735); (42775, 42783); (42786, 42888); (42891, 42954); (42960, 42961);
   (42963, 42963); (42965, 42969); (42994, 43009); (43011, 43013); (43015, 43018);
   (43020, 43042); (43056, 43061); (43072, 43123); (43138, 43187); (43216, 43225);
   (43250, 43255); (43259, 43259); (43261, 43262); (43264, 43301); (43312, 43334);
   (43360, 43388); (43396, 43442); (43471, 43481); (43488, 43492); (43494, 43518);
   (43520, 43560); (43584, 43586); (43588, 43595); (43600, 43609); (43616, 43638);
   (43642, 43642); (43646, 43695); (43697, 43697); (43701, 43702); (43705, 43709);
   (43712, 43712); (43714, 43714); (43739, 43741); (43744, 43754); (43762, 43764);
   (43777, 43782); (43785, 43790); (43793, 43798); (43808, 43814); (43816, 43822);
   (43824, 43866); (43868, 43881); (43888, 44002); (44016, 44025); (44032, 55203);
   (55216, 55238); (55243, 55291); (63744, 64109); (64112, 64217); (64256, 64262);
   (64275, 64279); (64285, 64285); (64287, 64296); (64298, 64310); (64312, 64316);
   (64318, 64318); (64320, 64321); (64323, 64324); (64326, 64433); (64467, 64829);
   (64848, 64911); (64914, 64967); (65008, 65019); (65136, 65140); (65142, 65276);
   (65296, 65305); (65313, 65338); (65345, 65370); (65382, 65470); (65474, 65479);
   (65482, 65487); (65490, 65495); (65498, 65500); (65536, 65547); (65549, 65574);
   (65576, 65594); (65596, 65597); (65599, 65613); (65616, 65629); (65664, 65786);
   (65799, 65843); (65856, 65912); (65930, 65931); (66176, 66204); (66208, 66256);
   (66273, 66299); (66304, 66339); (66349, 66378); (66384, 66421); (66432, 66461);
   (66464, 66499); (66504, 66511); (66513, 66517); (66560, 66717); (66720, 66729);
   (66736, 66771); (66776, 66811); (66816, 66855); (66864, 66915); (66928, 66938);
   (66940, 66954); (66956, 66962); (66964, 66965); (66967, 66977); (66979, 66993);
   (66995, 67001); (67003, 67004); (67072, 67382); (67392, 67413); (67424, 67431);
   (67456, 67461); (67463, 67504); (67506, 67514); (67584, 67589); (67592, 67592);
   (67594, 67637); (67639, 67640); (67644, 67644); (67647, 67669); (67672, 67702);
   (67705, 67742); (67751, 67759); (67808, 67826); (67828, 67829); (67835, 67867);
   (67872, 67897); (67968, 68023); (68028, 68047); (68050, 68096); (68112, 68115);
   (68117, 68119); (68121, 68149); (68160, 68168); (68192, 68222); (68224, 68255);
   (68288, 68295); (68297, 68324); (68331, 68335); (68352, 68405); (68416, 68437);
   (68440, 68466); (68472, 68497); (68521, 68527); (68608, 68680); (68736, 68786);
   (68800, 68850); (68858, 68899); (68912, 68921); (69216, 69246); (69248, 69289);
   (69296, 69297); (69376, 69415); (69424, 69445); (69457, 69460); (69488, 69505);
   (69552, 69579); (69600, 69622); (69635, 69687); (69714, 69743); (69745, 69746);
   (69749, 69749); (69763, 69807); (69840, 69864); (69872, 69881); (69891, 69926);
   (69942, 69951); (69956, 69956); (69959, 69959); (69968, 70002); (70006, 70006);
   (70019, 70066); (70081, 70084); (70096, 70106); (70108, 70108); (70113, 70132);
   (70144, 70161); (70163, 70187); (70272, 70278); (70280, 70280); (70282, 70285);
   (70287, 70301); (70303, 70312); (70320, 70366); (70384, 70393); (70405, 70412);
   (70415, 70416); (70419, 70440); (70442, 70448); (70450, 70451); (70453, 70457);
   (70461, 70461); (70480, 70480); (70493, 70497); (70656, 70708); (70727, 70730);
   (70736, 70745); (70751, 70753); (70784, 70831); (70852, 70853); (70855, 70855);
   (70864, 70873); (71040, 71086); (71128, 71131); (71168, 71215); (71236, 71236);
   (71248, 71257); (71296, 71338); (71352, 71352); (71360, 71369); (71424, 71450);
   (71472, 71483); (71488, 71494); (71680, 71723); (71840, 71922); (71935, 71942);
   (71945, 71945); (71948, 71955); (71957, 71958); (71960, 71983); (71999, 71999);
   (72001, 72001); (72016, 72025); (72096, 72103); (72106, 72144); (72161, 72161);
   (72163, 72163); (72192, 72192); (72203, 72242); (72250, 72250); (72272, 72272);
   (72284, 72329); (72349, 72349); (72368, 72440); (72704, 72712); (72714, 72750);
   (72768, 72768); (72784, 72812); (72818, 72847); (72960, 72966); (72968, 72969);
   (72971, 73008); (73030, 73030); (73040, 73049); (73056, 73061); (73063, 73064);
   (73066, 73097); (73112, 73112); (73120, 73129); (73440, 73458); (73648, 73648);
   (73664, 73684); (73728, 74649); (74752, 74862); (74880, 75075); (77712, 77808);
   (77824, 78894); (82944, 83526); (92160, 92728); (92736, 92766); (92768, 92777);
   (92784, 92862); (92864, 92873); (92880, 92909); (92928, 92975); (92992, 92995);
   (93008, 93017); (93019, 93025); (93027, 93047); (93053, 93071); (93760, 93846);
   (93952, 94026); (94032, 94032); (94099, 94111); (94176, 94177); (94179, 94179);
   (94208, 100343); (100352, 101589); (101632, 101640); (110576, 110579); (110581, 110587);
   (110589, 110590); (110592, 110882); (110928, 110930); (110948, 110951);
   (110960, 111355); (113664, 113770); (113776, 113788); (113792, 113800);
   (113808, 113817); (119520, 119539); (119648, 119672); (119808, 119892);
   (119894, 119964); (119966, 119967); (119970, 119970); (119973, 119974);
   (119977, 119980); (119982, 119993); (119995, 119995); (119997, 120003);
   (120005, 120069); (120071, 120074); (120077, 120084); (120086, 120092);
   (120094, 120121); (120123, 120126); (120128, 120132); (120134, 120134);
   (120138, 120144); (120146, 120485); (120488, 120512); (120514, 120538);
   (120540, 120570); (120572, 120596); (120598, 120628); (120630, 120654);
   (120656, 120686); (120688, 120712); (120714, 120744); (120746, 120770);
   (120772, 120779); (120782, 120831); (122624, 122654); (123136, 123180);
   (123191, 123197); (123200, 123209); (123214, 123214); (123536, 123565);
   (123584, 123627); (123632, 123641); (124896, 124902); (124904, 124907);
   (124909, 124910); (124912, 124926); (124928, 125124); (125127, 125135);
   (125184, 125251); (125259, 125259); (125264, 125273); (126065, 126123);
   (126125, 126127); (126129, 126132); (126209, 126253); (126255, 126269);
   (126464, 126467); (126469, 126495); (126497, 126498); (126500, 126500);
   (126503, 126503); (126505, 126514); (126516, 126519); (126521, 126521);
   (126523, 126523); (126530, 126530); (126535, 126535); (126537, 126537);
   (126539, 126539); (126541, 126543); (126545, 126546); (126548, 126548);
   (126551, 126551); (126553, 126553); (126555, 126555); (126557, 126557);
   (126559, 126559); (126561, 126562); (126564, 126564); (126567, 126570);
   (126572, 126578); (126580, 126583); (126585, 126588); (126590, 126590);
   (126592, 126601); (126603, 126619); (126625, 126627); (126629, 126633);
   (126635, 126651); (127232, 127244); (130032, 130041); (131072, 173791);
   (173824, 177976); (177984, 178205); (178208, 183969); (183984, 191456);
   (194560, 195101); (196608, 201546)]%N.

Definition in_ranges (l : list (N * N)) (c : N) : bool :=
  existsb (fun r => (r.1 <=? c) && (c <=? r.2))%N l.

(** [str.isalnum] for one code point *)
Definition isalnum (c : N) : bool := in_ranges alnum_ranges c.

(** The digits zero of the scripts: each is followed by the digits one to
    nine of its script, and there are no other decimal digits. *)
Definition decimal_zeros : list N :=
  [48; 1632; 1776; 1984; 2406; 2534; 2662; 2790; 2918; 3046; 3174; 3302; 3430; 3558; 3664;
   3792; 3872; 4160; 4240; 6112; 6160; 6470; 6608; 6784; 6800; 6992; 7088; 7232; 7248;
   42528; 43216; 43264; 43472; 43504; 43600; 44016; 65296; 66720; 68912; 69734; 69872;
   69942; 70096; 70384; 70736; 70864; 71248; 71360; 71472; 71904; 72016; 72784; 73040;
   73120; 92768; 92864; 93008; 120782; 120792; 120802; 120812; 120822; 123200; 123632;
   125264; 130032]%N.

(** [unicodedata.decimal(c)] for a decimal digit [c] *)
Definition decimal_value (c : N) : option N :=
  match List.find (fun z => (z <=? c) && (c <=? z + 9))%N decimal_zeros with
  | Some z => Some (c - z)%N
  | None => None
  end.

(** [str.isdecimal] for one code point *)
Definition isdecimal (c : N) : bool :=
  match decimal_value c with Some _ => true | None => false end.

End Py.

Export Py.

(** ** Exceptions *)

Record exn := Exn { exn_class : string; exn_msg : pystr }.

(** [str(e)] *)
Definition str_of_exn (e : exn) : pystr := exn_msg e.

Inductive result (A : Type) : Type :=
| Ok (a : A)
| Raise (e : exn).
Arguments Ok {A} a.
Arguments Raise {A} e.

#[global] Instance result_ret : MRet result := fun A a => Ok a.

#[global] Instance result_bind : MBind result := fun A B f r =>
  match r with Ok a => f a | Raise e => Raise e end.

(** [try: c except Exception: d] *)
Definition try_except {A} (c : result A) (d : exn -> A) : A :=
  match c with Ok a => a | Raise e => d e end.

Definition result_to_option {A} (r : result A) : option A :=
  match r with Ok a => Some a | Raise _ => None end.

(** ** Python floats (IEEE 754 binary64) *)

Module PyFloat.

Definition float := spec_float.
Definition prec : Z := 53.
Definition emax : Z := 1024.

Definition zero : float := S754_zero false.

(** The binary64 nearest (ties to even) to [(-1)^neg * c * 10^e]. *)
Definition of_decimal (neg : bool) (c : N) (e : Z) : float :=
  match c with
  | N0 => S754_zero neg
  | Npos m =>
    if 0 <=? e
    then binary_normalize prec emax
           (cond_Zopp neg (Zpos m * 10 ^ e)) 0 false
    else SFdiv prec emax (S754_finite neg m 0)
           (S754_finite false (Z.to_pos (10 ^ (- e))) 0)
  end.

Definition of_Z (z : Z) : float := binary_normalize prec emax z 0 false.

Definition isdigit (c : N) : bool := ((48 <=? c) && (c <=? 57))%N.

(** The digits after the first one of a [digitpart]; [us] tells whether a
    single underscore may separate two digits. *)
Fixpoint digitpart_tail (us : bool) (s : pystr) (acc : N) (cnt : nat)
  : N * nat * pystr :=
  match s with
  | c :: r =>
    if isdigit c then digitpart_tail us r (acc * 10 + (c - 48))%N (S cnt)
    else if us && (c =? 95)%N then
      match r with
      | d :: r' =>
        if isdigit d then digitpart_tail us r' (acc * 10 + (d - 48))%N (S cnt)
        else (acc, cnt, s)
      | [] => (acc, cnt, s)
      end
    else (acc, cnt, s)
  | [] => (acc, cnt, s)
  end.

(** A possibly empty run of digits. *)
Definition digitpart (us : bool) (s : pystr) : N * nat * pystr :=
  match s with
  | c :: r => if isdigit c then digitpart_tail us r (c - 48)%N 1%nat else (0%N, O, s)
  | [] => (0%N, O, s)
  end.

Definition scan_sign (s : pystr) : bool * pystr :=
  match s with
  | 45%N :: r => (true, r)
  | 43%N :: r => (false, r)
  | _ => (false, s)
  end.

(** [exponent ::= ("e" | "E") [sign] digitpart], or nothing. *)
Definition scan_exponent (us : bool) (s : pystr) : option (Z * pystr) :=
  match s with
  | c :: r =>
    if (c =? 101)%N || (c =? 69)%N then
      let '(neg, r1) := scan_sign r in
      let '(v, n, r2) := digitpart us r1 in
      match n with
      | O => None
      | _ => Some (cond_Zopp neg (Z.of_N v), r2)
      end
    else Some (0, s)
  | [] => Some (0, s)
  end.

(** [number [exponent]] covering the whole of [s]: coefficient and
    power of ten. *)
Definition scan_number (us : bool) (s : pystr) : option (N * Z) :=
  let '(ip, n1, r1) := digitpart us s in
  let '(fp, n2, r2) :=
    match r1 with
    | 46%N :: r => digitpart us r
    | _ => (0%N, O, r1)
    end in
  match (n1 + n2)%nat with
  | O => None
  | _ =>
    match scan_exponent us r2 with
    | Some (ex, []) => Some ((ip * 10 ^ N.of_nat n2 + fp)%N, ex - Z.of_nat n2)
    | _ => None
    end
  end.

Definition ValueError (msg : string) : exn := Exn "ValueError" (u msg).

(** The white space of the C locale ([Py_ISSPACE]). *)
Definition c_isspace (c : N) : bool := ((9 <=? c) && (c <=? 13) || (c =? 32))%N.

Fixpoint c_lstrip (s : pystr) : pystr :=
  match s with
  | c :: r => if c_isspace c then c_lstrip r else s
  | [] => []
  end.

Definition c_strip (s : pystr) : pystr := rev (c_lstrip (rev (c_lstrip s))).

(** The copy [float] reads when the string has a character beyond ASCII:
    a white space of Unicode becomes a space and a decimal digit its ASCII
    digit; at any other character beyond ASCII the copy ends with a question
    mark.  ASCII characters are kept as they are. *)
Fixpoint to_ascii (s : pystr) : pystr :=
  match s with
  | [] => []
  | c :: r =>
    if (c <? 128)%N then c :: to_ascii r
    else if isspace c then 32%N :: to_ascii r
    else
      match decimal_value c with
      | Some v => (48 + v)%N :: to_ascii r
      | None => [63%N]
      end
  end.

(** [float(s)] for a string [s]: an ASCII string is read as it is, any
    other through [to_ascii]; the white space of the C locale around the
    number is skipped. *)
Definition of_str (s : pystr) : result float :=
  let s := if forallb (fun c => c <? 128)%N s then s else to_ascii s in
  let '(neg, r) := scan_sign (c_strip s) in
  let l := lower r in
  if str_eqb l (u "inf") || str_eqb l (u "infinity") then Ok (S754_infinity neg)
  else if str_eqb l (u "nan") then Ok S754_nan
  else
    match scan_number true r with
    | Some (c, e) => Ok (of_decimal neg c e)
    | None => Raise (ValueError "could not convert string to float")
    end.

(** [round(x)] for a float [x]: the nearest integer, ties to even. *)
Definition round (x : float) : result Z :=
  match x with
  | S754_zero _ => Ok 0
  | S754_nan => Raise (ValueError "cannot convert float NaN to integer")
  | S754_infinity _ =>
    Raise (Exn "OverflowError" (u "cannot convert float infinity to integer"))
  | S754_finite s m e =>
    if 0 <=? e then Ok (cond_Zopp s (Zpos m * 2 ^ e))
    else
      let d := 2 ^ (- e) in
      let q := Zpos m / d in
      let r := Zpos m mod d in
      let q' := match 2 * r ?= d with
                | Lt => q
                | Gt => q + 1
                | Eq => if Z.even q then q else q + 1
                end in
      Ok (cond_Zopp s q')
  end.

(** [x == 0], [x > 0], [abs(x)], [x + y] *)
Definition is_zero (x : float) : bool := SFeqb x zero.
Definition is_pos (x : float) : bool := SFltb zero x.
Definition abs (x : float) : float := SFabs x.
Definition add (x y : float) : float := SFadd prec emax x y.

(** [float(x or 0.0)] for a float [x] *)
Definition or_zero (x : float) : float := if is_zero x then zero else x.

End PyFloat.

(** ** Regular expressions ([re]) *)

Module Re.

(** The constructs of the patterns of this program. *)
Inductive re :=
| Eps
| Cls (p : N -> bool)                      (* a character class *)
| Cat (a b : re)
| Alt (a b : re)                           (* a|b, [a] is tried first *)
| Rep (lo : nat) (hi : option nat) (a : re) (* greedy a{lo,hi} *)
| Bnd                                      (* \b *)
| Grp (n : nat) (a : re).                  (* capturing group [n] *)

Definition captures := list (nat * pystr).

(** [\w] of a [str] pattern: alphanumeric ([str.isalnum]) or underscore. *)
Definition isword (c : N) : bool := isalnum c || (c =? 95)%N.

Definition at_boundary (prev : option N) (s : pystr) : bool :=
  xorb (from_option isword false prev)
       (match s with c :: _ => isword c | [] => false end).

Section Matcher.
Context {A : Type}.

(** A continuation receives the character before the position, the
    remaining input and the groups captured so far. *)
Definition cont := option N -> pystr -> captures -> option A.

Definition may_iterate (hi : option nat) : bool :=
  match hi with Some O => false | _ => true end.

(** The loop of a greedy repetition: one more iteration is tried first,
    and every iteration has to consume input. *)
Fixpoint rep_loop (body : option N -> pystr -> captures -> cont -> option A)
    (k : cont) (fuel lo : nat) (hi : option nat)
    (prev : option N) (s : pystr) (caps : captures) : option A :=
  let stop := match lo with O => k prev s caps | S _ => None end in
  match fuel with
  | O => stop
  | S fuel' =>
    if may_iterate hi then
      match body prev s caps (fun prev' s' caps' =>
              if (length s' <? length s)%nat
              then rep_loop body k fuel' (Nat.pred lo) (Nat.pred <$> hi) prev' s' caps'
              else None) with
      | Some x => Some x
      | None => stop
      end
    else stop
  end.

(** Backtracking matcher in continuation-passing style. *)
Fixpoint rmatch (r : re) (prev : option N) (s : pystr) (caps : captures)
    (k : cont) : option A :=
  match r with
  | Eps => k prev s caps
  | Cls p =>
    match s with
    | c :: s' => if p c then k (Some c) s' caps else None
    | [] => None
    end
  | Cat a b => rmatch a prev s caps (fun prev' s' caps' => rmatch b prev' s' caps' k)
  | Alt a b =>
    match rmatch a prev s caps k with
    | Some x => Some x
    | None => rmatch b prev s caps k
    end
  | Rep lo hi a => rep_loop (rmatch a) k (S (length s)) lo hi prev s caps
  | Bnd => if at_boundary prev s then k prev s caps else None
  | Grp n a =>
    rmatch a prev s caps (fun prev' s' caps' =>
      k prev' s' ((n, take (length s - length s') s) :: caps'))
  end.
End Matcher.

(** A match: its text ([m.group(0)]), what follows it and its groups. *)
Record rmatch_result := { m_text : pystr; m_rest : pystr; m_groups : captures }.

Definition match_here (r : re) (prev : option N) (s : pystr) : option rmatch_result :=
  rmatch r prev s [] (fun _ s' caps =>
    Some {| m_text := take (length s - length s') s; m_rest := s'; m_groups := caps |}).

(** [re.match(r, s)] *)
Definition match_ (r : re) (s : pystr) : option rmatch_result := match_here r None s.

(** [re.fullmatch(r, s)] *)
Definition fullmatch (r : re) (s : pystr) : bool :=
  match rmatch r None s [] (fun _ s' _ => match s' with [] => Some tt | _ => None end) with
  | Some _ => true
  | None => false
  end.

(** The leftmost match at or after the current position, with the number of
    characters skipped before it. *)
Fixpoint search_from (r : re) (prev : option N) (s : pystr) : option (nat * rmatch_result) :=
  match match_here r prev s with
  | Some m => Some (O, m)
  | None =>
    match s with
    | c :: s' =>
      match search_from r (Some c) s' with
      | Some (i, m) => Some (S i, m)
      | None => None
      end
    | [] => None
    end
  end.

(** [re.search(r, s)] *)
Definition search (r : re) (s : pystr) : option (nat * rmatch_result) :=
  search_from r None s.

(** [m.group(n)] *)
Fixpoint group (n : nat) (caps : captures) : option pystr :=
  match caps with
  | [] => None
  | (i, t) :: r => if (i =? n)%nat then Some t else group n r
  end.

(** Character classes. *)
Definition chr (c : N) : re := Cls (N.eqb c).
(** a literal under [re.IGNORECASE] *)
Definition chr_i (c : N) : re := Cls (fun x => (lower_char x =? lower_char c)%N).
Definition in_range (a b : N) (c : N) : bool := ((a <=? c) && (c <=? b))%N.
(** [[0-9]], and [\d] as the date patterns are read here: on the ASCII
    digits *)
Definition digit : N -> bool := in_range 48 57.
Definition d : re := Cls digit.
(** [\s] *)
Definition ws : re := Cls isspace.
(** [[A-Z]] *)
Definition AZ : N -> bool := in_range 65 90.
(** [[A-Z0-9]] *)
Definition AZ09 (c : N) : bool := AZ c || digit c.
(** [[A-Z]] under [re.IGNORECASE]: the ASCII letters and U+0130, U+0131,
    U+017F, U+212A *)
Definition AZ_i (c : N) : bool :=
  (AZ c || in_range 97 122 c || (c =? 304) || (c =? 305) || (c =? 383) || (c =? 8490))%N.
Definition AZ09_i (c : N) : bool := AZ_i c || digit c.

(** [a{n}], [a+], [a*] *)
Definition times (n : nat) (a : re) : re := Rep n (Some n) a.
Definition plus (a : re) : re := Rep 1 None a.
Definition star (a : re) : re := Rep 0 None a.

Fixpoint seq (l : list re) : re :=
  match l with
  | [] => Eps
  | [a] => a
  | a :: r => Cat a (seq r)
  end.

End Re.

(** ** [datetime] *)

Module DateTime.
Import Re.

Record datetime := {
  year : Z; month : Z; day : Z;
  hour : Z; minute : Z; second : Z; microsecond : Z;
  utcoffset : option Z  (* seconds east of UTC of an aware value *)
}.

Definition is_leap (y : Z) : bool :=
  (y mod 4 =? 0) && (negb (y mod 100 =? 0) || (y mod 400 =? 0)).

Definition days_in_month (y m : Z) : Z :=
  if m =? 2 then (if is_leap y then 29 else 28)
  else if (m =? 4) || (m =? 6) || (m =? 9) || (m =? 11) then 30
  else 31.

(** [datetime(y, mo, d, h, mi, s)] *)
Definition make (y mo d h mi s : Z) : result datetime :=
  if (1 <=? y) && (y <=? 9999) && (1 <=? mo) && (mo <=? 12)
     && (1 <=? d) && (d <=? days_in_month y mo)
     && (0 <=? h) && (h <=? 23) && (0 <=? mi) && (mi <=? 59)
     && (0 <=? s) && (s <=? 59)
  then Ok {| year := y; month := mo; day := d; hour := h; minute := mi;
             second := s; microsecond := 0; utcoffset := None |}
  else Raise (PyFloat.ValueError "value out of range").

Definition rng (a b : string) : re :=
  match u a, u b with
  | [x], [y] => Cls (in_range x y)
  | _, _ => Eps
  end.

Definition lit (a : string) : re := seq (map chr_i (u a)).

(** The patterns the [_strptime] module gives to the directives. *)
Definition directive (c : N) : option re :=
  if (c =? 100)%N then  (* %d: 3[0-1]|[1-2]\d|0[1-9]|[1-9]| [1-9] *)
    Some (Alt (Cat (lit "3") (rng "0" "1"))
         (Alt (Cat (rng "1" "2") d)
         (Alt (Cat (lit "0") (rng "1" "9"))
         (Alt (rng "1" "9") (Cat (lit " ") (rng "1" "9"))))))
  else if (c =? 109)%N then  (* %m: 1[0-2]|0[1-9]|[1-9] *)
    Some (Alt (Cat (lit "1") (rng "0" "2"))
         (Alt (Cat (lit "0") (rng "1" "9")) (rng "1" "9")))
  else if (c =? 89)%N then  (* %Y: \d\d\d\d *)
    Some (seq [d; d; d; d])
  else if (c =? 72)%N then  (* %H: 2[0-3]|[0-1]\d|\d *)
    Some (Alt (Cat (lit "2") (rng "0" "3")) (Alt (Cat (rng "0" "1") d) d))
  else if (c =? 77)%N then  (* %M: [0-5]\d|\d *)
    Some (Alt (Cat (rng "0" "5") d) d)
  else if (c =? 83)%N then  (* %S: 6[0-1]|[0-5]\d|\d *)
    Some (Alt (Cat (lit "6") (rng "0" "1")) (Alt (Cat (rng "0" "5") d) d))
  else None.

(** The regular expression of a format: a directive becomes a group named
    after its letter, a run of whitespace becomes [\s+], any other
    character stands for itself (case-insensitively). *)
Fixpoint format_re_aux (in_ws : bool) (fmt : pystr) : option re :=
  match fmt with
  | [] => Some Eps
  | c :: r =>
    if (c =? 37)%N then
      match r with
      | x :: r' =>
        g ← directive x; t ← format_re_aux false r';
        Some (Cat (Grp (N.to_nat x) g) t)
      | [] => None
      end
    else if isspace c then
      (if in_ws then format_re_aux true r
       else t ← format_re_aux true r; Some (Cat (plus ws) t))
    else t ← format_re_aux false r; Some (Cat (chr_i c) t)
  end.

Definition format_re (fmt : pystr) : option re := format_re_aux false fmt.

(** [int(s)] of a group of ASCII digits, possibly after a blank. *)
Definition int_of_digits (s : pystr) : Z :=
  Z.of_N (fold_left (fun acc c => acc * 10 + (c - 48))%N (lstrip s) 0%N).

Definition field (caps : captures) (c : string) (dflt : Z) : Z :=
  match u c with
  | [x] => from_option int_of_digits dflt (group (N.to_nat x) caps)
  | _ => dflt
  end.

(** [datetime.strptime(data, fmt)] for formats over %d %m %Y %H %M %S *)
Definition strptime (data : pystr) (fmt : pystr) : result datetime :=
  match format_re fmt with
  | None => Raise (PyFloat.ValueError "bad directive in format")
  | Some r =>
    match match_ r data with
    | None => Raise (PyFloat.ValueError "time data does not match format")
    | Some m =>
      match m_rest m with
      | _ :: _ => Raise (PyFloat.ValueError "unconverted data remains")
      | [] =>
        let g := m_groups m in
        make (field g "Y" 1900) (field g "m" 1) (field g "d" 1)
             (field g "H" 0) (field g "M" 0) (field g "S" 0)
      end
    end
  end.

End DateTime.

(** ** [decimal.Decimal] under the default context
    (precision 28, ROUND_HALF_EVEN, Emax 999999, Emin -999999, with the
    InvalidOperation, DivisionByZero and Overflow traps set) *)

Module Decimal.

Inductive decimal :=
| DFin (neg : bool) (coeff : N) (exp : Z)          (* (-1)^neg * coeff * 10^exp *)
| DInf (neg : bool)
| DNaN (neg : bool) (signaling : bool) (diag : N).

Definition prec : Z := 28.
Definition Emax : Z := 999999.
Definition Emin : Z := -999999.
Definition Etiny : Z := Emin - prec + 1.
Definition Etop : Z := Emax - prec + 1.

Definition InvalidOperation (msg : string) : exn := Exn "InvalidOperation" (u msg).
Definition Overflow : exn := Exn "Overflow" (u "above Emax").

(** [Decimal("0")] *)
Definition zero : decimal := DFin false 0 0.

(** number of digits of the coefficient *)
Definition ndigits (c : N) : Z := Z.of_nat (length (str_of_N c)).

(** [len(d._int) + d._exp - 1] *)
Definition adjusted (c : N) (e : Z) : Z := ndigits c + e - 1.

(** [c / p] rounded to the nearest integer, ties to even *)
Definition div_half_even (c p : N) : N :=
  let q := (c / p)%N in
  match (2 * (c mod p) ?= p)%N with
  | Lt => q
  | Gt => (q + 1)%N
  | Eq => if N.even q then q else (q + 1)%N
  end.

Definition pow10 (k : Z) : N := (10 ^ Z.to_N k)%N.

(** the ASCII digit of a decimal digit of any script *)
Definition ascii_digit (c : N) : N :=
  match decimal_value c with
  | Some v => (48 + v)%N
  | None => c
  end.

(** [Decimal(s)] for a string [s]: the white space around the number and
    every underscore are dropped, and a decimal digit of any script is read
    as its ASCII digit *)
Definition of_str (s : pystr) : result decimal :=
  let s1 := map ascii_digit (filter (fun c => c ≠ 95%N) (strip s)) in
  let '(neg, r) := PyFloat.scan_sign s1 in
  let l := lower r in
  if str_eqb l (u "inf") || str_eqb l (u "infinity") then Ok (DInf neg)
  else
    let nan (signaling : bool) (t : pystr) : result decimal :=
      let '(v, n, rest) := PyFloat.digitpart false t in
      match rest with
      | [] => Ok (DNaN neg signaling v)
      | _ => Raise (InvalidOperation "conversion syntax")
      end in
    if starts_with (u "nan") l then nan false (drop 3 r)
    else if starts_with (u "snan") l then nan true (drop 4 r)
    else
      match PyFloat.scan_number false r with
      | Some (c, e) => Ok (DFin neg c e)
      | None => Raise (InvalidOperation "conversion syntax")
      end.

(** [bool(d)] *)
Definition to_bool (d : decimal) : bool :=
  match d with DFin _ 0 _ => false | _ => true end.

(** [float(d)] *)
Definition to_float (d : decimal) : result PyFloat.float :=
  match d with
  | DFin neg c e => Ok (PyFloat.of_decimal neg c e)
  | DInf neg => Ok (S754_infinity neg)
  | DNaN _ false _ => Ok S754_nan
  | DNaN _ true _ => Raise (PyFloat.ValueError "cannot convert signaling NaN to float")
  end.

(** [d > 0] and [d < 0] *)
Definition gt0 (d : decimal) : result bool :=
  match d with
  | DFin neg c _ => Ok (negb neg && negb (c =? 0)%N)
  | DInf neg => Ok (negb neg)
  | DNaN _ _ _ => Raise (InvalidOperation "comparison involving NaN")
  end.

Definition lt0 (d : decimal) : result bool :=
  match d with
  | DFin neg c _ => Ok (neg && negb (c =? 0)%N)
  | DInf neg => Ok neg
  | DNaN _ _ _ => Raise (InvalidOperation "comparison involving NaN")
  end.

(** [Decimal._fix]: round a finite value to the context *)
Definition fix_ (neg : bool) (c : N) (e : Z) : result decimal :=
  if (c =? 0)%N then Ok (DFin neg 0 (Z.min (Z.max e Etiny) Emax))
  else
    let exp_min0 := ndigits c + e - prec in
    if Etop <? exp_min0 then Raise Overflow
    else
      let exp_min := Z.max exp_min0 Etiny in
      if e <? exp_min then
        let c1 := div_half_even c (pow10 (exp_min - e)) in
        let '(c2, e2) :=
          if prec <? ndigits c1 then ((c1 / 10)%N, exp_min + 1) else (c1, exp_min) in
        if Etop <? e2 then Raise Overflow else Ok (DFin neg c2 e2)
      else Ok (DFin neg c e).

(** [a + b] *)
Definition add (a b : decimal) : result decimal :=
  match a, b with
  | DNaN _ true _, _ | _, DNaN _ true _ => Raise (InvalidOperation "sNaN")
  | DNaN _ false _, _ => Ok a
  | _, DNaN _ false _ => Ok b
  | DInf s1, DInf s2 =>
    if eqb s1 s2 then Ok a else Raise (InvalidOperation "-INF + INF")
  | DInf _, _ => Ok a
  | _, DInf _ => Ok b
  | DFin s1 c1 e1, DFin s2 c2 e2 =>
    let e := Z.min e1 e2 in
    match c1, c2 with
    | N0, N0 => fix_ (s1 && s2) 0 e
    | N0, _ =>
      let e' := Z.max e (e2 - prec - 1) in fix_ s2 (c2 * pow10 (e2 - e'))%N e'
    | _, N0 =>
      let e' := Z.max e (e1 - prec - 1) in fix_ s1 (c1 * pow10 (e1 - e'))%N e'
    | _, _ =>
      let v := cond_Zopp s1 (Z.of_N (c1 * pow10 (e1 - e)))
               + cond_Zopp s2 (Z.of_N (c2 * pow10 (e2 - e))) in
      fix_ (v <? 0) (Z.abs_N v) e
    end
  end.

(** [d.quantize(Decimal("0.0001"))], written for any exponent [q] of the
    second operand within the context's range *)
Definition quantize (d : decimal) (q : Z) : result decimal :=
  match d with
  | DNaN _ true _ => Raise (InvalidOperation "sNaN")
  | DNaN _ false _ => Ok d
  | DInf _ => Raise (InvalidOperation "quantize with one INF")
  | DFin neg c e =>
    if (c =? 0)%N then fix_ neg 0 q
    else if Emax <? adjusted c e then
      Raise (InvalidOperation "exponent of quantize result too large")
    else if prec <? adjusted c e - q + 1 then
      Raise (InvalidOperation "quantize result has too many digits")
    else
      let c' := if q <=? e then (c * pow10 (e - q))%N
                else div_half_even c (pow10 (q - e)) in
      if Emax <? adjusted c' q then
        Raise (InvalidOperation "exponent of quantize result too large")
      else if prec <? ndigits c' then
        Raise (InvalidOperation "quantize result has too many digits")
      else fix_ neg c' q
  end.

Definition zeros (n : Z) : pystr := repeat 48%N (Z.to_nat n).
Definition sign_str (neg : bool) : pystr := if neg then u "-" else [].

Definition special_str (d : decimal) : pystr :=
  match d with
  | DInf neg => sign_str neg ++ u "Infinity"
  | DNaN neg sig diag =>
    sign_str neg ++ (if sig then u "sNaN" else u "NaN")
      ++ (if (diag =? 0)%N then [] else str_of_N diag)
  | DFin _ _ _ => []
  end.

(** [format(d, "f")] *)
Definition format_f (d : decimal) : pystr :=
  match d with
  | DFin neg c e0 =>
    let e := if (c =? 0)%N && (0 <? e0) then 0 else e0 in
    let ds := str_of_N c in
    let n := Z.of_nat (length ds) in
    let dotplace := e + n in
    let '(intpart, fracpart) :=
      if dotplace <? 0 then (u "0", zeros (- dotplace) ++ ds)
      else if n <? dotplace then (ds ++ zeros (dotplace - n), [])
      else (match take (Z.to_nat dotplace) ds with [] => u "0" | i => i end,
            drop (Z.to_nat dotplace) ds) in
    sign_str neg ++ intpart
      ++ match fracpart with [] => [] | _ => u "." ++ fracpart end
  | _ => special_str d
  end.

(** [str(d)] *)
Definition to_str (d : decimal) : pystr :=
  match d with
  | DFin neg c e =>
    let ds := str_of_N c in
    let n := Z.of_nat (length ds) in
    let leftdigits := e + n in
    let dotplace := if (e <=? 0) && (-6 <? leftdigits) then leftdigits else 1 in
    let '(intpart, fracpart) :=
      if dotplace <=? 0 then (u "0", u "." ++ zeros (- dotplace) ++ ds)
      else if n <=? dotplace then (ds ++ zeros (dotplace - n), [])
      else (take (Z.to_nat dotplace) ds, u "." ++ drop (Z.to_nat dotplace) ds) in
    let ex := leftdigits - dotplace in
    sign_str neg ++ intpart ++ fracpart
      ++ (if ex =? 0 then []
          else u "E" ++ (if ex <? 0 then [] else u "+") ++ str_of_Z ex)
  | _ => special_str d
  end.

End Decimal.

Import DateTime.
Abbreviation float := PyFloat.float.
Abbreviation decimal := Decimal.decimal.

(** ** State with exceptions *)

(** A computation over a state [S] that returns or raises; the state at
    the time of the exception is kept, as the mutations of [self.stats]
    are. *)
Definition SE (S A : Type) : Type := S -> result A * S.

#[global] Instance SE_ret {S} : MRet (SE S) := fun A a s => (Ok a, s).

#[global] Instance SE_bind {S} : MBind (SE S) := fun A B f c s =>
  match c s with
  | (Ok a, s') => f a s'
  | (Raise e, s') => (Raise e, s')
  end.

Definition modify {S} (f : S -> S) : SE S unit := fun s => (Ok tt, f s).
Definition get {S} : SE S S := fun s => (Ok s, s).
Definition lift {S A} (r : result A) : SE S A := fun s => (r, s).

(** ** XML elements ([xml.etree.ElementTree.Element]) *)

#[local] Set Warnings "-register-all".
Inductive Element := Elem {
  tag : pystr;
  attrib : list (pystr * pystr);   (* in document order *)
  children : list Element
}.

(** [dict(items)]: a later item replaces an earlier one with the same key *)
Definition dict_of_items (l : list (pystr * pystr)) : gmap pystr pystr :=
  foldl (fun m kv => <[kv.1 := kv.2]> m) ∅ l.

(** [elem.attrib.get(name)] *)
Definition attrib_get (e : Element) (name : pystr) : option pystr :=
  dict_of_items (attrib e) !! name.

(** [elem.iter()]: the element and its descendants in document order *)
Fixpoint iter (e : Element) : list Element :=
  e :: (fix iter_list (l : list Element) : list Element :=
          match l with
          | [] => []
          | c :: r => iter c ++ iter_list r
          end) (children e).

(** [bool(elem)]: an element without children is false *)
Definition elem_truthy (e : Element) : bool :=
  match children e with [] => false | _ => true end.

(** ** The host file system *)

Record FS := {
  fs_files : gmap pystr (list byte);
  fs_writable : bool               (* may the working directory be written? *)
}.

Definition OSError (msg : string) : exn := Exn "OSError" (u msg).

(** [Path(p).write_bytes(data)] *)
Definition write_bytes (p : pystr) (data : list byte) : SE FS unit := fun fs =>
  if fs_writable fs
  then (Ok tt, {| fs_files := <[p := data]> (fs_files fs); fs_writable := true |})
  else (Raise (OSError "[Errno 30] Read-only file system"), fs).

(** [Path(p).unlink(missing_ok=True)] *)
Definition unlink (p : pystr) : SE FS unit := fun fs =>
  if fs_writable fs
  then (Ok tt, {| fs_files := delete p (fs_files fs); fs_writable := true |})
  else (Raise (OSError "[Errno 30] Read-only file system"), fs).

(** the content of the file opened for reading *)
Definition read_file (p : pystr) (fs : FS) : result (list byte) :=
  match fs_files fs !! p with
  | Some data => Ok data
  | None => Raise (Exn "FileNotFoundError" (u "[Errno 2] No such file or directory"))
  end.

(** ** The operation record *)

(** [quantity] is an [int] in the trades and financial operations and a
    [float] in the transfers. *)
Inductive number := NInt (z : Z) | NFloat (f : float).

(** Modelled from the spec: src/OperationDTO.py is not among the sources;
    section 3 lists the fields of the operation record, all given at
    construction. *)
Record OperationDTO := {
  date : option datetime;
  operation_type : pystr;
  payment_sum : float;
  currency : pystr;
  ticker : pystr;
  isin : pystr;
  reg_number : pystr;
  price : float;
  quantity : number;
  aci : float;
  comment : pystr;
  operation_id : pystr;
  commission : float
}.

(** ** What the parsers take from outside the sources

    The XML reader and [datetime.fromisoformat] of the standard library,
    and the two modules of the repository that are not among the sources:
    the constructor of the operation record, which may reject its
    arguments, and the operation classifier. *)
Class Host := {
  (** [ET.iterparse(source, events=("end",))] on the content of the file:
      the elements whose end was reached, in order, and the error that
      stopped the parser, if any *)
  ET_iterparse : list byte -> list Element * option exn;
  (** [ET.fromstring(data)] / [ET.parse(file).getroot()] *)
  ET_fromstring : list byte -> result Element;
  (** [datetime.fromisoformat(s)] *)
  fromisoformat : pystr -> result datetime;
  (** the exception [OperationDTO(...)] raises on these fields, if any *)
  OperationDTO_rejects : OperationDTO -> option exn;
  (** [OperationClassifier.determine_operation_type(oper_type, comment, payment_sum)] *)
  determine_operation_type : option pystr -> pystr -> float -> result pystr;
  (** [OperationClassifier.should_skip_operation(oper_type, comment, label_source)] *)
  should_skip_operation : option pystr -> pystr -> pystr -> result bool
}.

(** [OperationDTO(date=..., ...)] *)
Definition OperationDTO_new `{Host} (o : OperationDTO) : result OperationDTO :=
  match OperationDTO_rejects o with
  | Some e => Raise e
  | None => Ok o
  end.

(** ** utils.py *)

Module Utils.
Import Re.

Definition nbsp : N := 160.

(** [to_float_safe(v)] *)
Definition to_float_safe (v : option pystr) : float :=
  match v with
  | None => PyFloat.zero
  | Some v =>
    try_except
      (let s := strip v in
       if str_eqb s (u "") || str_eqb s (u "-") || str_eqb s (u "--")
       then Ok PyFloat.zero
       else
         let s := replace_char 44 (u ".")
                    (replace_char 32 (u "") (replace_char nbsp (u " ") s)) in
         PyFloat.of_str s)
      (fun _ =>
         try_except (PyFloat.of_str (replace_char 44 (u ".") v))
                    (fun _ => PyFloat.zero))
  end.

(** [to_int_safe(v)] for a string [v] *)
Definition to_int_safe (v : pystr) : Z :=
  try_except
    (let s := replace_char 44 (u ".")
                (replace_char 32 (u "") (replace_char nbsp (u " ") v)) in
     x ← (if truthy s then PyFloat.of_str s else Ok PyFloat.zero);
     PyFloat.round x)
    (fun _ => 0).

(** [_local_name(tag)] *)
Definition _local_name (tag : pystr) : pystr :=
  if contains (u "}") tag then after_last 125 tag else tag.

(** [_normalize_attrib(attrib)] *)
Definition _normalize_attrib (attrib : list (pystr * pystr)) : gmap pystr pystr :=
  foldl (fun m kv => <[lower kv.1 := kv.2]> m) ∅ attrib.

(** [ISIN_RE = re.compile(r"[A-Z]{2}[A-Z0-9]{9}\d", re.IGNORECASE)]; its
    [\d] is any decimal digit *)
Definition ISIN_RE : re := seq [times 2 (Cls AZ_i); times 9 (Cls AZ09_i); Cls isdecimal].

(** [extract_isin_from_attr(s)] *)
Definition extract_isin_from_attr (s : option pystr) : pystr :=
  match s with
  | Some (c :: r) =>
    match search ISIN_RE (c :: r) with
    | Some (_, m) => upper (m_text m)
    | None => strip (c :: r)
    end
  | _ => u ""
  end.

(** [extract_first_value(text)] with the default separator
    [[\s\r\n\t]+] *)
Definition extract_first_value (text : option pystr) : pystr :=
  match text with
  | Some (c :: r) =>
    let s := strip (c :: r) in
    let part0 := match search (plus ws) s with
                 | Some (i, _) => take i s
                 | None => s
                 end in
    if truthy part0 then strip part0 else u ""
  | _ => u ""
  end.

Section WithHost.
Context `{Host}.

(** [parse_datetime_from_components(date_str, time_str)] *)
Definition parse_datetime_from_components (date_str time_str : option pystr)
  : option datetime :=
  match date_str with
  | Some (c :: r) =>
    let date_str := c :: r in
    let fmt := u "%Y-%m-%d %H:%M:%S" in
    match
      (if contains (u "T") date_str then
         let date_part := before_first 84 date_str in
         match time_str with
         | Some (t :: tr) =>
           let time_clean := before_first 46 (t :: tr) in
           strptime (date_part ++ u " " ++ time_clean) fmt
         | _ => fromisoformat date_str
         end
       else
         match time_str with
         | Some (t :: tr) => strptime (date_str ++ u " " ++ (t :: tr)) fmt
         | _ => strptime date_str (u "%Y-%m-%d")
         end)
    with
    | Ok dt => Some dt
    | Raise _ =>
      result_to_option
        (if contains (u "T") date_str
         then strptime (before_first 84 date_str) (u "%Y-%m-%d")
         else strptime date_str (u "%Y-%m-%d"))
    end
  | _ => None
  end.

End WithHost.
(** The values [extract_date] is given: a [datetime], a string or [None]. *)
Inductive date_value :=
| DateOfDatetime (dt : datetime)
| DateOfStr (s : pystr)
| DateOfNone.

(** [extract_date(value)].  [strftime] stands for the call
    [value.strftime] with the format day.month.year; the substitution of
    the empty string for the class of [\s] and U+00A0 deletes the
    characters of that class. *)
Definition extract_date (strftime : datetime -> pystr) (value : date_value)
  : option pystr :=
  match value with
  | DateOfDatetime dt => Some (strftime dt)
  | _ =>
    let s := match value with
             | DateOfStr v => if truthy v then strip v else u ""
             | _ => u ""
             end in
    let s := List.filter (fun c => negb (isspace c || (c =? nbsp)%N)) s in
    let sep := Cls (fun c => (c =? 44) || (c =? 46))%N in
    match match_ (seq [times 2 d; sep; times 2 d; sep; times 4 d]) s with
    | Some _ => Some (replace_char 44 (u ".") s)
    | None => None
    end
  end.

End Utils.

(** ** parsers/xml_parser_base.py *)

Module XmlParserBase.
Import Re.

(** What the caller passes: a path, or a [bytes] object with its [id]. *)
Inductive path_or_bytes :=
| IsPath (p : pystr)
| IsBytes (id : Z) (data : list byte).

(** [prepare_xml_source(path_or_bytes)]: the failure is logged and raised
    again. *)
Definition prepare_xml_source (x : path_or_bytes) : SE FS (pystr * bool) :=
  match x with
  | IsBytes id data =>
    let tmp := u "__xml_tmp_" ++ str_of_Z id ++ u "__.xml" in
    _ ← write_bytes tmp data;
    mret (tmp, true)
  | IsPath p => mret (p, false)
  end.

(** [cleanup_tmp_file(source, cleanup_needed)] *)
Definition cleanup_tmp_file (source : pystr) (cleanup_needed : bool) (fs : FS) : FS :=
  if cleanup_needed then (unlink source fs).2 else fs.

(** [\d{2}\.\d{2}\.\d{4}\s+\d{2}:\d{2}:\d{2}] *)
Definition RE_FULL : re :=
  seq [times 2 d; chr 46; times 2 d; chr 46; times 4 d; plus ws;
       times 2 d; chr 58; times 2 d; chr 58; times 2 d].

(** [\d{2}\.\d{2}\.\d{4}\s+\d{2}:\d{2}] *)
Definition RE_SHORT : re :=
  seq [times 2 d; chr 46; times 2 d; chr 46; times 4 d; plus ws;
       times 2 d; chr 58; times 2 d].

(** the first format of the list [data] parses with *)
Fixpoint first_format (data : pystr) (fmts : list pystr) : option datetime :=
  match fmts with
  | [] => None
  | fmt :: r =>
    match strptime data fmt with
    | Ok dt => Some dt
    | Raise _ => first_format data r
    end
  end.

(** [parse_datetime_from_text(s)] *)
Definition parse_datetime_from_text (s : option pystr) : option datetime :=
  match s with
  | Some (c :: r) =>
    let s := c :: r in
    let attempt (pat : re) (fmt : pystr) : option datetime :=
      match search pat s with
      | Some (_, m) => result_to_option (strptime (m_text m) fmt)
      | None => None
      end in
    match attempt RE_FULL (u "%d.%m.%Y %H:%M:%S") with
    | Some dt => Some dt
    | None =>
      match attempt RE_SHORT (u "%d.%m.%Y %H:%M") with
      | Some dt => Some dt
      | None =>
        first_format (strip s)
          [u "%d.%m.%Y %H:%M:%S"; u "%d.%m.%Y %H:%M"; u "%Y-%m-%dT%H:%M:%S"]
      end
    end
  | _ => None
  end.

End XmlParserBase.

(** ** Diagnostics maps *)

(** The values held by the diagnostics dictionaries. *)
Inductive pyval :=
| VInt (z : Z)
| VFloat (f : float)
| VStr (s : pystr)
| VDec (d : decimal)
| VList (l : list pystr)
| VDictDec (m : gmap pystr decimal)
| VDictStr (m : gmap pystr pystr).

(** [if operation: ops.append(operation)] *)
Definition append_if {A} (ops : list A) (o : option A) : list A :=
  match o with Some x => ops ++ [x] | None => ops end.

(** ** parsers/xml_trades.py *)

Module TradesParser.
Import Re Utils XmlParserBase.

Record Stats := {
  total_rows : Z;
  parsed : Z;
  skipped_no_date : Z;
  skipped_no_qty : Z;
  skipped_invalid : Z;
  total_commission : float
}.

(** [TradesParser.__init__] *)
Definition __init__ : Stats :=
  {| total_rows := 0; parsed := 0; skipped_no_date := 0; skipped_no_qty := 0;
     skipped_invalid := 0; total_commission := PyFloat.zero |}.

(** [self.stats.copy()] as a dictionary *)
Definition stats_dict (st : Stats) : gmap string pyval :=
  <["total_rows" := VInt (total_rows st)]>
  (<["parsed" := VInt (parsed st)]>
  (<["skipped_no_date" := VInt (skipped_no_date st)]>
  (<["skipped_no_qty" := VInt (skipped_no_qty st)]>
  (<["skipped_invalid" := VInt (skipped_invalid st)]>
  (<["total_commission" := VFloat (total_commission st)]> ∅))))).

Definition incr_total_rows (st : Stats) : Stats :=
  {| total_rows := total_rows st + 1; parsed := parsed st;
     skipped_no_date := skipped_no_date st; skipped_no_qty := skipped_no_qty st;
     skipped_invalid := skipped_invalid st; total_commission := total_commission st |}.

Definition incr_skipped_no_qty (st : Stats) : Stats :=
  {| total_rows := total_rows st; parsed := parsed st;
     skipped_no_date := skipped_no_date st; skipped_no_qty := skipped_no_qty st + 1;
     skipped_invalid := skipped_invalid st; total_commission := total_commission st |}.

Definition incr_skipped_no_date (st : Stats) : Stats :=
  {| total_rows := total_rows st; parsed := parsed st;
     skipped_no_date := skipped_no_date st + 1; skipped_no_qty := skipped_no_qty st;
     skipped_invalid := skipped_invalid st; total_commission := total_commission st |}.

Definition incr_skipped_invalid (st : Stats) : Stats :=
  {| total_rows := total_rows st; parsed := parsed st;
     skipped_no_date := skipped_no_date st; skipped_no_qty := skipped_no_qty st;
     skipped_invalid := skipped_invalid st + 1; total_commission := total_commission st |}.

(** [stats["parsed"] += 1; stats["total_commission"] += float(commission or 0.0)] *)
Definition record_parsed (commission : float) (st : Stats) : Stats :=
  {| total_rows := total_rows st; parsed := parsed st + 1;
     skipped_no_date := skipped_no_date st; skipped_no_qty := skipped_no_qty st;
     skipped_invalid := skipped_invalid st;
     total_commission := PyFloat.add (total_commission st) (PyFloat.or_zero commission) |}.

Definition IndexError : exn := Exn "IndexError" (u "list index out of range").

(** [_extract_quantity(attrib)] *)
Definition _extract_quantity (attrib : gmap pystr pystr) : Z :=
  to_int_safe
    (or_str (or_ (attrib !! u "qty") (or_ (attrib !! u "quantity")
               (or_ (attrib !! u "textbox14") (attrib !! u "qty "))))
            (u "0")).

(** the loop of [_extract_date] over the date keys *)
Fixpoint first_date (attrib : gmap pystr pystr) (keys : list pystr) : option datetime :=
  match keys with
  | [] => None
  | key :: r =>
    if otruthy (attrib !! key) then
      match parse_datetime_from_text (attrib !! key) with
      | Some date_val => Some date_val
      | None => first_date attrib r
      end
    else first_date attrib r
  end.

(** [_extract_date(attrib)] *)
Definition _extract_date (attrib : gmap pystr pystr) : option datetime :=
  let date_keys := [u "db_time"; u "dbtime"; u "settlement_time";
                    u "save_settlement_date"; u "save_depo_settlement_date"] in
  first_date attrib date_keys.

(** [_extract_trade_data(attrib)] *)
Definition _extract_trade_data (attrib : gmap pystr pystr)
  : float * float * float * pystr :=
  let price := to_float_safe (or_ (attrib !! u "price")
                 (or_ (attrib !! u "textbox25") (attrib !! u "price "))) in
  let total := to_float_safe (or_ (attrib !! u "summ_trade")
                 (or_ (attrib !! u "summtrade")
                 (or_ (attrib !! lower (u "summ_trade")) (attrib !! u "summ_trade")))) in
  let nkd := to_float_safe (or_ (attrib !! u "summ_nkd")
               (or_ (attrib !! u "summnkd") (attrib !! lower (u "summ_nkd")))) in
  let currency := strip (or_str (or_ (attrib !! u "curr_calc")
                    (or_ (attrib !! u "curr") (attrib !! u "textbox14"))) (u "")) in
  let currency :=
    if existsb (str_eqb (upper currency)) [u "RUR"; u "РУБ"; u "РУБЛЬ"]
    then u "RUB" else currency in
  (price, total, nkd, currency).

(** [_extract_ticker_from_name(name)]; the pattern is
    [[A-Za-z0-9\-\.]{1,8}] *)
Definition _extract_ticker_from_name (name : pystr) : result pystr :=
  if negb (truthy name) then Ok (u "")
  else
    match split_ws (strip name) with
    | [] => Raise IndexError
    | tok :: _ =>
      let cls c := (in_range 65 90 c || in_range 97 122 c || digit c
                    || (c =? 45) || (c =? 46))%N in
      Ok (if fullmatch (Rep 1 (Some 8%nat) (Cls cls)) tok then tok else u "")
    end.

(** [_extract_first_trade_no(trade_no_raw)] *)
Definition _extract_first_trade_no (trade_no_raw : pystr) : pystr :=
  extract_first_value (Some trade_no_raw).

(** [_extract_instrument_data(attrib)] *)
Definition _extract_instrument_data (attrib : gmap pystr pystr)
  : result (pystr * pystr * pystr) :=
  let isin := extract_isin_from_attr
                (or_ (attrib !! u "isin_reg") (or_ (attrib !! u "isin1") (attrib !! u "isin"))) in
  let p_name := or_str (or_ (attrib !! u "p_name")
                  (or_ (attrib !! u "pname") (attrib !! u "active_name"))) (u "") in
  ticker ← _extract_ticker_from_name p_name;
  let trade_no_raw := or_str (or_ (attrib !! u "trade_no")
                        (or_ (attrib !! u "tradeno") (attrib !! u "trade"))) (u "") in
  let trade_no := _extract_first_trade_no trade_no_raw in
  Ok (isin, ticker, trade_no).

(** [_extract_commission(attrib)] *)
Definition _extract_commission (attrib : gmap pystr pystr) : float :=
  to_float_safe (or_ (attrib !! u "bank_tax")
    (or_ (attrib !! u "banktax") (attrib !! u "bank_tax"))).

(** [_extract_comment(attrib)] *)
Definition _extract_comment (attrib : gmap pystr pystr) : pystr :=
  or_str (or_ (attrib !! u "place_name") (attrib !! u "place")) (u "").

Section WithHost.
Context `{Host}.

(** [_process_details_element(elem)] *)
Definition _process_details_element (elem : Element) : SE Stats (option OperationDTO) :=
  _ ← modify incr_total_rows;
  let attrib := _normalize_attrib (attrib elem) in
  let qty := _extract_quantity attrib in
  if qty =? 0 then
    _ ← modify incr_skipped_no_qty; mret None
  else
    match _extract_date attrib with
    | None => _ ← modify incr_skipped_no_date; mret None
    | Some date_val =>
      let '(price, total, nkd, currency) := _extract_trade_data attrib in
      '(isin, ticker, trade_no) ← lift (_extract_instrument_data attrib);
      let commission := _extract_commission attrib in
      match OperationDTO_new
              {| date := Some date_val;
                 operation_type := if 0 <? qty then u "buy" else u "sale";
                 payment_sum := total;
                 currency := currency;
                 ticker := ticker;
                 isin := isin;
                 reg_number := u "";
                 price := price;
                 quantity := NInt (Z.abs qty);
                 aci := nkd;
                 comment := _extract_comment attrib;
                 operation_id := trade_no;
                 commission := commission |} with
      | Ok operation =>
        _ ← modify (record_parsed commission); mret (Some operation)
      | Raise _ =>
        _ ← modify incr_skipped_invalid; mret None
      end
    end.

(** The loop of [parse] over the elements the reader yields: the records
    appended so far, the statistics, and the exception that left the loop. *)
Fixpoint traverse (elems : list Element) (ops : list OperationDTO) (st : Stats)
  : list OperationDTO * Stats * option exn :=
  match elems with
  | [] => (ops, st, None)
  | elem :: rest =>
    if negb (str_eqb (lower (_local_name (tag elem))) (u "details"))
    then traverse rest ops st
    else
      match _process_details_element elem st with
      | (Ok operation, st') => traverse rest (append_if ops operation) st'
      | (Raise e, st') => (ops, st', Some e)
      end
  end.

(** The [try] block of [parse]: the reader is opened on [source] and its
    elements are traversed; the exception that ends the block, if any, is
    the one of a row or, after the last element, the one of the reader. *)
Definition parse_try (self : Stats) (source : pystr) (fs : FS)
  : list OperationDTO * Stats * option exn :=
  let '(elems, stop) :=
    match read_file source fs with
    | Ok data => ET_iterparse data
    | Raise e => ([], Some e)
    end in
  let '(ops, st, exc) := traverse elems [] self in
  (ops, st, match exc with Some e => Some e | None => stop end).

(** [parse(path_or_bytes)] of a parser whose statistics are [self]: the
    staging call stands before the [try], the cleanup in its [finally]. *)
Definition parse (self : Stats) (x : path_or_bytes)
  : SE FS (list OperationDTO * gmap string pyval) :=
  fun fs0 =>
  match prepare_xml_source x fs0 with
  | (Raise e, fs) => (Raise e, fs)
  | (Ok (source, cleanup_needed), fs) =>
    let '(ops, st, exc) := parse_try self source fs in
    let out :=
      match exc with
      | None => (ops, stats_dict st)
      | Some e => (ops, <["error" := VStr (str_of_exn e)]> (stats_dict st))
      end in
    (Ok out, cleanup_tmp_file source cleanup_needed fs)
  end.

End WithHost.
End TradesParser.

(** [parse_trades_from_xml(path_or_bytes)] *)
Definition parse_trades_from_xml `{Host} (x : XmlParserBase.path_or_bytes)
  : SE FS (list OperationDTO * gmap string pyval) :=
  let parser := TradesParser.__init__ in
  TradesParser.parse parser x.

(** ** parsers/xml_transfers.py *)

Module TransfersParser.
Import Re Utils XmlParserBase.

Record Stats := {
  total_rows : Z;
  parsed : Z;
  skipped_not_conversion : Z;
  skipped_no_date : Z;
  skipped_no_qty : Z;
  skipped_invalid : Z
}.

(** [TransfersParser.__init__] *)
Definition __init__ : Stats :=
  {| total_rows := 0; parsed := 0; skipped_not_conversion := 0;
     skipped_no_date := 0; skipped_no_qty := 0; skipped_invalid := 0 |}.

Definition stats_dict (st : Stats) : gmap string pyval :=
  <["total_rows" := VInt (total_rows st)]>
  (<["parsed" := VInt (parsed st)]>
  (<["skipped_not_conversion" := VInt (skipped_not_conversion st)]>
  (<["skipped_no_date" := VInt (skipped_no_date st)]>
  (<["skipped_no_qty" := VInt (skipped_no_qty st)]>
  (<["skipped_invalid" := VInt (skipped_invalid st)]> ∅))))).

Definition incr_total_rows (st : Stats) : Stats :=
  {| total_rows := total_rows st + 1; parsed := parsed st;
     skipped_not_conversion := skipped_not_conversion st;
     skipped_no_date := skipped_no_date st; skipped_no_qty := skipped_no_qty st;
     skipped_invalid := skipped_invalid st |}.

Definition incr_parsed (st : Stats) : Stats :=
  {| total_rows := total_rows st; parsed := parsed st + 1;
     skipped_not_conversion := skipped_not_conversion st;
     skipped_no_date := skipped_no_date st; skipped_no_qty := skipped_no_qty st;
     skipped_invalid := skipped_invalid st |}.

Definition incr_skipped_not_conversion (st : Stats) : Stats :=
  {| total_rows := total_rows st; parsed := parsed st;
     skipped_not_conversion := skipped_not_conversion st + 1;
     skipped_no_date := skipped_no_date st; skipped_no_qty := skipped_no_qty st;
     skipped_invalid := skipped_invalid st |}.

Definition incr_skipped_no_date (st : Stats) : Stats :=
  {| total_rows := total_rows st; parsed := parsed st;
     skipped_not_conversion := skipped_not_conversion st;
     skipped_no_date := skipped_no_date st + 1; skipped_no_qty := skipped_no_qty st;
     skipped_invalid := skipped_invalid st |}.

Definition incr_skipped_no_qty (st : Stats) : Stats :=
  {| total_rows := total_rows st; parsed := parsed st;
     skipped_not_conversion := skipped_not_conversion st;
     skipped_no_date := skipped_no_date st; skipped_no_qty := skipped_no_qty st + 1;
     skipped_invalid := skipped_invalid st |}.

Definition incr_skipped_invalid (st : Stats) : Stats :=
  {| total_rows := total_rows st; parsed := parsed st;
     skipped_not_conversion := skipped_not_conversion st;
     skipped_no_date := skipped_no_date st; skipped_no_qty := skipped_no_qty st;
     skipped_invalid := skipped_invalid st + 1 |}.

(** [_is_conversion_operation(attrib)] *)
Definition _is_conversion_operation (attrib : gmap pystr pystr) : bool :=
  let oper_type := lower (strip (or_str (attrib !! u "oper_type") (u ""))) in
  let comment_new := lower (strip (or_str (attrib !! u "comment_new") (u ""))) in
  str_eqb oper_type (u "перевод") && contains (u "конвертация") comment_new.

(** [_extract_isin(attrib)] *)
Definition _extract_isin (attrib : gmap pystr pystr) : pystr :=
  let p_name := or_str (attrib !! u "p_name") (u "") in
  extract_isin_from_attr (Some p_name).

Section WithHost.
Context `{Host}.

(** [_extract_date(attrib)] *)
Definition _extract_date (attrib : gmap pystr pystr) : option datetime :=
  let settlement_date := attrib !! u "settlement_date" in
  let settlement_time := attrib !! u "settlement_time" in
  parse_datetime_from_components settlement_date settlement_time.

(** [_process_details_element(elem)] *)
Definition _process_details_element (elem : Element) : SE Stats (option OperationDTO) :=
  _ ← modify incr_total_rows;
  let attrib := _normalize_attrib (attrib elem) in
  if negb (_is_conversion_operation attrib) then
    _ ← modify incr_skipped_not_conversion; mret None
  else
    let qty := to_float_safe (Some (or_str (attrib !! u "qty") (u "0"))) in
    if PyFloat.is_zero qty then
      _ ← modify incr_skipped_no_qty; mret None
    else
      match _extract_date attrib with
      | None => _ ← modify incr_skipped_no_date; mret None
      | Some date_val =>
        match OperationDTO_new
                {| date := Some date_val;
                   operation_type :=
                     if PyFloat.is_pos qty then u "asset_receive" else u "asset_withdrawal";
                   payment_sum := PyFloat.zero;
                   currency := u "";
                   ticker := u "";
                   isin := _extract_isin attrib;
                   reg_number := u "";
                   price := PyFloat.zero;
                   quantity := NFloat (PyFloat.abs qty);
                   aci := PyFloat.zero;
                   comment := or_str (attrib !! u "comment_new") (u "");
                   operation_id := u "";
                   commission := PyFloat.zero |} with
        | Ok operation => _ ← modify incr_parsed; mret (Some operation)
        | Raise _ => _ ← modify incr_skipped_invalid; mret None
        end
      end.

Fixpoint traverse (elems : list Element) (ops : list OperationDTO) (st : Stats)
  : list OperationDTO * Stats * option exn :=
  match elems with
  | [] => (ops, st, None)
  | elem :: rest =>
    if negb (str_eqb (lower (_local_name (tag elem))) (u "details"))
    then traverse rest ops st
    else
      match _process_details_element elem st with
      | (Ok operation, st') => traverse rest (append_if ops operation) st'
      | (Raise e, st') => (ops, st', Some e)
      end
  end.

(** The [try] block of [parse]: the reader is opened on [source] and its
    elements are traversed; the exception that ends the block, if any, is
    the one of a row or, after the last element, the one of the reader. *)
Definition parse_try (self : Stats) (source : pystr) (fs : FS)
  : list OperationDTO * Stats * option exn :=
  let '(elems, stop) :=
    match read_file source fs with
    | Ok data => ET_iterparse data
    | Raise e => ([], Some e)
    end in
  let '(ops, st, exc) := traverse elems [] self in
  (ops, st, match exc with Some e => Some e | None => stop end).

(** [parse(path_or_bytes)] of a parser whose statistics are [self]: the
    staging call stands before the [try], the cleanup in its [finally]. *)
Definition parse (self : Stats) (x : path_or_bytes)
  : SE FS (list OperationDTO * gmap string pyval) :=
  fun fs0 =>
  match prepare_xml_source x fs0 with
  | (Raise e, fs) => (Raise e, fs)
  | (Ok (source, cleanup_needed), fs) =>
    let '(ops, st, exc) := parse_try self source fs in
    let out :=
      match exc with
      | None => (ops, stats_dict st)
      | Some e => (ops, <["error" := VStr (str_of_exn e)]> (stats_dict st))
      end in
    (Ok out, cleanup_tmp_file source cleanup_needed fs)
  end.

End WithHost.
End TransfersParser.

(** [parse_transfers_from_xml(path_or_bytes)] *)
Definition parse_transfers_from_xml `{Host} (x : XmlParserBase.path_or_bytes)
  : SE FS (list OperationDTO * gmap string pyval) :=
  let parser := TransfersParser.__init__ in
  TransfersParser.parse parser x.

(** ** parsers/xml_fin_ops.py *)

Module FinancialOperationsParser.
Import Re Utils XmlParserBase.

(** [RE_ISIN = re.compile(r"\b[A-Z]{2}[A-Z0-9]{10}\b")] *)
Definition RE_ISIN : re := seq [Bnd; times 2 (Cls AZ); times 10 (Cls AZ09); Bnd].

(** [[0-9A-ZА-Я]] and [[0-9A-ZА-Я\-\/]] under [re.IGNORECASE]: with the
    letters of either case come the characters whose upper case form is one
    of them, U+0130, U+0131, U+017F, U+212A and U+1C80..U+1C86 *)
Definition reg_char (c : N) : bool :=
  digit c || AZ_i c || in_range 1040 1071 c || in_range 1072 1103 c
  || in_range 7296 7302 c.
Definition reg_char_sep (c : N) : bool := (reg_char c || (c =? 45) || (c =? 47))%N.

(** [RE_REG_NUMBER = re.compile(
      r"\b[0-9][0-9A-ZА-Я]{0,7}[-/][0-9A-ZА-Я\-\/]*\d[0-9A-ZА-Я\-\/]*\b",
      re.IGNORECASE)] *)
Definition RE_REG_NUMBER : re :=
  seq [Bnd; Cls digit; Rep 0 (Some 7%nat) (Cls reg_char);
       Cls (fun c => (c =? 45) || (c =? 47))%N;
       star (Cls reg_char_sep); Cls isdecimal; star (Cls reg_char_sep); Bnd].

Record Stats := {
  total_rows : Z;
  parsed : Z;
  skipped : Z;
  example_comments : list pystr;
  amounts_by_mapped_type : gmap pystr decimal;
  amounts_by_label : gmap pystr decimal;
  total_income : decimal;
  total_expense : decimal
}.

(** [FinancialOperationsParser.__init__] *)
Definition __init__ : Stats :=
  {| total_rows := 0; parsed := 0; skipped := 0; example_comments := [];
     amounts_by_mapped_type := ∅; amounts_by_label := ∅;
     total_income := Decimal.zero; total_expense := Decimal.zero |}.

Definition incr_total_rows (st : Stats) : Stats :=
  {| total_rows := total_rows st + 1; parsed := parsed st; skipped := skipped st;
     example_comments := example_comments st;
     amounts_by_mapped_type := amounts_by_mapped_type st;
     amounts_by_label := amounts_by_label st;
     total_income := total_income st; total_expense := total_expense st |}.

Definition incr_parsed (st : Stats) : Stats :=
  {| total_rows := total_rows st; parsed := parsed st + 1; skipped := skipped st;
     example_comments := example_comments st;
     amounts_by_mapped_type := amounts_by_mapped_type st;
     amounts_by_label := amounts_by_label st;
     total_income := total_income st; total_expense := total_expense st |}.

Definition incr_skipped (st : Stats) : Stats :=
  {| total_rows := total_rows st; parsed := parsed st; skipped := skipped st + 1;
     example_comments := example_comments st;
     amounts_by_mapped_type := amounts_by_mapped_type st;
     amounts_by_label := amounts_by_label st;
     total_income := total_income st; total_expense := total_expense st |}.

Definition set_example_comments (l : list pystr) (st : Stats) : Stats :=
  {| total_rows := total_rows st; parsed := parsed st; skipped := skipped st;
     example_comments := l;
     amounts_by_mapped_type := amounts_by_mapped_type st;
     amounts_by_label := amounts_by_label st;
     total_income := total_income st; total_expense := total_expense st |}.

Definition set_amounts_by_mapped_type (m : gmap pystr decimal) (st : Stats) : Stats :=
  {| total_rows := total_rows st; parsed := parsed st; skipped := skipped st;
     example_comments := example_comments st;
     amounts_by_mapped_type := m;
     amounts_by_label := amounts_by_label st;
     total_income := total_income st; total_expense := total_expense st |}.

Definition set_amounts_by_label (m : gmap pystr decimal) (st : Stats) : Stats :=
  {| total_rows := total_rows st; parsed := parsed st; skipped := skipped st;
     example_comments := example_comments st;
     amounts_by_mapped_type := amounts_by_mapped_type st;
     amounts_by_label := m;
     total_income := total_income st; total_expense := total_expense st |}.

Definition set_total_income (d : decimal) (st : Stats) : Stats :=
  {| total_rows := total_rows st; parsed := parsed st; skipped := skipped st;
     example_comments := example_comments st;
     amounts_by_mapped_type := amounts_by_mapped_type st;
     amounts_by_label := amounts_by_label st;
     total_income := d; total_expense := total_expense st |}.

Definition set_total_expense (d : decimal) (st : Stats) : Stats :=
  {| total_rows := total_rows st; parsed := parsed st; skipped := skipped st;
     example_comments := example_comments st;
     amounts_by_mapped_type := amounts_by_mapped_type st;
     amounts_by_label := amounts_by_label st;
     total_income := total_income st; total_expense := d |}.

(** [{**self.stats}]: the statistics as they are, before finalization *)
Definition stats_dict (st : Stats) : gmap string pyval :=
  <["total_rows" := VInt (total_rows st)]>
  (<["parsed" := VInt (parsed st)]>
  (<["skipped" := VInt (skipped st)]>
  (<["example_comments" := VList (example_comments st)]>
  (<["amounts_by_mapped_type" := VDictDec (amounts_by_mapped_type st)]>
  (<["amounts_by_label" := VDictDec (amounts_by_label st)]>
  (<["total_income" := VDec (total_income st)]>
  (<["total_expense" := VDec (total_expense st)]> ∅))))))).

(** [_format_decimal(d)] *)
Definition _format_decimal (d : decimal) : pystr :=
  match Decimal.quantize d (-4) with
  | Ok q => Decimal.format_f q
  | Raise _ => Decimal.to_str d
  end.

(** [_finalize_stats()] *)
Definition _finalize_stats (st : Stats) : gmap string pyval :=
  <["amounts_by_mapped_type" := VDictStr (_format_decimal <$> amounts_by_mapped_type st)]>
  (<["amounts_by_label" := VDictStr (_format_decimal <$> amounts_by_label st)]>
  (<["total_income" := VStr (_format_decimal (total_income st))]>
  (<["total_expense" := VStr (_format_decimal (total_expense st))]>
  (stats_dict st)))).

(** [_safe_attr(elem, name)] *)
Definition _safe_attr (elem : option Element) (name : pystr) : option pystr :=
  match elem with
  | None => None
  | Some elem =>
    match or_ (attrib_get elem name) (attrib_get elem (lower name)) with
    | Some v => if truthy v && truthy (strip v) then Some (strip v) else None
    | None => None
    end
  end.

(** [_parse_decimal(v)] *)
Definition _parse_decimal (v : option pystr) : option decimal :=
  match v with
  | None => None
  | Some v => result_to_option (Decimal.of_str (replace_char 44 (u ".") v))
  end.

(** [_decimal_to_float(d)] *)
Definition _decimal_to_float (d : option decimal) : float :=
  match d with
  | None => PyFloat.zero
  | Some d => try_except (Decimal.to_float d) (fun _ => PyFloat.zero)
  end.

(** [_find_first_descendant_by_local_name(root, local)] *)
Definition _find_first_descendant_by_local_name (root : Element) (local : pystr)
  : option Element :=
  List.find (fun el => str_eqb (_local_name (tag el)) local) (iter root).

(** [_find_report_element(root)] *)
Definition _find_report_element (root : Element) : Element :=
  match List.find (fun rep => str_eqb (_local_name (tag rep)) (u "Report")) (iter root) with
  | Some rep =>
    let name := or_ (attrib_get rep (u "Name")) (attrib_get rep (u "name")) in
    if otruthy name && contains (u "BrokerMoneyMove") (default [] name)
    then rep
    else rep
  | None => root
  end.

(** [_collect_elements_by_local_name(root, local)] *)
Definition _collect_elements_by_local_name (root : Element) (local : pystr)
  : list Element :=
  List.filter (fun el => str_eqb (_local_name (tag el)) local) (iter root).

(** [_collect_rn_nodes(settlement_node)] *)
Definition _collect_rn_nodes (settlement_node : Element) : list Element :=
  let is_rn el := str_eqb (_local_name (tag el)) (u "rn") in
  match List.filter is_rn (iter settlement_node) with
  | [] => List.filter is_rn (children settlement_node)
  | rn_nodes => rn_nodes
  end.

(** [_extract_oper_type_and_comment(rn_node)] *)
Definition _extract_oper_type_and_comment (rn_node : Element) : option pystr * pystr :=
  let oper_type_elem := _find_first_descendant_by_local_name rn_node (u "oper_type") in
  let oper_type_val :=
    match oper_type_elem with
    | Some el => if elem_truthy el then _safe_attr oper_type_elem (u "oper_type")
                 else Some (u "")
    | None => Some (u "")
    end in
  let comment_elem :=
    match oper_type_elem with
    | Some el =>
      match _find_first_descendant_by_local_name el (u "comment") with
      | Some c => Some c
      | None => _find_first_descendant_by_local_name rn_node (u "comment")
      end
    | None => _find_first_descendant_by_local_name rn_node (u "comment")
    end in
  let comment_text := or_str (_safe_attr comment_elem (u "comment")) (u "") in
  (oper_type_val, comment_text).

(** [_collect_p_code_candidates(elem)] *)
Definition _collect_p_code_candidates (elem : option Element) : list (gmap pystr pystr) :=
  match elem with
  | None => []
  | Some elem =>
    map (fun p => dict_of_items (attrib p))
        (List.filter (fun p => str_eqb (_local_name (tag p)) (u "p_code")) (iter elem))
  end.

Definition textbox_mapping : list (pystr * pystr) :=
  [(u "Textbox83", u "money_volume"); (u "Textbox84", u "all_volume");
   (u "Textbox93", u "debet_volume"); (u "Textbox11", u "acc_code")].

(** [_extract_textbox_values(comment_elem)]; a key that is still [None] is
    absent from the map *)
Definition _extract_textbox_values (comment_elem : option Element) : gmap pystr pystr :=
  match comment_elem with
  | None => ∅
  | Some comment_elem =>
    foldl (fun res node =>
             let ln := _local_name (tag node) in
             match dict_of_items textbox_mapping !! ln with
             | Some key =>
               match res !! key with
               | None =>
                 match attrib_get node key with
                 | Some value =>
                   if truthy value && truthy (strip value)
                   then <[key := strip value]> res else res
                 | None => res
                 end
               | Some _ => res
               end
             | None => res
             end) ∅ (iter comment_elem)
  end.

(** [_extract_currency_and_amount(rn_node)] *)
Definition _extract_currency_and_amount (rn_node : Element) : pystr * option decimal :=
  match _find_first_descendant_by_local_name rn_node (u "comment") with
  | None => (u "", None)
  | Some comment_elem =>
    let candidates := _collect_p_code_candidates (Some comment_elem) in
    let '(currency, amount) :=
      foldl (fun '(currency, amount) (c : gmap pystr pystr) =>
               let cur := or_ (c !! u "p_code") (c !! u "currency") in
               let vol := or_ (c !! u "volume") (or_ (c !! u "volume1") (c !! u "amount")) in
               let currency :=
                 if otruthy cur && negb (truthy currency)
                 then strip (default [] cur) else currency in
               let amount :=
                 match amount with
                 | None => if otruthy vol then _parse_decimal (strip <$> vol) else None
                 | Some _ => amount
                 end in
               (currency, amount)) (u "", None) candidates in
    let amount :=
      match amount with
      | Some _ => amount
      | None =>
        let textbox_values := _extract_textbox_values (Some comment_elem) in
        (fix loop (keys : list pystr) : option decimal :=
           match keys with
           | [] => None
           | key :: r =>
             if otruthy (textbox_values !! key) then
               match _parse_decimal (textbox_values !! key) with
               | Some a => Some a
               | None => loop r
               end
             else loop r
           end) [u "money_volume"; u "all_volume"; u "debet_volume"]
      end in
    (currency,
     Some (match amount with
           | Some a => if Decimal.to_bool a then a else Decimal.zero
           | None => Decimal.zero
           end))
  end.

(** [_extract_reg_number(comment_text)] *)
Definition _extract_reg_number (comment_text : pystr) : pystr :=
  if negb (truthy comment_text) then u ""
  else match search RE_REG_NUMBER comment_text with
       | Some (_, m) => m_text m
       | None => u ""
       end.

(** [_extract_isin(comment_text)] *)
Definition _extract_isin (comment_text : pystr) : pystr :=
  if negb (truthy comment_text) then u ""
  else match search RE_ISIN comment_text with
       | Some (_, m) => m_text m
       | None => u ""
       end.

(** [_collect_example_comment(comment)] *)
Definition _collect_example_comment (comment : pystr) : SE Stats unit :=
  st ← get;
  if truthy comment && (length (example_comments st) <? 5)%nat
  then modify (set_example_comments (example_comments st ++ [comment]))
  else mret tt.

(** [_update_stats(oper_type, comment, amount, mapped_type)] *)
Definition _update_stats (oper_type : option pystr) (comment : pystr)
    (amount : option decimal) (mapped_type : pystr) : SE Stats unit :=
  match amount with
  | None => mret tt
  | Some amount =>
    st ← get;
    v ← lift (Decimal.add
                (default Decimal.zero (amounts_by_mapped_type st !! mapped_type)) amount);
    _ ← modify (set_amounts_by_mapped_type (<[mapped_type := v]> (amounts_by_mapped_type st)));
    let label_key :=
      let l := strip (or_str oper_type (u "")) in
      if truthy l then l
      else if truthy comment then strip (first_line comment) else u "" in
    _ ← (if truthy label_key then
           st ← get;
           v ← lift (Decimal.add
                       (default Decimal.zero (amounts_by_label st !! label_key)) amount);
           modify (set_amounts_by_label (<[label_key := v]> (amounts_by_label st)))
         else mret tt);
    pos ← lift (Decimal.gt0 amount);
    if pos : bool then
      st ← get;
      v ← lift (Decimal.add (total_income st) amount);
      modify (set_total_income v)
    else
      neg ← lift (Decimal.lt0 amount);
      if neg : bool then
        st ← get;
        v ← lift (Decimal.add (total_expense st) amount);
        modify (set_total_expense v)
      else mret tt
  end.

Section WithHost.
Context `{Host}.

(** [_parse_iso_datetime(v)] *)
Definition _parse_iso_datetime (v : option pystr) : option datetime :=
  match v with
  | Some (c :: r) =>
    match fromisoformat (c :: r) with
    | Ok dt => Some dt
    | Raise _ => result_to_option (strptime (before_first 84 (c :: r)) (u "%Y-%m-%d"))
    end
  | _ => None
  end.

(** [_parse_settlement_date(settlement_node)] *)
Definition _parse_settlement_date (settlement_node : Element) : option datetime :=
  let settlement_date_attr := _safe_attr (Some settlement_node) (u "settlement_date") in
  _parse_iso_datetime settlement_date_attr.

(** [_should_skip(oper_type, comment, amount)] *)
Definition _should_skip (oper_type : option pystr) (comment : pystr)
    (amount : option decimal) : result bool :=
  let label_source :=
    let l := strip (or_str oper_type (u "")) in
    if truthy l then l else strip (or_str (Some comment) (u "")) in
  early ←
    (if negb (truthy label_source) then
       match amount with
       | None => Ok true
       | Some a =>
         f ← (if Decimal.to_bool a then Decimal.to_float a else Ok (PyFloat.of_Z 0));
         Ok (PyFloat.is_zero f)
       end
     else Ok false);
  if early : bool then Ok true
  else should_skip_operation oper_type comment label_source.

(** [_create_operation_dto(...)] *)
Definition _create_operation_dto (settlement_date : option datetime) (rn_node : Element)
    (op_type currency : pystr) (payment_sum : float) (comment reg_number isin : pystr)
  : result OperationDTO :=
  let last_update_attr := _safe_attr (Some rn_node) (u "last_update") in
  let rn_last_update_dt := _parse_iso_datetime last_update_attr in
  let date_field :=
    match settlement_date with Some dt => Some dt | None => rn_last_update_dt end in
  OperationDTO_new
    {| date := date_field;
       operation_type := op_type;
       payment_sum := payment_sum;
       currency := or_str (Some currency) (u "");
       ticker := u "";
       isin := isin;
       reg_number := reg_number;
       price := PyFloat.zero;
       quantity := NInt 0;
       aci := PyFloat.zero;
       comment := comment;
       operation_id := u "";
       commission := PyFloat.zero |}.

(** [_process_rn_node(rn_node, settlement_date)] *)
Definition _process_rn_node (rn_node : Element) (settlement_date : option datetime)
  : SE Stats (option OperationDTO) :=
  _ ← modify incr_total_rows;
  let '(oper_type, comment) := _extract_oper_type_and_comment rn_node in
  let '(currency, amount) := _extract_currency_and_amount rn_node in
  let reg_number := _extract_reg_number comment in
  let isin := _extract_isin comment in
  skip ← lift (_should_skip oper_type comment amount);
  if skip : bool then
    _ ← modify incr_skipped; mret None
  else
    let payment_sum := _decimal_to_float amount in
    op_type ← lift (determine_operation_type oper_type comment payment_sum);
    if str_eqb op_type (u "_skip_") then
      _ ← modify incr_skipped; mret None
    else
      operation ← lift (_create_operation_dto settlement_date rn_node op_type currency
                          payment_sum comment reg_number isin);
      _ ← _update_stats oper_type comment amount op_type;
      _ ← _collect_example_comment comment;
      _ ← modify incr_parsed;
      mret (Some operation).

(** the loop over the [rn] nodes of one settlement date *)
Fixpoint process_rn_nodes (rn_nodes : list Element) (settlement_date : option datetime)
    (ops : list OperationDTO) : SE Stats (list OperationDTO) :=
  match rn_nodes with
  | [] => mret ops
  | rn_node :: rest =>
    operation ← _process_rn_node rn_node settlement_date;
    process_rn_nodes rest settlement_date (append_if ops operation)
  end.

(** the loop over the settlement date nodes *)
Fixpoint process_settlement_nodes (settlement_nodes : list Element)
    (ops : list OperationDTO) : SE Stats (list OperationDTO) :=
  match settlement_nodes with
  | [] => mret ops
  | settlement_node :: rest =>
    let settlement_date := _parse_settlement_date settlement_node in
    let rn_nodes := _collect_rn_nodes settlement_node in
    ops' ← process_rn_nodes rn_nodes settlement_date ops;
    process_settlement_nodes rest ops'
  end.

(** [_parse_root(root)] *)
Definition _parse_root (root : Element)
  : SE Stats (list OperationDTO * gmap string pyval) :=
  let report_elem := _find_report_element root in
  let settlement_nodes :=
    _collect_elements_by_local_name report_elem (u "settlement_date") in
  ops ← process_settlement_nodes settlement_nodes [];
  st ← get;
  mret (ops, _finalize_stats st).

Definition BOM : list byte := [xef; xbb; xbf].

(** [data.startswith(p)] on [bytes] *)
Fixpoint bytes_startswith (p data : list byte) : bool :=
  match p, data with
  | [], _ => true
  | a :: p', b :: data' => Byte.eqb a b && bytes_startswith p' data'
  | _ :: _, [] => false
  end.

(** [data.lstrip(chars)] on [bytes] *)
Fixpoint bytes_lstrip (chars data : list byte) : list byte :=
  match data with
  | b :: r => if existsb (Byte.eqb b) chars then bytes_lstrip chars r else data
  | [] => []
  end.

(** [_parse_bytes(data)] *)
Definition _parse_bytes (data : list byte) : result Element :=
  let data := if bytes_startswith BOM data then bytes_lstrip BOM data else data in
  ET_fromstring data.

(** [_parse_file(file_path)] *)
Definition _parse_file (file_path : pystr) (fs : FS) : result Element :=
  data ← read_file file_path fs;
  ET_fromstring data.

(** The [try] block of [parse] *)
Definition parse_try (x : path_or_bytes) (fs : FS)
  : SE Stats (list OperationDTO * gmap string pyval) :=
  root ← lift (match x with
               | IsBytes _ data => _parse_bytes data
               | IsPath p => _parse_file p fs
               end);
  _parse_root root.

(** [parse(path_or_bytes)] of a parser whose statistics are [self] *)
Definition parse (self : Stats) (x : path_or_bytes)
  : SE FS (list OperationDTO * gmap string pyval) :=
  fun fs =>
    match parse_try x fs self with
    | (Ok out, _) => (Ok out, fs)
    | (Raise e, st) => (Ok ([], <["error" := VStr (str_of_exn e)]> (stats_dict st)), fs)
    end.

End WithHost.
End FinancialOperationsParser.

(** [parse_fin_operations_from_xml(path_or_bytes)] *)
Definition parse_fin_operations_from_xml `{Host} (x : XmlParserBase.path_or_bytes)
  : SE FS (list OperationDTO * gmap string pyval) :=
  let parser := FinancialOperationsParser.__init__ in
  FinancialOperationsParser.parse parser x.

(** * Properties *)

(** ** Hosts used to run the parsers on concrete documents *)

(** A host whose XML reader yields the given events and tree whatever the
    bytes, whose record constructor accepts everything and whose classifier
    keeps every row under the type "other". *)
Definition host_reading (events : list Element * option exn) (tree : result Element) : Host :=
  {| ET_iterparse := fun _ => events;
     ET_fromstring := fun _ => tree;
     fromisoformat := fun _ => Raise (PyFloat.ValueError "Invalid isoformat string");
     OperationDTO_rejects := fun _ => None;
     determine_operation_type := fun _ _ _ => Ok (u "other");
     should_skip_operation := fun _ _ _ => Ok false |}.

Definition no_document : result Element :=
  Raise (Exn "ParseError" (u "no element found: line 1, column 0")).

Ltac se_unfold :=
  unfold mbind, SE_bind, mret, SE_ret, modify, lift, get in *.

(** ** Trades: the counters *)

Module TradesFacts.
Import Utils XmlParserBase TradesParser.

(** The counters add up, and there is one record per parsed row. *)
Definition counters_add_up (ops : list OperationDTO) (st : Stats) : Prop :=
  total_rows st = parsed st + skipped_no_qty st + skipped_no_date st + skipped_invalid st
  /\ Z.of_nat (length ops) = parsed st.

Section WithHost.
Context `{Host}.

Lemma process_row_counters elem st o st' ops :
  _process_details_element elem st = (Ok o, st') ->
  counters_add_up ops st ->
  counters_add_up (append_if ops o) st'.
Proof.
  unfold _process_details_element, counters_add_up. se_unfold.
  intros Hrun [Hsum Hlen].
  destruct (_extract_quantity _ =? 0).
  { inversion Hrun; subst; simpl. lia. }
  destruct (_extract_date _) as [dt|].
  2:{ inversion Hrun; subst; simpl. lia. }
  destruct (_extract_trade_data _) as [[[price total] nkd] cur].
  destruct (_extract_instrument_data _) as [[[i t] n]|e]; simpl in Hrun.
  2:{ discriminate. }
  destruct (OperationDTO_new _) as [op|e].
  - inversion Hrun; subst; simpl. rewrite length_app. simpl. lia.
  - inversion Hrun; subst; simpl. lia.
Qed.

Lemma traverse_counters elems : forall ops st ops' st',
  traverse elems ops st = (ops', st', None) ->
  counters_add_up ops st -> counters_add_up ops' st'.
Proof.
  induction elems as [|elem rest IH]; intros ops st ops' st' Hrun Hinv; simpl in Hrun.
  - inversion Hrun; subst. exact Hinv.
  - destruct (negb _).
    + eauto.
    + destruct (_process_details_element elem st) as [[o|e] st1] eqn:Hrow.
      * eapply IH; [exact Hrun|]. eapply process_row_counters; eauto.
      * discriminate.
Qed.

(** The state of the loop after a prefix of the elements is the state the
    whole traversal goes through. *)
Lemma traverse_app pre suf : forall ops st,
  traverse (pre ++ suf) ops st =
  match traverse pre ops st with
  | (ops', st', None) => traverse suf ops' st'
  | stopped => stopped
  end.
Proof.
  induction pre as [|elem rest IH]; intros ops st; simpl.
  - reflexivity.
  - destruct (negb _); [apply IH|].
    destruct (_process_details_element elem st) as [[o|e] st1]; [apply IH|reflexivity].
Qed.

End WithHost.
End TradesFacts.

Module TradesCounters.
Import Utils XmlParserBase TradesParser TradesFacts.

(** What the returned dictionary says about the counters. *)
Definition diag_counters_add_up (ops : list OperationDTO) (diag : gmap string pyval) : Prop :=
  exists t p q d i,
    diag !! "total_rows" = Some (VInt t) /\ diag !! "parsed" = Some (VInt p) /\
    diag !! "skipped_no_qty" = Some (VInt q) /\ diag !! "skipped_no_date" = Some (VInt d) /\
    diag !! "skipped_invalid" = Some (VInt i) /\
    t = p + q + d + i /\ Z.of_nat (length ops) = p.

(** One row is counted in total_rows and under no other counter yet. *)
Definition one_row_open (ops : list OperationDTO) (st : Stats) : Prop :=
  total_rows st
  = parsed st + skipped_no_qty st + skipped_no_date st + skipped_invalid st + 1
  /\ Z.of_nat (length ops) = parsed st.

Definition diag_one_row_open (ops : list OperationDTO) (diag : gmap string pyval) : Prop :=
  exists t p q d i,
    diag !! "total_rows" = Some (VInt t) /\ diag !! "parsed" = Some (VInt p) /\
    diag !! "skipped_no_qty" = Some (VInt q) /\ diag !! "skipped_no_date" = Some (VInt d) /\
    diag !! "skipped_invalid" = Some (VInt i) /\
    t = p + q + d + i + 1 /\ Z.of_nat (length ops) = p.

(** What one row does to the counters, by the way it ends. *)
Definition row_counted (r : result (option OperationDTO)) (st st' : Stats) : Prop :=
  total_rows st' = total_rows st + 1 /\
  match r with
  | Ok (Some _) =>
    parsed st' = parsed st + 1 /\ skipped_no_qty st' = skipped_no_qty st /\
    skipped_no_date st' = skipped_no_date st /\ skipped_invalid st' = skipped_invalid st
  | Ok None =>
    parsed st' = parsed st /\
    skipped_no_qty st' + skipped_no_date st' + skipped_invalid st'
    = skipped_no_qty st + skipped_no_date st + skipped_invalid st + 1 /\
    skipped_no_qty st <= skipped_no_qty st' /\ skipped_no_date st <= skipped_no_date st' /\
    skipped_invalid st <= skipped_invalid st'
  | Raise _ =>
    parsed st' = parsed st /\ skipped_no_qty st' = skipped_no_qty st /\
    skipped_no_date st' = skipped_no_date st /\ skipped_invalid st' = skipped_invalid st
  end.

Section WithHost.
Context `{Host}.

Lemma row_counts elem st r st' :
  _process_details_element elem st = (r, st') -> row_counted r st st'.
Proof.
  unfold _process_details_element, row_counted. se_unfold. intros Hrun.
  destruct (_extract_quantity _ =? 0).
  { inversion Hrun; subst; simpl. lia. }
  destruct (_extract_date _) as [dt|].
  2:{ inversion Hrun; subst; simpl. lia. }
  destruct (_extract_trade_data _) as [[[price total] nkd] cur].
  destruct (_extract_instrument_data _) as [[[i t] n]|e]; simpl in Hrun.
  2:{ inversion Hrun; subst; simpl. lia. }
  destruct (OperationDTO_new _) as [op|e].
  - inversion Hrun; subst; simpl. lia.
  - inversion Hrun; subst; simpl. lia.
Qed.

Lemma traverse_open elems : forall ops st ops' st' e,
  traverse elems ops st = (ops', st', Some e) ->
  counters_add_up ops st -> one_row_open ops' st'.
Proof.
  induction elems as [|elem rest IH]; intros ops st ops' st' e Hrun Hinv; simpl in Hrun.
  - discriminate.
  - destruct (negb _).
    + eauto.
    + destruct (_process_details_element elem st) as [[o|e'] st1] eqn:Hrow.
      * eapply IH; [exact Hrun|]. eapply process_row_counters; eauto.
      * inversion Hrun; subst. apply row_counts in Hrow.
        destruct Hinv as [Hsum Hlen]. unfold row_counted in Hrow.
        unfold one_row_open. lia.
Qed.

Lemma initial_counters : counters_add_up [] __init__.
Proof. unfold counters_add_up. simpl. lia. Qed.

(** what [parse] returns, by the way the traversal ended *)
Lemma parse_returns x fs ops diag fs' :
  parse_trades_from_xml x fs = (Ok (ops, diag), fs') ->
  exists elems st exc stop,
    traverse elems [] __init__ = (ops, st, exc) /\
    diag = match (match exc with Some e => Some e | None => stop end) with
           | None => stats_dict st
           | Some e => <["error" := VStr (str_of_exn e)]> (stats_dict st)
           end.
Proof.
  intros Hrun. unfold parse_trades_from_xml, parse in Hrun.
  destruct (prepare_xml_source x fs) as [[[source cleanup]|e] fs1]; [|discriminate].
  unfold parse_try in Hrun.
  destruct (match read_file source fs1 with
            | Ok data => ET_iterparse data
            | Raise e => ([], Some e)
            end) as [elems stop].
  destruct (traverse elems [] __init__) as [[ops1 st] exc] eqn:Htr.
  exists elems, st, exc, stop.
  destruct exc as [e|]; [|destruct stop as [e|]]; inversion Hrun; subst; auto.
Qed.

End WithHost.

(** C9, as the code has it.  Every row adds one to total_rows when it
    starts and, when it returns, one to exactly one of parsed (with a
    record) and the three skip counters (without one); a row that raises
    adds to none of them.  So the equation total_rows = parsed +
    skipped_no_qty + skipped_no_date + skipped_invalid holds, with one
    record per parsed row, after every prefix of the elements processed
    without an exception (the state the traversal continues from) and in
    the dictionary returned by a parse without an "error" entry.  It does
    not hold inside a row nor after a row that raised: there total_rows is
    one ahead, and a dictionary returned with an "error" entry satisfies
    the equation or has total_rows one larger; the returned sequence has
    [parsed] records in every case. *)
Theorem trades_counter_invariant `{Host} :
  (forall pre suf ops st,
      traverse pre [] __init__ = (ops, st, None) ->
      counters_add_up ops st /\
      traverse (pre ++ suf) [] __init__ = traverse suf ops st) /\
  (forall elem st r st',
      _process_details_element elem st = (r, st') -> row_counted r st st') /\
  (forall elems ops st e,
      traverse elems [] __init__ = (ops, st, Some e) -> one_row_open ops st) /\
  (forall x fs ops diag fs',
      parse_trades_from_xml x fs = (Ok (ops, diag), fs') ->
      diag !! "error" = None ->
      diag_counters_add_up ops diag) /\
  (forall x fs ops diag fs',
      parse_trades_from_xml x fs = (Ok (ops, diag), fs') ->
      diag_counters_add_up ops diag \/ diag_one_row_open ops diag).
Proof.
  split; [|split; [|split; [|split]]].
  - intros pre suf ops st Hrun. split.
    + eapply traverse_counters; [exact Hrun|]. apply initial_counters.
    + rewrite traverse_app, Hrun. reflexivity.
  - intros elem st r st'. apply row_counts.
  - intros elems ops st e Hrun. eapply traverse_open; [exact Hrun|].
    apply initial_counters.
  - intros x fs ops diag fs' Hrun Herr.
    apply parse_returns in Hrun as (elems & st & exc & stop & Htr & ->).
    assert (Hnone : exc = None /\ stop = None).
    { destruct exc as [e|]; [|destruct stop as [e|]; [|auto]];
        rewrite lookup_insert_eq in Herr; discriminate. }
    destruct Hnone as [-> ->].
    destruct (traverse_counters _ _ _ _ _ Htr initial_counters) as [Hsum Hlen].
    exists (total_rows st), (parsed st), (skipped_no_qty st), (skipped_no_date st),
      (skipped_invalid st).
    unfold stats_dict. repeat split; try (by simplify_map_eq); assumption.
  - intros x fs ops diag fs' Hrun.
    apply parse_returns in Hrun as (elems & st & exc & stop & Htr & ->).
    destruct exc as [e|].
    + right. destruct (traverse_open _ _ _ _ _ _ Htr initial_counters) as [Hsum Hlen].
      exists (total_rows st), (parsed st), (skipped_no_qty st), (skipped_no_date st),
        (skipped_invalid st).
      unfold stats_dict. repeat split; try (by simplify_map_eq); assumption.
    + left. destruct (traverse_counters _ _ _ _ _ Htr initial_counters) as [Hsum Hlen].
      exists (total_rows st), (parsed st), (skipped_no_qty st), (skipped_no_date st),
        (skipped_invalid st).
      destruct stop as [e|]; unfold stats_dict;
        repeat split; try (by simplify_map_eq); assumption.
Qed.

(** A document with a sale row and a row without a date. *)
Definition dated_row : Element :=
  Elem (u "details")
       [(u "qty", u "-10"); (u "price", u "100.5"); (u "summ_trade", u "-1005.00");
        (u "curr", u "РУБ"); (u "db_time", u "25.03.2024 10:00:00")] [].

Definition undated_row : Element :=
  Elem (u "Details") [(u "qty", u "3"); (u "price", u "7")] [].

Definition two_rows : Host :=
  host_reading ([dated_row; undated_row; Elem (u "Trades") [] []], None) no_document.

Definition some_fs : FS :=
  {| fs_files := {[ u "trades.xml" := [] ]}; fs_writable := true |}.

Lemma trades_counter_invariant_witness :
  match @parse_trades_from_xml two_rows (IsPath (u "trades.xml")) some_fs with
  | (Ok (ops, diag), _) =>
    length ops = 1%nat /\ diag !! "total_rows" = Some (VInt 2) /\
    diag_counters_add_up ops diag
  | (Raise _, _) => False
  end.
Proof.
  pose proof (proj1 (proj2 (proj2 (proj2 (@trades_counter_invariant two_rows))))
                (IsPath (u "trades.xml")) some_fs) as Hthm.
  assert (Hval :
    match @parse_trades_from_xml two_rows (IsPath (u "trades.xml")) some_fs with
    | (Ok (ops, diag), _) =>
      length ops = 1%nat /\ diag !! "total_rows" = Some (VInt 2) /\
      diag !! "error" = None
    | (Raise _, _) => False
    end) by (vm_compute; auto).
  destruct (@parse_trades_from_xml two_rows (IsPath (u "trades.xml")) some_fs)
    as [[[ops diag]|e] fs']; [|exact Hval].
  destruct Hval as (Hlen & Htot & Herr).
  split; [exact Hlen|]. split; [exact Htot|].
  exact (Hthm ops diag fs' eq_refl Herr).
Defined.

(** A sale row followed by a row whose instrument name is a blank. *)
Definition unnamed_row : Element :=
  Elem (u "details")
       [(u "qty", u "1"); (u "db_time", u "25.03.2024 10:00:00"); (u "p_name", u " ")] [].

Definition aborting : Host :=
  host_reading ([dated_row; unnamed_row; undated_row], None) no_document.

(** Counterexample to C9 as stated.  The second row raises after
    total_rows was incremented: at that point of the parse, and in the
    dictionary the parse returns, total_rows is 2 while parsed is 1 and the
    skip counters are 0.  And inside any row, right after its first
    statement, total_rows is one ahead: for the first row of a parse it is 1
    with every other counter 0. *)
Lemma counters_off_inside_a_row :
  (exists ops st e,
     @traverse aborting [dated_row; unnamed_row; undated_row] [] __init__
       = (ops, st, Some e) /\
     length ops = 1%nat /\ total_rows st = 2 /\ parsed st = 1 /\
     skipped_no_qty st = 0 /\ skipped_no_date st = 0 /\ skipped_invalid st = 0 /\
     ~ TradesFacts.counters_add_up ops st) /\
  match @parse_trades_from_xml aborting (IsPath (u "trades.xml")) some_fs with
  | (Ok (ops, diag), _) =>
    length ops = 1%nat /\
    diag !! "error" = Some (VStr (u "list index out of range")) /\
    diag !! "total_rows" = Some (VInt 2) /\ diag !! "parsed" = Some (VInt 1) /\
    diag !! "skipped_no_qty" = Some (VInt 0) /\ diag !! "skipped_no_date" = Some (VInt 0) /\
    diag !! "skipped_invalid" = Some (VInt 0)
  | (Raise _, _) => False
  end /\
  (let st := (modify incr_total_rows __init__).2 in
   total_rows st = 1 /\ ~ TradesFacts.counters_add_up [] st).
Proof.
  split; [|split].
  - destruct (@traverse aborting [dated_row; unnamed_row; undated_row] [] __init__)
      as [[ops st] exc] eqn:Htr.
    assert (Hval : length ops = 1%nat /\ total_rows st = 2 /\ parsed st = 1 /\
                   skipped_no_qty st = 0 /\ skipped_no_date st = 0 /\
                   skipped_invalid st = 0 /\ exc = Some IndexError).
    { vm_compute in Htr. inversion Htr; subst. repeat split. }
    destruct Hval as (Hl & Ht & Hp & Hq & Hd & Hi & ->).
    exists ops, st, IndexError. repeat split; auto.
    intros [Hsum _]. lia.
  - vm_compute. repeat split.
  - cbv zeta. split; [reflexivity|]. intros [Hsum _]. vm_compute in Hsum. discriminate.
Qed.

End TradesCounters.

(** ** Trades: the quantity *)

Module TradesQuantity.
Import Utils XmlParserBase TradesParser.

(** the string [to_int_safe] hands to [float] *)
Definition cleaned (v : pystr) : pystr :=
  replace_char 44 (u ".") (replace_char 32 (u "") (replace_char nbsp (u " ") v)).

Lemma to_int_safe_rounds v x n :
  cleaned v <> [] -> PyFloat.of_str (cleaned v) = Ok x -> PyFloat.round x = Ok n ->
  to_int_safe v = n.
Proof.
  unfold to_int_safe, cleaned. intros Hne Hx Hn.
  destruct (replace_char 44 _ _) as [|c r] eqn:Hs; [congruence|].
  simpl. rewrite Hx. simpl. rewrite Hn. reflexivity.
Qed.

(** [round] returns a nearest integer, and the even one of two nearest. *)
Lemma round_nearest_even s m e n :
  e < 0 ->
  PyFloat.round (S754_finite s m e) = Ok n ->
  2 * Z.abs (n * 2 ^ (- e) - cond_Zopp s (Zpos m)) <= 2 ^ (- e) /\
  (2 * Z.abs (n * 2 ^ (- e) - cond_Zopp s (Zpos m)) = 2 ^ (- e) -> Z.even n = true).
Proof.
  intros He. unfold PyFloat.round.
  replace (0 <=? e) with false by (symmetry; apply Z.leb_gt; exact He).
  assert (Hd : 0 < 2 ^ (- e)) by (apply Z.pow_pos_nonneg; lia).
  pose proof (Z.div_mod (Zpos m) (2 ^ (- e)) ltac:(lia)) as Hdm.
  pose proof (Z.mod_pos_bound (Zpos m) (2 ^ (- e)) Hd) as Hb.
  generalize dependent (Zpos m / 2 ^ (- e)). intros q.
  generalize dependent (Zpos m mod 2 ^ (- e)). intros r.
  generalize dependent (2 ^ (- e)). intros d Hd Hb Hdm.
  intros Hn. inversion Hn as [Hn']. clear Hn.
  assert (Heven : forall z, Z.even (cond_Zopp s z) = Z.even z).
  { intros z. destruct s; simpl; [apply Z.even_opp|reflexivity]. }
  destruct (Z.compare_spec (2 * r) d) as [Heq|Hlt|Hgt].
  - destruct (Z.even q) eqn:Hq.
    + split; [destruct s; simpl; nia|]. intros _. rewrite Heven. exact Hq.
    + split; [destruct s; simpl; nia|]. intros _. rewrite Heven.
      rewrite Z.even_add, Hq. reflexivity.
  - split; [destruct s; simpl; nia|]. intros Ht. exfalso. destruct s; simpl in Ht; nia.
  - split; [destruct s; simpl; nia|]. intros Ht. exfalso. destruct s; simpl in Ht; nia.
Qed.

(** [to_int_safe] returns 0 when the cleaned text is empty and when [float]
    or [round] raises. *)
Lemma to_int_safe_empty v : cleaned v = [] -> to_int_safe v = 0.
Proof.
  unfold to_int_safe, cleaned. intros ->. reflexivity.
Qed.

Lemma to_int_safe_not_a_number v e :
  PyFloat.of_str (cleaned v) = Raise e -> to_int_safe v = 0.
Proof.
  unfold to_int_safe, cleaned. intros Hx.
  destruct (replace_char 44 _ _) as [|c r] eqn:Hs; [reflexivity|].
  simpl. rewrite Hx. reflexivity.
Qed.

Lemma to_int_safe_not_rounded v x e :
  PyFloat.of_str (cleaned v) = Ok x -> PyFloat.round x = Raise e -> to_int_safe v = 0.
Proof.
  unfold to_int_safe, cleaned. intros Hx Hn.
  destruct (replace_char 44 _ _) as [|c r] eqn:Hs; [discriminate|].
  simpl. rewrite Hx. simpl. rewrite Hn. reflexivity.
Qed.

(** The attribute that holds the quantity: the first of qty, quantity,
    textbox14 and "qty " that is present and not empty. *)
Definition quantity_keys : list pystr :=
  [u "qty"; u "quantity"; u "textbox14"; u "qty "].

Fixpoint first_nonempty (a : gmap pystr pystr) (keys : list pystr) : option pystr :=
  match keys with
  | [] => None
  | key :: rest =>
    match a !! key with
    | Some (c :: s) => Some (c :: s)
    | _ => first_nonempty a rest
    end
  end.

(** the quantity string of a row, "0" when no such attribute is there *)
Definition quantity_text (a : gmap pystr pystr) : pystr :=
  match first_nonempty a quantity_keys with
  | Some s => s
  | None => u "0"
  end.

Lemma extract_quantity_text (a : gmap pystr pystr) :
  _extract_quantity a = to_int_safe (quantity_text a).
Proof.
  unfold _extract_quantity, quantity_text, quantity_keys, first_nonempty.
  f_equal. unfold or_, otruthy, or_str, truthy.
  destruct (a !! u "qty") as [[|c1 s1]|];
    destruct (a !! u "quantity") as [[|c2 s2]|];
    destruct (a !! u "textbox14") as [[|c3 s3]|];
    destruct (a !! u "qty ") as [[|c4 s4]|]; reflexivity.
Qed.

(** The statistics after a row without a quantity. *)
Definition no_quantity (st : Stats) : Stats :=
  {| total_rows := total_rows st + 1;
     parsed := parsed st;
     skipped_no_date := skipped_no_date st;
     skipped_no_qty := skipped_no_qty st + 1;
     skipped_invalid := skipped_invalid st;
     total_commission := total_commission st |}.

Lemma zero_quantity_skipped `{Host} elem st :
  _extract_quantity (_normalize_attrib (attrib elem)) = 0 ->
  _process_details_element elem st = (Ok None, no_quantity st).
Proof.
  intros Hq. unfold _process_details_element. se_unfold. rewrite Hq. reflexivity.
Qed.

Lemma nonzero_quantity_kept `{Host} elem st r st' :
  _extract_quantity (_normalize_attrib (attrib elem)) <> 0 ->
  _process_details_element elem st = (r, st') ->
  skipped_no_qty st' = skipped_no_qty st /\
  forall o, r = Ok (Some o) ->
    quantity o = NInt (Z.abs (_extract_quantity (_normalize_attrib (attrib elem)))) /\
    operation_type o
    = (if 0 <? _extract_quantity (_normalize_attrib (attrib elem))
       then u "buy" else u "sale").
Proof.
  intros Hq. unfold _process_details_element. se_unfold.
  destruct (_extract_quantity _ =? 0) eqn:Hz; [apply Z.eqb_eq in Hz; contradiction|].
  destruct (_extract_date _) as [dt|].
  2:{ intros Hrun. inversion Hrun; subst. split; [reflexivity|]. discriminate. }
  destruct (_extract_trade_data _) as [[[price total] nkd] cur].
  destruct (_extract_instrument_data _) as [[[i t] n]|e]; simpl.
  2:{ intros Hrun. inversion Hrun; subst. split; [reflexivity|]. discriminate. }
  unfold OperationDTO_new.
  destruct (OperationDTO_rejects _) as [e|]; intros Hrun; inversion Hrun; subst.
  - split; [reflexivity|]. discriminate.
  - split; [reflexivity|]. intros o Ho. inversion Ho; subst. split; reflexivity.
Qed.

(** C10. The quantity of a trades row is [to_int_safe] of its quantity
    string (the first non-empty one of the attributes qty, quantity,
    textbox14 and "qty ", else "0"): [round(float(s))] of the string with
    its spaces removed and its decimal commas turned into points, and 0
    when that text is empty or [float] or [round] raises; the rounding is to
    the nearest integer with ties to even.  A row whose quantity is zero
    yields no record and adds one to total_rows and to skipped_no_qty and
    nothing else; this is what happens to a row whose quantity string
    denotes a value that rounds to zero, such as "0.4", as to one with an
    explicit "0".  A row whose quantity is not zero leaves skipped_no_qty as
    it was, and a record it yields carries the absolute value of the
    quantity, as a buy when it is positive and as a sale otherwise. *)
Theorem fractional_quantity_rounds_to_zero `{Host} :
  (forall a, _extract_quantity a = to_int_safe (quantity_text a)) /\
  (forall v x n,
      cleaned v <> [] -> PyFloat.of_str (cleaned v) = Ok x -> PyFloat.round x = Ok n ->
      to_int_safe v = n) /\
  (forall v, cleaned v = [] -> to_int_safe v = 0) /\
  (forall v e, PyFloat.of_str (cleaned v) = Raise e -> to_int_safe v = 0) /\
  (forall v x e,
      PyFloat.of_str (cleaned v) = Ok x -> PyFloat.round x = Raise e ->
      to_int_safe v = 0) /\
  (forall s m e n,
      e < 0 -> PyFloat.round (S754_finite s m e) = Ok n ->
      2 * Z.abs (n * 2 ^ (- e) - cond_Zopp s (Zpos m)) <= 2 ^ (- e) /\
      (2 * Z.abs (n * 2 ^ (- e) - cond_Zopp s (Zpos m)) = 2 ^ (- e) ->
       Z.even n = true)) /\
  (forall s m e,
      0 <= e -> PyFloat.round (S754_finite s m e) = Ok (cond_Zopp s (Zpos m * 2 ^ e))) /\
  (forall elem st,
      _extract_quantity (_normalize_attrib (attrib elem)) = 0 ->
      exists st',
        _process_details_element elem st = (Ok None, st') /\
        total_rows st' = total_rows st + 1 /\
        skipped_no_qty st' = skipped_no_qty st + 1 /\
        parsed st' = parsed st /\ skipped_no_date st' = skipped_no_date st /\
        skipped_invalid st' = skipped_invalid st /\
        total_commission st' = total_commission st) /\
  (forall elem st r st',
      _extract_quantity (_normalize_attrib (attrib elem)) <> 0 ->
      _process_details_element elem st = (r, st') ->
      skipped_no_qty st' = skipped_no_qty st /\
      forall o, r = Ok (Some o) ->
        quantity o = NInt (Z.abs (_extract_quantity (_normalize_attrib (attrib elem)))) /\
        operation_type o
        = (if 0 <? _extract_quantity (_normalize_attrib (attrib elem))
           then u "buy" else u "sale")) /\
  (forall elem st x,
      cleaned (quantity_text (_normalize_attrib (attrib elem))) <> [] ->
      PyFloat.of_str (cleaned (quantity_text (_normalize_attrib (attrib elem)))) = Ok x ->
      PyFloat.round x = Ok 0 ->
      _process_details_element elem st = (Ok None, no_quantity st)) /\
  (forall elem st,
      quantity_text (_normalize_attrib (attrib elem)) = u "0.4" ->
      _process_details_element elem st = (Ok None, no_quantity st)) /\
  (forall elem st,
      quantity_text (_normalize_attrib (attrib elem)) = u "0" ->
      _process_details_element elem st = (Ok None, no_quantity st)) /\
  (exists x, PyFloat.of_str (u "0.4") = Ok x /\ PyFloat.is_zero x = false
             /\ PyFloat.round x = Ok 0) /\
  map to_int_safe [u "0.4"; u "0.5"; u "0,5"; u "1.5"; u "2.5"; u "-0.5"; u "-1.5";
                   u "0.6"; u "1 000,4"; u "abc"; u ""; u "inf"; u "nan"]
    = [0; 0; 0; 2; 2; 0; -2; 1; 1000; 0; 0; 0; 0].
Proof.
  assert (Hgen : forall elem st x,
      cleaned (quantity_text (_normalize_attrib (attrib elem))) <> [] ->
      PyFloat.of_str (cleaned (quantity_text (_normalize_attrib (attrib elem)))) = Ok x ->
      PyFloat.round x = Ok 0 ->
      _process_details_element elem st = (Ok None, no_quantity st)).
  { intros elem st x Hne Hx Hr. apply zero_quantity_skipped.
    rewrite extract_quantity_text. eapply to_int_safe_rounds; eauto. }
  split; [apply extract_quantity_text|].
  split; [apply to_int_safe_rounds|].
  split; [apply to_int_safe_empty|].
  split; [apply to_int_safe_not_a_number|].
  split; [apply to_int_safe_not_rounded|].
  split; [apply round_nearest_even|].
  split.
  { intros s m e He. unfold PyFloat.round.
    replace (0 <=? e) with true by (symmetry; apply Z.leb_le; exact He). reflexivity. }
  split.
  { intros elem st Hq. exists (no_quantity st).
    split; [apply zero_quantity_skipped; exact Hq|]. repeat split. }
  split; [intros elem st r st'; apply nonzero_quantity_kept|].
  split; [exact Hgen|]. split; [|split; [|split]].
  - intros elem st Hq.
    apply (Hgen elem st (PyFloat.of_decimal false 4 (-1))); rewrite ?Hq;
      [discriminate | reflexivity | reflexivity].
  - intros elem st Hq.
    apply (Hgen elem st (S754_zero false)); rewrite ?Hq;
      [discriminate | reflexivity | reflexivity].
  - exists (PyFloat.of_decimal false 4 (-1)). repeat split; reflexivity.
  - vm_compute. reflexivity.
Qed.

(** Rows whose quantity, under one of its other names, rounds to zero, and
    a row of one share. *)
Definition fractional_row : Element :=
  Elem (u "details") [(u "Quantity", u "0,4"); (u "db_time", u "25.03.2024 10:00:00")] [].

Definition textbox_row : Element :=
  Elem (u "details") [(u "qty", u ""); (u "TextBox14", u "0.4");
                      (u "db_time", u "25.03.2024 10:00:00")] [].

Definition one_share : Element :=
  Elem (u "details") [(u "qty", u "0.6"); (u "db_time", u "25.03.2024 10:00:00")] [].

Lemma fractional_quantity_rounds_to_zero_witness :
  let h := host_reading ([], None) no_document in
  @_process_details_element h fractional_row __init__
  = (Ok None,
     {| total_rows := 1; parsed := 0; skipped_no_date := 0; skipped_no_qty := 1;
        skipped_invalid := 0; total_commission := PyFloat.zero |}) /\
  @_process_details_element h textbox_row __init__
  = (Ok None,
     {| total_rows := 1; parsed := 0; skipped_no_date := 0; skipped_no_qty := 1;
        skipped_invalid := 0; total_commission := PyFloat.zero |}) /\
  (forall r st',
      @_process_details_element h one_share __init__ = (r, st') ->
      skipped_no_qty st' = 0 /\
      forall o, r = Ok (Some o) -> quantity o = NInt 1 /\ operation_type o = u "buy").
Proof.
  intros h.
  pose proof (@fractional_quantity_rounds_to_zero h)
    as (_ & _ & _ & _ & _ & _ & _ & _ & Hkept & Hzero & Hfrac & _).
  split; [|split].
  - apply (Hzero fractional_row __init__ (PyFloat.of_decimal false 4 (-1)));
      [vm_compute; discriminate | vm_compute; reflexivity | vm_compute; reflexivity].
  - apply (Hfrac textbox_row __init__). vm_compute. reflexivity.
  - intros r st' Hrun.
    apply (Hkept one_share __init__ r st'); [vm_compute; discriminate|exact Hrun].
Defined.

End TradesQuantity.

(** ** Transfers: the conversion filter *)

Module TransfersFilter.
Import Utils XmlParserBase TransfersParser.

Lemma starts_with_spec p : forall s,
  starts_with p s = true <-> exists post, s = p ++ post.
Proof.
  induction p as [|a p IH]; intros s; simpl.
  - split; [intros _; exists s; reflexivity|auto].
  - destruct s as [|b s].
    + split; [discriminate|intros [post Hp]; discriminate].
    + rewrite andb_true_iff, N.eqb_eq, IH. split.
      * intros [-> [post ->]]. exists post. reflexivity.
      * intros [post Hp]. inversion Hp; subst. eauto.
Qed.

(** [contains] decides the occurrence of a substring. *)
Lemma contains_spec sub : forall s,
  contains sub s = true <-> exists pre post, s = pre ++ sub ++ post.
Proof.
  induction s as [|c s IH]; simpl; rewrite orb_true_iff, starts_with_spec.
  - split.
    + intros [[post Hp]|Hf]; [|discriminate]. exists [], post. exact Hp.
    + intros [pre [post Hp]]. left.
      destruct pre; [exists post; exact Hp|discriminate].
  - rewrite IH. split.
    + intros [[post Hp]|[pre [post Hp]]].
      * exists [], post. exact Hp.
      * exists (c :: pre), post. simpl. rewrite Hp. reflexivity.
    + intros [pre [post Hp]]. destruct pre as [|c' pre].
      * left. exists post. exact Hp.
      * right. inversion Hp; subst. eauto.
Qed.

(** The condition of the filter, on the normalized attributes. *)
Definition qualifies (a : gmap pystr pystr) : Prop :=
  lower (strip (or_str (a !! u "oper_type") (u ""))) = u "перевод" /\
  exists pre post,
    lower (strip (or_str (a !! u "comment_new") (u ""))) = pre ++ u "конвертация" ++ post.

Lemma is_conversion_operation_spec (a : gmap pystr pystr) :
  _is_conversion_operation a = true <-> qualifies a.
Proof.
  unfold _is_conversion_operation, qualifies, str_eqb.
  rewrite andb_true_iff, bool_decide_eq_true, contains_spec. reflexivity.
Qed.

(** The statistics after a row that the filter dropped: [total_rows] and
    [skipped_not_conversion] are one more, every other counter is as it
    was. *)
Definition dropped (st : Stats) : Stats :=
  {| total_rows := total_rows st + 1;
     parsed := parsed st;
     skipped_not_conversion := skipped_not_conversion st + 1;
     skipped_no_date := skipped_no_date st;
     skipped_no_qty := skipped_no_qty st;
     skipped_invalid := skipped_invalid st |}.

(** C5. A transfers row passes the filter exactly when its trimmed,
    lowercased oper_type is "перевод" and its trimmed, lowercased
    comment_new contains "конвертация".  A row failing either condition
    yields no record, and it adds one to total_rows and one to
    skipped_not_conversion and changes no other counter; this holds whenever
    oper_type is not "перевод", whatever comment_new holds, and whenever
    comment_new lacks "конвертация", whatever oper_type holds.  A row passing
    the filter adds one to total_rows and leaves skipped_not_conversion as
    it was. *)
Theorem transfers_filter `{Host} elem st :
  let a := _normalize_attrib (attrib elem) in
  (_is_conversion_operation a = true <-> qualifies a) /\
  (~ qualifies a ->
     exists st',
       _process_details_element elem st = (Ok None, st') /\
       total_rows st' = total_rows st + 1 /\
       skipped_not_conversion st' = skipped_not_conversion st + 1 /\
       parsed st' = parsed st /\ skipped_no_date st' = skipped_no_date st /\
       skipped_no_qty st' = skipped_no_qty st /\
       skipped_invalid st' = skipped_invalid st) /\
  (qualifies a ->
     skipped_not_conversion (_process_details_element elem st).2
       = skipped_not_conversion st /\
     total_rows (_process_details_element elem st).2 = total_rows st + 1) /\
  (lower (strip (or_str (a !! u "oper_type") (u ""))) <> u "перевод" ->
     _process_details_element elem st = (Ok None, dropped st)) /\
  ((forall pre post,
       lower (strip (or_str (a !! u "comment_new") (u ""))) <> pre ++ u "конвертация" ++ post) ->
     _process_details_element elem st = (Ok None, dropped st)).
Proof.
  intros a.
  assert (Hno : ~ qualifies a ->
     _process_details_element elem st = (Ok None, dropped st)).
  { intros Hq. unfold _process_details_element. se_unfold. fold a.
    destruct (_is_conversion_operation a) eqn:Hc; [|reflexivity].
    apply is_conversion_operation_spec in Hc. contradiction. }
  split; [apply is_conversion_operation_spec|]. split; [|split; [|split]].
  - intros Hq. exists (dropped st). split; [exact (Hno Hq)|]. repeat split.
  - intros Hq. apply is_conversion_operation_spec in Hq.
    unfold _process_details_element. se_unfold. fold a. rewrite Hq. simpl.
    destruct (PyFloat.is_zero _); [split; reflexivity|].
    destruct (_extract_date a); [|split; reflexivity].
    destruct (OperationDTO_new _); split; reflexivity.
  - intros Hne. apply Hno. intros [Heq _]. contradiction.
  - intros Hne. apply Hno. intros [_ (pre & post & Heq)]. exact (Hne pre post Heq).
Qed.

Definition plain_transfer : Element :=
  Elem (u "details")
       [(u "oper_type", u "Перевод"); (u "comment_new", u "Списание ЦБ");
        (u "qty", u "-500"); (u "settlement_date", u "2024-03-25")] [].

Definition conversion : Element :=
  Elem (u "details")
       [(u "oper_type", u " Перевод "); (u "comment_new", u "Конвертация ЦБ RU000A0JX0J2");
        (u "qty", u "-500"); (u "settlement_date", u "2024-03-25");
        (u "settlement_time", u "12:00:00")] [].

Lemma transfers_filter_witness :
  let h := host_reading ([], None) no_document in
  (exists st',
     @_process_details_element h plain_transfer __init__ = (Ok None, st') /\
     total_rows st' = 1 /\ skipped_not_conversion st' = 1 /\ parsed st' = 0 /\
     skipped_no_date st' = 0 /\ skipped_no_qty st' = 0 /\ skipped_invalid st' = 0) /\
  skipped_not_conversion (@_process_details_element h conversion __init__).2 = 0 /\
  total_rows (@_process_details_element h conversion __init__).2 = 1.
Proof.
  intros h. split.
  - apply (proj1 (proj2 (@transfers_filter h plain_transfer __init__))).
    intros Hq. apply is_conversion_operation_spec in Hq. vm_compute in Hq. discriminate.
  - apply (proj1 (proj2 (proj2 (@transfers_filter h conversion __init__)))).
    apply is_conversion_operation_spec. vm_compute. reflexivity.
Defined.

End TransfersFilter.

(** ** Financial operations: the skip decision *)

Module FinOpsSkip.
Import Utils XmlParserBase FinancialOperationsParser.

(** the label and the comment are empty or whitespace-only *)
Definition blank (oper_type : option pystr) (comment : pystr) : Prop :=
  strip (or_str oper_type (u "")) = [] /\ strip comment = [].

(** the amount is absent or a zero *)
Definition zero_amount (amount : option decimal) : Prop :=
  match amount with
  | None => True
  | Some d => Decimal.to_bool d = false
  end.

Lemma should_skip_blank_zero `{Host} oper_type comment amount :
  blank oper_type comment -> zero_amount amount ->
  _should_skip oper_type comment amount = Ok true.
Proof.
  intros [Hl Hc] Hz.
  assert (Hc' : strip (or_str (Some comment) (u "")) = []).
  { destruct comment; [reflexivity|exact Hc]. }
  unfold _should_skip. cbv zeta. rewrite Hl. cbn [truthy]. rewrite Hc'.
  cbn [truthy negb].
  destruct amount as [d|]; [|reflexivity].
  simpl in Hz. rewrite Hz. reflexivity.
Qed.

(** The statistics after a skipped row: [total_rows] and [skipped] are one
    more, and nothing else has changed. *)
Definition skipped_row (st : Stats) : Stats :=
  {| total_rows := total_rows st + 1;
     parsed := parsed st;
     skipped := skipped st + 1;
     example_comments := example_comments st;
     amounts_by_mapped_type := amounts_by_mapped_type st;
     amounts_by_label := amounts_by_label st;
     total_income := total_income st;
     total_expense := total_expense st |}.

(** C6. A row of the financial operations report whose label and comment
    are both empty or whitespace-only and whose amount is zero (or absent)
    is skipped: no record is returned, the skipped counter and total_rows
    each grow by one, parsed and the sums stay as they were; and this
    whatever the classifier would answer, whose two functions are fields of
    the host, over which the statement quantifies: a classifier that keeps
    every row or one that raises changes nothing. *)
Theorem blank_zero_row_skipped `{Host} rn_node settlement_date st :
  blank (_extract_oper_type_and_comment rn_node).1
        (_extract_oper_type_and_comment rn_node).2 ->
  zero_amount (_extract_currency_and_amount rn_node).2 ->
  exists st',
    _process_rn_node rn_node settlement_date st = (Ok None, st') /\
    skipped st' = skipped st + 1 /\
    total_rows st' = total_rows st + 1 /\
    parsed st' = parsed st /\
    example_comments st' = example_comments st /\
    amounts_by_mapped_type st' = amounts_by_mapped_type st /\
    amounts_by_label st' = amounts_by_label st /\
    total_income st' = total_income st /\
    total_expense st' = total_expense st.
Proof.
  intros Hb Hz. exists (skipped_row st). split; [|repeat split].
  unfold _process_rn_node. se_unfold.
  destruct (_extract_oper_type_and_comment rn_node) as [oper_type comment].
  destruct (_extract_currency_and_amount rn_node) as [currency amount].
  simpl in Hb, Hz. rewrite (should_skip_blank_zero _ _ _ Hb Hz). reflexivity.
Qed.

(** A row with a blank label, an empty comment and the amount 0.00. *)
Definition blank_row : Element :=
  Elem (u "rn") []
    [Elem (u "oper_type") [(u "oper_type", u "  ")]
       [Elem (u "comment") [(u "comment", u "")]
          [Elem (u "p_code") [(u "p_code", u "RUB"); (u "volume", u "0,00")] []]]].

(** A classifier that keeps every row, and one that fails on every call. *)
Definition keeping : Host := host_reading ([], None) no_document.

Definition failing : Host :=
  {| ET_iterparse := fun _ => ([], None);
     ET_fromstring := fun _ => no_document;
     fromisoformat := fun _ => Raise (PyFloat.ValueError "Invalid isoformat string");
     OperationDTO_rejects := fun _ => None;
     determine_operation_type := fun _ _ _ => Raise (Exn "KeyError" (u "label"));
     should_skip_operation := fun _ _ _ => Raise (Exn "KeyError" (u "label")) |}.

Lemma blank_zero_row_skipped_witness :
  (exists st',
     @_process_rn_node keeping blank_row None __init__ = (Ok None, st') /\
     skipped st' = 1 /\ total_rows st' = 1 /\ parsed st' = 0) /\
  (exists st',
     @_process_rn_node failing blank_row None __init__ = (Ok None, st') /\
     skipped st' = 1 /\ total_rows st' = 1 /\ parsed st' = 0).
Proof.
  split.
  - destruct (@blank_zero_row_skipped keeping blank_row None __init__)
      as (st' & Hrun & Hs & Ht & Hp & _); [vm_compute; auto|vm_compute; auto|].
    exists st'. auto.
  - destruct (@blank_zero_row_skipped failing blank_row None __init__)
      as (st' & Hrun & Hs & Ht & Hp & _); [vm_compute; auto|vm_compute; auto|].
    exists st'. auto.
Defined.

End FinOpsSkip.

(** ** The entry points: exceptions *)

Module EntryPoints.
Import Utils XmlParserBase.

(** What a parser returns when its [try] block ended normally or with the
    exception [exc]. *)
Definition returned {St} (dict : St -> gmap string pyval)
    (ops : list OperationDTO) (st : St) (exc : option exn)
  : list OperationDTO * gmap string pyval :=
  match exc with
  | None => (ops, dict st)
  | Some e => (ops, <["error" := VStr (str_of_exn e)]> (dict st))
  end.

(** The input is staged without a write, or the write is possible. *)
Definition stageable (x : path_or_bytes) (fs : FS) : Prop :=
  match x with
  | IsPath _ => True
  | IsBytes _ _ => fs_writable fs = true
  end.

Lemma prepare_stageable x fs :
  stageable x fs ->
  exists source cleanup fs1, prepare_xml_source x fs = (Ok (source, cleanup), fs1).
Proof.
  destruct x as [p|id data]; simpl; intros Hs.
  - eauto.
  - unfold prepare_xml_source, write_bytes. se_unfold. rewrite Hs. eauto.
Qed.

Lemma prepare_read_only id data fs :
  fs_writable fs = false ->
  prepare_xml_source (IsBytes id data) fs
    = (Raise (OSError "[Errno 30] Read-only file system"), fs).
Proof.
  intros Hw. unfold prepare_xml_source, write_bytes. se_unfold. rewrite Hw. reflexivity.
Qed.

Lemma trades_parse_staged `{Host} x fs source cleanup fs1 :
  prepare_xml_source x fs = (Ok (source, cleanup), fs1) ->
  parse_trades_from_xml x fs
  = (Ok (let '(ops, st, exc) := TradesParser.parse_try TradesParser.__init__ source fs1 in
         returned TradesParser.stats_dict ops st exc),
     cleanup_tmp_file source cleanup fs1).
Proof.
  intros Hp. unfold parse_trades_from_xml, TradesParser.parse. rewrite Hp.
  destruct (TradesParser.parse_try _ _ _) as [[ops st] [e|]]; reflexivity.
Qed.

Lemma transfers_parse_staged `{Host} x fs source cleanup fs1 :
  prepare_xml_source x fs = (Ok (source, cleanup), fs1) ->
  parse_transfers_from_xml x fs
  = (Ok (let '(ops, st, exc) :=
           TransfersParser.parse_try TransfersParser.__init__ source fs1 in
         returned TransfersParser.stats_dict ops st exc),
     cleanup_tmp_file source cleanup fs1).
Proof.
  intros Hp. unfold parse_transfers_from_xml, TransfersParser.parse. rewrite Hp.
  destruct (TransfersParser.parse_try _ _ _) as [[ops st] [e|]]; reflexivity.
Qed.

(** C1, as the code has it.  [parse_fin_operations_from_xml] never raises:
    its whole body is inside the [try], and an exception there gives an
    empty record list and the statistics with an "error" entry holding
    [str(e)].  [parse_trades_from_xml] and [parse_transfers_from_xml] return
    whenever the input is staged (a path, or bytes whose temporary file can
    be written): the call returns the records appended before the exception
    and the statistics with the "error" entry.  The staging call itself
    stands before the [try]: when the temporary file cannot be written, the
    exception of [prepare_xml_source] leaves both entry points. *)
Theorem entry_points_catch_after_staging `{Host} :
  (forall x fs,
      parse_fin_operations_from_xml x fs
      = (Ok (match FinancialOperationsParser.parse_try x fs
                     FinancialOperationsParser.__init__ with
             | (Ok out, _) => out
             | (Raise e, st) =>
               returned FinancialOperationsParser.stats_dict [] st (Some e)
             end), fs)) /\
  (forall x fs, stageable x fs ->
      exists source cleanup fs1,
        prepare_xml_source x fs = (Ok (source, cleanup), fs1) /\
        parse_trades_from_xml x fs
        = (Ok (let '(ops, st, exc) :=
                 TradesParser.parse_try TradesParser.__init__ source fs1 in
               returned TradesParser.stats_dict ops st exc),
           cleanup_tmp_file source cleanup fs1) /\
        parse_transfers_from_xml x fs
        = (Ok (let '(ops, st, exc) :=
                 TransfersParser.parse_try TransfersParser.__init__ source fs1 in
               returned TransfersParser.stats_dict ops st exc),
           cleanup_tmp_file source cleanup fs1)) /\
  (forall id data fs, fs_writable fs = false ->
      exists e,
        parse_trades_from_xml (IsBytes id data) fs = (Raise e, fs) /\
        parse_transfers_from_xml (IsBytes id data) fs = (Raise e, fs)).
Proof.
  split; [|split].
  - intros x fs. unfold parse_fin_operations_from_xml, FinancialOperationsParser.parse.
    destruct (FinancialOperationsParser.parse_try x fs _) as [[out|e] st]; reflexivity.
  - intros x fs Hs. destruct (prepare_stageable x fs Hs) as (source & cleanup & fs1 & Hp).
    exists source, cleanup, fs1. split; [exact Hp|]. split.
    + apply trades_parse_staged, Hp.
    + apply transfers_parse_staged, Hp.
  - intros id data fs Hw. eexists. split.
    + unfold parse_trades_from_xml, TradesParser.parse.
      rewrite (prepare_read_only _ _ _ Hw). reflexivity.
    + unfold parse_transfers_from_xml, TransfersParser.parse.
      rewrite (prepare_read_only _ _ _ Hw). reflexivity.
Qed.

(** A working directory that cannot be written, and a malformed document
    whose reader fails after a first row. *)
Definition read_only_fs : FS := {| fs_files := ∅; fs_writable := false |}.

Definition torn_document : Host :=
  host_reading
    ([Elem (u "details")
        [(u "qty", u "5"); (u "db_time", u "25.03.2024 10:00:00")] []],
     Some (Exn "ParseError" (u "unclosed token: line 3, column 0")))
    no_document.

(** Counterexample to C1 as stated: with bytes as input and a working
    directory that cannot be written, the staging step raises and
    [parse_trades_from_xml] does not return. *)
Lemma staging_failure_escapes :
  @parse_trades_from_xml torn_document (IsBytes 140230 [x3c; x61; x2f; x3e]) read_only_fs
  = (Raise (OSError "[Errno 30] Read-only file system"), read_only_fs).
Proof. vm_compute. reflexivity. Qed.

Lemma entry_points_catch_after_staging_witness :
  (exists out fs',
      @parse_trades_from_xml torn_document (IsBytes 140230 [x3c; x61; x2f; x3e])
        {| fs_files := ∅; fs_writable := true |} = (Ok out, fs')) /\
  (exists e,
      @parse_trades_from_xml torn_document (IsBytes 140230 [x3c; x61; x2f; x3e]) read_only_fs
      = (Raise e, read_only_fs)).
Proof.
  split.
  - destruct (proj1 (proj2 (@entry_points_catch_after_staging torn_document))
                (IsBytes 140230 [x3c; x61; x2f; x3e])
                {| fs_files := ∅; fs_writable := true |} eq_refl)
      as (source & cleanup & fs1 & _ & Ht & _).
    rewrite Ht. eauto.
  - destruct (proj2 (proj2 (@entry_points_catch_after_staging torn_document))
                140230 [x3c; x61; x2f; x3e] read_only_fs eq_refl) as (e & Ht & _).
    exists e. exact Ht.
Defined.

(** The same document, staged: the reader's error is caught, the record
    read before it is returned, and the temporary file is removed. *)
Example torn_document_caught :
  match @parse_trades_from_xml torn_document (IsBytes 140230 [x3c; x61; x2f; x3e])
          {| fs_files := ∅; fs_writable := true |} with
  | (Ok (ops, diag), fs') =>
    length ops = 1%nat /\
    diag !! "error" = Some (VStr (u "unclosed token: line 3, column 0")) /\
    fs_files fs' = ∅
  | (Raise _, _) => False
  end.
Proof. vm_compute. auto. Qed.

End EntryPoints.

(** ** The entry points: determinism *)

Module Determinism.
Import Utils XmlParserBase EntryPoints.

(** *** Parser objects

    A call of an entry point constructs a parser, and the statistics
    dictionary is an attribute of that object.  A process holds the parser
    objects constructed so far, by address, and the file system. *)

Inductive parser_object :=
| TradesParserObject (stats : TradesParser.Stats)
| TransfersParserObject (stats : TransfersParser.Stats)
| FinancialOperationsParserObject (stats : FinancialOperationsParser.Stats).

Record Process := {
  objects : gmap Z parser_object;
  files : FS
}.

Definition AttributeError : exn := Exn "AttributeError" (u "stats").

(** the process after a call: the object at [self] and the files are new,
    every other object is as it was *)
Definition after (self : Z) (o : parser_object) (fs : FS) (p : Process) : Process :=
  {| objects := <[self := o]> (objects p); files := fs |}.

(** *** Equality of diagnostics ([==])

    The value of a number, exactly: [n * 2^a * 5^b], an infinity, or no
    number. *)
Inductive exact :=
| ExNum (n a b : Z)
| ExInf (neg : bool)
| ExNaN.

Definition exact_of_float (f : float) : exact :=
  match f with
  | S754_zero _ => ExNum 0 0 0
  | S754_finite s m e => ExNum (cond_Zopp s (Zpos m)) e 0
  | S754_infinity s => ExInf s
  | S754_nan => ExNaN
  end.

Definition exact_of_decimal (d : decimal) : exact :=
  match d with
  | Decimal.DFin s c e => ExNum (cond_Zopp s (Z.of_N c)) e e
  | Decimal.DInf s => ExInf s
  | Decimal.DNaN _ _ _ => ExNaN
  end.

(** [x == y] is True, for two numbers ([int], [float] or [Decimal]): their
    values are compared exactly, and a NaN equals nothing (the comparison
    with a signaling NaN raises) *)
Definition exact_eq (x y : exact) : bool :=
  match x, y with
  | ExNum n1 a1 b1, ExNum n2 a2 b2 =>
    let a := Z.min a1 a2 in
    let b := Z.min b1 b2 in
    n1 * 2 ^ (a1 - a) * 5 ^ (b1 - b) =? n2 * 2 ^ (a2 - a) * 5 ^ (b2 - b)
  | ExInf s1, ExInf s2 => eqb s1 s2
  | _, _ => false
  end.

(** [m1 == m2] is True, for two dictionaries: as many items, and the value
    under each key of the first equals the value under that key in the
    second *)
Definition dict_eq {K} `{Countable K} {V W} (eq : V -> W -> bool)
    (m1 : gmap K V) (m2 : gmap K W) : bool :=
  (size m1 =? size m2)%nat &&
  forallb (fun kv => match m2 !! kv.1 with
                     | Some w => eq kv.2 w
                     | None => false
                     end) (map_to_list m1).

Definition numeric (v : pyval) : option exact :=
  match v with
  | VInt z => Some (ExNum z 0 0)
  | VFloat f => Some (exact_of_float f)
  | VDec d => Some (exact_of_decimal d)
  | _ => None
  end.

(** [a == b] is True, for two values of diagnostics dictionaries that are
    not one object (the values two calls return never are: each call builds
    its own, and a NaN comes out of an addition of that call) *)
Definition is_equal (a b : pyval) : bool :=
  match numeric a, numeric b with
  | Some x, Some y => exact_eq x y
  | _, _ =>
    match a, b with
    | VStr s, VStr t => str_eqb s t
    | VList l, VList m => bool_decide (l = m)
    | VDictDec m1, VDictDec m2 =>
      dict_eq (fun x y => exact_eq (exact_of_decimal x) (exact_of_decimal y)) m1 m2
    | VDictStr m1, VDictStr m2 => dict_eq str_eqb m1 m2
    | VDictDec m1, VDictStr m2 | VDictStr m2, VDictDec m1 =>
      (size m1 =? 0)%nat && (size m2 =? 0)%nat
    | _, _ => false
    end
  end.

(** no float and no decimal held by the value is a NaN *)
Definition free_of_nan (v : pyval) : Prop :=
  match v with
  | VFloat f => f <> S754_nan
  | VDec d => exact_of_decimal d <> ExNaN
  | VDictDec m => map_Forall (fun _ d => exact_of_decimal d <> ExNaN) m
  | _ => True
  end.

Lemma exact_eq_refl x : exact_eq x x = true <-> x <> ExNaN.
Proof.
  destruct x as [n a b|s|]; simpl.
  - rewrite Z.eqb_refl. split; [discriminate|reflexivity].
  - rewrite eqb_reflx. split; [discriminate|reflexivity].
  - split; [discriminate|congruence].
Qed.

Lemma exact_of_float_nan f : exact_of_float f <> ExNaN <-> f <> S754_nan.
Proof. destruct f; simpl; split; congruence. Qed.

Lemma dict_eq_refl {K} `{Countable K} {V} (eq : V -> V -> bool) (m : gmap K V) :
  dict_eq eq m m = true <-> map_Forall (fun _ v => eq v v = true) m.
Proof.
  unfold dict_eq. rewrite Nat.eqb_refl. simpl. rewrite forallb_forall. split.
  - intros Hall k v Hk.
    specialize (Hall (k, v)). simpl in Hall. rewrite Hk in Hall.
    apply Hall. apply list_elem_of_In, elem_of_map_to_list. exact Hk.
  - intros Hall [k v] Hin. apply list_elem_of_In, elem_of_map_to_list in Hin.
    simpl. rewrite Hin. exact (Hall k v Hin).
Qed.

Lemma str_eqb_refl s : str_eqb s s = true.
Proof. unfold str_eqb. apply bool_decide_eq_true. reflexivity. Qed.

Lemma is_equal_refl v : is_equal v v = true <-> free_of_nan v.
Proof.
  destruct v as [z|f|s|d|l|m|m]; unfold is_equal; simpl.
  - rewrite Z.eqb_refl. tauto.
  - rewrite exact_eq_refl. apply exact_of_float_nan.
  - rewrite str_eqb_refl. tauto.
  - apply exact_eq_refl.
  - rewrite bool_decide_eq_true. tauto.
  - rewrite dict_eq_refl. unfold map_Forall.
    split; intros Hall k d Hk; apply exact_eq_refl, (Hall k d Hk).
  - rewrite dict_eq_refl. split; [tauto|]. intros _ k s _. apply str_eqb_refl.
Qed.

(** a dictionary equals its like exactly when it holds no NaN *)
Lemma diag_eq_refl (diag : gmap string pyval) :
  dict_eq is_equal diag diag = true <-> map_Forall (fun _ v => free_of_nan v) diag.
Proof.
  rewrite dict_eq_refl. unfold map_Forall.
  split; intros Hall k v Hk; apply is_equal_refl, (Hall k v Hk).
Qed.

Ltac each_entry :=
  repeat (apply map_Forall_insert_2; [simpl; auto|]); try apply map_Forall_empty.

Lemma trades_diag_equal ops0 st exc ops diag :
  returned TradesParser.stats_dict ops0 st exc = (ops, diag) ->
  (dict_eq is_equal diag diag = true
   <-> diag !! "total_commission" <> Some (VFloat S754_nan)).
Proof.
  intros Hret. rewrite diag_eq_refl.
  assert (Hc : diag !! "total_commission"
               = Some (VFloat (TradesParser.total_commission st))).
  { destruct exc as [e|]; inversion Hret; subst;
      unfold TradesParser.stats_dict; by simplify_map_eq. }
  rewrite Hc. split.
  - intros Hall Heq. apply (Hall _ _ Hc). simpl. congruence.
  - intros Hne.
    assert (Hf : TradesParser.total_commission st <> S754_nan) by congruence.
    destruct exc as [e|]; inversion Hret; subst; unfold TradesParser.stats_dict;
      each_entry.
Qed.

Lemma transfers_diag_equal ops0 st exc ops diag :
  returned TransfersParser.stats_dict ops0 st exc = (ops, diag) ->
  dict_eq is_equal diag diag = true.
Proof.
  intros Hret. apply diag_eq_refl.
  destruct exc as [e|]; inversion Hret; subst; unfold TransfersParser.stats_dict;
    each_entry.
Qed.

Lemma finalized_diag_equal st :
  dict_eq is_equal (FinancialOperationsParser._finalize_stats st)
                   (FinancialOperationsParser._finalize_stats st) = true.
Proof.
  apply diag_eq_refl. apply map_Forall_lookup. intros k v Hk.
  unfold FinancialOperationsParser._finalize_stats,
    FinancialOperationsParser.stats_dict in Hk.
  repeat match type of Hk with
         | <[_ := _]> _ !! _ = Some _ =>
           apply lookup_insert_Some in Hk as [[<- <-]|[? Hk]];
             [try congruence; exact I|]
         end.
  rewrite lookup_empty in Hk. discriminate.
Qed.

Section WithHost.
Context `{Host}.

(** [TradesParser()] at the address [self]: [__init__] binds [self.stats]
    to a new dictionary. *)
Definition TradesParser_new (self : Z) (p : Process) : Process :=
  after self (TradesParserObject TradesParser.__init__) (files p) p.

(** [parser.parse(path_or_bytes)] of the parser at [self]: its methods
    read and update the statistics of that object. *)
Definition TradesParser_parse (self : Z) (x : path_or_bytes) (p : Process)
  : result (list OperationDTO * gmap string pyval) * Process :=
  match objects p !! self with
  | Some (TradesParserObject stats) =>
    match prepare_xml_source x (files p) with
    | (Raise e, fs) => (Raise e, {| objects := objects p; files := fs |})
    | (Ok (source, cleanup_needed), fs) =>
      let '(ops, st, exc) := TradesParser.parse_try stats source fs in
      (Ok (returned TradesParser.stats_dict ops st exc),
       after self (TradesParserObject st) (cleanup_tmp_file source cleanup_needed fs) p)
    end
  | _ => (Raise AttributeError, p)
  end.

(** [parse_trades_from_xml(path_or_bytes)] in a process, the new parser
    being placed at [self]. *)
Definition call_parse_trades_from_xml (self : Z) (x : path_or_bytes) (p : Process)
  : result (list OperationDTO * gmap string pyval) * Process :=
  let parser := self in
  TradesParser_parse parser x (TradesParser_new self p).

Definition TransfersParser_new (self : Z) (p : Process) : Process :=
  after self (TransfersParserObject TransfersParser.__init__) (files p) p.

Definition TransfersParser_parse (self : Z) (x : path_or_bytes) (p : Process)
  : result (list OperationDTO * gmap string pyval) * Process :=
  match objects p !! self with
  | Some (TransfersParserObject stats) =>
    match prepare_xml_source x (files p) with
    | (Raise e, fs) => (Raise e, {| objects := objects p; files := fs |})
    | (Ok (source, cleanup_needed), fs) =>
      let '(ops, st, exc) := TransfersParser.parse_try stats source fs in
      (Ok (returned TransfersParser.stats_dict ops st exc),
       after self (TransfersParserObject st) (cleanup_tmp_file source cleanup_needed fs) p)
    end
  | _ => (Raise AttributeError, p)
  end.

Definition call_parse_transfers_from_xml (self : Z) (x : path_or_bytes) (p : Process)
  : result (list OperationDTO * gmap string pyval) * Process :=
  let parser := self in
  TransfersParser_parse parser x (TransfersParser_new self p).

Definition FinancialOperationsParser_new (self : Z) (p : Process) : Process :=
  after self (FinancialOperationsParserObject FinancialOperationsParser.__init__)
        (files p) p.

Definition FinancialOperationsParser_parse (self : Z) (x : path_or_bytes) (p : Process)
  : result (list OperationDTO * gmap string pyval) * Process :=
  match objects p !! self with
  | Some (FinancialOperationsParserObject stats) =>
    match FinancialOperationsParser.parse_try x (files p) stats with
    | (Ok out, st) =>
      (Ok out, after self (FinancialOperationsParserObject st) (files p) p)
    | (Raise e, st) =>
      (Ok (returned FinancialOperationsParser.stats_dict [] st (Some e)),
       after self (FinancialOperationsParserObject st) (files p) p)
    end
  | _ => (Raise AttributeError, p)
  end.

Definition call_parse_fin_operations_from_xml (self : Z) (x : path_or_bytes)
    (p : Process) : result (list OperationDTO * gmap string pyval) * Process :=
  let parser := self in
  FinancialOperationsParser_parse parser x (FinancialOperationsParser_new self p).

(** What each entry point returns for bytes [data], as a function of the
    bytes alone: the traversal of a fresh parser over the reader's elements. *)
Definition trades_of_bytes (data : list byte) : list OperationDTO * gmap string pyval :=
  let '(elems, stop) := ET_iterparse data in
  let '(ops, st, exc) := TradesParser.traverse elems [] TradesParser.__init__ in
  returned TradesParser.stats_dict ops st
           (match exc with Some e => Some e | None => stop end).

Definition transfers_of_bytes (data : list byte) : list OperationDTO * gmap string pyval :=
  let '(elems, stop) := ET_iterparse data in
  let '(ops, st, exc) := TransfersParser.traverse elems [] TransfersParser.__init__ in
  returned TransfersParser.stats_dict ops st
           (match exc with Some e => Some e | None => stop end).

Definition fin_operations_of_bytes (data : list byte)
  : list OperationDTO * gmap string pyval :=
  match (root ← lift (FinancialOperationsParser._parse_bytes data);
         FinancialOperationsParser._parse_root root) FinancialOperationsParser.__init__ with
  | (Ok out, _) => out
  | (Raise e, st) => returned FinancialOperationsParser.stats_dict [] st (Some e)
  end.

(** The staged file holds the bytes, and the cleanup removes it again. *)
Lemma staging_round_trip id data fs :
  fs_writable fs = true ->
  exists tmp fs1,
    prepare_xml_source (IsBytes id data) fs = (Ok (tmp, true), fs1) /\
    read_file tmp fs1 = Ok data /\
    fs_writable (cleanup_tmp_file tmp true fs1) = true /\
    fs_files (cleanup_tmp_file tmp true fs1) !! tmp = None.
Proof.
  intros Hw. unfold prepare_xml_source, write_bytes. se_unfold. rewrite Hw.
  do 2 eexists. split; [reflexivity|].
  unfold read_file, cleanup_tmp_file, unlink. simpl.
  rewrite lookup_insert_eq. split; [reflexivity|]. split; [reflexivity|].
  apply lookup_delete_eq.
Qed.

Lemma trades_bytes id data fs :
  fs_writable fs = true ->
  exists fs', parse_trades_from_xml (IsBytes id data) fs = (Ok (trades_of_bytes data), fs')
              /\ fs_writable fs' = true.
Proof.
  intros Hw. destruct (staging_round_trip id data fs Hw) as (tmp & fs1 & Hp & Hr & Hw' & _).
  eexists. rewrite (trades_parse_staged _ _ _ _ _ Hp). split; [|exact Hw'].
  unfold TradesParser.parse_try, trades_of_bytes. rewrite Hr.
  destruct (ET_iterparse data) as [elems stop].
  destruct (TradesParser.traverse _ _ _) as [[ops st] exc]. reflexivity.
Qed.

Lemma transfers_bytes id data fs :
  fs_writable fs = true ->
  exists fs', parse_transfers_from_xml (IsBytes id data) fs
              = (Ok (transfers_of_bytes data), fs')
              /\ fs_writable fs' = true.
Proof.
  intros Hw. destruct (staging_round_trip id data fs Hw) as (tmp & fs1 & Hp & Hr & Hw' & _).
  eexists. rewrite (transfers_parse_staged _ _ _ _ _ Hp). split; [|exact Hw'].
  unfold TransfersParser.parse_try, transfers_of_bytes. rewrite Hr.
  destruct (ET_iterparse data) as [elems stop].
  destruct (TransfersParser.traverse _ _ _) as [[ops st] exc]. reflexivity.
Qed.

Lemma fin_operations_bytes id data fs :
  parse_fin_operations_from_xml (IsBytes id data) fs
  = (Ok (fin_operations_of_bytes data), fs).
Proof.
  unfold parse_fin_operations_from_xml, FinancialOperationsParser.parse,
    fin_operations_of_bytes.
  change (FinancialOperationsParser.parse_try (IsBytes id data) fs
            FinancialOperationsParser.__init__)
    with ((root ← lift (FinancialOperationsParser._parse_bytes data);
           FinancialOperationsParser._parse_root root)
            FinancialOperationsParser.__init__).
  destruct ((root ← lift (FinancialOperationsParser._parse_bytes data);
             FinancialOperationsParser._parse_root root)
              FinancialOperationsParser.__init__) as [[out|e] st]; reflexivity.
Qed.

(** A call in a process returns what the entry point returns on the
    process's files, whatever objects the process holds, and leaves every
    object but its own parser as it was. *)
Lemma trades_call self x p :
  exists st,
    call_parse_trades_from_xml self x p
    = ((parse_trades_from_xml x (files p)).1,
       after self (TradesParserObject st) (parse_trades_from_xml x (files p)).2 p).
Proof.
  unfold call_parse_trades_from_xml, TradesParser_parse, TradesParser_new, after.
  cbn [objects files]. rewrite lookup_insert_eq.
  unfold parse_trades_from_xml, TradesParser.parse.
  destruct (prepare_xml_source x (files p)) as [[[source cleanup]|e] fs1].
  - destruct (TradesParser.parse_try _ _ _) as [[ops st] exc]. exists st.
    rewrite insert_insert_eq. destruct exc; reflexivity.
  - exists TradesParser.__init__. reflexivity.
Qed.

Lemma transfers_call self x p :
  exists st,
    call_parse_transfers_from_xml self x p
    = ((parse_transfers_from_xml x (files p)).1,
       after self (TransfersParserObject st) (parse_transfers_from_xml x (files p)).2 p).
Proof.
  unfold call_parse_transfers_from_xml, TransfersParser_parse, TransfersParser_new, after.
  cbn [objects files]. rewrite lookup_insert_eq.
  unfold parse_transfers_from_xml, TransfersParser.parse.
  destruct (prepare_xml_source x (files p)) as [[[source cleanup]|e] fs1].
  - destruct (TransfersParser.parse_try _ _ _) as [[ops st] exc]. exists st.
    rewrite insert_insert_eq. destruct exc; reflexivity.
  - exists TransfersParser.__init__. reflexivity.
Qed.

Lemma fin_operations_call self x p :
  exists st,
    call_parse_fin_operations_from_xml self x p
    = ((parse_fin_operations_from_xml x (files p)).1,
       after self (FinancialOperationsParserObject st) (files p) p).
Proof.
  unfold call_parse_fin_operations_from_xml, FinancialOperationsParser_parse,
    FinancialOperationsParser_new, after.
  cbn [objects files]. rewrite lookup_insert_eq.
  unfold parse_fin_operations_from_xml, FinancialOperationsParser.parse.
  destruct (FinancialOperationsParser.parse_try _ _ _) as [[out|e] st]; exists st;
    rewrite insert_insert_eq; reflexivity.
Qed.

Lemma trades_of_bytes_returned data :
  exists ops st exc, trades_of_bytes data = returned TradesParser.stats_dict ops st exc.
Proof.
  unfold trades_of_bytes. destruct (ET_iterparse data) as [elems stop].
  destruct (TradesParser.traverse _ _ _) as [[ops st] exc]. eauto.
Qed.

Lemma transfers_of_bytes_returned data :
  exists ops st exc,
    transfers_of_bytes data = returned TransfersParser.stats_dict ops st exc.
Proof.
  unfold transfers_of_bytes. destruct (ET_iterparse data) as [elems stop].
  destruct (TransfersParser.traverse _ _ _) as [[ops st] exc]. eauto.
Qed.

Lemma fin_operations_of_bytes_completed data ops diag :
  fin_operations_of_bytes data = (ops, diag) -> diag !! "error" = None ->
  exists st, diag = FinancialOperationsParser._finalize_stats st.
Proof.
  unfold fin_operations_of_bytes. se_unfold.
  destruct (FinancialOperationsParser._parse_bytes data) as [root|e].
  - unfold FinancialOperationsParser._parse_root. se_unfold.
    destruct (FinancialOperationsParser.process_settlement_nodes _ _ _)
      as [[ops1|e] st1].
    + intros Hr _. inversion Hr; subst. eauto.
    + intros Hr Herr. inversion Hr; subst.
      rewrite lookup_insert_eq in Herr. discriminate.
  - intros Hr Herr. inversion Hr; subst.
    rewrite lookup_insert_eq in Herr. discriminate.
Qed.

End WithHost.

(** C8, as the code has it.  Each entry point constructs its parser, and
    with it the statistics, anew: whatever parser objects the process holds
    (one left at the same address by an earlier call among them) and
    whatever the earlier calls left in the file system, a call on bytes
    returns a result that is a function of the bytes alone, and it changes
    no object but its own parser.  So two calls of one entry point on equal
    bytes, whatever the identities of the two [bytes] objects and the
    addresses of the two parsers, return the same records and the same
    diagnostics, value for value.  Compared with [==], the two dictionaries
    are equal exactly when they hold no NaN: those of the transfers always,
    those of the trades unless total_commission is a NaN, those of the
    financial operations whenever the parse completed.  (The two streaming
    parsers need a working directory they can write to; otherwise the
    staging step raises and the call does not return.) *)
Theorem entry_points_deterministic `{Host} data id1 id2 self1 self2 p :
  fs_writable (files p) = true ->
  (exists st1 fs1 st2 fs2,
      let p1 := after self1 (TradesParserObject st1) fs1 p in
      call_parse_trades_from_xml self1 (IsBytes id1 data) p
        = (Ok (trades_of_bytes data), p1) /\
      call_parse_trades_from_xml self2 (IsBytes id2 data) p1
        = (Ok (trades_of_bytes data), after self2 (TradesParserObject st2) fs2 p1)) /\
  (exists st1 fs1 st2 fs2,
      let p1 := after self1 (TransfersParserObject st1) fs1 p in
      call_parse_transfers_from_xml self1 (IsBytes id1 data) p
        = (Ok (transfers_of_bytes data), p1) /\
      call_parse_transfers_from_xml self2 (IsBytes id2 data) p1
        = (Ok (transfers_of_bytes data),
           after self2 (TransfersParserObject st2) fs2 p1)) /\
  (exists st1 st2,
      let p1 := after self1 (FinancialOperationsParserObject st1) (files p) p in
      call_parse_fin_operations_from_xml self1 (IsBytes id1 data) p
        = (Ok (fin_operations_of_bytes data), p1) /\
      call_parse_fin_operations_from_xml self2 (IsBytes id2 data) p1
        = (Ok (fin_operations_of_bytes data),
           after self2 (FinancialOperationsParserObject st2) (files p) p1)) /\
  (let '(r1, fs1) := parse_trades_from_xml (IsBytes id1 data) (files p) in
   let '(r2, _) := parse_trades_from_xml (IsBytes id2 data) fs1 in
   r1 = Ok (trades_of_bytes data) /\ r2 = r1) /\
  (let '(r1, fs1) := parse_transfers_from_xml (IsBytes id1 data) (files p) in
   let '(r2, _) := parse_transfers_from_xml (IsBytes id2 data) fs1 in
   r1 = Ok (transfers_of_bytes data) /\ r2 = r1) /\
  (let '(r1, fs1) := parse_fin_operations_from_xml (IsBytes id1 data) (files p) in
   let '(r2, _) := parse_fin_operations_from_xml (IsBytes id2 data) fs1 in
   r1 = Ok (fin_operations_of_bytes data) /\ r2 = r1) /\
  (forall ops diag,
      trades_of_bytes data = (ops, diag) ->
      (dict_eq is_equal diag diag = true
       <-> diag !! "total_commission" <> Some (VFloat S754_nan))) /\
  (forall ops diag,
      transfers_of_bytes data = (ops, diag) -> dict_eq is_equal diag diag = true) /\
  (forall ops diag,
      fin_operations_of_bytes data = (ops, diag) ->
      (diag !! "error" = None -> dict_eq is_equal diag diag = true) /\
      (dict_eq is_equal diag diag = true
       <-> forall k v, diag !! k = Some v -> free_of_nan v)).
Proof.
  intros Hw.
  split; [|split; [|split; [|split; [|split; [|split; [|split; [|split]]]]]]].
  - destruct (trades_bytes id1 data (files p) Hw) as (fs1 & Hr1 & Hw1).
    destruct (trades_call self1 (IsBytes id1 data) p) as (st1 & Hc1).
    rewrite Hr1 in Hc1. cbn [fst snd] in Hc1.
    set (p1 := after self1 (TradesParserObject st1) fs1 p) in *.
    destruct (trades_bytes id2 data (files p1) Hw1) as (fs2 & Hr2 & _).
    destruct (trades_call self2 (IsBytes id2 data) p1) as (st2 & Hc2).
    rewrite Hr2 in Hc2. cbn [fst snd] in Hc2.
    exists st1, fs1, st2, fs2. split; assumption.
  - destruct (transfers_bytes id1 data (files p) Hw) as (fs1 & Hr1 & Hw1).
    destruct (transfers_call self1 (IsBytes id1 data) p) as (st1 & Hc1).
    rewrite Hr1 in Hc1. cbn [fst snd] in Hc1.
    set (p1 := after self1 (TransfersParserObject st1) fs1 p) in *.
    destruct (transfers_bytes id2 data (files p1) Hw1) as (fs2 & Hr2 & _).
    destruct (transfers_call self2 (IsBytes id2 data) p1) as (st2 & Hc2).
    rewrite Hr2 in Hc2. cbn [fst snd] in Hc2.
    exists st1, fs1, st2, fs2. split; assumption.
  - destruct (fin_operations_call self1 (IsBytes id1 data) p) as (st1 & Hc1).
    rewrite fin_operations_bytes in Hc1. cbn [fst snd] in Hc1.
    set (p1 := after self1 (FinancialOperationsParserObject st1) (files p) p) in *.
    destruct (fin_operations_call self2 (IsBytes id2 data) p1) as (st2 & Hc2).
    rewrite fin_operations_bytes in Hc2. cbn [fst snd] in Hc2.
    exists st1, st2. split; assumption.
  - destruct (trades_bytes id1 data (files p) Hw) as (fs1 & -> & Hw1).
    destruct (trades_bytes id2 data fs1 Hw1) as (fs2 & -> & _). auto.
  - destruct (transfers_bytes id1 data (files p) Hw) as (fs1 & -> & Hw1).
    destruct (transfers_bytes id2 data fs1 Hw1) as (fs2 & -> & _). auto.
  - rewrite !fin_operations_bytes. auto.
  - intros ops diag Hret.
    destruct (trades_of_bytes_returned data) as (ops0 & st & exc & Heq).
    rewrite Heq in Hret. eapply trades_diag_equal, Hret.
  - intros ops diag Hret.
    destruct (transfers_of_bytes_returned data) as (ops0 & st & exc & Heq).
    rewrite Heq in Hret. eapply transfers_diag_equal, Hret.
  - intros ops diag Hret. split.
    + intros Herr.
      destruct (fin_operations_of_bytes_completed data ops diag Hret Herr) as (st & ->).
      apply finalized_diag_equal.
    + apply diag_eq_refl.
Qed.

(** A document with one purchase whose commission reads "nan". *)
Definition nan_commission_row : Element :=
  Elem (u "details")
       [(u "qty", u "5"); (u "price", u "10"); (u "db_time", u "25.03.2024 10:00:00");
        (u "bank_tax", u "nan")] [].

Definition nan_commission : Host :=
  host_reading ([nan_commission_row], None) no_document.

Definition new_process : Process :=
  {| objects := ∅; files := {| fs_files := ∅; fs_writable := true |} |}.

(** a process in which an earlier call left a parser at the address 1 and a
    file under the name of the next temporary file *)
Definition used_process : Process :=
  {| objects := {[ 1 := TradesParserObject
                          {| TradesParser.total_rows := 7; TradesParser.parsed := 3;
                             TradesParser.skipped_no_date := 1;
                             TradesParser.skipped_no_qty := 2;
                             TradesParser.skipped_invalid := 1;
                             TradesParser.total_commission := PyFloat.zero |} ]};
     files := {| fs_files := {[ u "__xml_tmp_7__.xml" := [x00] ]};
                 fs_writable := true |} |}.

Lemma entry_points_deterministic_witness :
  exists st1 fs1 st2 fs2,
    let p1 := after 1 (TradesParserObject st1) fs1 used_process in
    @call_parse_trades_from_xml torn_document 1 (IsBytes 7 [x3c]) used_process
      = (Ok (@trades_of_bytes torn_document [x3c]), p1) /\
    @call_parse_trades_from_xml torn_document 1 (IsBytes 8 [x3c]) p1
      = (Ok (@trades_of_bytes torn_document [x3c]),
         after 1 (TradesParserObject st2) fs2 p1).
Proof.
  exact (proj1 (@entry_points_deterministic torn_document [x3c] 7 8 1 1
                  used_process eq_refl)).
Defined.

(** Counterexample to C8 as stated.  Two calls of [parse_trades_from_xml]
    on equal bytes complete, and the two dictionaries they return do not
    compare equal: total_commission is a NaN in both. *)
Lemma nan_commission_maps_differ :
  match @parse_trades_from_xml nan_commission (IsBytes 7 [x3c]) (files new_process) with
  | (Ok (ops1, diag1), fs1) =>
    match @parse_trades_from_xml nan_commission (IsBytes 8 [x3c]) fs1 with
    | (Ok (ops2, diag2), _) =>
      length ops1 = 1%nat /\ ops2 = ops1 /\
      diag1 !! "error" = None /\ diag2 !! "error" = None /\
      diag1 !! "total_commission" = Some (VFloat S754_nan) /\
      diag2 !! "total_commission" = Some (VFloat S754_nan) /\
      is_equal (VFloat S754_nan) (VFloat S754_nan) = false /\
      dict_eq is_equal diag1 diag2 = false
    | (Raise _, _) => False
    end
  | (Raise _, _) => False
  end.
Proof. vm_compute. repeat split. Qed.

(** The statistics are the parser's: a second [parse] of one parser goes
    on counting where the first ended, which a call of the entry point,
    with its new parser, does not. *)
Lemma parser_used_twice_keeps_counting :
  let p0 := @TradesParser_new 1 new_process in
  let '(r1, p1) := @TradesParser_parse nan_commission 1 (IsBytes 7 [x3c]) p0 in
  let '(r2, _) := @TradesParser_parse nan_commission 1 (IsBytes 8 [x3c]) p1 in
  match r1, r2 with
  | Ok (_, diag1), Ok (_, diag2) =>
    diag1 !! "total_rows" = Some (VInt 1) /\ diag2 !! "total_rows" = Some (VInt 2)
  | _, _ => False
  end.
Proof. vm_compute. repeat split. Qed.

End Determinism.

(** ** Trades: the sale row *)

Module TradesSale.
Import Utils XmlParserBase TradesParser.

(** the float [f] is exactly the rational [num / den] *)
Definition exactly (f : float) (num den : Z) : bool :=
  match f with
  | S754_zero _ => num =? 0
  | S754_finite s m e =>
    if 0 <=? e then cond_Zopp s (Zpos m) * 2 ^ e * den =? num
    else cond_Zopp s (Zpos m) * den =? num * 2 ^ (- e)
  | _ => false
  end.

(** the instrument name the ticker is taken from *)
Definition instrument_name (a : gmap pystr pystr) : pystr :=
  or_str (or_ (a !! u "p_name") (or_ (a !! u "pname") (a !! u "active_name"))) (u "").

(** The attributes of the row of the claim, among the normalized ones. *)
Definition sale_attributes (a : gmap pystr pystr) : Prop :=
  a !! u "qty" = Some (u "-10") /\ a !! u "price" = Some (u "100.5") /\
  a !! u "summ_trade" = Some (u "-1005.00") /\ a !! u "curr" = Some (u "РУБ") /\
  a !! u "db_time" = Some (u "25.03.2024 10:00:00").

Definition sale_date : datetime :=
  {| year := 2024; month := 3; day := 25; hour := 10; minute := 0; second := 0;
     microsecond := 0; utcoffset := None |}.

Lemma or_falsy (a b : option pystr) : otruthy a = false -> or_ a b = b.
Proof. unfold or_. intros ->. reflexivity. Qed.

Lemma sale_quantity (a : gmap pystr pystr) : sale_attributes a -> _extract_quantity a = -10.
Proof.
  intros (Hq & _). unfold _extract_quantity. rewrite Hq. vm_compute. reflexivity.
Qed.

Lemma sale_extract_date (a : gmap pystr pystr) : sale_attributes a -> _extract_date a = Some sale_date.
Proof.
  intros (_ & _ & _ & _ & Hd). unfold _extract_date. cbn [first_date].
  rewrite Hd.
  replace (otruthy (Some (u "25.03.2024 10:00:00"))) with true by reflexivity.
  replace (parse_datetime_from_text (Some (u "25.03.2024 10:00:00")))
    with (Some sale_date) by (vm_compute; reflexivity).
  reflexivity.
Qed.

Lemma sale_trade_data (a : gmap pystr pystr) :
  sale_attributes a -> otruthy (a !! u "curr_calc") = false ->
  exists nkd,
    _extract_trade_data a
    = (PyFloat.of_decimal false 1005 (-1), PyFloat.of_decimal true 100500 (-2), nkd, u "RUB").
Proof.
  intros (_ & Hp & Hs & Hc & _) Hcc. unfold _extract_trade_data.
  eexists. rewrite Hp, Hs, (or_falsy _ _ Hcc), Hc. reflexivity.
Qed.

Lemma instrument_data_returns (a : gmap pystr pystr) :
  instrument_name a = [] \/ split_ws (strip (instrument_name a)) <> [] ->
  exists t, _extract_instrument_data a = Ok t.
Proof.
  intros Hn. unfold _extract_instrument_data. fold (instrument_name a).
  unfold _extract_ticker_from_name.
  destruct Hn as [-> | Hn]; [simpl; eauto|].
  destruct (truthy (instrument_name a)); simpl; [|eauto].
  destruct (split_ws (strip (instrument_name a))); [congruence|simpl; eauto].
Qed.

(** C4, as the code has it.  A trades row whose normalized attributes
    include qty="-10", price="100.5", summ_trade="-1005.00", curr="РУБ" and
    db_time="25.03.2024 10:00:00", which carries no non-empty curr_calc (the
    attribute read before curr), whose instrument name is empty or holds a
    token, and whose record the constructor accepts, yields one record with
    operation_type "sale", quantity 10, currency "RUB", price 100.5 and
    payment_sum -1005.0; [parsed] and [total_rows] grow by one. *)
Theorem sale_row_record `{Host} elem st :
  let a := _normalize_attrib (attrib elem) in
  sale_attributes a ->
  otruthy (a !! u "curr_calc") = false ->
  instrument_name a = [] \/ split_ws (strip (instrument_name a)) <> [] ->
  (forall o, OperationDTO_rejects o = None) ->
  exists o,
    _process_details_element elem st
      = (Ok (Some o), record_parsed (commission o) (incr_total_rows st)) /\
    operation_type o = u "sale" /\ quantity o = NInt 10 /\ currency o = u "RUB" /\
    exactly (price o) 201 2 = true /\ exactly (payment_sum o) (-1005) 1 = true /\
    date o = Some sale_date /\
    (lower (_local_name (tag elem)) = u "details" ->
     traverse [elem] [] st = ([o], record_parsed (commission o) (incr_total_rows st), None)).
Proof.
  intros a Ha Hcc Hn Hdto.
  destruct (sale_trade_data a Ha Hcc) as (nkd & Htd).
  destruct (instrument_data_returns a Hn) as ([[i t] n] & Hi).
  set (o := {| date := Some sale_date;
               operation_type := u "sale";
               payment_sum := PyFloat.of_decimal true 100500 (-2);
               currency := u "RUB";
               ticker := t; isin := i; reg_number := u "";
               price := PyFloat.of_decimal false 1005 (-1);
               quantity := NInt 10;
               aci := nkd;
               comment := _extract_comment a;
               operation_id := n;
               commission := _extract_commission a |}).
  assert (Hrow : forall st',
    _process_details_element elem st'
    = (Ok (Some o), record_parsed (commission o) (incr_total_rows st'))).
  { intros st'. unfold _process_details_element. se_unfold. fold a.
    rewrite (sale_quantity a Ha), (sale_extract_date a Ha), Htd, Hi.
    unfold OperationDTO_new. rewrite Hdto. reflexivity. }
  exists o. split; [apply Hrow|].
  repeat (split; [reflexivity|]).
  intros Htag. unfold traverse. rewrite Htag, Hrow. reflexivity.
Qed.

(** A row with a quantity and a date whose instrument name is not empty
    but holds only whitespace: [split()[0]] raises IndexError outside the
    [try] of the row, so the exception ends the traversal; the row is
    counted in total_rows and in no other counter. *)
Theorem blank_instrument_name_aborts `{Host} elem st dt :
  let a := _normalize_attrib (attrib elem) in
  _extract_quantity a <> 0 ->
  _extract_date a = Some dt ->
  instrument_name a <> [] ->
  split_ws (strip (instrument_name a)) = [] ->
  _process_details_element elem st = (Raise IndexError, incr_total_rows st) /\
  (lower (_local_name (tag elem)) = u "details" ->
   forall rest ops,
     traverse (elem :: rest) ops st = (ops, incr_total_rows st, Some IndexError)).
Proof.
  intros a Hq Hd Hn Hs.
  assert (Hi : _extract_instrument_data a = Raise IndexError).
  { unfold _extract_instrument_data. fold (instrument_name a).
    unfold _extract_ticker_from_name. rewrite Hs.
    destruct (instrument_name a); [congruence|reflexivity]. }
  assert (Hrow : _process_details_element elem st = (Raise IndexError, incr_total_rows st)).
  { unfold _process_details_element. se_unfold. fold a.
    apply Z.eqb_neq in Hq. rewrite Hq, Hd.
    destruct (_extract_trade_data a) as [[[price total] nkd] cur].
    rewrite Hi. reflexivity. }
  split; [exact Hrow|].
  intros Htag rest ops. cbn [traverse]. rewrite Htag, Hrow. reflexivity.
Qed.

Definition blank_name_row : Element :=
  Elem (u "details")
       [(u "qty", u "1"); (u "db_time", u "25.03.2024 10:00:00"); (u "p_name", u " ")] [].

Lemma blank_instrument_name_aborts_witness :
  @_process_details_element (host_reading ([], None) no_document) blank_name_row __init__
  = (Raise IndexError, incr_total_rows __init__).
Proof.
  apply (@blank_instrument_name_aborts (host_reading ([], None) no_document)
           blank_name_row __init__ sale_date).
  - vm_compute. discriminate.
  - vm_compute. reflexivity.
  - vm_compute. discriminate.
  - vm_compute. reflexivity.
Defined.

(** The row of the claim, and the same row with a settlement currency. *)
Definition sale_row : Element :=
  Elem (u "details")
       [(u "Qty", u "-10"); (u "Price", u "100.5"); (u "Summ_Trade", u "-1005.00");
        (u "Curr", u "РУБ"); (u "db_time", u "25.03.2024 10:00:00")] [].

Definition sale_row_usd : Element :=
  Elem (u "details")
       [(u "qty", u "-10"); (u "price", u "100.5"); (u "summ_trade", u "-1005.00");
        (u "curr", u "РУБ"); (u "db_time", u "25.03.2024 10:00:00");
        (u "curr_calc", u "USD")] [].

Definition accepting : Host := host_reading ([], None) no_document.

Lemma sale_row_record_witness :
  exists o,
    @traverse accepting [sale_row] [] __init__
      = ([o], record_parsed (commission o) (incr_total_rows __init__), None) /\
    operation_type o = u "sale" /\ quantity o = NInt 10 /\ currency o = u "RUB" /\
    exactly (price o) 201 2 = true /\ exactly (payment_sum o) (-1005) 1 = true.
Proof.
  destruct (@sale_row_record accepting sale_row __init__)
    as (o & _ & Ht & Hq & Hc & Hp & Hs & _ & Htr).
  - repeat split; vm_compute; reflexivity.
  - reflexivity.
  - left. reflexivity.
  - reflexivity.
  - exists o. repeat split; auto.
Defined.

(** Counterexample to C4 as stated: the row carries the five attributes of
    the claim and a curr_calc besides; its record has the currency "USD". *)
Lemma sale_row_settlement_currency :
  sale_attributes (_normalize_attrib (attrib sale_row_usd)) /\
  match @_process_details_element accepting sale_row_usd __init__ with
  | (Ok (Some o), st) =>
    currency o = u "USD" /\ currency o <> u "RUB" /\ parsed st = 1
  | _ => False
  end.
Proof.
  split; [repeat split; vm_compute; reflexivity|].
  vm_compute. split; [reflexivity|]. split; [discriminate|reflexivity].
Qed.

End TradesSale.

(** ** The matcher on fixed-length patterns *)

Module ReFacts.
Import Re.

(** [n] characters of class [p] at the head of the input. *)
Fixpoint take_class (p : N -> bool) (n : nat) (prev : option N) (s : pystr)
  : option (option N * pystr) :=
  match n with
  | O => Some (prev, s)
  | S n' =>
    match s with
    | c :: s' => if p c then take_class p n' (Some c) s' else None
    | [] => None
    end
  end.

(** the character before the position reached after [m] *)
Definition last_of (prev : option N) (m : pystr) : option N :=
  match last m with Some c => Some c | None => prev end.

Lemma last_of_cons prev c m : last_of prev (c :: m) = last_of (Some c) m.
Proof.
  unfold last_of. destruct m as [|d m]; [reflexivity|].
  rewrite last_cons_cons. destruct (last (d :: m)) eqn:Hl; [reflexivity|].
  apply last_None in Hl. discriminate.
Qed.

Lemma last_of_app prev a b : last_of prev (a ++ b) = last_of (last_of prev a) b.
Proof.
  revert prev. induction a as [|c a IH]; intros prev; simpl; [reflexivity|].
  rewrite !last_of_cons. apply IH.
Qed.

Lemma take_class_spec p n : forall prev s prev' s',
  take_class p n prev s = Some (prev', s') <->
  exists m, s = m ++ s' /\ length m = n /\ forallb p m = true /\ prev' = last_of prev m.
Proof.
  induction n as [|n IH]; intros prev s prev' s'; simpl.
  - split.
    + intros Heq. inversion Heq; subst. exists []. auto.
    + intros (m & -> & Hl & _ & ->). destruct m; [reflexivity|discriminate].
  - destruct s as [|c s].
    + split; [discriminate|]. intros (m & Hs & Hl & _).
      destruct m; discriminate.
    + destruct (p c) eqn:Hc.
      * rewrite IH. split.
        -- intros (m & -> & Hl & Hp & ->). exists (c :: m). simpl.
           rewrite Hc, Hp, last_of_cons. auto.
        -- intros (m & Hs & Hl & Hp & ->). destruct m as [|c' m]; [discriminate|].
           simpl in *. inversion Hs; subst. apply andb_true_iff in Hp as [_ Hp].
           exists m. rewrite last_of_cons. auto.
      * split; [discriminate|]. intros (m & Hs & Hl & Hp & _).
        destruct m as [|c' m]; [discriminate|]. simpl in *. inversion Hs; subst.
        rewrite Hc in Hp. discriminate.
Qed.

Section Matcher.
Context {A : Type}.

(** A repetition of exactly [n] characters of one class. *)
Lemma rep_exact (p : N -> bool) (k : @cont A) n : forall fuel prev s caps,
  (length s < fuel)%nat ->
  rep_loop (rmatch (Cls p)) k fuel n (Some n) prev s caps
  = match take_class p n prev s with
    | Some (prev', s') => k prev' s' caps
    | None => None
    end.
Proof.
  induction n as [|n IH]; intros fuel prev s caps Hf.
  - destruct fuel; reflexivity.
  - destruct fuel as [|fuel]; [lia|]. simpl.
    destruct s as [|c s]; [reflexivity|].
    destruct (p c); [|reflexivity].
    replace (length s <? length (c :: s))%nat with true
      by (symmetry; apply Nat.ltb_lt; simpl; lia).
    rewrite IH by (simpl in Hf; lia).
    destruct (take_class p n (Some c) s) as [[prev' s']|]; [|reflexivity].
    destruct (k prev' s' caps); reflexivity.
Qed.

Lemma rmatch_times (p : N -> bool) n prev s caps (k : @cont A) :
  rmatch (times n (Cls p)) prev s caps k
  = match take_class p n prev s with
    | Some (prev', s') => k prev' s' caps
    | None => None
    end.
Proof.
  unfold times.
  change (rmatch (Rep n (Some n) (Cls p)) prev s caps k)
    with (rep_loop (rmatch (Cls p)) k (S (length s)) n (Some n) prev s caps).
  apply rep_exact. lia.
Qed.

End Matcher.

Lemma last_of_nil prev : last_of prev [] = prev.
Proof. reflexivity. Qed.

Lemma search_from_unfold r prev s :
  search_from r prev s
  = match match_here r prev s with
    | Some m => Some (O, m)
    | None =>
      match s with
      | c :: s' =>
        match search_from r (Some c) s' with
        | Some (i, m) => Some (S i, m)
        | None => None
        end
      | [] => None
      end
    end.
Proof. destruct s; reflexivity. Qed.

(** [search_from] finds the first position at which the pattern matches. *)
Lemma search_from_none r : forall s prev,
  search_from r prev s = None <->
  forall pre rest, s = pre ++ rest -> match_here r (last_of prev pre) rest = None.
Proof.
  induction s as [|c s IH]; intros prev; rewrite search_from_unfold.
  - split.
    + intros Hn pre rest Hs.
      destruct pre; [|discriminate]. destruct rest; [|discriminate].
      rewrite last_of_nil. destruct (match_here r prev []); [discriminate|reflexivity].
    + intros Hall. specialize (Hall [] [] eq_refl). rewrite last_of_nil in Hall.
      rewrite Hall. reflexivity.
  - split.
    + intros Hn pre rest Hs.
      destruct (match_here r prev (c :: s)) eqn:Hm; [discriminate|].
      destruct (search_from r (Some c) s) as [[i m]|] eqn:Hsf; [discriminate|].
      destruct pre as [|c' pre].
      * simpl in Hs. subst rest. rewrite last_of_nil. exact Hm.
      * simpl in Hs. inversion Hs; subst. rewrite last_of_cons.
        exact (proj1 (IH (Some c')) Hsf pre rest eq_refl).
    + intros Hall.
      pose proof (Hall [] (c :: s) eq_refl) as H0. rewrite last_of_nil in H0.
      rewrite H0.
      assert (Hsf : search_from r (Some c) s = None).
      { apply IH. intros pre rest Hpr.
        specialize (Hall (c :: pre) rest). rewrite last_of_cons in Hall.
        apply Hall. simpl. rewrite Hpr. reflexivity. }
      rewrite Hsf. reflexivity.
Qed.

Lemma search_from_some r : forall s prev i m,
  search_from r prev s = Some (i, m) <->
  exists pre rest,
    s = pre ++ rest /\ length pre = i /\
    match_here r (last_of prev pre) rest = Some m /\
    forall pre' rest', s = pre' ++ rest' -> (length pre' < i)%nat ->
                       match_here r (last_of prev pre') rest' = None.
Proof.
  induction s as [|c s IH]; intros prev i m; rewrite search_from_unfold.
  - split.
    + destruct (match_here r prev []) as [m0|] eqn:Hm; [|discriminate].
      intros Heq. inversion Heq; subst. exists [], [].
      split; [reflexivity|]. split; [reflexivity|]. split; [exact Hm|].
      intros pre' rest' _ Hlt. simpl in Hlt. lia.
    + intros (pre & rest & Hs & Hl & Hh & _).
      destruct pre; [|discriminate]. destruct rest; [|discriminate].
      rewrite last_of_nil in Hh. rewrite Hh. simpl in Hl. subst i. reflexivity.
  - split.
    + destruct (match_here r prev (c :: s)) as [m0|] eqn:Hm.
      * intros Heq. inversion Heq; subst. exists [], (c :: s).
        split; [reflexivity|]. split; [reflexivity|]. split; [exact Hm|].
        intros pre' rest' _ Hlt. simpl in Hlt. lia.
      * destruct (search_from r (Some c) s) as [[j m1]|] eqn:Hsf; [|discriminate].
        intros Heq. inversion Heq; subst.
        apply IH in Hsf as (pre & rest & Hs & Hl & Hh & Hmin).
        exists (c :: pre), rest. rewrite last_of_cons.
        split; [simpl; rewrite Hs; reflexivity|].
        split; [simpl; rewrite Hl; reflexivity|]. split; [exact Hh|].
        intros pre' rest' Hpr Hlt. destruct pre' as [|c' pre'].
        -- simpl in Hpr. subst rest'. rewrite last_of_nil. exact Hm.
        -- simpl in Hpr. inversion Hpr; subst c'. rewrite last_of_cons.
           apply Hmin; [assumption|simpl in Hlt; lia].
    + intros (pre & rest & Hpr & Hl & Hh & Hmin). destruct pre as [|c' pre].
      * simpl in Hpr. subst rest. rewrite last_of_nil in Hh. rewrite Hh.
        simpl in Hl. subst i. reflexivity.
      * simpl in Hpr. inversion Hpr; subst c'. rewrite last_of_cons in Hh.
        pose proof (Hmin [] (c :: s) eq_refl) as H0. rewrite last_of_nil in H0.
        rewrite <- H1. rewrite H0 by (simpl in *; lia).
        assert (Hsf : search_from r (Some c) s = Some (length pre, m)).
        { apply IH. exists pre, rest.
          split; [assumption|]. split; [reflexivity|]. split; [exact Hh|].
          intros pre' rest' Hpr' Hlt.
          specialize (Hmin (c :: pre') rest'). rewrite last_of_cons in Hmin.
          apply Hmin; [simpl; rewrite Hpr'; reflexivity|simpl in Hl |- *; lia]. }
        rewrite Hsf. simpl in Hl. subst i. reflexivity.
Qed.

End ReFacts.

(** ** The two ISIN extractors *)

Module IsinFacts.
Import Re ReFacts Utils FinancialOperationsParser.

(** Twelve characters: two of [[A-Z]], then ten of [[A-Z0-9]]. *)
Definition isin_shape (m : pystr) : Prop :=
  length m = 12%nat /\ forallb AZ (take 2 m) = true /\ forallb AZ09 (drop 2 m) = true.

(** [m] stands in [s] after [i] characters, between two word boundaries. *)
Definition isin_occurs (s : pystr) (i : nat) (m : pystr) : Prop :=
  exists pre post,
    s = pre ++ m ++ post /\ length pre = i /\ isin_shape m /\
    at_boundary (last pre) (m ++ post) = true /\ at_boundary (last m) post = true.

(** Twelve characters of the pattern of [utils], case-insensitively: two
    letters, nine letters or ASCII digits, one decimal digit of any script. *)
Definition attr_isin_shape (m : pystr) : Prop :=
  length m = 12%nat /\ forallb AZ_i (take 2 m) = true /\
  forallb AZ09_i (take 9 (drop 2 m)) = true /\ forallb isdecimal (drop 11 m) = true.

Definition attr_isin_occurs (s : pystr) (m : pystr) : Prop :=
  exists pre post, s = pre ++ m ++ post /\ attr_isin_shape m.

Lemma last_of_None m : last_of None m = last m.
Proof. unfold last_of. destruct (last m); reflexivity. Qed.

Lemma last_of_nonempty prev m : m <> [] -> last_of prev m = last m.
Proof.
  intros Hm. unfold last_of. destruct (last m) eqn:Hl; [reflexivity|].
  apply last_None in Hl. contradiction.
Qed.

Lemma text_of_match (m post : pystr) :
  take (length (m ++ post) - length post) (m ++ post) = m.
Proof.
  rewrite length_app. replace (length m + length post - length post)%nat
    with (length m) by lia.
  apply take_app_length.
Qed.

Lemma isin_match_here prev s :
  match_here RE_ISIN prev s
  = if at_boundary prev s then
      match take_class AZ 2 prev s with
      | Some (p1, s1) =>
        match take_class AZ09 10 p1 s1 with
        | Some (p2, s2) =>
          if at_boundary p2 s2
          then Some {| m_text := take (length s - length s2) s; m_rest := s2;
                       m_groups := [] |}
          else None
        | None => None
        end
      | None => None
      end
    else None.
Proof.
  unfold match_here, RE_ISIN. cbn [seq rmatch].
  destruct (at_boundary prev s); [|reflexivity].
  rewrite rmatch_times. destruct (take_class AZ 2 prev s) as [[p1 s1]|]; [|reflexivity].
  rewrite rmatch_times. destruct (take_class AZ09 10 p1 s1) as [[p2 s2]|]; reflexivity.
Qed.

Lemma isin_match_here_spec prev s r :
  match_here RE_ISIN prev s = Some r <->
  exists m post,
    s = m ++ post /\ isin_shape m /\ at_boundary prev s = true /\
    at_boundary (last m) post = true /\
    r = {| m_text := m; m_rest := post; m_groups := [] |}.
Proof.
  rewrite isin_match_here. split.
  - destruct (at_boundary prev s) eqn:Hb; [|discriminate].
    destruct (take_class AZ 2 prev s) as [[p1 s1]|] eqn:H1; [|discriminate].
    destruct (take_class AZ09 10 p1 s1) as [[p2 s2]|] eqn:H2; [|discriminate].
    destruct (at_boundary p2 s2) eqn:Hb2; [|discriminate].
    intros Hr. inversion Hr; subst r. clear Hr.
    apply take_class_spec in H1 as (m1 & -> & Hl1 & Hp1 & ->).
    apply take_class_spec in H2 as (m2 & -> & Hl2 & Hp2 & ->).
    exists (m1 ++ m2), s2.
    assert (Hne : m1 ++ m2 <> []) by (destruct m1; [discriminate|discriminate]).
    rewrite <- last_of_app, (last_of_nonempty _ _ Hne) in Hb2.
    rewrite app_assoc, text_of_match.
    repeat split; auto.
    + rewrite length_app. lia.
    + rewrite take_app_length'; auto.
    + rewrite drop_app_length'; auto.
  - intros (m & post & -> & (Hl & Hp1 & Hp2) & Hb & Hb2 & ->). rewrite Hb.
    assert (H1 : take_class AZ 2 prev (m ++ post)
                 = Some (last_of prev (take 2 m), drop 2 m ++ post)).
    { apply take_class_spec. exists (take 2 m).
      rewrite app_assoc, take_drop, length_take. repeat split; auto. lia. }
    rewrite H1.
    assert (H2 : take_class AZ09 10 (last_of prev (take 2 m)) (drop 2 m ++ post)
                 = Some (last_of (last_of prev (take 2 m)) (drop 2 m), post)).
    { apply take_class_spec. exists (drop 2 m).
      rewrite length_drop. repeat split; auto. lia. }
    rewrite H2, <- last_of_app, take_drop.
    assert (Hne : m <> []) by (destruct m; [discriminate|discriminate]).
    rewrite (last_of_nonempty _ _ Hne), Hb2, text_of_match. reflexivity.
Qed.

(** What [RE_ISIN.search] returns: the first occurrence, or nothing. *)
Lemma isin_search_first s i r :
  search RE_ISIN s = Some (i, r) ->
  isin_occurs s i (m_text r) /\ forall j m', isin_occurs s j m' -> (i <= j)%nat.
Proof.
  unfold search. intros Hs.
  apply search_from_some in Hs as (pre & rest & -> & Hl & Hh & Hmin).
  rewrite last_of_None in Hh.
  apply isin_match_here_spec in Hh as (m & post & -> & Hshape & Hb & Hb2 & ->).
  split.
  - exists pre, post. simpl. auto.
  - intros j m' (pre' & post' & Hs' & Hl' & Hshape' & Hb' & Hb2').
    destruct (Nat.le_gt_cases i j) as [Hle|Hgt]; [exact Hle|exfalso].
    specialize (Hmin pre' (m' ++ post') Hs' ltac:(lia)).
    rewrite last_of_None in Hmin.
    assert (Hm : match_here RE_ISIN (last pre') (m' ++ post')
                 = Some {| m_text := m'; m_rest := post'; m_groups := [] |}).
    { apply isin_match_here_spec. exists m', post'. auto. }
    congruence.
Qed.

Lemma isin_search_none s :
  search RE_ISIN s = None <-> forall i m, ~ isin_occurs s i m.
Proof.
  unfold search. rewrite search_from_none. split.
  - intros Hall i m (pre & post & -> & Hl & Hshape & Hb & Hb2).
    specialize (Hall pre (m ++ post) eq_refl). rewrite last_of_None in Hall.
    assert (Hm : match_here RE_ISIN (last pre) (m ++ post)
                 = Some {| m_text := m; m_rest := post; m_groups := [] |}).
    { apply isin_match_here_spec. exists m, post. auto. }
    congruence.
  - intros Hall pre rest ->. rewrite last_of_None.
    destruct (match_here RE_ISIN (last pre) rest) as [r|] eqn:Hm; [|reflexivity].
    apply isin_match_here_spec in Hm as (m & post & -> & Hshape & Hb & Hb2 & ->).
    exfalso. apply (Hall (length pre) m). exists pre, post. auto.
Qed.

Lemma extract_isin_none s :
  (forall i m, ~ isin_occurs s i m) -> _extract_isin s = u "".
Proof.
  intros Hall. unfold _extract_isin. destruct (negb (truthy s)); [reflexivity|].
  rewrite (proj2 (isin_search_none s) Hall). reflexivity.
Qed.

Lemma rmatch_cls {A} (p : N -> bool) prev s caps (k : @cont A) :
  rmatch (Cls p) prev s caps k
  = match take_class p 1 prev s with
    | Some (prev', s') => k prev' s' caps
    | None => None
    end.
Proof. simpl. destruct s as [|c s]; [reflexivity|]. destruct (p c); reflexivity. Qed.

Lemma rmatch_cat {A} a b prev s caps (k : @cont A) :
  rmatch (Cat a b) prev s caps k
  = rmatch a prev s caps (fun prev' s' caps' => rmatch b prev' s' caps' k).
Proof. reflexivity. Qed.

Lemma attr_isin_match_here_spec prev s r :
  match_here ISIN_RE prev s = Some r <->
  exists m post,
    s = m ++ post /\ attr_isin_shape m /\
    r = {| m_text := m; m_rest := post; m_groups := [] |}.
Proof.
  unfold match_here, ISIN_RE. cbn [seq].
  rewrite rmatch_cat, rmatch_times. split.
  - destruct (take_class AZ_i 2 prev s) as [[p1 s1]|] eqn:H1; [|discriminate].
    rewrite rmatch_cat, rmatch_times.
    destruct (take_class AZ09_i 9 p1 s1) as [[p2 s2]|] eqn:H2; [|discriminate].
    rewrite rmatch_cls.
    destruct (take_class isdecimal 1 p2 s2) as [[p3 s3]|] eqn:H3; [|discriminate].
    intros Hr. inversion Hr; subst r. clear Hr.
    apply take_class_spec in H1 as (m1 & -> & Hl1 & Hp1 & ->).
    apply take_class_spec in H2 as (m2 & -> & Hl2 & Hp2 & ->).
    apply take_class_spec in H3 as (m3 & -> & Hl3 & Hp3 & ->).
    exists (m1 ++ m2 ++ m3), s3.
    replace (m1 ++ m2 ++ m3 ++ s3) with ((m1 ++ m2 ++ m3) ++ s3)
      by (rewrite <- !app_assoc; reflexivity).
    rewrite text_of_match. repeat split; auto.
    + rewrite !length_app. lia.
    + rewrite take_app_length'; auto.
    + rewrite drop_app_length' by auto. rewrite take_app_length'; auto.
    + rewrite app_assoc. rewrite drop_app_length'; auto. rewrite length_app. lia.
  - intros (m & post & -> & (Hl & Hp1 & Hp2 & Hp3) & ->).
    assert (H1 : take_class AZ_i 2 prev (m ++ post)
                 = Some (last_of prev (take 2 m), drop 2 m ++ post)).
    { apply take_class_spec. exists (take 2 m).
      rewrite app_assoc, take_drop, length_take. repeat split; auto. lia. }
    rewrite H1, rmatch_cat, rmatch_times.
    assert (H2 : take_class AZ09_i 9 (last_of prev (take 2 m)) (drop 2 m ++ post)
                 = Some (last_of (last_of prev (take 2 m)) (take 9 (drop 2 m)),
                         drop 11 m ++ post)).
    { apply take_class_spec. exists (take 9 (drop 2 m)).
      rewrite app_assoc. replace (drop 11 m) with (drop 9 (drop 2 m))
        by (rewrite drop_drop; reflexivity).
      rewrite take_drop, length_take, length_drop. repeat split; auto. lia. }
    rewrite H2, rmatch_cls.
    assert (H3 : take_class isdecimal 1
                   (last_of (last_of prev (take 2 m)) (take 9 (drop 2 m)))
                   (drop 11 m ++ post)
                 = Some (last_of (last_of (last_of prev (take 2 m)) (take 9 (drop 2 m)))
                           (drop 11 m), post)).
    { apply take_class_spec. exists (drop 11 m).
      rewrite length_drop. repeat split; auto. lia. }
    rewrite H3, text_of_match. reflexivity.
Qed.

Lemma attr_isin_search_none s :
  search ISIN_RE s = None <-> forall m, ~ attr_isin_occurs s m.
Proof.
  unfold search. rewrite search_from_none. split.
  - intros Hall m (pre & post & -> & Hshape).
    specialize (Hall pre (m ++ post) eq_refl).
    assert (Hm : match_here ISIN_RE (last_of None pre) (m ++ post)
                 = Some {| m_text := m; m_rest := post; m_groups := [] |}).
    { apply attr_isin_match_here_spec. exists m, post. auto. }
    congruence.
  - intros Hall pre rest ->.
    destruct (match_here ISIN_RE (last_of None pre) rest) as [r|] eqn:Hm; [|reflexivity].
    apply attr_isin_match_here_spec in Hm as (m & post & -> & Hshape & ->).
    exfalso. apply (Hall m). exists pre, post. auto.
Qed.

(** C2, as the code has it.  The isin field of the financial operations
    parser is the first occurrence in the comment of two uppercase Latin
    letters followed by ten uppercase letters or digits, between word
    boundaries, matched case-sensitively: either there is a first
    occurrence and it is the result, or there is none (as in an empty
    comment) and the result is the empty string. *)
Theorem fin_ops_isin_first_match comment :
  (exists i m,
      isin_occurs comment i m /\
      (forall j m', isin_occurs comment j m' -> (i <= j)%nat) /\
      _extract_isin comment = m) \/
  ((forall i m, ~ isin_occurs comment i m) /\ _extract_isin comment = u "").
Proof.
  destruct (search RE_ISIN comment) as [[i r]|] eqn:Hs.
  - left. destruct (isin_search_first _ _ _ Hs) as [Hocc Hmin].
    exists i, (m_text r). split; [exact Hocc|]. split; [exact Hmin|].
    unfold _extract_isin. rewrite Hs.
    destruct comment as [|c comment]; [|reflexivity].
    destruct Hocc as (pre & post & Hc & _ & (Hl & _) & _).
    destruct pre; [|discriminate]. destruct (m_text r); discriminate.
  - right. pose proof (proj1 (isin_search_none comment) Hs) as Hnone.
    split; [exact Hnone|]. apply extract_isin_none, Hnone.
Qed.

(** The pattern as the specification words it: matched
    case-insensitively. *)
Definition RE_ISIN_case_insensitive : re :=
  seq [Bnd; times 2 (Cls AZ_i); times 10 (Cls AZ09_i); Bnd].

Definition isin_case_insensitive (comment_text : pystr) : pystr :=
  if negb (truthy comment_text) then u ""
  else match search RE_ISIN_case_insensitive comment_text with
       | Some (_, m) => m_text m
       | None => u ""
       end.

(** Counterexample to C2 as stated: a lowercase identifier is no match for
    the parser, though it is one case-insensitively. *)
Lemma lowercase_isin_not_extracted :
  _extract_isin (u "купон ru000a0jx0j2") = u "" /\
  isin_case_insensitive (u "купон ru000a0jx0j2") = u "ru000a0jx0j2" /\
  _extract_isin (u "купон RU000A0JX0J2") = u "RU000A0JX0J2".
Proof. repeat split; vm_compute; reflexivity. Qed.

(** C3. The two extractors fall back differently.  On a non-empty string
    in which its pattern (two letters, nine letters or digits, one decimal
    digit of any script, the letters in either case) does not occur,
    [extract_isin_from_attr] returns the
    string stripped of surrounding whitespace; on a string in which its
    pattern does not occur, the extraction of the financial operations
    parser returns the empty string.  "unknown-123" shows both. *)
Theorem isin_fallbacks_differ s :
  s <> [] ->
  ((forall m, ~ attr_isin_occurs s m) -> extract_isin_from_attr (Some s) = strip s) /\
  ((forall i m, ~ isin_occurs s i m) -> _extract_isin s = u "") /\
  extract_isin_from_attr (Some (u "unknown-123")) = u "unknown-123" /\
  _extract_isin (u "unknown-123") = u "".
Proof.
  intros Hne. split; [|split; [|split]].
  - intros Hall. unfold extract_isin_from_attr.
    destruct s as [|c s]; [congruence|].
    rewrite (proj2 (attr_isin_search_none (c :: s)) Hall). reflexivity.
  - apply extract_isin_none.
  - vm_compute. reflexivity.
  - vm_compute. reflexivity.
Qed.

Lemma too_short_for_isin (s : pystr) :
  (length s < 12)%nat ->
  (forall m, ~ attr_isin_occurs s m) /\ (forall i m, ~ isin_occurs s i m).
Proof.
  intros Hlen. split.
  - intros m (pre & post & -> & (Hl & _)). rewrite !length_app in Hlen. lia.
  - intros i m (pre & post & -> & _ & (Hl & _) & _). rewrite !length_app in Hlen. lia.
Qed.

(** Word characters and digits are those of Unicode: a Greek letter before
    the identifier leaves no word boundary, and the last character of the
    pattern of [utils] may be a digit of any script. *)
Lemma isin_beside_other_scripts :
  _extract_isin (u "αRU000A0JX0J2") = u "" /\
  _extract_isin (u "α RU000A0JX0J2") = u "RU000A0JX0J2" /\
  _extract_isin (u "RU000A0JX0J2٣") = u "" /\
  extract_isin_from_attr (Some (u " ab123456789٣ ")) = u "AB123456789٣" /\
  extract_isin_from_attr (Some (u " aſ12345678ı9 ")) = u "AS12345678I9" /\
  extract_isin_from_attr (Some (u " ab123456789x ")) = u "ab123456789x".
Proof. repeat split; vm_compute; reflexivity. Qed.

Lemma isin_fallbacks_differ_witness :
  extract_isin_from_attr (Some (u " unknown-1 ")) = strip (u " unknown-1 ") /\
  strip (u " unknown-1 ") = u "unknown-1" /\
  _extract_isin (u " unknown-1 ") = u "".
Proof.
  assert (Hne : u " unknown-1 " <> []) by discriminate.
  destruct (too_short_for_isin (u " unknown-1 ")) as [Ha Hf]; [vm_compute; lia|].
  destruct (isin_fallbacks_differ (u " unknown-1 ") Hne) as (H1 & H2 & _).
  split; [exact (H1 Ha)|]. split; [reflexivity|exact (H2 Hf)].
Defined.

End IsinFacts.

(** ** Transfers: the counters *)

Module TransfersCounters.
Import Utils XmlParserBase TransfersParser.

(** Every row is counted once, and there is one record per parsed row. *)
Definition conversions_add_up (ops : list OperationDTO) (st : Stats) : Prop :=
  total_rows st = parsed st + skipped_not_conversion st + skipped_no_qty st
                  + skipped_no_date st + skipped_invalid st
  /\ Z.of_nat (length ops) = parsed st.

Definition diag_conversions_add_up (ops : list OperationDTO) (diag : gmap string pyval)
  : Prop :=
  exists t p c q d i,
    diag !! "total_rows" = Some (VInt t) /\ diag !! "parsed" = Some (VInt p) /\
    diag !! "skipped_not_conversion" = Some (VInt c) /\
    diag !! "skipped_no_qty" = Some (VInt q) /\ diag !! "skipped_no_date" = Some (VInt d) /\
    diag !! "skipped_invalid" = Some (VInt i) /\
    t = p + c + q + d + i /\ Z.of_nat (length ops) = p.

Section WithHost.
Context `{Host}.

(** A row of the transfers report never raises. *)
Lemma conversion_row_returns elem st :
  exists o st',
    _process_details_element elem st = (Ok o, st') /\
    forall ops, conversions_add_up ops st -> conversions_add_up (append_if ops o) st'.
Proof.
  unfold _process_details_element, conversions_add_up. se_unfold.
  destruct (negb (_is_conversion_operation _)).
  { do 2 eexists. split; [reflexivity|]. intros ops [Hs Hl]. simpl. lia. }
  destruct (PyFloat.is_zero _).
  { do 2 eexists. split; [reflexivity|]. intros ops [Hs Hl]. simpl. lia. }
  destruct (_extract_date _) as [dt|].
  2:{ do 2 eexists. split; [reflexivity|]. intros ops [Hs Hl]. simpl. lia. }
  destruct (OperationDTO_new _) as [op|e].
  - do 2 eexists. split; [reflexivity|]. intros ops [Hs Hl]. simpl.
    rewrite length_app. simpl. lia.
  - do 2 eexists. split; [reflexivity|]. intros ops [Hs Hl]. simpl. lia.
Qed.

Lemma conversions_traverse elems : forall ops st,
  exists ops' st',
    traverse elems ops st = (ops', st', None) /\
    (conversions_add_up ops st -> conversions_add_up ops' st').
Proof.
  induction elems as [|elem rest IH]; intros ops st; simpl.
  - eauto.
  - destruct (negb _); [apply IH|].
    destruct (conversion_row_returns elem st) as (o & st1 & -> & Hstep).
    destruct (IH (append_if ops o) st1) as (ops' & st' & Hrun & Hinv).
    exists ops', st'. split; [exact Hrun|]. auto.
Qed.

End WithHost.

(** The transfers parser never raises inside a row: the traversal of any
    sequence of elements runs to its end, and an "error" entry can only come
    from the XML reader or from opening the source.  So every dictionary
    the entry point returns, with or without an "error" entry, satisfies
    total_rows = parsed + skipped_not_conversion + skipped_no_qty +
    skipped_no_date + skipped_invalid, and the sequence returned with it
    has [parsed] records. *)
Theorem transfers_counters_always_add_up `{Host} :
  (forall elems ops st, exists ops' st', traverse elems ops st = (ops', st', None)) /\
  (forall x fs ops diag fs',
      parse_transfers_from_xml x fs = (Ok (ops, diag), fs') ->
      diag_conversions_add_up ops diag).
Proof.
  split.
  - intros elems ops st.
    destruct (conversions_traverse elems ops st) as (ops' & st' & Hrun & _). eauto.
  - intros x fs ops diag fs' Hrun.
    unfold parse_transfers_from_xml, parse in Hrun.
    destruct (prepare_xml_source x fs) as [[[source cleanup]|e] fs1]; [|discriminate].
    unfold parse_try in Hrun.
    destruct (match read_file source fs1 with
              | Ok data => ET_iterparse data
              | Raise e => ([], Some e)
              end) as [elems stop].
    destruct (conversions_traverse elems [] __init__) as (ops1 & st & Htr & Hinv).
    rewrite Htr in Hrun.
    destruct Hinv as [Hsum Hlen]; [unfold conversions_add_up; simpl; lia|].
    exists (total_rows st), (parsed st), (skipped_not_conversion st), (skipped_no_qty st),
      (skipped_no_date st), (skipped_invalid st).
    destruct stop as [e|]; inversion Hrun; subst; unfold stats_dict;
      repeat split; try (by simplify_map_eq); assumption.
Qed.

(** A document whose reader fails after a conversion and a plain transfer. *)
Definition torn_transfers : Host :=
  host_reading
    ([Elem (u "Details")
        [(u "oper_type", u "Перевод"); (u "comment_new", u "Конвертация ЦБ");
         (u "qty", u "15"); (u "settlement_date", u "2024-03-25")] [];
      Elem (u "details") [(u "oper_type", u "Перевод"); (u "qty", u "1")] []],
     Some (Exn "ParseError" (u "unclosed token: line 9, column 0")))
    no_document.

Lemma transfers_counters_always_add_up_witness :
  match @parse_transfers_from_xml torn_transfers (IsBytes 5 [x3c])
          {| fs_files := ∅; fs_writable := true |} with
  | (Ok (ops, diag), _) =>
    length ops = 1%nat /\ diag !! "total_rows" = Some (VInt 2) /\
    diag !! "error" = Some (VStr (u "unclosed token: line 9, column 0")) /\
    diag_conversions_add_up ops diag
  | (Raise _, _) => False
  end.
Proof.
  pose proof (proj2 (@transfers_counters_always_add_up torn_transfers)
                (IsBytes 5 [x3c]) {| fs_files := ∅; fs_writable := true |}) as Hthm.
  assert (Hval :
    match @parse_transfers_from_xml torn_transfers (IsBytes 5 [x3c])
            {| fs_files := ∅; fs_writable := true |} with
    | (Ok (ops, diag), _) =>
      length ops = 1%nat /\ diag !! "total_rows" = Some (VInt 2) /\
      diag !! "error" = Some (VStr (u "unclosed token: line 9, column 0"))
    | (Raise _, _) => False
    end) by (vm_compute; auto).
  destruct (@parse_transfers_from_xml torn_transfers (IsBytes 5 [x3c])
              {| fs_files := ∅; fs_writable := true |})
    as [[[ops diag]|e] fs']; [|exact Hval].
  destruct Hval as (Hlen & Htot & Herr).
  split; [exact Hlen|]. split; [exact Htot|]. split; [exact Herr|].
  exact (Hthm ops diag fs' eq_refl).
Defined.

End TransfersCounters.

(** ** The entry points: what they leave in the file system *)

Module FileSystemEffects.
Import Utils XmlParserBase EntryPoints.

(** the name of the temporary file of a [bytes] object *)
Definition tmp_name (id : Z) : pystr := u "__xml_tmp_" ++ str_of_Z id ++ u "__.xml".

Lemma staged_then_cleaned id data fs :
  fs_writable fs = true ->
  exists fs1,
    prepare_xml_source (IsBytes id data) fs = (Ok (tmp_name id, true), fs1) /\
    cleanup_tmp_file (tmp_name id) true fs1
    = {| fs_files := delete (tmp_name id) (fs_files fs); fs_writable := true |}.
Proof.
  intros Hw. unfold prepare_xml_source, write_bytes. se_unfold. rewrite Hw.
  eexists. split; [reflexivity|].
  unfold cleanup_tmp_file, unlink. simpl. rewrite delete_insert_eq. reflexivity.
Qed.

(** The temporary file of the streaming parsers never outlives the call.
    With a path as input the trades and transfers entry points leave the
    file system as it was; with bytes and a writable working directory they
    write the file [__xml_tmp_<id>__.xml] and remove it in the [finally]
    clause, whether the traversal ended normally or with an exception, so
    that afterwards no file of that name exists (one that existed before the
    call is gone as well) and every other file is unchanged.  The financial
    operations entry point never touches the file system. *)
Theorem temporary_file_removed `{Host} :
  (forall p fs,
      (parse_trades_from_xml (IsPath p) fs).2 = fs /\
      (parse_transfers_from_xml (IsPath p) fs).2 = fs) /\
  (forall id data fs, fs_writable fs = true ->
      let after := {| fs_files := delete (tmp_name id) (fs_files fs);
                      fs_writable := true |} in
      (parse_trades_from_xml (IsBytes id data) fs).2 = after /\
      (parse_transfers_from_xml (IsBytes id data) fs).2 = after) /\
  (forall x fs, (parse_fin_operations_from_xml x fs).2 = fs).
Proof.
  split; [|split].
  - intros p fs. split.
    + rewrite (trades_parse_staged (IsPath p) fs p false fs eq_refl). reflexivity.
    + rewrite (transfers_parse_staged (IsPath p) fs p false fs eq_refl). reflexivity.
  - intros id data fs Hw after.
    destruct (staged_then_cleaned id data fs Hw) as (fs1 & Hp & Hc). split.
    + rewrite (trades_parse_staged _ _ _ _ _ Hp). exact Hc.
    + rewrite (transfers_parse_staged _ _ _ _ _ Hp). exact Hc.
  - intros x fs. unfold parse_fin_operations_from_xml, FinancialOperationsParser.parse.
    destruct (FinancialOperationsParser.parse_try x fs _) as [[out|e] st]; reflexivity.
Qed.

(** A reader that fails after one row, and a directory that holds a report
    and, by chance, a file with the name of the temporary file. *)
Definition torn_trades : Host :=
  host_reading
    ([Elem (u "details") [(u "qty", u "5"); (u "db_time", u "25.03.2024 10:00:00")] []],
     Some (Exn "ParseError" (u "unclosed token: line 3, column 0")))
    no_document.

Definition crowded_fs : FS :=
  {| fs_files := {[ u "report.xml" := [x3c]; u "__xml_tmp_7__.xml" := [x00] ]};
     fs_writable := true |}.

Lemma temporary_file_removed_witness :
  (@parse_trades_from_xml torn_trades (IsBytes 7 [x3c]) crowded_fs).2
  = {| fs_files := delete (tmp_name 7) (fs_files crowded_fs); fs_writable := true |} /\
  delete (tmp_name 7) (fs_files crowded_fs) !! u "report.xml" = Some [x3c] /\
  delete (tmp_name 7) (fs_files crowded_fs) !! u "__xml_tmp_7__.xml" = None.
Proof.
  split; [|split; vm_compute; reflexivity].
  exact (proj1 (proj1 (proj2 (@temporary_file_removed torn_trades))
                  7 [x3c] crowded_fs eq_refl)).
Defined.

End FileSystemEffects.

(** ** Financial operations: the tree searches *)

Module FinOpsTree.
Import Utils XmlParserBase FinancialOperationsParser.

Lemma iter_unfold e : iter e = e :: flat_map iter (children e).
Proof. destruct e as [t a cs]. reflexivity. Qed.

Lemma child_in_iter e c : In c (children e) -> In c (iter e).
Proof.
  intros Hc. rewrite iter_unfold. right. apply in_flat_map. exists c.
  split; [exact Hc|]. rewrite iter_unfold. left. reflexivity.
Qed.

(** the test of [_collect_rn_nodes] *)
Definition is_rn (el : Element) : bool := str_eqb (_local_name (tag el)) (u "rn").

(** The [rn] nodes of a settlement date are all its descendants of that
    local name, at any depth, in document order.  The second search of
    [_collect_rn_nodes], over the direct children, runs only when the first
    one found nothing and then finds nothing either, since the children are
    among the descendants: it never contributes a node. *)
Theorem rn_nodes_are_the_descendants settlement_node :
  _collect_rn_nodes settlement_node = List.filter is_rn (iter settlement_node) /\
  (List.filter is_rn (iter settlement_node) = [] ->
   List.filter is_rn (children settlement_node) = []).
Proof.
  assert (Hdead : List.filter is_rn (iter settlement_node) = [] ->
                  List.filter is_rn (children settlement_node) = []).
  { intros Hnone. destruct (List.filter is_rn (children settlement_node)) as [|x l] eqn:Hf;
      [reflexivity|exfalso].
    assert (Hx : In x (List.filter is_rn (children settlement_node)))
      by (rewrite Hf; left; reflexivity).
    apply filter_In in Hx as [Hin Hrn].
    assert (Hx' : In x (List.filter is_rn (iter settlement_node))).
    { apply filter_In. split; [apply child_in_iter, Hin|exact Hrn]. }
    rewrite Hnone in Hx'. exact Hx'. }
  split; [|exact Hdead].
  unfold _collect_rn_nodes. fold is_rn.
  destruct (List.filter is_rn (iter settlement_node)) eqn:Hf; [|reflexivity].
  apply Hdead. reflexivity.
Qed.

(** A settlement date with an [rn] two levels down. *)
Definition nested_settlement : Element :=
  Elem (u "settlement_date") [(u "settlement_date", u "2024-03-25")]
    [Elem (u "rn_Collection") [] [Elem (u "rn") [(u "last_update", u "2024-03-25")] []]].

Lemma rn_nodes_are_the_descendants_witness :
  List.filter is_rn (children (Elem (u "settlement_date") [] [Elem (u "x") [] []])) = [] /\
  length (_collect_rn_nodes nested_settlement) = 1%nat.
Proof.
  split.
  - apply (proj2 (rn_nodes_are_the_descendants
                    (Elem (u "settlement_date") [] [Elem (u "x") [] []]))).
    vm_compute. reflexivity.
  - vm_compute. reflexivity.
Defined.

(** one of the three bytes of the byte order mark *)
Definition is_bom_byte (b : byte) : bool := existsb (Byte.eqb b) BOM.

Lemma bytes_lstrip_run pre : forall rest,
  forallb is_bom_byte pre = true ->
  match rest with b :: _ => is_bom_byte b = false | [] => True end ->
  bytes_lstrip BOM (pre ++ rest) = rest.
Proof.
  induction pre as [|b pre IH]; intros rest Hpre Hrest.
  - destruct rest as [|b rest]; [reflexivity|]. simpl in *.
    unfold is_bom_byte in Hrest. simpl in Hrest. rewrite Hrest. reflexivity.
  - simpl in Hpre. apply andb_true_iff in Hpre as [Hb Hpre].
    change ((b :: pre) ++ rest) with (b :: (pre ++ rest)).
    unfold is_bom_byte in Hb. cbn [bytes_lstrip]. rewrite Hb. apply IH; assumption.
Qed.

(** [_parse_bytes] removes a leading byte order mark with [bytes.lstrip],
    which takes its argument as a set of bytes: after a byte order mark,
    every further leading byte that is one of EF, BB, BF is removed too, and
    the reader receives what follows the run.  Bytes that do not start with
    the full mark are passed to the reader unchanged. *)
Theorem byte_order_mark_stripped `{Host} :
  (forall pre rest,
      forallb is_bom_byte pre = true ->
      match rest with b :: _ => is_bom_byte b = false | [] => True end ->
      _parse_bytes (BOM ++ pre ++ rest) = ET_fromstring rest) /\
  (forall data, bytes_startswith BOM data = false -> _parse_bytes data = ET_fromstring data).
Proof.
  split.
  - intros pre rest Hpre Hrest. unfold _parse_bytes.
    replace (bytes_startswith BOM (BOM ++ pre ++ rest)) with true by reflexivity.
    rewrite app_assoc. rewrite bytes_lstrip_run; [reflexivity| |exact Hrest].
    rewrite forallb_app, Hpre. reflexivity.
  - intros data Hs. unfold _parse_bytes. rewrite Hs. reflexivity.
Qed.

(** a reader that answers with the bytes it was given, as the text of a
    [ParseError] would *)
Definition echo : Host :=
  {| ET_iterparse := fun _ => ([], None);
     ET_fromstring := fun data => Ok (Elem (map Byte.to_N data) [] []);
     fromisoformat := fun _ => Raise (PyFloat.ValueError "Invalid isoformat string");
     OperationDTO_rejects := fun _ => None;
     determine_operation_type := fun _ _ _ => Ok (u "other");
     should_skip_operation := fun _ _ _ => Ok false |}.

Lemma byte_order_mark_stripped_witness :
  @_parse_bytes echo (BOM ++ [xbf; xef] ++ [x3c; x61; x2f; x3e])
  = Ok (Elem (u "<a/>") [] []) /\
  @_parse_bytes echo [xef; xbb; x3c] = Ok (Elem [239; 187; 60]%N [] []).
Proof.
  split.
  - apply (proj1 (@byte_order_mark_stripped echo) [xbf; xef] [x3c; x61; x2f; x3e]);
      reflexivity.
  - apply (proj2 (@byte_order_mark_stripped echo) [xef; xbb; x3c]). reflexivity.
Defined.

End FinOpsTree.

(** ** Financial operations: what a row does to the statistics *)

Module FinOpsLoop.
Import Utils XmlParserBase FinancialOperationsParser.

(** the three counters *)
Definition same_counters (st st' : Stats) : Prop :=
  total_rows st' = total_rows st /\ parsed st' = parsed st /\ skipped st' = skipped st.

Lemma update_stats_cases oper_type comment amount mapped_type st r st' :
  _update_stats oper_type comment amount mapped_type st = (r, st') ->
  same_counters st st' /\ example_comments st' = example_comments st.
Proof.
  unfold _update_stats, same_counters. se_unfold.
  destruct amount as [amount|]; [|intros Hr; inversion Hr; subst; auto].
  destruct (Decimal.add (default Decimal.zero (amounts_by_mapped_type st !! mapped_type))
              amount) as [v|e]; [|intros Hr; inversion Hr; subst; auto].
  set (label_key := if truthy (strip (or_str oper_type (u ""))) then _ else _).
  destruct (truthy label_key).
  - simpl. destruct (Decimal.add _ amount) as [v2|e];
      [|intros Hr; inversion Hr; subst; auto].
    destruct (Decimal.gt0 amount) as [[|]|e]; simpl.
    + destruct (Decimal.add _ amount) as [v3|e]; intros Hr; inversion Hr; subst; auto.
    + destruct (Decimal.lt0 amount) as [[|]|e]; simpl.
      * destruct (Decimal.add _ amount) as [v3|e]; intros Hr; inversion Hr; subst; auto.
      * intros Hr; inversion Hr; subst; auto.
      * intros Hr; inversion Hr; subst; auto.
    + intros Hr; inversion Hr; subst; auto.
  - simpl.
    destruct (Decimal.gt0 amount) as [[|]|e]; simpl.
    + destruct (Decimal.add _ amount) as [v3|e]; intros Hr; inversion Hr; subst; auto.
    + destruct (Decimal.lt0 amount) as [[|]|e]; simpl.
      * destruct (Decimal.add _ amount) as [v3|e]; intros Hr; inversion Hr; subst; auto.
      * intros Hr; inversion Hr; subst; auto.
      * intros Hr; inversion Hr; subst; auto.
    + intros Hr; inversion Hr; subst; auto.
Qed.

(** What [_create_operation_dto] passes to the constructor for a row. *)
Definition row_record (rn_node : Element) (op_type : pystr) (o : OperationDTO) : Prop :=
  let text := (_extract_oper_type_and_comment rn_node).2 in
  operation_type o = op_type /\ comment o = text /\
  isin o = _extract_isin text /\ reg_number o = _extract_reg_number text /\
  currency o = or_str (Some (_extract_currency_and_amount rn_node).1) (u "") /\
  payment_sum o = _decimal_to_float (_extract_currency_and_amount rn_node).2 /\
  quantity o = NInt 0 /\ price o = PyFloat.zero /\ aci o = PyFloat.zero /\
  commission o = PyFloat.zero /\ ticker o = [] /\ operation_id o = [].

Section WithHost.
Context `{Host}.

(** The ways a row ends: with an exception, skipped, or with a record
    after the two updates of the statistics. *)
Lemma process_rn_node_cases rn_node settlement_date st :
  let oper_type := (_extract_oper_type_and_comment rn_node).1 in
  let text := (_extract_oper_type_and_comment rn_node).2 in
  let amount := (_extract_currency_and_amount rn_node).2 in
  let st1 := incr_total_rows st in
  (exists e, _process_rn_node rn_node settlement_date st = (Raise e, st1)) \/
  _process_rn_node rn_node settlement_date st = (Ok None, incr_skipped st1) \/
  (exists op_type o st2,
      op_type <> u "_skip_" /\
      OperationDTO_rejects o = None /\
      row_record rn_node op_type o /\
      _update_stats oper_type text amount op_type st1 = (Ok tt, st2) /\
      _process_rn_node rn_node settlement_date st
      = (Ok (Some o), incr_parsed (_collect_example_comment text st2).2)) \/
  (exists op_type e st2,
      _update_stats oper_type text amount op_type st1 = (Raise e, st2) /\
      _process_rn_node rn_node settlement_date st = (Raise e, st2)).
Proof.
  unfold _process_rn_node, row_record. se_unfold.
  destruct (_extract_oper_type_and_comment rn_node) as [oper_type comment].
  destruct (_extract_currency_and_amount rn_node) as [currency amount]. simpl.
  destruct (_should_skip oper_type comment amount) as [[|]|e];
    [right; left; reflexivity| |left; eauto].
  destruct (determine_operation_type _ _ _) as [op_type|e]; [|left; eauto].
  destruct (str_eqb op_type (u "_skip_")) eqn:Hskip; [right; left; reflexivity|].
  unfold _create_operation_dto, OperationDTO_new.
  match goal with |- context [OperationDTO_rejects ?r] =>
    set (o := r); destruct (OperationDTO_rejects o) as [e|] eqn:Hrej end;
    [left; eauto|].
  destruct (_update_stats oper_type comment amount op_type (incr_total_rows st))
    as [[[]|e] st2] eqn:Hup.
  - right; right; left. exists op_type, o, st2.
    split. { intros ->. unfold str_eqb in Hskip. rewrite bool_decide_eq_false in Hskip.
             apply Hskip. reflexivity. }
    repeat split; try reflexivity; try assumption.
    unfold _collect_example_comment. se_unfold.
    destruct (truthy comment && _); reflexivity.
  - right; right; right. exists op_type, e, st2. auto.
Qed.

(** A row is counted once: under [total_rows] always, and under [skipped]
    or [parsed] when it does not raise. *)
Lemma process_rn_node_counts rn_node settlement_date st r st' :
  _process_rn_node rn_node settlement_date st = (r, st') ->
  total_rows st' = total_rows st + 1 /\
  match r with
  | Ok None => parsed st' = parsed st /\ skipped st' = skipped st + 1
  | Ok (Some _) => parsed st' = parsed st + 1 /\ skipped st' = skipped st
  | Raise _ => True
  end.
Proof.
  intros Hrun.
  destruct (process_rn_node_cases rn_node settlement_date st)
    as [(e & Hc)|[Hc|[(op_type & o & st2 & _ & _ & _ & Hup & Hc)
                     |(op_type & e & st2 & Hup & Hc)]]];
    rewrite Hc in Hrun; inversion Hrun; subst; clear Hrun.
  - auto.
  - simpl. auto.
  - apply update_stats_cases in Hup as [(Ht & Hp & Hs) _]. simpl in *.
    unfold _collect_example_comment. se_unfold.
    destruct (truthy _ && _); simpl; lia.
  - apply update_stats_cases in Hup as [(Ht & Hp & Hs) _]. simpl in *. auto.
Qed.

(** An invariant of the records and the statistics that every returning
    row keeps is kept by the loops. *)
Lemma process_rn_nodes_keep (I : list OperationDTO -> Stats -> Prop) :
  (forall rn_node settlement_date st o st' ops,
      _process_rn_node rn_node settlement_date st = (Ok o, st') ->
      I ops st -> I (append_if ops o) st') ->
  forall rn_nodes settlement_date ops st ops' st',
    process_rn_nodes rn_nodes settlement_date ops st = (Ok ops', st') ->
    I ops st -> I ops' st'.
Proof.
  intros Hstep. induction rn_nodes as [|rn rest IH];
    intros sd ops st ops' st' Hrun Hinv; simpl in Hrun; se_unfold.
  - inversion Hrun; subst. exact Hinv.
  - destruct (_process_rn_node rn sd st) as [[o|e] st1] eqn:Hrow; [|discriminate].
    eapply IH; [exact Hrun|]. eapply Hstep; eauto.
Qed.

Lemma process_settlement_nodes_keep (I : list OperationDTO -> Stats -> Prop) :
  (forall rn_node settlement_date st o st' ops,
      _process_rn_node rn_node settlement_date st = (Ok o, st') ->
      I ops st -> I (append_if ops o) st') ->
  forall settlement_nodes ops st ops' st',
    process_settlement_nodes settlement_nodes ops st = (Ok ops', st') ->
    I ops st -> I ops' st'.
Proof.
  intros Hstep. induction settlement_nodes as [|sn rest IH];
    intros ops st ops' st' Hrun Hinv; simpl in Hrun; se_unfold.
  - inversion Hrun; subst. exact Hinv.
  - destruct (process_rn_nodes _ _ ops st) as [[ops1|e] st1] eqn:Hrows; [|discriminate].
    eapply IH; [exact Hrun|]. eapply process_rn_nodes_keep; eauto.
Qed.

(** An invariant of the statistics that every row keeps, returning or
    not, holds in the state the loops end in, however they end. *)
Lemma process_rn_nodes_state (P : Stats -> Prop) :
  (forall rn_node settlement_date st r st',
      _process_rn_node rn_node settlement_date st = (r, st') -> P st -> P st') ->
  forall rn_nodes settlement_date ops st r st',
    process_rn_nodes rn_nodes settlement_date ops st = (r, st') -> P st -> P st'.
Proof.
  intros Hstep. induction rn_nodes as [|rn rest IH];
    intros sd ops st r st' Hrun Hinv; simpl in Hrun; se_unfold.
  - inversion Hrun; subst. exact Hinv.
  - destruct (_process_rn_node rn sd st) as [[o|e] st1] eqn:Hrow.
    + eapply IH; [exact Hrun|]. eapply Hstep; eauto.
    + inversion Hrun; subst. eapply Hstep; eauto.
Qed.

Lemma process_settlement_nodes_state (P : Stats -> Prop) :
  (forall rn_node settlement_date st r st',
      _process_rn_node rn_node settlement_date st = (r, st') -> P st -> P st') ->
  forall settlement_nodes ops st r st',
    process_settlement_nodes settlement_nodes ops st = (r, st') -> P st -> P st'.
Proof.
  intros Hstep. induction settlement_nodes as [|sn rest IH];
    intros ops st r st' Hrun Hinv; simpl in Hrun; se_unfold.
  - inversion Hrun; subst. exact Hinv.
  - destruct (process_rn_nodes _ _ ops st) as [[ops1|e] st1] eqn:Hrows.
    + eapply IH; [exact Hrun|]. eapply process_rn_nodes_state; eauto.
    + inversion Hrun; subst. eapply process_rn_nodes_state; eauto.
Qed.

(** the settlement date nodes [_parse_root] goes through *)
Definition settlement_nodes_of (root : Element) : list Element :=
  _collect_elements_by_local_name (_find_report_element root) (u "settlement_date").

Lemma parse_root_run root st ops diag st' :
  _parse_root root st = (Ok (ops, diag), st') ->
  process_settlement_nodes (settlement_nodes_of root) [] st = (Ok ops, st') /\
  diag = _finalize_stats st'.
Proof.
  unfold _parse_root, settlement_nodes_of. se_unfold.
  destruct (process_settlement_nodes _ _ _) as [[ops1|e] st1]; [|discriminate].
  intros Hr. inversion Hr; subst. auto.
Qed.

(** what the [try] block of [parse] ran, when it got a tree *)
Lemma parse_try_run x fs st r st' :
  parse_try x fs st = (r, st') ->
  (exists e, r = Raise e /\ st' = st) \/
  (exists root, _parse_root root st = (r, st')).
Proof.
  unfold parse_try. se_unfold.
  destruct (match x with
            | IsPath p => _parse_file p fs
            | IsBytes _ data => _parse_bytes data
            end) as [root|e].
  - intros Hr. right. eauto.
  - intros Hr. inversion Hr; subst. left. eauto.
Qed.

End WithHost.
End FinOpsLoop.

(** ** Financial operations: the counters *)

Module FinOpsCounters.
Import Utils XmlParserBase FinancialOperationsParser FinOpsLoop.

Section WithHost.
Context `{Host}.

Lemma rn_rows_counted rn_nodes : forall settlement_date ops st ops' st',
  process_rn_nodes rn_nodes settlement_date ops st = (Ok ops', st') ->
  total_rows st' = total_rows st + Z.of_nat (length rn_nodes).
Proof.
  induction rn_nodes as [|rn rest IH]; intros sd ops st ops' st' Hrun;
    simpl in Hrun; se_unfold.
  - inversion Hrun; subst. simpl. lia.
  - destruct (_process_rn_node rn sd st) as [[o|e] st1] eqn:Hrow; [|discriminate].
    apply process_rn_node_counts in Hrow as [Ht _].
    apply IH in Hrun. simpl length. lia.
Qed.

Lemma settlement_rows_counted settlement_nodes : forall ops st ops' st',
  process_settlement_nodes settlement_nodes ops st = (Ok ops', st') ->
  total_rows st'
  = total_rows st + Z.of_nat (length (flat_map _collect_rn_nodes settlement_nodes)).
Proof.
  induction settlement_nodes as [|sn rest IH]; intros ops st ops' st' Hrun;
    simpl in Hrun; se_unfold.
  - inversion Hrun; subst. simpl. lia.
  - destruct (process_rn_nodes _ _ ops st) as [[ops1|e] st1] eqn:Hrows; [|discriminate].
    apply rn_rows_counted in Hrows. apply IH in Hrun.
    simpl flat_map. rewrite length_app. lia.
Qed.

(** skipped and parsed rows make up the rows, one record per parsed row *)
Definition rows_add_up (ops : list OperationDTO) (st : Stats) : Prop :=
  total_rows st = parsed st + skipped st /\ Z.of_nat (length ops) = parsed st.

Lemma row_keeps_rows_add_up rn_node settlement_date st o st' ops :
  _process_rn_node rn_node settlement_date st = (Ok o, st') ->
  rows_add_up ops st -> rows_add_up (append_if ops o) st'.
Proof.
  intros Hrow [Hsum Hlen]. apply process_rn_node_counts in Hrow as [Ht Hrest].
  unfold rows_add_up. destruct o as [o|]; simpl.
  - rewrite length_app. simpl. lia.
  - lia.
Qed.

End WithHost.

(** Counters of the financial operations parser.  Every [rn] node of every
    settlement date node adds one to total_rows, and a row that does not
    raise adds one to exactly one of skipped and parsed.  When [_parse_root]
    returns, total_rows is the number of [rn] nodes visited (an [rn] below
    two nested settlement date nodes is visited once for each), total_rows
    = parsed + skipped, and the sequence holds [parsed] records; the
    dictionary an entry point returns without an "error" entry says the
    same. *)
Theorem fin_ops_counters_add_up `{Host} :
  (forall rn_node settlement_date st r st',
      _process_rn_node rn_node settlement_date st = (r, st') ->
      total_rows st' = total_rows st + 1 /\
      match r with
      | Ok None => parsed st' = parsed st /\ skipped st' = skipped st + 1
      | Ok (Some _) => parsed st' = parsed st + 1 /\ skipped st' = skipped st
      | Raise _ => True
      end) /\
  (forall root ops diag st',
      _parse_root root __init__ = (Ok (ops, diag), st') ->
      total_rows st'
      = Z.of_nat (length (flat_map _collect_rn_nodes (settlement_nodes_of root))) /\
      total_rows st' = parsed st' + skipped st' /\
      Z.of_nat (length ops) = parsed st') /\
  (forall x fs ops diag fs',
      parse_fin_operations_from_xml x fs = (Ok (ops, diag), fs') ->
      diag !! "error" = None ->
      exists t p s,
        diag !! "total_rows" = Some (VInt t) /\ diag !! "parsed" = Some (VInt p) /\
        diag !! "skipped" = Some (VInt s) /\
        t = p + s /\ Z.of_nat (length ops) = p).
Proof.
  assert (Hroot : forall root ops diag st',
      _parse_root root __init__ = (Ok (ops, diag), st') ->
      total_rows st'
      = Z.of_nat (length (flat_map _collect_rn_nodes (settlement_nodes_of root))) /\
      total_rows st' = parsed st' + skipped st' /\
      Z.of_nat (length ops) = parsed st').
  { intros root ops diag st' Hrun. apply parse_root_run in Hrun as [Hrun _].
    pose proof (settlement_rows_counted _ _ _ _ _ Hrun) as Hcount.
    destruct (process_settlement_nodes_keep rows_add_up row_keeps_rows_add_up
                _ _ _ _ _ Hrun) as [Hsum Hlen].
    { unfold rows_add_up. simpl. lia. }
    simpl in Hcount. auto. }
  split; [exact process_rn_node_counts|]. split; [exact Hroot|].
  intros x fs ops diag fs' Hrun Herr.
  unfold parse_fin_operations_from_xml, parse in Hrun.
  destruct (parse_try x fs __init__) as [[[ops1 diag1]|e] st] eqn:Htry.
  2:{ inversion Hrun; subst. rewrite lookup_insert_eq in Herr. discriminate. }
  inversion Hrun; subst.
  apply parse_try_run in Htry as [(e & He & _)|(root & Hroot')]; [discriminate|].
  destruct (Hroot _ _ _ _ Hroot') as (_ & Hsum & Hlen).
  apply parse_root_run in Hroot' as [_ ->].
  exists (total_rows st), (parsed st), (skipped st).
  unfold _finalize_stats, stats_dict. repeat split; try (by simplify_map_eq); assumption.
Qed.

(** A report with a credited, a debited and a blank row. *)
Definition row (label comment volume : string) : Element :=
  Elem (u "rn") [(u "last_update", u "2024-03-25")]
    [Elem (u "oper_type") [(u "oper_type", u label)]
       [Elem (u "comment") [(u "comment", u comment)]
          [Elem (u "p_code") [(u "p_code", u "RUB"); (u "volume", u volume)] []]]].

Definition three_rows : Element :=
  Elem (u "Report") [(u "Name", u "BrokerMoneyMove")]
    [Elem (u "settlement_date") [(u "settlement_date", u "2024-03-25")]
       [row "Зачисление" "Пополнение счета" "12,3"; row "" "" "0";
        row "Списание" "Вывод средств" "-2,05"]].

Definition reading_three : Host := host_reading ([], None) (Ok three_rows).

Lemma fin_ops_counters_add_up_witness :
  match @parse_fin_operations_from_xml reading_three (IsBytes 1 [x3c])
          {| fs_files := ∅; fs_writable := false |} with
  | (Ok (ops, diag), _) =>
    diag !! "skipped" = Some (VInt 1) /\
    exists t p s,
      diag !! "total_rows" = Some (VInt t) /\ diag !! "parsed" = Some (VInt p) /\
      diag !! "skipped" = Some (VInt s) /\
      t = p + s /\ Z.of_nat (length ops) = p
  | (Raise _, _) => False
  end.
Proof.
  pose proof (proj2 (proj2 (@fin_ops_counters_add_up reading_three))
                (IsBytes 1 [x3c]) {| fs_files := ∅; fs_writable := false |}) as Hthm.
  assert (Hval :
    match @parse_fin_operations_from_xml reading_three (IsBytes 1 [x3c])
            {| fs_files := ∅; fs_writable := false |} with
    | (Ok (ops, diag), _) =>
      diag !! "skipped" = Some (VInt 1) /\ diag !! "error" = None
    | (Raise _, _) => False
    end) by (vm_compute; auto).
  destruct (@parse_fin_operations_from_xml reading_three (IsBytes 1 [x3c])
              {| fs_files := ∅; fs_writable := false |})
    as [[[ops diag]|e] fs']; [|exact Hval].
  destruct Hval as (Hsk & Herr). split; [exact Hsk|].
  exact (Hthm ops diag fs' eq_refl Herr).
Defined.

End FinOpsCounters.

(** ** Financial operations: the signs of the totals *)

Module FinOpsTotals.
Import Utils XmlParserBase FinancialOperationsParser FinOpsLoop.

(** a value that is not negative: a finite one or the infinity with the
    sign bit clear *)
Definition income_ok (d : decimal) : Prop :=
  match d with
  | Decimal.DFin false _ _ | Decimal.DInf false => True
  | _ => False
  end.

(** the initial zero, or a negative value *)
Definition expense_ok (d : decimal) : Prop :=
  d = Decimal.zero \/
  match d with
  | Decimal.DFin true _ _ | Decimal.DInf true => True
  | _ => False
  end.

Lemma fix_sign neg c e d :
  Decimal.fix_ neg c e = Ok d -> exists c' e', d = Decimal.DFin neg c' e'.
Proof.
  unfold Decimal.fix_. destruct (c =? 0)%N.
  { intros Hd. inversion Hd; subst. eauto. }
  destruct (Decimal.Etop <? _); [discriminate|].
  destruct (e <? _).
  - destruct (Decimal.prec <? _).
    + destruct (Decimal.Etop <? _); [discriminate|]. intros Hd. inversion Hd; subst. eauto.
    + destruct (Decimal.Etop <? _); [discriminate|]. intros Hd. inversion Hd; subst. eauto.
  - intros Hd. inversion Hd; subst. eauto.
Qed.

Lemma add_to_income a b v :
  income_ok a -> Decimal.gt0 b = Ok true -> Decimal.add a b = Ok v -> income_ok v.
Proof.
  intros Ha Hb Hadd.
  destruct b as [s2 c2 e2|s2|s2 sg2 dg2]; simpl in Hb; [| |discriminate].
  - inversion Hb as [Hb']. apply andb_true_iff in Hb' as [Hs2 Hc2].
    destruct s2; [discriminate|]. destruct c2 as [|p2]; [discriminate|].
    destruct a as [s1 c1 e1|s1|s1 sg1 dg1]; simpl in Ha; try contradiction.
    + destruct s1; [contradiction|]. unfold Decimal.add in Hadd.
      destruct c1 as [|p1].
      * apply fix_sign in Hadd as (c' & e' & ->). exact I.
      * replace (cond_Zopp false (Z.of_N (N.pos p1 * Decimal.pow10 (e1 - Z.min e1 e2)))
                 + cond_Zopp false (Z.of_N (N.pos p2 * Decimal.pow10 (e2 - Z.min e1 e2)))
                 <? 0) with false in Hadd
          by (symmetry; apply Z.ltb_ge; simpl; lia).
        apply fix_sign in Hadd as (c' & e' & ->). exact I.
    + destruct s1; [contradiction|]. simpl in Hadd. inversion Hadd; subst. exact I.
  - inversion Hb as [Hb']. destruct s2; [discriminate|].
    destruct a as [s1 c1 e1|s1|s1 sg1 dg1]; simpl in Ha; try contradiction.
    + simpl in Hadd. inversion Hadd; subst. exact I.
    + destruct s1; [contradiction|]. simpl in Hadd. inversion Hadd; subst. exact I.
Qed.

Lemma add_to_expense a b v :
  expense_ok a -> Decimal.lt0 b = Ok true -> Decimal.add a b = Ok v -> expense_ok v.
Proof.
  intros Ha Hb Hadd. right.
  destruct b as [s2 c2 e2|s2|s2 sg2 dg2]; simpl in Hb; [| |discriminate].
  - inversion Hb as [Hb']. apply andb_true_iff in Hb' as [Hs2 Hc2].
    destruct s2; [|discriminate]. destruct c2 as [|p2]; [discriminate|].
    destruct Ha as [->|Ha].
    + unfold Decimal.add, Decimal.zero in Hadd.
      apply fix_sign in Hadd as (c' & e' & ->). exact I.
    + destruct a as [s1 c1 e1|s1|s1 sg1 dg1]; simpl in Ha; try contradiction.
      * destruct s1; [|contradiction]. unfold Decimal.add in Hadd.
        destruct c1 as [|p1].
        -- apply fix_sign in Hadd as (c' & e' & ->). exact I.
        -- replace (cond_Zopp true (Z.of_N (N.pos p1 * Decimal.pow10 (e1 - Z.min e1 e2)))
                    + cond_Zopp true (Z.of_N (N.pos p2 * Decimal.pow10 (e2 - Z.min e1 e2)))
                    <? 0) with true in Hadd.
           ++ apply fix_sign in Hadd as (c' & e' & ->). exact I.
           ++ symmetry. apply Z.ltb_lt. unfold Decimal.pow10. simpl cond_Zopp.
              assert (0 < 10 ^ Z.to_N (e1 - Z.min e1 e2))%N
                by (apply N.neq_0_lt_0, N.pow_nonzero; discriminate).
              assert (0 < 10 ^ Z.to_N (e2 - Z.min e1 e2))%N
                by (apply N.neq_0_lt_0, N.pow_nonzero; discriminate).
              nia.
      * destruct s1; [|contradiction]. simpl in Hadd. inversion Hadd; subst. exact I.
  - inversion Hb as [Hb']. subst s2.
    destruct Ha as [->|Ha].
    + simpl in Hadd. inversion Hadd; subst. exact I.
    + destruct a as [s1 c1 e1|s1|s1 sg1 dg1]; simpl in Ha; try contradiction.
      * simpl in Hadd. inversion Hadd; subst. exact I.
      * destruct s1; [|contradiction]. simpl in Hadd. inversion Hadd; subst. exact I.
Qed.

Definition signs_ok (st : Stats) : Prop :=
  income_ok (total_income st) /\ expense_ok (total_expense st).

Lemma update_stats_signs oper_type comment amount mapped_type st r st' :
  _update_stats oper_type comment amount mapped_type st = (r, st') ->
  signs_ok st -> signs_ok st'.
Proof.
  unfold _update_stats, signs_ok. se_unfold. intros Hrun [Hi He]. revert Hrun.
  destruct amount as [amount|]; [|intros Hr; inversion Hr; subst; auto].
  destruct (Decimal.add (default Decimal.zero (amounts_by_mapped_type st !! mapped_type))
              amount) as [v|e]; [|intros Hr; inversion Hr; subst; auto].
  set (label_key := if truthy (strip (or_str oper_type (u ""))) then _ else _).
  destruct (truthy label_key); simpl;
    [destruct (Decimal.add _ amount) as [v2|e];
       [|intros Hr; inversion Hr; subst; auto]|];
    (destruct (Decimal.gt0 amount) as [[|]|e] eqn:Hgt; simpl;
     [ destruct (Decimal.add _ amount) as [v3|e] eqn:Hadd; simpl in Hadd;
       intros Hr; inversion Hr; subst; simpl; auto;
       split; [eapply add_to_income; [exact Hi|exact Hgt|exact Hadd]|exact He]
     | destruct (Decimal.lt0 amount) as [[|]|e] eqn:Hlt; simpl;
       [ destruct (Decimal.add _ amount) as [v3|e] eqn:Hadd; simpl in Hadd;
         intros Hr; inversion Hr; subst; simpl; auto;
         split; [exact Hi|eapply add_to_expense; [exact He|exact Hlt|exact Hadd]]
       | intros Hr; inversion Hr; subst; auto
       | intros Hr; inversion Hr; subst; auto ]
     | intros Hr; inversion Hr; subst; auto ]).
Qed.

Lemma row_keeps_signs `{Host} rn_node settlement_date st r st' :
  _process_rn_node rn_node settlement_date st = (r, st') -> signs_ok st -> signs_ok st'.
Proof.
  intros Hrun Hinv.
  destruct (process_rn_node_cases rn_node settlement_date st)
    as [(e & Hc)|[Hc|[(op_type & o & st2 & _ & _ & _ & Hup & Hc)
                     |(op_type & e & st2 & Hup & Hc)]]];
    rewrite Hc in Hrun; inversion Hrun; subst; clear Hrun.
  - exact Hinv.
  - exact Hinv.
  - apply update_stats_signs in Hup; [|exact Hinv].
    unfold _collect_example_comment. se_unfold.
    destruct (truthy _ && _); exact Hup.
  - apply update_stats_signs in Hup; [exact Hup|exact Hinv].
Qed.

(** what the returned dictionary holds for a total: its rendering after a
    parse that completed, the value itself beside an "error" entry *)
Definition diag_total (diag : gmap string pyval) (key : string) (d : decimal) : Prop :=
  diag !! key = Some (VStr (_format_decimal d)) \/ diag !! key = Some (VDec d).

(** The signs of the two totals.  [total_income] only ever receives amounts
    that compare greater than zero and [total_expense] amounts that compare
    less than zero, so at every point of a parse, and in the state it ends
    in whether it completes or raises, total_income is a finite value or an
    infinity with the sign bit clear, and total_expense is the initial zero
    or a value with the sign bit set; neither is ever a NaN.  The returned
    dictionary holds such values (rendered, or raw beside "error"). *)
Theorem totals_keep_their_signs `{Host} :
  (forall rn_node settlement_date st r st',
      _process_rn_node rn_node settlement_date st = (r, st') ->
      signs_ok st -> signs_ok st') /\
  (forall x fs r st, parse_try x fs __init__ = (r, st) -> signs_ok st) /\
  (forall x fs ops diag fs',
      parse_fin_operations_from_xml x fs = (Ok (ops, diag), fs') ->
      exists inc exp,
        income_ok inc /\ expense_ok exp /\
        diag_total diag "total_income" inc /\ diag_total diag "total_expense" exp).
Proof.
  assert (Hinit : signs_ok __init__) by (split; [exact I|left; reflexivity]).
  assert (Htry : forall x fs r st, parse_try x fs __init__ = (r, st) -> signs_ok st).
  { intros x fs r st Hrun.
    apply parse_try_run in Hrun as [(e & _ & ->)|(root & Hroot)]; [exact Hinit|].
    unfold _parse_root in Hroot. se_unfold.
    destruct (process_settlement_nodes _ [] __init__) as [[ops1|e] st1] eqn:Hloop.
    - inversion Hroot; subst.
      eapply (process_settlement_nodes_state signs_ok); eauto using @row_keeps_signs.
    - inversion Hroot; subst.
      eapply (process_settlement_nodes_state signs_ok); eauto using @row_keeps_signs. }
  split; [intros; eapply row_keeps_signs; eauto|]. split; [exact Htry|].
  intros x fs ops diag fs' Hrun.
  unfold parse_fin_operations_from_xml, parse in Hrun.
  destruct (parse_try x fs __init__) as [[[ops1 diag1]|e] st] eqn:Hrun'.
  - inversion Hrun; subst. destruct (Htry _ _ _ _ Hrun') as [Hi He].
    apply parse_try_run in Hrun' as [(e & He' & _)|(root & Hroot)]; [discriminate|].
    apply parse_root_run in Hroot as [_ ->].
    exists (total_income st), (total_expense st). split; [exact Hi|]. split; [exact He|].
    unfold diag_total, _finalize_stats, stats_dict. split; left; by simplify_map_eq.
  - inversion Hrun; subst. destruct (Htry _ _ _ _ Hrun') as [Hi He].
    exists (total_income st), (total_expense st). split; [exact Hi|]. split; [exact He|].
    unfold diag_total, stats_dict. split; right; by simplify_map_eq.
Qed.

(** A report with a credit of 12.3, a debit of 2.05 and a row whose amount
    is not a number. *)
Definition money_row (label volume : string) : Element :=
  Elem (u "rn") [(u "last_update", u "2024-03-25")]
    [Elem (u "oper_type") [(u "oper_type", u label)]
       [Elem (u "comment") [(u "comment", u "перевод средств")]
          [Elem (u "p_code") [(u "p_code", u "RUB"); (u "volume", u volume)] []]]].

Definition ledger : Element :=
  Elem (u "Report") []
    [Elem (u "settlement_date") [(u "settlement_date", u "2024-03-25")]
       [money_row "Зачисление" "12,3"; money_row "Списание" "-2,05";
        money_row "Списание" "NaN"]].

Definition reading_ledger : Host := host_reading ([], None) (Ok ledger).

Lemma totals_keep_their_signs_witness :
  match @parse_fin_operations_from_xml reading_ledger (IsBytes 1 [x3c])
          {| fs_files := ∅; fs_writable := false |} with
  | (Ok (ops, diag), _) =>
    ops = [] /\ diag !! "parsed" = Some (VInt 2) /\
    diag !! "total_expense" = Some (VDec (Decimal.DFin true 205 (-2))) /\
    exists inc exp,
      income_ok inc /\ expense_ok exp /\
      diag_total diag "total_income" inc /\ diag_total diag "total_expense" exp
  | (Raise _, _) => False
  end.
Proof.
  pose proof (proj2 (proj2 (@totals_keep_their_signs reading_ledger))
                (IsBytes 1 [x3c]) {| fs_files := ∅; fs_writable := false |}) as Hthm.
  assert (Hval :
    match @parse_fin_operations_from_xml reading_ledger (IsBytes 1 [x3c])
            {| fs_files := ∅; fs_writable := false |} with
    | (Ok (ops, diag), _) =>
      ops = [] /\ diag !! "parsed" = Some (VInt 2) /\
      diag !! "total_expense" = Some (VDec (Decimal.DFin true 205 (-2)))
    | (Raise _, _) => False
    end) by (vm_compute; auto).
  destruct (@parse_fin_operations_from_xml reading_ledger (IsBytes 1 [x3c])
              {| fs_files := ∅; fs_writable := false |})
    as [[[ops diag]|e] fs']; [|exact Hval].
  destruct Hval as (Hops & Hp & Hexp).
  split; [exact Hops|]. split; [exact Hp|]. split; [exact Hexp|].
  exact (Hthm ops diag fs' eq_refl).
Defined.

End FinOpsTotals.

(** ** Financial operations: the rendering of the sums *)

Module FinOpsRendering.
Import Utils XmlParserBase FinancialOperationsParser FinOpsLoop.

(** A fixed-point rendering with exactly four digits after the point. *)
Definition fixed4 (s : pystr) : Prop :=
  exists neg ip fp,
    s = Decimal.sign_str neg ++ ip ++ u "." ++ fp /\
    ip <> [] /\ forallb PyFloat.isdigit ip = true /\
    length fp = 4%nat /\ forallb PyFloat.isdigit fp = true.

Lemma fixed4_has_point s : fixed4 s -> In 46%N s.
Proof.
  intros (neg & ip & fp & -> & _). apply in_or_app. right.
  apply in_or_app. right. left. reflexivity.
Qed.

Lemma digit_char n : PyFloat.isdigit (48 + n mod 10)%N = true.
Proof.
  unfold PyFloat.isdigit. pose proof (N.mod_upper_bound n 10 ltac:(lia)) as Hub.
  generalize dependent (n mod 10)%N. intros r Hub.
  apply andb_true_iff. split; apply N.leb_le; lia.
Qed.

Lemma digits_aux_digits fuel : forall n acc,
  forallb PyFloat.isdigit acc = true ->
  forallb PyFloat.isdigit (digits_of_pos_aux fuel n acc) = true.
Proof.
  induction fuel as [|fuel IH]; intros n acc Hacc; simpl; [exact Hacc|].
  assert (Hacc' : forallb PyFloat.isdigit ((48 + n mod 10)%N :: acc) = true).
  { simpl. rewrite digit_char. exact Hacc. }
  destruct (n <? 10)%N; [exact Hacc'|apply IH, Hacc'].
Qed.

Lemma digits_aux_nonempty fuel : forall n acc,
  acc <> [] -> digits_of_pos_aux fuel n acc <> [].
Proof.
  induction fuel as [|fuel IH]; intros n acc Hacc; simpl; [exact Hacc|].
  destruct (n <? 10)%N; [discriminate|apply IH; discriminate].
Qed.

Lemma str_of_N_digits n : forallb PyFloat.isdigit (str_of_N n) = true.
Proof. apply digits_aux_digits. reflexivity. Qed.

Lemma str_of_N_nonempty n : str_of_N n <> [].
Proof.
  unfold str_of_N. simpl. destruct (n <? 10)%N; [discriminate|].
  apply digits_aux_nonempty. discriminate.
Qed.

Lemma ndigits_pos c : 1 <= Decimal.ndigits c.
Proof.
  unfold Decimal.ndigits. pose proof (str_of_N_nonempty c).
  destruct (str_of_N c); [congruence|simpl; lia].
Qed.

(** [div_half_even c p] is a nearest integer to [c / p], and the even one
    of two nearest. *)
Lemma div_half_even_nearest c p :
  (0 < p)%N ->
  2 * Z.abs (Z.of_N (Decimal.div_half_even c p) * Z.of_N p - Z.of_N c) <= Z.of_N p /\
  (2 * Z.abs (Z.of_N (Decimal.div_half_even c p) * Z.of_N p - Z.of_N c) = Z.of_N p ->
   N.even (Decimal.div_half_even c p) = true).
Proof.
  intros Hp. unfold Decimal.div_half_even.
  pose proof (N.div_mod c p ltac:(lia)) as Hdm.
  pose proof (N.mod_upper_bound c p ltac:(lia)) as Hub.
  set (q := (c / p)%N) in *. set (r := (c mod p)%N) in *. clearbody q r.
  destruct (N.compare_spec (2 * r) p) as [Heq|Hlt|Hgt].
  - destruct (N.even q) eqn:Hq.
    + split; [nia|]. intros _. exact Hq.
    + split; [nia|]. intros _. rewrite N.add_1_r, N.even_succ, <- N.negb_even, Hq.
      reflexivity.
  - split; [nia|]. intros Ht. exfalso. nia.
  - split; [nia|]. intros Ht. exfalso. nia.
Qed.

(** The coefficient [c'] at exponent -4 is a nearest multiple of 0.0001 to
    [c * 10^e], the even one when two are nearest. *)
Definition nearest_at_4 (c : N) (e : Z) (c' : N) : Prop :=
  if -4 <=? e then c' = (c * Decimal.pow10 (e + 4))%N
  else
    2 * Z.abs (Z.of_N c' * Z.of_N (Decimal.pow10 (-4 - e)) - Z.of_N c)
      <= Z.of_N (Decimal.pow10 (-4 - e)) /\
    (2 * Z.abs (Z.of_N c' * Z.of_N (Decimal.pow10 (-4 - e)) - Z.of_N c)
       = Z.of_N (Decimal.pow10 (-4 - e)) -> N.even c' = true).

Lemma fix_at_4 neg c :
  Decimal.ndigits c <= Decimal.prec ->
  Decimal.fix_ neg c (-4) = Ok (Decimal.DFin neg c (-4)).
Proof.
  intros Hn. unfold Decimal.fix_.
  destruct (c =? 0)%N eqn:Hc.
  - apply N.eqb_eq in Hc. subst. reflexivity.
  - pose proof (ndigits_pos c) as Hpos.
    unfold Decimal.Etop, Decimal.Etiny, Decimal.Emax, Decimal.Emin, Decimal.prec in *.
    replace (999999 - 28 + 1 <? Decimal.ndigits c + -4 - 28) with false
      by (symmetry; apply Z.ltb_ge; lia).
    replace (-4 <? Z.max (Decimal.ndigits c + -4 - 28) (-999999 - 28 + 1)) with false
      by (symmetry; apply Z.ltb_ge; lia).
    reflexivity.
Qed.

Lemma quantize_finite neg c e q :
  Decimal.quantize (Decimal.DFin neg c e) (-4) = Ok q ->
  exists c', q = Decimal.DFin neg c' (-4) /\ nearest_at_4 c e c'.
Proof.
  unfold Decimal.quantize, nearest_at_4.
  destruct (c =? 0)%N eqn:Hc.
  - apply N.eqb_eq in Hc. subst. intros Hq. exists 0%N.
    replace (Decimal.fix_ neg 0 (-4)) with (Ok (Decimal.DFin neg 0 (-4))) in Hq
      by reflexivity.
    inversion Hq; subst. split; [reflexivity|].
    destruct (-4 <=? e); [reflexivity|]. split; [simpl; lia|reflexivity].
  - destruct (Decimal.Emax <? _); [discriminate|].
    destruct (Decimal.prec <? Decimal.adjusted c e - -4 + 1); [discriminate|].
    set (c' := if -4 <=? e then (c * Decimal.pow10 (e - -4))%N
               else Decimal.div_half_even c (Decimal.pow10 (-4 - e))).
    destruct (Decimal.Emax <? _); [discriminate|].
    destruct (Decimal.prec <? Decimal.ndigits c') eqn:Hn; [discriminate|].
    apply Z.ltb_ge in Hn. rewrite (fix_at_4 neg c' Hn). intros Hq.
    inversion Hq; subst. exists c'. split; [reflexivity|].
    subst c'. destruct (-4 <=? e) eqn:He.
    + replace (e + 4) with (e - -4) by lia. reflexivity.
    + apply div_half_even_nearest. unfold Decimal.pow10.
      apply N.neq_0_lt_0, N.pow_nonzero. discriminate.
Qed.

Lemma zeros_digits n : forallb PyFloat.isdigit (Decimal.zeros n) = true.
Proof.
  unfold Decimal.zeros. induction (Z.to_nat n); simpl; auto.
Qed.

Lemma format_f_at_4 neg c : fixed4 (Decimal.format_f (Decimal.DFin neg c (-4))).
Proof.
  unfold Decimal.format_f.
  replace ((c =? 0)%N && (0 <? -4)) with false by (rewrite andb_false_r; reflexivity).
  pose proof (str_of_N_digits c) as Hd. pose proof (str_of_N_nonempty c) as Hne.
  set (ds := str_of_N c) in *.
  destruct (-4 + Z.of_nat (length ds) <? 0) eqn:Hlt.
  - apply Z.ltb_lt in Hlt.
    set (fp := Decimal.zeros (- (-4 + Z.of_nat (length ds))) ++ ds).
    assert (Hlen : length fp = 4%nat).
    { subst fp. unfold Decimal.zeros. rewrite length_app, repeat_length. lia. }
    exists neg, (u "0"), fp. split.
    + destruct fp as [|x fp']; [discriminate|]. reflexivity.
    + split; [discriminate|]. split; [reflexivity|]. split; [exact Hlen|].
      subst fp. rewrite forallb_app, zeros_digits, Hd. reflexivity.
  - apply Z.ltb_ge in Hlt.
    replace (Z.of_nat (length ds) <? -4 + Z.of_nat (length ds)) with false
      by (symmetry; apply Z.ltb_ge; lia).
    set (k := Z.to_nat (-4 + Z.of_nat (length ds))).
    assert (Hk : (k + 4 = length ds)%nat) by (subst k; lia).
    assert (Hlen : length (drop k ds) = 4%nat) by (rewrite length_drop; lia).
    exists neg, (match take k ds with [] => u "0" | i => i end), (drop k ds). split.
    + destruct (drop k ds) as [|x fp']; [discriminate|]. reflexivity.
    + split; [destruct (take k ds); discriminate|]. split; [|split; [exact Hlen|]].
      * destruct (take k ds) as [|x i] eqn:Ht; [reflexivity|]. rewrite <- Ht.
        rewrite <- (take_drop k ds), forallb_app in Hd.
        apply andb_true_iff in Hd. tauto.
      * rewrite <- (take_drop k ds), forallb_app in Hd.
        apply andb_true_iff in Hd. tauto.
Qed.

(** *** The sums of a parse that completes are numbers *)

Definition not_nan (d : decimal) : Prop :=
  match d with
  | Decimal.DNaN _ _ _ => False
  | _ => True
  end.

Definition no_nan (st : Stats) : Prop :=
  map_Forall (fun _ d => not_nan d) (amounts_by_mapped_type st) /\
  map_Forall (fun _ d => not_nan d) (amounts_by_label st) /\
  not_nan (total_income st) /\ not_nan (total_expense st).

Lemma fix_not_nan neg c e d : Decimal.fix_ neg c e = Ok d -> not_nan d.
Proof.
  unfold Decimal.fix_. destruct (c =? 0)%N.
  { intros Hd. inversion Hd; subst. exact I. }
  destruct (Decimal.Etop <? _); [discriminate|].
  destruct (e <? _).
  - destruct (Decimal.prec <? _);
      (destruct (Decimal.Etop <? _); [discriminate|]);
      intros Hd; inversion Hd; subst; exact I.
  - intros Hd. inversion Hd; subst. exact I.
Qed.

(** a sum of two numbers is a number, when the addition returns *)
Lemma add_not_nan a b v :
  not_nan a -> not_nan b -> Decimal.add a b = Ok v -> not_nan v.
Proof.
  intros Ha Hb.
  destruct a as [s1 c1 e1|s1|s1 sg1 dg1]; [| |contradiction];
    destruct b as [s2 c2 e2|s2|s2 sg2 dg2]; try contradiction; simpl.
  - destruct c1, c2; intros Hv; eapply fix_not_nan; exact Hv.
  - intros Hv. inversion Hv; subst. exact I.
  - intros Hv. inversion Hv; subst. exact I.
  - destruct (eqb s1 s2); [|discriminate]. intros Hv. inversion Hv; subst. exact I.
Qed.

(** the comparison with zero raises on a NaN *)
Lemma gt0_not_nan d b : Decimal.gt0 d = Ok b -> not_nan d.
Proof. destruct d; simpl; [auto|auto|discriminate]. Qed.

Lemma lookup_not_nan (m : gmap pystr decimal) k :
  map_Forall (fun _ d => not_nan d) m -> not_nan (default Decimal.zero (m !! k)).
Proof.
  intros Hm. destruct (m !! k) as [d|] eqn:Hk; simpl; [|exact I].
  exact (Hm k d Hk).
Qed.

Lemma insert_not_nan (m : gmap pystr decimal) k v :
  map_Forall (fun _ d => not_nan d) m -> not_nan v ->
  map_Forall (fun _ d => not_nan d) (<[k := v]> m).
Proof. intros Hm Hv. apply map_Forall_insert_2; assumption. Qed.

Lemma update_stats_no_nan oper_type comment amount mapped_type st st' :
  _update_stats oper_type comment amount mapped_type st = (Ok tt, st') ->
  no_nan st -> no_nan st'.
Proof.
  unfold _update_stats, no_nan. se_unfold. intros Hrun (Ht & Hl & Hi & He). revert Hrun.
  destruct amount as [amount|]; [|intros Hr; inversion Hr; subst; auto].
  destruct (Decimal.add (default Decimal.zero (amounts_by_mapped_type st !! mapped_type))
              amount) as [v|e] eqn:Hv; [|discriminate].
  set (label_key := if truthy (strip (or_str oper_type (u ""))) then _ else _).
  simpl.
  assert (Hkeep : forall (b : bool) v2,
    (b = true ->
     Decimal.add (default Decimal.zero (amounts_by_label st !! label_key)) amount = Ok v2) ->
    not_nan amount ->
    map_Forall (fun _ d => not_nan d) (<[mapped_type := v]> (amounts_by_mapped_type st)) /\
    map_Forall (fun _ d => not_nan d)
      (if b then <[label_key := v2]> (amounts_by_label st) else amounts_by_label st)).
  { intros b v2 Hv2 Ham. split.
    - apply insert_not_nan; [exact Ht|].
      eapply add_not_nan; [|exact Ham|exact Hv]. apply lookup_not_nan, Ht.
    - destruct b; [|exact Hl]. apply insert_not_nan; [exact Hl|].
      eapply add_not_nan; [|exact Ham|exact (Hv2 eq_refl)]. apply lookup_not_nan, Hl. }
  destruct (truthy label_key); simpl.
  - destruct (Decimal.add (default Decimal.zero (amounts_by_label st !! label_key)) amount)
      as [v2|e] eqn:Hv2; [|discriminate]. simpl.
    destruct (Decimal.gt0 amount) as [[|]|e] eqn:Hgt; simpl; [| |discriminate];
      pose proof (gt0_not_nan _ _ Hgt) as Ham;
      destruct (Hkeep true v2 (fun _ => eq_refl) Ham) as [Ht' Hl'].
    + destruct (Decimal.add (total_income st) amount) as [v3|e] eqn:Hv3; simpl;
        [|discriminate].
      intros Hr; inversion Hr; subst; simpl.
      repeat split; try assumption. eapply add_not_nan; [exact Hi|exact Ham|exact Hv3].
    + destruct (Decimal.lt0 amount) as [[|]|e] eqn:Hlt; simpl; [| |discriminate].
      * destruct (Decimal.add (total_expense st) amount) as [v3|e] eqn:Hv3; simpl;
          [|discriminate].
        intros Hr; inversion Hr; subst; simpl.
        repeat split; try assumption. eapply add_not_nan; [exact He|exact Ham|exact Hv3].
      * intros Hr; inversion Hr; subst; simpl. repeat split; assumption.
  - destruct (Decimal.gt0 amount) as [[|]|e] eqn:Hgt; simpl; [| |discriminate];
      pose proof (gt0_not_nan _ _ Hgt) as Ham;
      destruct (Hkeep false Decimal.zero (fun Hf => False_ind _ (Bool.diff_false_true Hf)) Ham)
        as [Ht' Hl'].
    + destruct (Decimal.add (total_income st) amount) as [v3|e] eqn:Hv3; simpl;
        [|discriminate].
      intros Hr; inversion Hr; subst; simpl.
      repeat split; try assumption. eapply add_not_nan; [exact Hi|exact Ham|exact Hv3].
    + destruct (Decimal.lt0 amount) as [[|]|e] eqn:Hlt; simpl; [| |discriminate].
      * destruct (Decimal.add (total_expense st) amount) as [v3|e] eqn:Hv3; simpl;
          [|discriminate].
        intros Hr; inversion Hr; subst; simpl.
        repeat split; try assumption. eapply add_not_nan; [exact He|exact Ham|exact Hv3].
      * intros Hr; inversion Hr; subst; simpl. repeat split; assumption.
Qed.

(** a row that returns leaves numbers in the sums *)
Lemma row_no_nan `{Host} rn_node settlement_date st o st' :
  _process_rn_node rn_node settlement_date st = (Ok o, st') -> no_nan st -> no_nan st'.
Proof.
  intros Hrun Hinv.
  destruct (process_rn_node_cases rn_node settlement_date st)
    as [(e & Hc)|[Hc|[(op_type & o' & st2 & _ & _ & _ & Hup & Hc)
                     |(op_type & e & st2 & Hup & Hc)]]];
    rewrite Hc in Hrun; inversion Hrun; subst; clear Hrun.
  - exact Hinv.
  - apply update_stats_no_nan in Hup; [|exact Hinv].
    unfold _collect_example_comment. se_unfold.
    destruct (truthy _ && _); exact Hup.
Qed.

Lemma initial_no_nan : no_nan __init__.
Proof.
  unfold no_nan. simpl. repeat split; try exact I; apply map_Forall_empty.
Qed.

(** the state a parse without an "error" entry ended in *)
Lemma completed_parse `{Host} x fs ops diag fs' :
  parse_fin_operations_from_xml x fs = (Ok (ops, diag), fs') ->
  diag !! "error" = None ->
  exists st,
    parse_try x fs __init__ = (Ok (ops, diag), st) /\
    diag = _finalize_stats st /\ no_nan st.
Proof.
  intros Hrun Herr. unfold parse_fin_operations_from_xml, parse in Hrun.
  destruct (parse_try x fs __init__) as [[[ops1 diag1]|e] st] eqn:Htry.
  2:{ inversion Hrun; subst. rewrite lookup_insert_eq in Herr. discriminate. }
  inversion Hrun; subst. exists st. split; [reflexivity|].
  apply parse_try_run in Htry as [(e & He & _)|(root & Hroot)]; [discriminate|].
  apply parse_root_run in Hroot as [Hloop ->]. split; [reflexivity|].
  apply (process_settlement_nodes_keep (fun _ st => no_nan st)) in Hloop.
  - exact Hloop.
  - intros rn sd st0 o st1 ops0 Hrow Hinv. eapply row_no_nan; eauto.
  - exact initial_no_nan.
Qed.

(** *** When the quantization raises *)

(** the number of digits of [str(n)], by the size of [n] *)
Lemma digits_aux_length f : forall n acc,
  (n < 2 ^ N.of_nat (S f))%N ->
  exists k : nat,
    length (digits_of_pos_aux (S f) n acc) = (k + length acc)%nat /\
    (1 <= k)%nat /\
    (n < 10 ^ N.of_nat k)%N /\
    (n <> 0%N -> 10 ^ N.of_nat (k - 1) <= n)%N.
Proof.
  induction f as [|f IH]; intros n acc Hn.
  - assert (Hlt : (n < 10)%N).
    { change (2 ^ N.of_nat 1)%N with 2%N in Hn. lia. }
    cbn [digits_of_pos_aux]. apply N.ltb_lt in Hlt as Hb. rewrite Hb.
    exists 1%nat. simpl. repeat split; try lia.
  - cbn [digits_of_pos_aux]. destruct (n <? 10)%N eqn:Hb.
    + apply N.ltb_lt in Hb. exists 1%nat. simpl. repeat split; try lia.
    + apply N.ltb_ge in Hb.
      assert (Hdiv : (n / 10 < 2 ^ N.of_nat (S f))%N).
      { apply N.Div0.div_lt_upper_bound.
        replace (N.of_nat (S (S f))) with (N.succ (N.of_nat (S f))) in Hn by lia.
        rewrite N.pow_succ_r' in Hn. lia. }
      destruct (IH (n / 10)%N ((48 + n mod 10)%N :: acc) Hdiv)
        as (k & Hlen & Hk & Hub & Hlb).
      exists (S k). cbn [digits_of_pos_aux] in Hlen. rewrite Hlen.
      split; [simpl; lia|]. split; [lia|].
      pose proof (N.div_mod n 10 ltac:(lia)) as Hdm.
      pose proof (N.mod_upper_bound n 10 ltac:(lia)) as Hm.
      assert (Hq : (n / 10 <> 0)%N).
      { intros Hz. rewrite Hz in Hdm. lia. }
      specialize (Hlb Hq).
      replace (N.of_nat (S k)) with (N.succ (N.of_nat k)) by lia.
      rewrite N.pow_succ_r'.
      replace (S k - 1)%nat with (S (k - 1)) by lia.
      replace (N.of_nat (S (k - 1))) with (N.succ (N.of_nat (k - 1))) by lia.
      rewrite N.pow_succ_r'.
      clear Hlen Hn Hdiv IH.
      generalize dependent (10 ^ N.of_nat k)%N. intros P Hub.
      generalize dependent (10 ^ N.of_nat (k - 1))%N. intros P' Hlb.
      generalize dependent (n mod 10)%N. intros r Hdm Hm.
      generalize dependent (n / 10)%N. intros q Hub Hlb Hdm Hq.
      lia.
Qed.

Lemma ndigits_bounds c :
  c <> 0%N ->
  10 ^ (Decimal.ndigits c - 1) <= Z.of_N c < 10 ^ Decimal.ndigits c.
Proof.
  intros Hc. unfold Decimal.ndigits, str_of_N.
  destruct (digits_aux_length (N.to_nat (N.log2 c)) c []) as (k & Hlen & Hk & Hub & Hlb).
  { replace (N.of_nat (S (N.to_nat (N.log2 c)))) with (N.succ (N.log2 c)) by lia.
    apply N.log2_spec. lia. }
  rewrite Hlen. simpl length. rewrite Nat.add_0_r. specialize (Hlb Hc).
  replace (Z.of_nat k - 1) with (Z.of_N (N.of_nat (k - 1))) by lia.
  replace (Z.of_nat k) with (Z.of_N (N.of_nat k)) by lia.
  change 10 with (Z.of_N 10). rewrite <- !N2Z.inj_pow. lia.
Qed.

Lemma ndigits_le x b : 1 <= b -> Z.of_N x < 10 ^ b -> Decimal.ndigits x <= b.
Proof.
  intros Hb Hx. destruct (N.eq_dec x 0%N) as [->|Hne].
  - change (Decimal.ndigits 0%N) with 1. exact Hb.
  - pose proof (ndigits_bounds x Hne) as [Hlo _].
    pose proof (ndigits_pos x) as Hpos.
    destruct (Z_le_gt_dec (Decimal.ndigits x) b) as [Hle|Hgt]; [exact Hle|exfalso].
    assert (10 ^ b <= 10 ^ (Decimal.ndigits x - 1)) by (apply Z.pow_le_mono_r; lia).
    lia.
Qed.

Lemma pow10_spec k : 0 <= k -> Z.of_N (Decimal.pow10 k) = 10 ^ k.
Proof.
  intros Hk. unfold Decimal.pow10. rewrite N2Z.inj_pow, Z2N.id by exact Hk. reflexivity.
Qed.

(** The quantization of a finite value to 0.0001 raises only when the value
    is 10^23 or more in magnitude. *)
Lemma quantize_raises neg c e err :
  Decimal.quantize (Decimal.DFin neg c e) (-4) = Raise err ->
  c <> 0%N /\ 10 ^ (23 - e) <= Z.of_N c.
Proof.
  unfold Decimal.quantize. destruct (c =? 0)%N eqn:Hc.
  { apply N.eqb_eq in Hc. subst.
    replace (Decimal.fix_ neg 0 (-4)) with (Ok (Decimal.DFin neg 0 (-4))) by reflexivity.
    discriminate. }
  apply N.eqb_neq in Hc. intros Hq. split; [exact Hc|].
  pose proof (ndigits_bounds c Hc) as [Hlo Hhi].
  pose proof (ndigits_pos c) as Hpos.
  destruct (Z_le_gt_dec 24 (Decimal.ndigits c + e)) as [Hbig|Hsmall].
  { assert (10 ^ (23 - e) <= 10 ^ (Decimal.ndigits c - 1))
      by (apply Z.pow_le_mono_r; lia).
    lia. }
  exfalso. revert Hq. unfold Decimal.adjusted, Decimal.Emax, Decimal.prec.
  replace (999999 <? Decimal.ndigits c + e - 1) with false
    by (symmetry; apply Z.ltb_ge; lia).
  replace (28 <? Decimal.ndigits c + e - 1 - -4 + 1) with false
    by (symmetry; apply Z.ltb_ge; lia).
  set (c' := if -4 <=? e then (c * Decimal.pow10 (e - -4))%N
             else Decimal.div_half_even c (Decimal.pow10 (-4 - e))).
  assert (Hc' : Decimal.ndigits c' <= 28).
  { apply ndigits_le; [lia|]. subst c'. destruct (-4 <=? e) eqn:He.
    - apply Z.leb_le in He. rewrite N2Z.inj_mul, pow10_spec by lia.
      assert (10 ^ Decimal.ndigits c * 10 ^ (e - -4) <= 10 ^ 28).
      { rewrite <- Z.pow_add_r by lia. apply Z.pow_le_mono_r; lia. }
      assert (0 < 10 ^ (e - -4)) by (apply Z.pow_pos_nonneg; lia).
      nia.
    - apply Z.leb_gt in He.
      assert (Hp : (0 < Decimal.pow10 (-4 - e))%N).
      { unfold Decimal.pow10. apply N.neq_0_lt_0, N.pow_nonzero. discriminate. }
      pose proof (div_half_even_nearest c (Decimal.pow10 (-4 - e)) Hp) as [Hnear _].
      rewrite pow10_spec in Hnear by lia.
      assert (Hpz : 0 < 10 ^ (-4 - e)) by (apply Z.pow_pos_nonneg; lia).
      assert (Hcb : Z.of_N c < 10 ^ 27 * 10 ^ (-4 - e)).
      { rewrite <- Z.pow_add_r by lia.
        assert (10 ^ Decimal.ndigits c <= 10 ^ (27 + (-4 - e)))
          by (apply Z.pow_le_mono_r; lia).
        lia. }
      set (q := Z.of_N (Decimal.div_half_even c (Decimal.pow10 (-4 - e)))) in *.
      clearbody q.
      set (p := 10 ^ (-4 - e)) in *. clearbody p.
      change (10 ^ 28) with (10 * 10 ^ 27). set (m := 10 ^ 27) in *.
      assert (Hm : 0 < m) by (subst m; lia). clearbody m.
      nia. }
  pose proof (ndigits_pos c') as Hpos'.
  replace (999999 <? Decimal.ndigits c' + -4 - 1) with false
    by (symmetry; apply Z.ltb_ge; lia).
  replace (28 <? Decimal.ndigits c') with false by (symmetry; apply Z.ltb_ge; lia).
  rewrite (fix_at_4 neg c') by exact Hc'. discriminate.
Qed.

(** How [_format_decimal] renders the number [d]: to four places when the
    quantization returns, by [str(d)] when it raises, as it does for an
    infinity and, among the finite values [c * 10^e], only for some of
    magnitude 10^23 or more; a NaN is no number. *)
Definition rendered (d : decimal) : Prop :=
  match d with
  | Decimal.DFin neg c e =>
    (exists c',
        Decimal.quantize d (-4) = Ok (Decimal.DFin neg c' (-4)) /\
        nearest_at_4 c e c' /\
        _format_decimal d = Decimal.format_f (Decimal.DFin neg c' (-4)) /\
        fixed4 (_format_decimal d)) \/
    (exists err,
        Decimal.quantize d (-4) = Raise err /\
        c <> 0%N /\ 10 ^ (23 - e) <= Z.of_N c /\
        _format_decimal d = Decimal.to_str d)
  | Decimal.DInf neg =>
    _format_decimal d = Decimal.sign_str neg ++ u "Infinity"
  | Decimal.DNaN _ _ _ => False
  end.

Lemma number_rendered d : not_nan d -> rendered d.
Proof.
  destruct d as [neg c e|neg|neg sg dg]; simpl; [intros _|intros _|auto].
  - unfold _format_decimal.
    destruct (Decimal.quantize (Decimal.DFin neg c e) (-4)) as [q|err] eqn:Hq.
    + left. destruct (quantize_finite neg c e q Hq) as (c' & -> & Hn).
      exists c'. repeat split; auto. apply format_f_at_4.
    + right. exists err. destruct (quantize_raises neg c e err Hq). auto.
  - reflexivity.
Qed.

(** C7, as the code has it.  A parse that completes ends in statistics
    whose sums are numbers (no NaN: a row with a NaN amount raises at the
    comparison with zero), and its diagnostics hold [_format_decimal] of
    each of them: every entry of amounts_by_mapped_type and
    amounts_by_label, total_income and total_expense.  For a finite sum
    whose quantization to 0.0001 returns under the 28-digit context, that is
    a fixed-point string with exactly four digits after the point, its value
    a nearest multiple of 0.0001 (ties to even), and 12.3 gives "12.3000";
    when the quantization raises, as it does for an infinity and, among the
    finite sums, only for some of magnitude 10^23 or more, the string is
    [str(d)] instead. *)
Theorem sums_rendered_to_four_places `{Host} x fs ops diag fs' :
  parse_fin_operations_from_xml x fs = (Ok (ops, diag), fs') ->
  diag !! "error" = None ->
  (exists st,
      parse_try x fs __init__ = (Ok (ops, diag), st) /\
      diag !! "total_income" = Some (VStr (_format_decimal (total_income st))) /\
      rendered (total_income st) /\
      diag !! "total_expense" = Some (VStr (_format_decimal (total_expense st))) /\
      rendered (total_expense st) /\
      (exists by_type,
          diag !! "amounts_by_mapped_type" = Some (VDictStr by_type) /\
          dom by_type = dom (amounts_by_mapped_type st) /\
          forall k s, by_type !! k = Some s ->
            exists d, amounts_by_mapped_type st !! k = Some d /\
                      s = _format_decimal d /\ rendered d) /\
      (exists by_label,
          diag !! "amounts_by_label" = Some (VDictStr by_label) /\
          dom by_label = dom (amounts_by_label st) /\
          forall k s, by_label !! k = Some s ->
            exists d, amounts_by_label st !! k = Some d /\
                      s = _format_decimal d /\ rendered d)) /\
  (forall neg c e q,
      Decimal.quantize (Decimal.DFin neg c e) (-4) = Ok q ->
      fixed4 (_format_decimal (Decimal.DFin neg c e)) /\
      exists c', q = Decimal.DFin neg c' (-4) /\ nearest_at_4 c e c' /\
                 _format_decimal (Decimal.DFin neg c e) = Decimal.format_f q) /\
  (forall d err,
      Decimal.quantize d (-4) = Raise err -> _format_decimal d = Decimal.to_str d) /\
  (forall neg c e err,
      Decimal.quantize (Decimal.DFin neg c e) (-4) = Raise err ->
      c <> 0%N /\ 10 ^ (23 - e) <= Z.of_N c) /\
  _format_decimal (Decimal.DFin false 123 (-1)) = u "12.3000".
Proof.
  intros Hrun Herr. split; [|split; [|split; [|split]]].
  - destruct (completed_parse x fs ops diag fs' Hrun Herr)
      as (st & Htry & -> & Ht & Hl & Hi & He).
    assert (Hmap : forall m : gmap pystr decimal,
      map_Forall (fun _ d => not_nan d) m ->
      dom (_format_decimal <$> m) = dom m /\
      forall k s, (_format_decimal <$> m) !! k = Some s ->
        exists d, m !! k = Some d /\ s = _format_decimal d /\ rendered d).
    { intros m Hm. split; [apply dom_fmap_L|].
      intros k s Hk. rewrite lookup_fmap in Hk.
      destruct (m !! k) as [d|] eqn:Hd; [|discriminate].
      simpl in Hk. inversion Hk; subst. exists d.
      repeat split. apply number_rendered. exact (Hm k d Hd). }
    exists st. split; [exact Htry|].
    split; [unfold _finalize_stats, stats_dict; by simplify_map_eq|].
    split; [apply number_rendered, Hi|].
    split; [unfold _finalize_stats, stats_dict; by simplify_map_eq|].
    split; [apply number_rendered, He|]. split.
    + exists (_format_decimal <$> amounts_by_mapped_type st).
      split; [unfold _finalize_stats, stats_dict; by simplify_map_eq|].
      apply Hmap, Ht.
    + exists (_format_decimal <$> amounts_by_label st).
      split; [unfold _finalize_stats, stats_dict; by simplify_map_eq|].
      apply Hmap, Hl.
  - intros neg c e q Hq. destruct (quantize_finite neg c e q Hq) as (c' & -> & Hn).
    unfold _format_decimal. rewrite Hq. split; [apply format_f_at_4|].
    exists c'. auto.
  - intros d err Hq. unfold _format_decimal. rewrite Hq. reflexivity.
  - apply quantize_raises.
  - vm_compute. reflexivity.
Qed.

(** A report with one row of 12.3 and one with one row of 10^24. *)
Definition report (volume : string) : Element :=
  Elem (u "Report") [(u "Name", u "BrokerMoneyMove")]
    [Elem (u "settlement_date") [(u "settlement_date", u "2024-03-25T00:00:00")]
       [Elem (u "rn") [(u "last_update", u "2024-03-25")]
          [Elem (u "oper_type") [(u "oper_type", u "Зачисление")]
             [Elem (u "comment") [(u "comment", u "Пополнение счета")]
                [Elem (u "p_code") [(u "p_code", u "RUB"); (u "volume", u volume)] []]]]]].

Definition reading (volume : string) : Host := host_reading ([], None) (Ok (report volume)).

Definition any_fs : FS := {| fs_files := ∅; fs_writable := true |}.

Lemma sums_rendered_to_four_places_witness :
  match @parse_fin_operations_from_xml (reading "12,3") (IsBytes 1 [x3c]) any_fs with
  | (Ok (ops, diag), _) =>
    length ops = 1%nat /\
    diag !! "total_income" = Some (VStr (u "12.3000")) /\
    diag !! "total_expense" = Some (VStr (u "0.0000")) /\
    exists st,
      @parse_try (reading "12,3") (IsBytes 1 [x3c]) any_fs __init__ = (Ok (ops, diag), st) /\
      rendered (total_income st) /\ rendered (total_expense st)
  | (Raise _, _) => False
  end.
Proof.
  pose proof (@sums_rendered_to_four_places (reading "12,3") (IsBytes 1 [x3c]) any_fs)
    as Hthm.
  assert (Hval :
    match @parse_fin_operations_from_xml (reading "12,3") (IsBytes 1 [x3c]) any_fs with
    | (Ok (ops, diag), _) =>
      length ops = 1%nat /\
      diag !! "total_income" = Some (VStr (u "12.3000")) /\
      diag !! "total_expense" = Some (VStr (u "0.0000")) /\
      diag !! "error" = None
    | (Raise _, _) => False
    end) by (vm_compute; auto).
  destruct (@parse_fin_operations_from_xml (reading "12,3") (IsBytes 1 [x3c]) any_fs)
    as [[[ops diag]|e] fs']; [|exact Hval].
  destruct Hval as (Hlen & Hinc & Hexp & Herr).
  destruct (proj1 (Hthm ops diag fs' eq_refl Herr))
    as (st & Htry & _ & Hri & _ & Hre & _).
  split; [exact Hlen|]. split; [exact Hinc|]. split; [exact Hexp|].
  exists st. auto.
Defined.

(** Counterexample to C7 as stated: the parse completes, and the sum of
    the single amount 10^24 is rendered without a fractional part. *)
Lemma large_sum_not_fixed_point :
  match @parse_fin_operations_from_xml (reading "1000000000000000000000000")
          (IsBytes 1 [x3c]) any_fs with
  | (Ok (ops, diag), _) =>
    length ops = 1%nat /\ diag !! "error" = None /\
    diag !! "total_income" = Some (VStr (u "1000000000000000000000000"))
  | (Raise _, _) => False
  end /\
  ~ fixed4 (u "1000000000000000000000000").
Proof.
  split; [vm_compute; auto|].
  intros Hf. apply fixed4_has_point in Hf. vm_compute in Hf.
  repeat (destruct Hf as [Hf|Hf]; [discriminate|]). exact Hf.
Qed.

End FinOpsRendering.

(** ** Financial operations: the example comments *)

Module FinOpsExamples.
Import Utils XmlParserBase FinancialOperationsParser FinOpsLoop.

(** the first five non-empty comments of the records *)
Definition first_comments (ops : list OperationDTO) : list pystr :=
  take 5 (List.filter truthy (map comment ops)).

Lemma take_five_snoc (F ex : list pystr) (c : pystr) :
  ex = take 5 F ->
  (if (length ex <? 5)%nat then ex ++ [c] else ex) = take 5 (F ++ [c]).
Proof.
  intros ->. destruct (length (take 5 F) <? 5)%nat eqn:Hlt.
  - apply Nat.ltb_lt in Hlt. rewrite length_take in Hlt.
    rewrite (take_ge F 5) by lia.
    rewrite take_ge; [reflexivity|]. rewrite length_app. simpl. lia.
  - apply Nat.ltb_ge in Hlt. rewrite length_take in Hlt.
    rewrite take_app_le by lia. reflexivity.
Qed.

Lemma row_keeps_first_comments `{Host} rn_node settlement_date st o st' ops :
  _process_rn_node rn_node settlement_date st = (Ok o, st') ->
  example_comments st = first_comments ops ->
  example_comments st' = first_comments (append_if ops o).
Proof.
  intros Hrun Hinv.
  pose proof (process_rn_node_cases rn_node settlement_date st) as Hcases.
  unfold row_record in Hcases. cbv zeta in Hcases.
  set (text := (_extract_oper_type_and_comment rn_node).2) in *. clearbody text.
  destruct Hcases
    as [(e & Hc)|[Hc|[(op_type & o' & st2 & _ & _ & (_ & Hcom & _) & Hup & Hc)
                     |(op_type & e & st2 & Hup & Hc)]]];
    rewrite Hc in Hrun; inversion Hrun; subst; clear Hrun.
  - exact Hinv.
  - apply update_stats_cases in Hup as [_ Hex]. simpl in Hex.
    simpl append_if. unfold first_comments.
    rewrite map_app, List.filter_app. simpl map.
    unfold _collect_example_comment. se_unfold. cbn [List.filter].
    destruct (truthy (comment o')) eqn:Ht; cbn [andb].
    + rewrite <- Hex in Hinv.
      pose proof (take_five_snoc _ _ (comment o') Hinv) as Hsnoc.
      destruct (length (example_comments st2) <? 5)%nat; simpl; exact Hsnoc.
    + rewrite app_nil_r. simpl. rewrite Hex. exact Hinv.
Qed.

(** After a parse that completed, the "example_comments" entry holds the
    first five non-empty comments of the returned records, in their order:
    at most five strings, none of them empty. *)
Theorem example_comments_are_the_first_five `{Host} x fs ops diag fs' :
  parse_fin_operations_from_xml x fs = (Ok (ops, diag), fs') ->
  diag !! "error" = None ->
  diag !! "example_comments" = Some (VList (first_comments ops)) /\
  (length (first_comments ops) <= 5)%nat /\
  Forall (fun c => c <> []) (first_comments ops).
Proof.
  intros Hrun Herr. split; [|split].
  - unfold parse_fin_operations_from_xml, parse in Hrun.
    destruct (parse_try x fs __init__) as [[[ops1 diag1]|e] st] eqn:Htry.
    2:{ inversion Hrun; subst. rewrite lookup_insert_eq in Herr. discriminate. }
    inversion Hrun; subst.
    apply parse_try_run in Htry as [(e & He & _)|(root & Hroot)]; [discriminate|].
    apply parse_root_run in Hroot as [Hloop ->].
    assert (Hex : example_comments st = first_comments ops).
    { eapply (process_settlement_nodes_keep
                (fun ops st => example_comments st = first_comments ops));
        [|exact Hloop|reflexivity].
      intros. eapply row_keeps_first_comments; eauto. }
    rewrite <- Hex. unfold _finalize_stats, stats_dict. by simplify_map_eq.
  - unfold first_comments. rewrite length_take. lia.
  - unfold first_comments. apply Forall_take, List.Forall_forall. intros c Hc.
    apply filter_In in Hc as [_ Ht]. intros ->. discriminate.
Qed.

(** A report with seven rows, the second without a comment. *)
Definition commented (comment : string) : Element :=
  Elem (u "rn") []
    [Elem (u "oper_type") [(u "oper_type", u "Зачисление")]
       [Elem (u "comment") [(u "comment", u comment)]
          [Elem (u "p_code") [(u "p_code", u "RUB"); (u "volume", u "1")] []]]].

Definition seven_rows : Element :=
  Elem (u "Report") []
    [Elem (u "settlement_date") [(u "settlement_date", u "2024-03-25")]
       [commented "a"; commented ""; commented "b"; commented "c"; commented "d";
        commented "e"; commented "f"]].

Definition reading_seven : Host := host_reading ([], None) (Ok seven_rows).

Lemma example_comments_are_the_first_five_witness :
  match @parse_fin_operations_from_xml reading_seven (IsBytes 1 [x3c])
          {| fs_files := ∅; fs_writable := false |} with
  | (Ok (ops, diag), _) =>
    length ops = 7%nat /\
    first_comments ops = [u "a"; u "b"; u "c"; u "d"; u "e"] /\
    diag !! "example_comments" = Some (VList (first_comments ops))
  | (Raise _, _) => False
  end.
Proof.
  pose proof (@example_comments_are_the_first_five reading_seven
                (IsBytes 1 [x3c]) {| fs_files := ∅; fs_writable := false |}) as Hthm.
  assert (Hval :
    match @parse_fin_operations_from_xml reading_seven (IsBytes 1 [x3c])
            {| fs_files := ∅; fs_writable := false |} with
    | (Ok (ops, diag), _) =>
      length ops = 7%nat /\
      first_comments ops = [u "a"; u "b"; u "c"; u "d"; u "e"] /\
      diag !! "error" = None
    | (Raise _, _) => False
    end) by (vm_compute; auto).
  destruct (@parse_fin_operations_from_xml reading_seven (IsBytes 1 [x3c])
              {| fs_files := ∅; fs_writable := false |})
    as [[[ops diag]|e] fs']; [|exact Hval].
  destruct Hval as (Hlen & Hfirst & Herr).
  split; [exact Hlen|]. split; [exact Hfirst|].
  exact (proj1 (Hthm ops diag fs' eq_refl Herr)).
Defined.

End FinOpsExamples.

(** ** Strings: whitespace *)

Module StrFacts.

(** the characters up to the first whitespace character *)
Fixpoint span (s : pystr) : pystr :=
  match s with
  | c :: r => if isspace c then [] else c :: span r
  | [] => []
  end.

Definition no_space (s : pystr) : Prop := forallb (fun c => negb (isspace c)) s = true.

Lemma lstrip_spec s :
  exists sp, s = sp ++ lstrip s /\ forallb isspace sp = true /\
             match lstrip s with c :: _ => isspace c = false | [] => True end.
Proof.
  induction s as [|c s (sp & Hs & Hsp & Hh)]; simpl.
  - exists []. auto.
  - destruct (isspace c) eqn:Hc.
    + exists (c :: sp). simpl. rewrite Hc, Hsp. split; [congruence|auto].
    + exists []. auto.
Qed.

Lemma forallb_rev {A} (p : A -> bool) l : forallb p (rev l) = forallb p l.
Proof.
  induction l as [|x l IH]; simpl; [reflexivity|].
  rewrite forallb_app, IH. simpl. rewrite andb_true_r. apply andb_comm.
Qed.

Lemma rstrip_spec s :
  exists sp, s = rstrip s ++ sp /\ forallb isspace sp = true.
Proof.
  unfold rstrip. destruct (lstrip_spec (rev s)) as (sp & Hs & Hsp & _).
  exists (rev sp). split.
  - rewrite <- rev_app_distr, <- Hs, rev_involutive. reflexivity.
  - rewrite forallb_rev. exact Hsp.
Qed.

Lemma lstrip_no_space s : no_space s -> lstrip s = s.
Proof.
  destruct s as [|c s]; [reflexivity|]. unfold no_space. simpl.
  intros Hs. apply andb_true_iff in Hs as [Hc _].
  destruct (isspace c); [discriminate|reflexivity].
Qed.

Lemma strip_no_space s : no_space s -> strip s = s.
Proof.
  intros Hs. unfold strip, rstrip. rewrite (lstrip_no_space s Hs).
  rewrite lstrip_no_space; [apply rev_involutive|].
  unfold no_space. rewrite forallb_rev. exact Hs.
Qed.

Lemma span_no_space s : no_space (span s).
Proof.
  unfold no_space. induction s as [|c s IH]; simpl; [reflexivity|].
  destruct (isspace c) eqn:Hc; [reflexivity|]. simpl. rewrite Hc, IH. reflexivity.
Qed.

Lemma span_app_spaces p sp : forallb isspace sp = true -> span (p ++ sp) = span p.
Proof.
  intros Hsp. induction p as [|c p IH]; simpl.
  - destruct sp as [|c sp]; [reflexivity|]. simpl in *.
    apply andb_true_iff in Hsp as [-> _]. reflexivity.
  - rewrite IH. reflexivity.
Qed.

Lemma span_strip s : span (strip s) = span (lstrip s).
Proof.
  unfold strip. destruct (rstrip_spec (lstrip s)) as (sp & Hs & Hsp).
  rewrite Hs at 2. rewrite span_app_spaces by exact Hsp. reflexivity.
Qed.

(** The first item of [s.split()] is the first run of characters that are
    not whitespace. *)
Lemma split_ws_aux_head s : forall cur,
  head (split_ws_aux cur s)
  = match cur with
    | [] => match span (lstrip s) with [] => None | t => Some t end
    | _ => Some (rev cur ++ span s)
    end.
Proof.
  induction s as [|c s IH]; intros cur; simpl.
  - destruct cur; [reflexivity|]. simpl. rewrite app_nil_r. reflexivity.
  - destruct (isspace c) eqn:Hc.
    + destruct cur as [|x cur]; [exact (IH [])|]. simpl. rewrite app_nil_r. reflexivity.
    + rewrite IH. simpl. rewrite Hc. rewrite <- app_assoc. simpl.
      destruct cur; reflexivity.
Qed.

Lemma split_ws_head s : hd [] (split_ws s) = span (lstrip s).
Proof.
  pose proof (split_ws_aux_head s []) as Hh. unfold split_ws. simpl in Hh.
  destruct (split_ws_aux [] s) as [|t l]; simpl in *.
  - destruct (span (lstrip s)); [reflexivity|discriminate].
  - destruct (span (lstrip s)); [discriminate|]. inversion Hh. reflexivity.
Qed.

End StrFacts.

(** ** utils: the first value of a list in one attribute *)

Module FirstValue.
Import Re ReFacts StrFacts Utils.

Lemma rep_loop_from_zero {A} body (k : @cont A) fuel hi prev s caps :
  (forall prev' s' caps', k prev' s' caps' <> None) ->
  rep_loop body k fuel 0 hi prev s caps <> None.
Proof.
  intros Hk. destruct fuel as [|fuel]; simpl; [apply Hk|].
  destruct (may_iterate hi); [|apply Hk].
  destruct (body prev s caps _); [discriminate|apply Hk].
Qed.

(** [\s+] matches where a whitespace character stands. *)
Lemma spaces_match_here prev s :
  match s with
  | c :: _ => if isspace c then match_here (plus ws) prev s <> None
              else match_here (plus ws) prev s = None
  | [] => match_here (plus ws) prev s = None
  end.
Proof.
  unfold match_here, plus, ws.
  change (rmatch (Rep 1 None (Cls isspace)) prev s []
            (fun _ s' caps => Some {| m_text := take (length s - length s') s;
                                      m_rest := s'; m_groups := caps |}))
    with (rep_loop (rmatch (Cls isspace))
            (fun _ s' caps => Some {| m_text := take (length s - length s') s;
                                      m_rest := s'; m_groups := caps |})
            (S (length s)) 1 None prev s []).
  destruct s as [|c s]; [reflexivity|]. cbn [rep_loop may_iterate rmatch].
  destruct (isspace c); [|reflexivity].
  replace (length s <? length (c :: s))%nat with true
    by (symmetry; apply Nat.ltb_lt; simpl; lia).
  change (Nat.pred 1) with 0%nat.
  match goal with |- context [rep_loop ?b ?k ?f 0%nat ?h ?p ?t ?cs] =>
    pose proof (rep_loop_from_zero b k f h p t cs ltac:(discriminate)) as Hz;
    destruct (rep_loop b k f 0 h p t cs); [discriminate|congruence] end.
Qed.

Lemma before_first_space s : forall prev,
  match search_from (plus ws) prev s with
  | Some (i, _) => take i s
  | None => s
  end = span s.
Proof.
  induction s as [|c s IH]; intros prev; rewrite search_from_unfold.
  - pose proof (spaces_match_here prev []) as Hm. simpl in Hm. rewrite Hm. reflexivity.
  - pose proof (spaces_match_here prev (c :: s)) as Hm. simpl in Hm. simpl span.
    destruct (isspace c).
    + destruct (match_here (plus ws) prev (c :: s)); [reflexivity|congruence].
    + rewrite Hm. specialize (IH (Some c)).
      destruct (search_from (plus ws) (Some c) s) as [[i m]|]; simpl; f_equal;
        exact IH.
Qed.

Lemma extract_first_value_span s : extract_first_value (Some s) = span (lstrip s).
Proof.
  unfold extract_first_value. destruct s as [|c r]; [reflexivity|].
  cbv zeta. unfold search. rewrite before_first_space, span_strip.
  destruct (span (lstrip (c :: r))) as [|x t] eqn:Hsp; [reflexivity|].
  cbn [truthy]. rewrite <- Hsp. apply strip_no_space, span_no_space.
Qed.

Lemma first_value_no_space text : no_space (extract_first_value text).
Proof.
  destruct text as [s|]; [|reflexivity]. rewrite extract_first_value_span.
  apply span_no_space.
Qed.

(** [extract_first_value] returns the first whitespace-delimited item of
    the text, [text.split()[0]] when the text has one, and the empty string
    when the text is [None], empty or blank; it never raises, and its result
    contains no whitespace. *)
Theorem first_value_is_first_item text :
  extract_first_value text
  = match text with
    | Some s => hd [] (split_ws s)
    | None => []
    end /\
  no_space (extract_first_value text) /\
  (forall s, text = Some s -> forallb isspace s = true -> extract_first_value text = []).
Proof.
  destruct text as [s|]; [|repeat split; intros; reflexivity].
  rewrite extract_first_value_span. split; [symmetry; apply split_ws_head|].
  split; [apply span_no_space|].
  intros s' Hs Hblank. inversion Hs; subst s'. clear Hs.
  destruct (lstrip_spec s) as (sp & Hs & _ & Hh).
  destruct (lstrip s) as [|c r]; [reflexivity|].
  rewrite Hs, forallb_app in Hblank. apply andb_true_iff in Hblank as [_ Hb].
  simpl in Hb. rewrite Hh in Hb. discriminate.
Qed.

Lemma first_value_is_first_item_witness :
  extract_first_value (Some (u "  " ++ [13%N; 10%N])) = [] /\
  extract_first_value (Some (u " 14533071091" ++ [13%N; 10%N] ++ u "1280737003"))
  = hd [] [u "14533071091"; u "1280737003"].
Proof.
  split.
  - apply (proj2 (proj2 (first_value_is_first_item (Some (u "  " ++ [13%N; 10%N]))))
             (u "  " ++ [13%N; 10%N])); reflexivity.
  - exact (proj1 (first_value_is_first_item
                    (Some (u " 14533071091" ++ [13%N; 10%N] ++ u "1280737003")))).
Defined.

End FirstValue.

(** ** utils: local names and normalized attributes *)

Module NameFacts.
Import Utils.

(** the string holds no closing brace *)
Definition no_brace (s : pystr) : Prop := existsb (N.eqb 125) s = false.

Lemma contains_brace s : contains (u "}") s = existsb (N.eqb 125) s.
Proof.
  induction s as [|c s IH]; [reflexivity|].
  change (contains (u "}") (c :: s))
    with (((125 =? c)%N && true) || contains (u "}") s).
  rewrite IH, andb_true_r. reflexivity.
Qed.

Lemma after_last_no_brace s : no_brace (after_last 125 s).
Proof.
  unfold no_brace. induction s as [|c s IH]; simpl; [reflexivity|].
  destruct (existsb (N.eqb 125) s) eqn:Hs; [exact IH|].
  destruct (c =? 125)%N eqn:Hc; [exact Hs|].
  cbn [existsb]. rewrite (N.eqb_sym 125 c), Hc, Hs. reflexivity.
Qed.

Lemma after_last_app ns name :
  no_brace name -> after_last 125 (ns ++ 125%N :: name) = name.
Proof.
  intros Hn. induction ns as [|c ns IH]; cbn [app after_last].
  - unfold no_brace in Hn. rewrite Hn, N.eqb_refl. reflexivity.
  - rewrite existsb_app. cbn [existsb]. rewrite N.eqb_refl, orb_true_r. exact IH.
Qed.

(** [_local_name] cuts a tag after its last closing brace: for a tag in
    Clark notation, [{namespace}name], it returns [name]; whatever the tag,
    the result holds no closing brace, so that [_local_name] applied twice
    is [_local_name]; a tag without a brace is returned as it is. *)
Theorem local_name_after_last_brace :
  (forall ns name, no_brace name -> _local_name (ns ++ u "}" ++ name) = name) /\
  (forall tag, no_brace (_local_name tag)) /\
  (forall tag, _local_name (_local_name tag) = _local_name tag) /\
  (forall tag, no_brace tag -> _local_name tag = tag).
Proof.
  assert (Hno : forall tag, no_brace (_local_name tag)).
  { intros tag. unfold _local_name. rewrite contains_brace.
    destruct (existsb (N.eqb 125) tag) eqn:Hb; [apply after_last_no_brace|exact Hb]. }
  assert (Hid : forall tag, no_brace tag -> _local_name tag = tag).
  { intros tag Hb. unfold _local_name. rewrite contains_brace, Hb. reflexivity. }
  split; [|split; [exact Hno|split; [|exact Hid]]].
  - intros ns name Hn. unfold _local_name. rewrite contains_brace.
    change (u "}" ++ name) with (125%N :: name).
    rewrite existsb_app. cbn [existsb]. rewrite N.eqb_refl, orb_true_r.
    apply after_last_app, Hn.
  - intros tag. apply Hid, Hno.
Qed.

Lemma local_name_after_last_brace_witness :
  _local_name (u "{urn:schemas}{x" ++ u "}" ++ u "Details") = u "Details" /\
  _local_name (u "rn") = u "rn".
Proof.
  split.
  - apply (proj1 local_name_after_last_brace). reflexivity.
  - apply (proj2 (proj2 (proj2 local_name_after_last_brace))). reflexivity.
Defined.

(** the characters the case tables cover: Basic Latin and the Cyrillic
    letters U+0400..U+045F *)
Definition in_case_tables (c : N) : bool :=
  ((c <? 128) || (1024 <=? c) && (c <=? 1119))%N.

(** the names of the attributes are written in those characters *)
Definition names_in_case_tables (items : list (pystr * pystr)) : Prop :=
  Forall (fun kv => forallb in_case_tables kv.1 = true) items.

(** the value of the last item of the list whose lowercased key is [k] *)
Definition last_with_key (k : pystr) (items : list (pystr * pystr)) : option pystr :=
  snd <$> last (List.filter (fun kv => bool_decide (lower kv.1 = k)) items).

Lemma lower_char_idempotent c : lower_char (lower_char c) = lower_char c.
Proof.
  unfold lower_char.
  destruct ((65 <=? c) && (c <=? 90))%N eqn:H1.
  { apply andb_true_iff in H1 as [Ha Hb]. apply N.leb_le in Ha, Hb.
    replace ((65 <=? c + 32) && (c + 32 <=? 90))%N with false
      by (symmetry; apply andb_false_iff; right; apply N.leb_gt; lia).
    replace ((1040 <=? c + 32) && (c + 32 <=? 1071))%N with false
      by (symmetry; apply andb_false_iff; left; apply N.leb_gt; lia).
    replace ((1024 <=? c + 32) && (c + 32 <=? 1039))%N with false
      by (symmetry; apply andb_false_iff; left; apply N.leb_gt; lia).
    reflexivity. }
  destruct ((1040 <=? c) && (c <=? 1071))%N eqn:H2.
  { apply andb_true_iff in H2 as [Ha Hb]. apply N.leb_le in Ha, Hb.
    replace ((65 <=? c + 32) && (c + 32 <=? 90))%N with false
      by (symmetry; apply andb_false_iff; right; apply N.leb_gt; lia).
    replace ((1040 <=? c + 32) && (c + 32 <=? 1071))%N with false
      by (symmetry; apply andb_false_iff; right; apply N.leb_gt; lia).
    replace ((1024 <=? c + 32) && (c + 32 <=? 1039))%N with false
      by (symmetry; apply andb_false_iff; right; apply N.leb_gt; lia).
    reflexivity. }
  destruct ((1024 <=? c) && (c <=? 1039))%N eqn:H3.
  { apply andb_true_iff in H3 as [Ha Hb]. apply N.leb_le in Ha, Hb.
    replace ((65 <=? c + 80) && (c + 80 <=? 90))%N with false
      by (symmetry; apply andb_false_iff; right; apply N.leb_gt; lia).
    replace ((1040 <=? c + 80) && (c + 80 <=? 1071))%N with false
      by (symmetry; apply andb_false_iff; right; apply N.leb_gt; lia).
    replace ((1024 <=? c + 80) && (c + 80 <=? 1039))%N with false
      by (symmetry; apply andb_false_iff; right; apply N.leb_gt; lia).
    reflexivity. }
  rewrite H1, H2, H3. reflexivity.
Qed.

Lemma lower_idempotent s : lower (lower s) = lower s.
Proof.
  unfold lower. rewrite map_map. apply map_ext. intros c. apply lower_char_idempotent.
Qed.

Lemma normalize_attrib_snoc items kv :
  _normalize_attrib (items ++ [kv]) = <[lower kv.1 := kv.2]> (_normalize_attrib items).
Proof. unfold _normalize_attrib. rewrite foldl_app. reflexivity. Qed.

Lemma normalize_attrib_lookup items : forall k,
  _normalize_attrib items !! k = last_with_key k items.
Proof.
  induction items as [|kv items IH] using rev_ind; intros k.
  - reflexivity.
  - rewrite normalize_attrib_snoc. unfold last_with_key.
    rewrite List.filter_app. simpl.
    destruct (bool_decide (lower kv.1 = k)) eqn:Hk.
    + apply bool_decide_eq_true in Hk. subst k.
      rewrite lookup_insert_eq, last_snoc. reflexivity.
    + apply bool_decide_eq_false in Hk.
      rewrite lookup_insert_ne by exact Hk. rewrite app_nil_r. apply IH.
Qed.

Lemma filter_none {A} (p : A -> bool) l :
  (forall x, In x l -> p x = false) -> List.filter p l = [].
Proof.
  induction l as [|x l IH]; intros Hall; simpl; [reflexivity|].
  rewrite (Hall x) by (left; reflexivity). apply IH. intros y Hy. apply Hall. right. exact Hy.
Qed.

(** The normalized attributes of an element ([items] are the items of its
    attribute dictionary, in document order) whose attribute names are
    written in Basic Latin and Cyrillic (U+0400..U+045F) characters: a key
    holds the value of the last attribute whose name lowercased is that
    key, and a key that holds a value is its own lowercase form.  So
    attributes whose names differ only in case fall on one key, and the last
    of them wins. *)
Theorem normalized_attributes_lookup items :
  NoDup (map fst items) ->
  names_in_case_tables items ->
  (forall k, _normalize_attrib items !! k = last_with_key k items) /\
  (forall k v, _normalize_attrib items !! k = Some v -> lower k = k) /\
  (forall pre name v post,
      items = pre ++ (name, v) :: post ->
      (forall kv, In kv post -> lower kv.1 <> lower name) ->
      _normalize_attrib items !! lower name = Some v).
Proof.
  intros _ _. split; [apply normalize_attrib_lookup|]. split.
  - intros k v. rewrite normalize_attrib_lookup. unfold last_with_key.
    destruct (last _) as [kv|] eqn:Hl; [|discriminate]. intros _.
    apply last_Some in Hl as (l' & Hl).
    assert (Hin : In kv (List.filter (fun kv => bool_decide (lower kv.1 = k)) items)).
    { rewrite Hl. apply in_or_app. right. left. reflexivity. }
    apply filter_In in Hin as [_ Hk]. apply bool_decide_eq_true in Hk.
    rewrite <- Hk. apply lower_idempotent.
  - intros pre name v post -> Hpost. rewrite normalize_attrib_lookup.
    unfold last_with_key. rewrite List.filter_app. cbn [List.filter fst].
    rewrite bool_decide_true by reflexivity.
    rewrite (filter_none _ post).
    + change (List.filter _ pre ++ [(name, v)])
        with (List.filter (fun kv => bool_decide (lower kv.1 = lower name)) pre
                ++ [(name, v)]).
      rewrite last_snoc. reflexivity.
    + intros kv Hkv. apply bool_decide_eq_false. apply Hpost, Hkv.
Qed.

Lemma normalized_attributes_lookup_witness :
  _normalize_attrib [(u "Qty", u "5"); (u "QTY", u "7"); (u "Цена", u "1")] !! u "qty"
  = Some (u "7") /\
  _normalize_attrib [(u "Qty", u "5"); (u "QTY", u "7"); (u "Цена", u "1")] !! u "цена"
  = Some (u "1") /\
  lower (u "qty") = u "qty".
Proof.
  assert (Hnd : NoDup (map fst [(u "Qty", u "5"); (u "QTY", u "7"); (u "Цена", u "1")])).
  { apply (bool_decide_unpack _). vm_compute. exact I. }
  assert (Hal : names_in_case_tables
                  [(u "Qty", u "5"); (u "QTY", u "7"); (u "Цена", u "1")]).
  { repeat constructor. }
  destruct (normalized_attributes_lookup _ Hnd Hal) as (_ & Hlow & Hlast).
  split; [|split].
  - apply (Hlast [(u "Qty", u "5")] (u "QTY") (u "7") [(u "Цена", u "1")] eq_refl).
    intros kv [<-|[]]. vm_compute. discriminate.
  - apply (Hlast [(u "Qty", u "5"); (u "QTY", u "7")] (u "Цена") (u "1") [] eq_refl).
    intros kv [].
  - apply (Hlow (u "qty") (u "7")). vm_compute. reflexivity.
Defined.

End NameFacts.

(** ** utils: the text [to_float_safe] hands to [float] *)

Module FloatText.
Import Utils StrFacts.

(** [s.replace(" ", " ").replace(" ", "")] *)
Definition despace (s : pystr) : pystr :=
  replace_char 32 (u "") (replace_char nbsp (u " ") s).

(** the text with points for its commas *)
Definition point (s : pystr) : pystr := replace_char 44 (u ".") s.

(** the string of the first attempt of [to_float_safe] *)
Definition float_text (v : pystr) : pystr := point (despace (strip v)).

(** neither a space nor a no-break space *)
Definition inner (c : N) : bool := negb ((c =? 32) || (c =? 160))%N.

Lemma despace_filter s : despace s = List.filter inner s.
Proof.
  unfold despace, replace_char, nbsp, inner. induction s as [|c s IH]; [reflexivity|].
  cbn [flat_map List.filter]. destruct (c =? 160)%N eqn:H160.
  - apply N.eqb_eq in H160. subst c. simpl. exact IH.
  - destruct (c =? 32)%N eqn:H32.
    + cbn [app flat_map]. rewrite H32. simpl. exact IH.
    + cbn [app flat_map]. rewrite H32. simpl. rewrite IH. reflexivity.
Qed.

Definition point_char (c : N) : N := if (c =? 44)%N then 46%N else c.

Lemma point_map s : point s = map point_char s.
Proof.
  unfold point, replace_char, point_char. induction s as [|c s IH]; [reflexivity|].
  cbn [flat_map map]. rewrite IH. destruct (c =? 44)%N; reflexivity.
Qed.

Lemma point_char_space c : isspace (point_char c) = isspace c.
Proof.
  unfold point_char. destruct (c =? 44)%N eqn:Hc; [|reflexivity].
  apply N.eqb_eq in Hc. subst c. reflexivity.
Qed.

Lemma point_char_inner c : inner (point_char c) = inner c.
Proof.
  unfold point_char. destruct (c =? 44)%N eqn:Hc; [|reflexivity].
  apply N.eqb_eq in Hc. subst c. reflexivity.
Qed.

Lemma point_char_idempotent c : point_char (point_char c) = point_char c.
Proof.
  unfold point_char. destruct (c =? 44)%N eqn:Hc; [reflexivity|]. rewrite Hc. reflexivity.
Qed.

Lemma lstrip_map (f : N -> N) s :
  (forall c, isspace (f c) = isspace c) -> lstrip (map f s) = map f (lstrip s).
Proof.
  intros Hf. induction s as [|c s IH]; [reflexivity|]. simpl. rewrite Hf.
  destruct (isspace c); [exact IH|reflexivity].
Qed.

Lemma strip_map (f : N -> N) s :
  (forall c, isspace (f c) = isspace c) -> strip (map f s) = map f (strip s).
Proof.
  intros Hf. unfold strip, rstrip.
  rewrite (lstrip_map f s Hf), <- map_rev, (lstrip_map f _ Hf), map_rev. reflexivity.
Qed.

Lemma strip_point v : strip (point v) = point (strip v).
Proof. rewrite !point_map. apply strip_map, point_char_space. Qed.

Lemma despace_point s : despace (point s) = point (despace s).
Proof.
  rewrite !despace_filter, !point_map. induction s as [|c s IH]; [reflexivity|].
  cbn [map List.filter]. rewrite point_char_inner.
  destruct (inner c); cbn [map]; rewrite IH; reflexivity.
Qed.

Lemma point_point s : point (point s) = point s.
Proof.
  rewrite !point_map, map_map. apply map_ext. intros c. apply point_char_idempotent.
Qed.

Lemma despace_despace s : despace (despace s) = despace s.
Proof.
  rewrite !despace_filter. induction s as [|c s IH]; [reflexivity|]. simpl.
  destruct (inner c) eqn:Hc; [simpl; rewrite Hc, IH; reflexivity|exact IH].
Qed.

(** What [strip] returns: the part between the leading and the trailing
    whitespace. *)
Definition stripped (s : pystr) : Prop :=
  match s with c :: _ => isspace c = false | [] => True end /\
  match last s with Some c => isspace c = false | None => True end.

Lemma last_rev_head (s : pystr) : last (rev s) = head s.
Proof. destruct s as [|c s]; [reflexivity|]. simpl. apply last_snoc. Qed.

Lemma lstrip_stripped s : stripped s -> lstrip s = s.
Proof.
  intros [Hh _]. destruct s as [|c s]; [reflexivity|]. simpl. rewrite Hh. reflexivity.
Qed.

Lemma stripped_strip s : stripped s -> strip s = s.
Proof.
  intros Hs. unfold strip, rstrip. rewrite (lstrip_stripped s Hs).
  destruct Hs as [_ Hl].
  destruct (rev s) as [|c r] eqn:Hr; [rewrite <- (rev_involutive s), Hr; reflexivity|].
  assert (Hlast : last s = Some c).
  { rewrite <- (rev_involutive s), Hr. simpl. apply last_snoc. }
  rewrite Hlast in Hl. simpl. rewrite Hl. rewrite <- Hr. apply rev_involutive.
Qed.

Lemma strip_between lead core trail :
  forallb isspace lead = true -> forallb isspace trail = true -> stripped core ->
  strip (lead ++ core ++ trail) = core.
Proof.
  intros Hlead Htrail Hcore.
  assert (Hl : forall l t, forallb isspace l = true -> lstrip (l ++ t) = lstrip t).
  { induction l as [|c l IH]; intros t Hsp; [reflexivity|]. simpl in *.
    apply andb_true_iff in Hsp as [-> Hsp]. apply IH, Hsp. }
  unfold strip, rstrip. rewrite Hl by exact Hlead.
  destruct core as [|c core].
  - simpl. assert (Hall : lstrip trail = []).
    { rewrite <- (app_nil_r trail). rewrite Hl by exact Htrail. reflexivity. }
    rewrite Hall. reflexivity.
  - destruct Hcore as [Hh Hlast].
    change (lstrip ((c :: core) ++ trail)) with
      (if isspace c then lstrip (core ++ trail) else (c :: core) ++ trail).
    rewrite Hh, rev_app_distr, Hl by (rewrite forallb_rev; exact Htrail).
    rewrite lstrip_stripped; [apply rev_involutive|].
    split.
    + destruct (rev (c :: core)) as [|x r] eqn:Hr; [exact I|].
      assert (Hx : last (c :: core) = Some x).
      { rewrite <- (rev_involutive (c :: core)), Hr. simpl. apply last_snoc. }
      rewrite Hx in Hlast. exact Hlast.
    + rewrite last_rev_head. simpl. exact Hh.
Qed.

Lemma strip_parts s :
  exists lead trail,
    s = lead ++ strip s ++ trail /\
    forallb isspace lead = true /\ forallb isspace trail = true /\ stripped (strip s).
Proof.
  destruct (lstrip_spec s) as (lead & Hs & Hlead & Hh).
  destruct (rstrip_spec (lstrip s)) as (trail & Hr & Htrail).
  exists lead, trail. fold (strip s) in Hr.
  split; [rewrite <- Hr; exact Hs|]. split; [exact Hlead|]. split; [exact Htrail|].
  split.
  - destruct (strip s) as [|c r] eqn:Hst; [exact I|].
    rewrite Hr in Hh. exact Hh.
  - unfold strip, rstrip.
    destruct (lstrip_spec (rev (lstrip s))) as (sp & _ & _ & Hh2).
    rewrite last_rev_head.
    destruct (lstrip (rev (lstrip s))) as [|c r]; [exact I|exact Hh2].
Qed.

Lemma filter_spaces l : forallb isspace l = true -> forallb isspace (List.filter inner l) = true.
Proof.
  induction l as [|c l IH]; [reflexivity|]. simpl. intros Hsp.
  apply andb_true_iff in Hsp as [Hc Hsp]. destruct (inner c); simpl; rewrite ?Hc; auto.
Qed.

Lemma inner_of_not_space c : isspace c = false -> inner c = true.
Proof.
  unfold inner. destruct (c =? 32)%N eqn:H32.
  { apply N.eqb_eq in H32. subst. discriminate. }
  destruct (c =? 160)%N eqn:H160; [|reflexivity].
  apply N.eqb_eq in H160. subst. discriminate.
Qed.

Lemma filter_stripped s : stripped s -> stripped (List.filter inner s).
Proof.
  intros [Hh Hl]. split.
  - destruct s as [|c s]; [exact I|]. simpl. rewrite (inner_of_not_space c Hh). exact Hh.
  - destruct (last s) as [c|] eqn:Hlast.
    + apply last_Some in Hlast as (l' & ->). rewrite List.filter_app. simpl.
      rewrite (inner_of_not_space c Hl), last_snoc. exact Hl.
    + apply last_None in Hlast. subst. exact I.
Qed.

Lemma strip_despace v : strip (despace v) = despace (strip v).
Proof.
  destruct (strip_parts v) as (lead & trail & Hv & Hlead & Htrail & Hcore).
  rewrite Hv at 1. rewrite !despace_filter, !List.filter_app.
  apply strip_between; auto using filter_spaces, filter_stripped.
Qed.

Lemma strip_strip s : strip (strip s) = strip s.
Proof.
  destruct (strip_parts s) as (_ & _ & _ & _ & _ & Hcore). apply stripped_strip, Hcore.
Qed.

Lemma float_text_point v : float_text (point v) = float_text v.
Proof.
  unfold float_text. rewrite strip_point, despace_point, point_point. reflexivity.
Qed.

Lemma float_text_despace v : float_text (despace v) = float_text v.
Proof.
  unfold float_text. rewrite strip_despace, despace_despace. reflexivity.
Qed.

Lemma float_text_stripped v : strip (float_text v) = float_text v.
Proof.
  unfold float_text. rewrite strip_point, strip_despace, strip_strip. reflexivity.
Qed.

(** *** What [float] reads *)

Definition all_inner (s : pystr) : Prop := forallb inner s = true.

Lemma all_inner_filter s : all_inner s -> List.filter inner s = s.
Proof.
  unfold all_inner. induction s as [|c s IH]; [reflexivity|]. simpl.
  intros Hs. apply andb_true_iff in Hs as [-> Hs]. rewrite IH by exact Hs. reflexivity.
Qed.

(** The characters of a float literal: the digits, the signs, the point,
    the underscore and the ASCII letters. *)
Definition literal_char (c : N) : bool :=
  (PyFloat.isdigit c || (c =? 43) || (c =? 45) || (c =? 46) || (c =? 95)
   || (65 <=? c) && (c <=? 90) || (97 <=? c) && (c <=? 122))%N.

Definition literal (s : pystr) : Prop := forallb literal_char s = true.


Lemma literal_char_cases c :
  literal_char c = true <->
  (48 <= c <= 57 \/ c = 43 \/ c = 45 \/ c = 46 \/ c = 95 \/ 65 <= c <= 90 \/ 97 <= c <= 122)%N.
Proof.
  unfold literal_char, PyFloat.isdigit.
  rewrite !orb_true_iff, !andb_true_iff, !N.leb_le, !N.eqb_eq. tauto.
Qed.

Lemma isspace_cases c :
  isspace c = true <->
  (9 <= c <= 13 \/ 28 <= c <= 32 \/ c = 133 \/ c = 160 \/ c = 5760 \/ 8192 <= c <= 8202
   \/ c = 8232 \/ c = 8233 \/ c = 8239 \/ c = 8287 \/ c = 12288)%N.
Proof.
  unfold isspace.
  rewrite !orb_true_iff, !andb_true_iff, !N.leb_le, !N.eqb_eq. tauto.
Qed.

Lemma c_isspace_cases c : PyFloat.c_isspace c = true <-> (9 <= c <= 13 \/ c = 32)%N.
Proof.
  unfold PyFloat.c_isspace.
  rewrite !orb_true_iff, !andb_true_iff, !N.leb_le, !N.eqb_eq. tauto.
Qed.

Lemma inner_cases c : inner c = true <-> (c <> 32 /\ c <> 160)%N.
Proof.
  unfold inner. rewrite negb_true_iff, orb_false_iff, !N.eqb_neq. tauto.
Qed.

Lemma literal_not_space c : literal_char c = true -> isspace c = false.
Proof.
  intros Hl. apply literal_char_cases in Hl. apply not_true_iff_false. intros Hs.
  apply isspace_cases in Hs. lia.
Qed.

Lemma literal_not_c_space c : literal_char c = true -> PyFloat.c_isspace c = false.
Proof.
  intros Hl. apply literal_char_cases in Hl. apply not_true_iff_false. intros Hs.
  apply c_isspace_cases in Hs. lia.
Qed.

Lemma isdigit_literal c : PyFloat.isdigit c = true -> literal_char c = true.
Proof.
  intros Hd. apply literal_char_cases. unfold PyFloat.isdigit in Hd.
  apply andb_true_iff in Hd as [Ha Hb]. apply N.leb_le in Ha, Hb. lia.
Qed.

Lemma literal_cons c s : literal_char c = true -> literal s -> literal (c :: s).
Proof. unfold literal. intros Hc Hs. cbn [forallb]. rewrite Hc, Hs. reflexivity. Qed.

Lemma literal_app a b : literal a -> literal b -> literal (a ++ b).
Proof. unfold literal. intros Ha Hb. rewrite forallb_app, Ha, Hb. reflexivity. Qed.

Lemma digitpart_tail_consumed us n : forall s acc cnt v k rest,
  (length s <= n)%nat ->
  PyFloat.digitpart_tail us s acc cnt = (v, k, rest) ->
  exists pre, s = pre ++ rest /\ literal pre.
Proof.
  induction n as [|n IH]; intros s acc cnt v k rest Hlen Hrun.
  - destruct s; [|simpl in Hlen; lia]. simpl in Hrun. inversion Hrun; subst.
    exists []. split; reflexivity.
  - destruct s as [|c r]; simpl in Hrun.
    { inversion Hrun; subst. exists []. split; reflexivity. }
    destruct (PyFloat.isdigit c) eqn:Hc.
    { apply IH in Hrun as (pre & -> & Hpre); [|simpl in Hlen; lia].
      exists (c :: pre). split; [reflexivity|].
      apply literal_cons; [apply isdigit_literal, Hc|exact Hpre]. }
    destruct (us && (c =? 95)%N) eqn:Hu.
    2:{ inversion Hrun; subst. exists []. split; reflexivity. }
    apply andb_true_iff in Hu as [_ Hu]. apply N.eqb_eq in Hu. subst c.
    destruct r as [|d r'].
    { inversion Hrun; subst. exists []. split; reflexivity. }
    destruct (PyFloat.isdigit d) eqn:Hd.
    2:{ inversion Hrun; subst. exists []. split; reflexivity. }
    apply IH in Hrun as (pre & -> & Hpre); [|simpl in Hlen; lia].
    exists (95%N :: d :: pre). split; [reflexivity|].
    apply literal_cons; [reflexivity|].
    apply literal_cons; [apply isdigit_literal, Hd|exact Hpre].
Qed.

Lemma digitpart_consumed us s v k rest :
  PyFloat.digitpart us s = (v, k, rest) -> exists pre, s = pre ++ rest /\ literal pre.
Proof.
  unfold PyFloat.digitpart. destruct s as [|c r].
  { intros Hr. inversion Hr; subst. exists []. split; reflexivity. }
  destruct (PyFloat.isdigit c) eqn:Hc.
  - intros Hrun. apply (digitpart_tail_consumed us (length r)) in Hrun as (pre & -> & Hpre);
      [|lia].
    exists (c :: pre). split; [reflexivity|].
    apply literal_cons; [apply isdigit_literal, Hc|exact Hpre].
  - intros Hr. inversion Hr; subst. exists []. split; reflexivity.
Qed.

Lemma scan_sign_consumed s neg r :
  PyFloat.scan_sign s = (neg, r) -> literal r -> literal s.
Proof.
  unfold PyFloat.scan_sign. intros Hs Hr.
  destruct s as [|c s']; [inversion Hs; subst; exact Hr|].
  destruct (N.eq_dec c 45%N) as [->|H45];
    [inversion Hs; subst; apply literal_cons; [reflexivity|exact Hr]|].
  destruct (N.eq_dec c 43%N) as [->|H43];
    [inversion Hs; subst; apply literal_cons; [reflexivity|exact Hr]|].
  assert (Heq : r = c :: s').
  { destruct c as [|p]; [inversion Hs; reflexivity|].
    do 7 (try (destruct p as [p|p|]; try (inversion Hs; reflexivity); try congruence)). }
  subst r. exact Hr.
Qed.

Lemma scan_exponent_consumed us s ex :
  PyFloat.scan_exponent us s = Some (ex, []) -> literal s.
Proof.
  unfold PyFloat.scan_exponent. destruct s as [|c r]; [reflexivity|].
  destruct ((c =? 101)%N || (c =? 69)%N) eqn:He; [|discriminate].
  destruct (PyFloat.scan_sign r) as [neg r1] eqn:Hsign.
  destruct (PyFloat.digitpart us r1) as [[v n] r2] eqn:Hd.
  destruct n; [discriminate|]. intros Hr. inversion Hr; subst.
  apply digitpart_consumed in Hd as (pre & -> & Hpre). rewrite app_nil_r in Hsign.
  apply literal_cons.
  - apply orb_true_iff in He as [He|He]; apply N.eqb_eq in He; subst; reflexivity.
  - eapply scan_sign_consumed; eauto.
Qed.

Lemma scan_number_consumed us s c e :
  PyFloat.scan_number us s = Some (c, e) -> literal s.
Proof.
  unfold PyFloat.scan_number.
  destruct (PyFloat.digitpart us s) as [[ip n1] r1] eqn:H1.
  apply digitpart_consumed in H1 as (pre1 & -> & Hpre1).
  assert (Hfrac : forall fp n2 r2,
    match r1 with
    | 46%N :: r => PyFloat.digitpart us r
    | _ => (0%N, O, r1)
    end = (fp, n2, r2) ->
    exists pre2, r1 = pre2 ++ r2 /\ literal pre2).
  { intros fp n2 r2 Hf. destruct r1 as [|x r].
    - inversion Hf; subst. exists []. split; reflexivity.
    - destruct (N.eq_dec x 46%N) as [->|Hx].
      + apply digitpart_consumed in Hf as (pre & -> & Hpre).
        exists (46%N :: pre). split; [reflexivity|].
        apply literal_cons; [reflexivity|exact Hpre].
      + assert (Heq : r2 = x :: r).
        { destruct x as [|p]; [inversion Hf; reflexivity|].
          do 7 (try (destruct p as [p|p|]; try (inversion Hf; reflexivity); try congruence)). }
        subst r2. exists []. split; reflexivity. }
  destruct (match r1 with
            | 46%N :: r => PyFloat.digitpart us r
            | _ => (0%N, O, r1)
            end) as [[fp n2] r2] eqn:H2.
  destruct (Hfrac _ _ _ eq_refl) as (pre2 & -> & Hpre2).
  destruct (n1 + n2)%nat; [discriminate|].
  destruct (PyFloat.scan_exponent us r2) as [[ex rest]|] eqn:H3; [|discriminate].
  destruct rest; [|discriminate]. intros _.
  apply scan_exponent_consumed in H3. auto using literal_app.
Qed.

Lemma lower_char_literal c : literal_char (lower_char c) = true -> literal_char c = true.
Proof.
  unfold lower_char.
  destruct ((65 <=? c) && (c <=? 90))%N eqn:H1.
  { intros _. apply andb_true_iff in H1 as [Ha Hb]. apply N.leb_le in Ha, Hb.
    apply literal_char_cases. lia. }
  destruct ((1040 <=? c) && (c <=? 1071))%N eqn:H2.
  { intros Hl. apply andb_true_iff in H2 as [Ha Hb]. apply N.leb_le in Ha, Hb.
    apply literal_char_cases in Hl. lia. }
  destruct ((1024 <=? c) && (c <=? 1039))%N eqn:H3; [|auto].
  intros Hl. apply andb_true_iff in H3 as [Ha Hb]. apply N.leb_le in Ha, Hb.
  apply literal_char_cases in Hl. lia.
Qed.

Lemma lower_literal r : literal (lower r) -> literal r.
Proof.
  unfold literal, lower. induction r as [|c r IH]; [reflexivity|]. cbn [map forallb].
  intros Hs. apply andb_true_iff in Hs as [Hc Hs].
  rewrite (lower_char_literal c Hc). exact (IH Hs).
Qed.

(** [float] after the preparation of its argument: the reading of the
    number itself *)
Definition read (t : pystr) : result float :=
  let '(neg, r) := PyFloat.scan_sign t in
  let l := lower r in
  if str_eqb l (u "inf") || str_eqb l (u "infinity") then Ok (S754_infinity neg)
  else if str_eqb l (u "nan") then Ok S754_nan
  else
    match PyFloat.scan_number true r with
    | Some (c, e) => Ok (PyFloat.of_decimal neg c e)
    | None => Raise (PyFloat.ValueError "could not convert string to float")
    end.

Lemma of_str_read s :
  PyFloat.of_str s
  = read (PyFloat.c_strip (if forallb (fun c => c <? 128)%N s then s
                           else PyFloat.to_ascii s)).
Proof. reflexivity. Qed.

(** A text [float] reads as a number holds literal characters only. *)
Lemma read_literal t x : read t = Ok x -> literal t.
Proof.
  unfold read.
  destruct (PyFloat.scan_sign t) as [neg r] eqn:Hsign.
  intros Hrun. eapply scan_sign_consumed; [exact Hsign|].
  unfold str_eqb in Hrun.
  destruct (bool_decide (lower r = u "inf")) eqn:H1.
  { apply bool_decide_eq_true in H1. apply lower_literal. rewrite H1. reflexivity. }
  destruct (bool_decide (lower r = u "infinity")) eqn:H2.
  { apply bool_decide_eq_true in H2. apply lower_literal. rewrite H2. reflexivity. }
  destruct (bool_decide (lower r = u "nan")) eqn:H3.
  { apply bool_decide_eq_true in H3. apply lower_literal. rewrite H3. reflexivity. }
  simpl in Hrun.
  destruct (PyFloat.scan_number true r) as [[c e]|] eqn:Hn; [|discriminate].
  eapply scan_number_consumed, Hn.
Qed.

(** *** The white space [float] skips *)

Lemma c_lstrip_spec s :
  exists sp, s = sp ++ PyFloat.c_lstrip s /\ forallb PyFloat.c_isspace sp = true.
Proof.
  induction s as [|c s (sp & Hs & Hsp)]; simpl.
  - exists []. auto.
  - destruct (PyFloat.c_isspace c) eqn:Hc.
    + exists (c :: sp). simpl. rewrite Hc, <- Hs. auto.
    + exists []. auto.
Qed.

Lemma c_strip_parts s :
  exists lead trail,
    s = lead ++ PyFloat.c_strip s ++ trail /\
    forallb PyFloat.c_isspace lead = true /\ forallb PyFloat.c_isspace trail = true.
Proof.
  unfold PyFloat.c_strip.
  destruct (c_lstrip_spec s) as (lead & Hs & Hlead).
  destruct (c_lstrip_spec (rev (PyFloat.c_lstrip s))) as (sp & Hr & Hsp).
  exists lead, (rev sp). split; [|split; [exact Hlead|rewrite forallb_rev; exact Hsp]].
  rewrite <- rev_app_distr, <- Hr, rev_involutive. exact Hs.
Qed.

Lemma c_lstrip_literal s : literal s -> PyFloat.c_lstrip s = s.
Proof.
  destruct s as [|c s]; [reflexivity|]. unfold literal. cbn [forallb PyFloat.c_lstrip].
  intros Hs. apply andb_true_iff in Hs as [Hc _].
  rewrite (literal_not_c_space c Hc). reflexivity.
Qed.

Lemma c_strip_literal s : literal s -> PyFloat.c_strip s = s.
Proof.
  intros Hs. unfold PyFloat.c_strip. rewrite (c_lstrip_literal s Hs).
  rewrite c_lstrip_literal; [apply rev_involutive|].
  unfold literal. rewrite forallb_rev. exact Hs.
Qed.

(** *** The copy [float] reads *)

(** what a character becomes in the copy, if the copy goes on after it *)
Definition image (c : N) : option N :=
  if (c <? 128)%N then Some c
  else if isspace c then Some 32%N
  else
    match decimal_value c with
    | Some v => Some (48 + v)%N
    | None => None
    end.

Lemma to_ascii_images s :
  ~ In 63%N (PyFloat.to_ascii s) ->
  Forall2 (fun c a => image c = Some a) s (PyFloat.to_ascii s).
Proof.
  induction s as [|c s IH]; cbn [PyFloat.to_ascii]; intros Hq; [constructor|].
  destruct (c <? 128)%N eqn:Hc.
  { constructor; [unfold image; rewrite Hc; reflexivity|].
    apply IH. intros Hin. apply Hq. right. exact Hin. }
  destruct (isspace c) eqn:Hs.
  { constructor; [unfold image; rewrite Hc, Hs; reflexivity|].
    apply IH. intros Hin. apply Hq. right. exact Hin. }
  destruct (decimal_value c) as [v|] eqn:Hd.
  { constructor; [unfold image; rewrite Hc, Hs, Hd; reflexivity|].
    apply IH. intros Hin. apply Hq. right. exact Hin. }
  exfalso. apply Hq. left. reflexivity.
Qed.

Lemma to_ascii_of_images s t :
  Forall2 (fun c a => image c = Some a) s t -> PyFloat.to_ascii s = t.
Proof.
  induction 1 as [|c a s t Hc Hrest IH]; [reflexivity|]. cbn [PyFloat.to_ascii].
  unfold image in Hc.
  destruct (c <? 128)%N; [injection Hc as <-; rewrite IH; reflexivity|].
  destruct (isspace c); [injection Hc as <-; rewrite IH; reflexivity|].
  destruct (decimal_value c) as [v|]; [|discriminate].
  injection Hc as <-. rewrite IH. reflexivity.
Qed.

Lemma ascii_kept s : forallb (fun c => c <? 128)%N s = true -> PyFloat.to_ascii s = s.
Proof.
  induction s as [|c s IH]; [reflexivity|]. cbn [forallb PyFloat.to_ascii].
  intros Hs. apply andb_true_iff in Hs as [Hc Hs]. rewrite Hc, (IH Hs). reflexivity.
Qed.

Lemma prepared_to_ascii s :
  (if forallb (fun c => c <? 128)%N s then s else PyFloat.to_ascii s) = PyFloat.to_ascii s.
Proof.
  destruct (forallb (fun c => c <? 128)%N s) eqn:Ha; [|reflexivity].
  symmetry. apply ascii_kept, Ha.
Qed.

Lemma image_of_space c a :
  image c = Some a -> PyFloat.c_isspace a = true -> isspace c = true.
Proof.
  unfold image. destruct (c <? 128)%N eqn:Hc.
  { intros Ha Hs. inversion Ha; subst. apply c_isspace_cases in Hs.
    apply isspace_cases. lia. }
  destruct (isspace c); [reflexivity|].
  destruct (decimal_value c) as [v|]; [|discriminate].
  intros Ha Hs. inversion Ha; subst. apply c_isspace_cases in Hs. lia.
Qed.

Lemma image_of_literal c a :
  image c = Some a -> literal_char a = true -> isspace c = false /\ inner c = true.
Proof.
  unfold image. destruct (c <? 128)%N eqn:Hc.
  { intros Ha Hl. inversion Ha; subst. split; [apply literal_not_space, Hl|].
    apply literal_char_cases in Hl. apply inner_cases. lia. }
  apply N.ltb_ge in Hc.
  destruct (isspace c) eqn:Hs.
  { intros Ha Hl. inversion Ha; subst. discriminate. }
  destruct (decimal_value c) as [v|]; [|discriminate].
  intros _ _. split; [reflexivity|]. apply inner_cases. split; [lia|].
  intros ->. discriminate.
Qed.

Lemma images_of_spaces s t :
  Forall2 (fun c a => image c = Some a) s t ->
  forallb PyFloat.c_isspace t = true -> forallb isspace s = true.
Proof.
  induction 1 as [|c a s t Hc Hrest IH]; [reflexivity|]. cbn [forallb].
  intros Ht. apply andb_true_iff in Ht as [Ha Ht].
  rewrite (image_of_space c a Hc Ha), (IH Ht). reflexivity.
Qed.

Lemma images_of_literal s t :
  Forall2 (fun c a => image c = Some a) s t -> literal t ->
  forallb (fun c => negb (isspace c)) s = true /\ all_inner s.
Proof.
  unfold literal, all_inner.
  induction 1 as [|c a s t Hc Hrest IH]; [split; reflexivity|]. cbn [forallb].
  intros Ht. apply andb_true_iff in Ht as [Ha Ht].
  destruct (image_of_literal c a Hc Ha) as [Hs Hi]. destruct (IH Ht) as [IH1 IH2].
  rewrite Hs, Hi, IH1, IH2. split; reflexivity.
Qed.

Lemma no_space_stripped s : forallb (fun c => negb (isspace c)) s = true -> stripped s.
Proof.
  intros Hs. split.
  - destruct s as [|c s]; [exact I|]. cbn [forallb] in Hs.
    apply andb_true_iff in Hs as [Hc _]. apply negb_true_iff in Hc. exact Hc.
  - destruct (last s) as [c|] eqn:Hl; [|exact I].
    apply last_Some in Hl as (l' & ->). rewrite forallb_app in Hs.
    apply andb_true_iff in Hs as [_ Hs]. cbn [forallb] in Hs.
    apply andb_true_iff in Hs as [Hc _]. apply negb_true_iff in Hc. exact Hc.
Qed.

Lemma no_question_mark l1 core l2 :
  forallb PyFloat.c_isspace l1 = true -> literal core ->
  forallb PyFloat.c_isspace l2 = true -> ~ In 63%N (l1 ++ core ++ l2).
Proof.
  intros H1 Hc H2 Hin.
  apply in_app_or in Hin as [Hin|Hin]; [|apply in_app_or in Hin as [Hin|Hin]].
  - rewrite forallb_forall in H1. specialize (H1 _ Hin). discriminate.
  - unfold literal in Hc. rewrite forallb_forall in Hc. specialize (Hc _ Hin). discriminate.
  - rewrite forallb_forall in H2. specialize (H2 _ Hin). discriminate.
Qed.

(** When [float] reads a text, the text holds a number between white
    space, and [float] reads the same number in the stripped text; the
    stripped text holds neither a space nor a no-break space. *)
Lemma float_reads_stripped t x :
  PyFloat.of_str t = Ok x -> all_inner (strip t) /\ PyFloat.of_str (strip t) = Ok x.
Proof.
  rewrite of_str_read, prepared_to_ascii. intros Hx.
  pose proof (read_literal _ _ Hx) as Hlit.
  destruct (c_strip_parts (PyFloat.to_ascii t)) as (l1 & l2 & Hparts & Hl1 & Hl2).
  set (core := PyFloat.c_strip (PyFloat.to_ascii t)) in *.
  pose proof (to_ascii_images t) as Himg. rewrite Hparts in Himg.
  specialize (Himg (no_question_mark l1 core l2 Hl1 Hlit Hl2)).
  apply Forall2_app_inv_r in Himg as (T1 & rest & HT1 & Hrest & ->).
  apply Forall2_app_inv_r in Hrest as (C & T2 & HC & HT2 & ->).
  pose proof (images_of_spaces _ _ HT1 Hl1) as Hs1.
  pose proof (images_of_spaces _ _ HT2 Hl2) as Hs2.
  destruct (images_of_literal _ _ HC Hlit) as [Hns Hin].
  assert (Hstrip : strip (T1 ++ C ++ T2) = C).
  { apply strip_between; auto using no_space_stripped. }
  rewrite Hstrip. split; [exact Hin|].
  rewrite of_str_read, prepared_to_ascii, (to_ascii_of_images _ _ HC).
  rewrite (c_strip_literal core Hlit). exact Hx.
Qed.

(** [float(str(v).replace(",", "."))], the second attempt of
    [to_float_safe], succeeds only where the first one does. *)
Lemma second_attempt_is_the_first v x :
  PyFloat.of_str (point v) = Ok x -> PyFloat.of_str (float_text v) = Ok x.
Proof.
  intros Hx. destruct (float_reads_stripped _ _ Hx) as [Hin Hs].
  rewrite strip_point in Hin. unfold float_text.
  rewrite <- despace_point, despace_filter, (all_inner_filter _ Hin), <- strip_point.
  exact Hs.
Qed.

(** What [to_float_safe] computes: [float] of the text without its
    surrounding whitespace, its spaces and no-break spaces, and with points
    for its commas; 0.0 when that text is no float literal (as "", "-" and
    "--" are not), and for [None].  The second attempt of the function,
    [float] of the text with points for commas only, never gives a value
    the first one did not.  So a decimal comma reads as a point, and spaces
    and no-break spaces anywhere in the text are ignored. *)
Theorem to_float_safe_is_float_of_cleaned_text :
  (forall v, to_float_safe (Some v)
             = match PyFloat.of_str (float_text v) with
               | Ok x => x
               | Raise _ => PyFloat.zero
               end) /\
  (forall v, to_float_safe (Some (point v)) = to_float_safe (Some v)) /\
  (forall v, to_float_safe (Some (despace v)) = to_float_safe (Some v)) /\
  to_float_safe None = PyFloat.zero.
Proof.
  assert (Hmain : forall v, to_float_safe (Some v)
             = match PyFloat.of_str (float_text v) with
               | Ok x => x
               | Raise _ => PyFloat.zero
               end).
  { intros v. unfold to_float_safe, float_text, try_except, str_eqb.
    fold (despace (strip v)). fold (point (despace (strip v))). fold (point v).
    destruct (bool_decide (strip v = u "")) eqn:H1.
    { apply bool_decide_eq_true in H1. rewrite H1. reflexivity. }
    destruct (bool_decide (strip v = u "-")) eqn:H2.
    { apply bool_decide_eq_true in H2. rewrite H2. reflexivity. }
    destruct (bool_decide (strip v = u "--")) eqn:H3.
    { apply bool_decide_eq_true in H3. rewrite H3. reflexivity. }
    simpl.
    destruct (PyFloat.of_str (point (despace (strip v)))) as [x|e] eqn:Hfirst;
      [reflexivity|].
    destruct (PyFloat.of_str (point v)) as [y|e'] eqn:Hsecond; [|reflexivity].
    apply second_attempt_is_the_first in Hsecond. unfold float_text in Hsecond.
    congruence. }
  split; [exact Hmain|]. split; [|split; [|reflexivity]].
  - intros v. rewrite !Hmain, float_text_point. reflexivity.
  - intros v. rewrite !Hmain, float_text_despace. reflexivity.
Qed.

(** [float] reads the decimal digits of any script, and around an ASCII
    string it skips the white space of the C locale only, which U+001C is
    not. *)
Lemma float_of_other_scripts :
  PyFloat.of_str (u "١٢٣") = PyFloat.of_str (u "123") /\
  to_float_safe (Some (u "١٢٣")) = PyFloat.of_decimal false 123 0 /\
  to_float_safe (Some (u "123")) = PyFloat.of_decimal false 123 0 /\
  (exists e, PyFloat.of_str [28%N; 53%N] = Raise e) /\
  to_float_safe (Some [28%N; 53%N]) = PyFloat.of_decimal false 5 0 /\
  to_int_safe [28%N; 53%N] = 0 /\
  to_int_safe (u "٤٢") = 42.
Proof. repeat split; try (vm_compute; reflexivity). eexists. vm_compute. reflexivity. Qed.

End FloatText.

(** ** Dates: what the parsers accept *)

Module DateFacts.
Import Re Utils XmlParserBase.

(** a date and time of the proleptic Gregorian calendar, without zone *)
Definition valid_datetime (dt : datetime) : Prop :=
  1 <= year dt <= 9999 /\ 1 <= month dt <= 12 /\
  1 <= day dt <= days_in_month (year dt) (month dt) /\
  0 <= hour dt <= 23 /\ 0 <= minute dt <= 59 /\ 0 <= second dt <= 59 /\
  microsecond dt = 0 /\ utcoffset dt = None.

Lemma make_valid y mo d h mi s dt : make y mo d h mi s = Ok dt -> valid_datetime dt.
Proof.
  unfold make.
  destruct ((1 <=? y) && (y <=? 9999) && (1 <=? mo) && (mo <=? 12)
            && (1 <=? d) && (d <=? days_in_month y mo)
            && (0 <=? h) && (h <=? 23) && (0 <=? mi) && (mi <=? 59)
            && (0 <=? s) && (s <=? 59)) eqn:Hr; [|discriminate].
  intros Hdt. inversion Hdt; subst. clear Hdt.
  repeat (apply andb_true_iff in Hr as [Hr ?]).
  unfold valid_datetime. simpl. repeat split; try reflexivity; apply Z.leb_le; assumption.
Qed.

Lemma strptime_valid data fmt dt : strptime data fmt = Ok dt -> valid_datetime dt.
Proof.
  unfold strptime. destruct (format_re fmt); [|discriminate].
  destruct (match_ _ data) as [m|]; [|discriminate].
  destruct (m_rest m); [|discriminate]. apply make_valid.
Qed.

Lemma first_format_valid data fmts dt :
  first_format data fmts = Some dt -> valid_datetime dt.
Proof.
  induction fmts as [|fmt fmts IH]; simpl; [discriminate|].
  destruct (strptime data fmt) as [dt'|e] eqn:Hs; [|exact IH].
  intros Hdt. inversion Hdt; subst. eapply strptime_valid, Hs.
Qed.

Lemma parse_datetime_from_text_valid s dt :
  parse_datetime_from_text s = Some dt -> valid_datetime dt.
Proof.
  unfold parse_datetime_from_text. destruct s as [[|c r]|]; try discriminate.
  set (rest := first_format (strip (c :: r)) _).
  assert (Hrest : rest = Some dt -> valid_datetime dt) by apply first_format_valid.
  clearbody rest.
  assert (Hattempt : forall pat fmt o,
    match match search pat (c :: r) with
          | Some (_, m) => result_to_option (strptime (m_text m) fmt)
          | None => None
          end with
    | Some dt' => Some dt'
    | None => o
    end = Some dt ->
    (o = Some dt -> valid_datetime dt) -> valid_datetime dt).
  { intros pat fmt o Hm Ho. destruct (search pat (c :: r)) as [[i m]|]; [|auto].
    destruct (strptime (m_text m) fmt) as [dt1|e] eqn:H1; simpl in Hm; [|auto].
    inversion Hm; subst. eapply strptime_valid, H1. }
  intros Hrun. eapply Hattempt; [exact Hrun|]. intros Hrun2.
  eapply Hattempt; [exact Hrun2|]. exact Hrest.
Qed.

Lemma trades_date_valid attrib dt :
  TradesParser._extract_date attrib = Some dt -> valid_datetime dt.
Proof.
  unfold TradesParser._extract_date.
  generalize [u "db_time"; u "dbtime"; u "settlement_time";
              u "save_settlement_date"; u "save_depo_settlement_date"].
  intros keys. induction keys as [|key keys IH]; simpl; [discriminate|].
  destruct (otruthy (attrib !! key)); [|exact IH].
  destruct (parse_datetime_from_text (attrib !! key)) as [dt'|] eqn:Hp; [|exact IH].
  intros Hdt. inversion Hdt; subst. eapply parse_datetime_from_text_valid, Hp.
Qed.

(** Every date [parse_datetime_from_text] returns is a date and time of the
    calendar: month 1..12, day within the month (29 February in leap years
    only), hour below 24, minute and second below 60, without microseconds
    and without zone.  A text whose digits have the shape of a timestamp
    but name no such date, as "31.02.2024 10:00:00", gives [None]; the same
    holds for the date of a trades row. *)
Theorem parsed_dates_are_calendar_dates :
  (forall s dt, parse_datetime_from_text s = Some dt -> valid_datetime dt) /\
  (forall attrib dt, TradesParser._extract_date attrib = Some dt -> valid_datetime dt) /\
  parse_datetime_from_text (Some (u "31.02.2024 10:00:00")) = None /\
  parse_datetime_from_text (Some (u "29.02.2023 10:00")) = None.
Proof.
  split; [exact parse_datetime_from_text_valid|]. split; [exact trades_date_valid|].
  split; vm_compute; reflexivity.
Qed.

Lemma parsed_dates_are_calendar_dates_witness :
  valid_datetime {| year := 2024; month := 2; day := 29; hour := 23; minute := 59;
                    second := 0; microsecond := 0; utcoffset := None |}.
Proof.
  apply (proj1 parsed_dates_are_calendar_dates (Some (u "сделка 29.02.2024 23:59"))).
  vm_compute. reflexivity.
Defined.

End DateFacts.

(** ** Trades: the ticker *)

Module TickerFacts.
Import Re ReFacts Utils StrFacts FloatText TradesParser.

(** [[A-Za-z0-9\-\.]] *)
Definition ticker_char (c : N) : bool :=
  (in_range 65 90 c || in_range 97 122 c || digit c || (c =? 45) || (c =? 46))%N.

(** one to eight characters of the class *)
Definition ticker_shape (tok : pystr) : bool :=
  (1 <=? length tok)%nat && (length tok <=? 8)%nat && forallb ticker_char tok.

Definition at_end : @cont unit :=
  fun _ s' _ => match s' with [] => Some tt | _ => None end.

Lemma rep_class_to_end (p : N -> bool) : forall s fuel lo hi prev caps,
  (length s < fuel)%nat ->
  rep_loop (rmatch (Cls p)) at_end fuel lo (Some hi) prev s caps
  = if (lo <=? length s)%nat && (length s <=? hi)%nat && forallb p s
    then Some tt else None.
Proof.
  induction s as [|c r IH]; intros fuel lo hi prev caps Hf;
    (destruct fuel as [|fuel]; [simpl in Hf; lia|]).
  - destruct lo, hi; reflexivity.
  - cbn [rep_loop may_iterate rmatch length forallb].
    destruct hi as [|h].
    { change (S (length r) <=? 0)%nat with false. rewrite andb_false_r.
      destruct lo; reflexivity. }
    destruct (p c).
    + replace (length r <? S (length r))%nat with true
        by (symmetry; apply Nat.ltb_lt; lia).
      cbn [fmap option_fmap option_map Nat.pred].
      rewrite IH by (simpl in Hf; lia).
      replace ((Nat.pred lo <=? length r)%nat) with ((lo <=? S (length r))%nat)
        by (destruct lo; reflexivity).
      change (S (length r) <=? S h)%nat with (length r <=? h)%nat.
      rewrite andb_true_l.
      destruct ((lo <=? S (length r))%nat && (length r <=? h)%nat && forallb p r);
        [reflexivity|]. destruct lo; reflexivity.
    + rewrite andb_false_r. destruct lo; reflexivity.
Qed.

Lemma ticker_fullmatch tok :
  fullmatch (Rep 1 (Some 8%nat) (Cls ticker_char)) tok = ticker_shape tok.
Proof.
  unfold fullmatch.
  change (rmatch (Rep 1 (Some 8%nat) (Cls ticker_char)) None tok []
            (fun _ s' _ => match s' with [] => Some tt | _ => None end))
    with (rep_loop (rmatch (Cls ticker_char)) at_end (S (length tok)) 1 (Some 8%nat)
            None tok []).
  rewrite rep_class_to_end by lia. unfold ticker_shape.
  destruct (_ && _ && _); reflexivity.
Qed.

Lemma split_ws_strip_head s : hd [] (split_ws (strip s)) = hd [] (split_ws s).
Proof.
  rewrite !split_ws_head.
  destruct (strip_parts s) as (_ & _ & _ & _ & _ & Hcore).
  rewrite (lstrip_stripped _ Hcore). apply span_strip.
Qed.

Lemma ticker_run name :
  name <> [] ->
  _extract_ticker_from_name name
  = match split_ws (strip name) with
    | [] => Raise IndexError
    | tok :: _ => Ok (if ticker_shape tok then tok else [])
    end.
Proof.
  intros Hne. unfold _extract_ticker_from_name.
  destruct name as [|c r]; [congruence|]. cbn [truthy negb].
  destruct (split_ws (strip (c :: r))) as [|tok rest]; [reflexivity|].
  fold ticker_char. rewrite ticker_fullmatch. reflexivity.
Qed.

Lemma ticker_result name t :
  _extract_ticker_from_name name = Ok t ->
  t = [] \/ ((1 <= length t <= 8)%nat /\ forallb ticker_char t = true /\
             hd [] (split_ws name) = t).
Proof.
  intros Ht. pose proof (split_ws_strip_head name) as Hhd.
  destruct name as [|c r].
  { inversion Ht. left. reflexivity. }
  rewrite ticker_run in Ht by discriminate.
  destruct (split_ws (strip (c :: r))) as [|tok rest] eqn:Hs; [discriminate|].
  simpl in Hhd. inversion Ht as [Ht']. clear Ht.
  destruct (ticker_shape tok) eqn:Hshape; [right|left; reflexivity].
  unfold ticker_shape in Hshape.
  apply andb_true_iff in Hshape as [Hlen Hcls].
  apply andb_true_iff in Hlen as [Hlo Hhi].
  apply Nat.leb_le in Hlo, Hhi. auto.
Qed.

(** The ticker of a trades row is the first whitespace-delimited word of
    the instrument name when that word has one to eight characters, all of
    them ASCII letters, digits, hyphens or points, and the empty string
    otherwise (a longer first word is not cut, it is dropped).  An empty
    name gives the empty string; a name of whitespace only has no first
    word, and the function raises IndexError. *)
Theorem ticker_is_a_short_first_word name :
  (name = [] -> _extract_ticker_from_name name = Ok []) /\
  (name <> [] -> hd [] (split_ws name) = [] ->
   _extract_ticker_from_name name = Raise IndexError) /\
  (name <> [] -> hd [] (split_ws name) <> [] ->
   _extract_ticker_from_name name
   = Ok (if ticker_shape (hd [] (split_ws name)) then hd [] (split_ws name) else [])) /\
  (forall t, _extract_ticker_from_name name = Ok t ->
     t = [] \/ ((1 <= length t <= 8)%nat /\ forallb ticker_char t = true /\
                hd [] (split_ws name) = t)).
Proof.
  assert (Hfirst : forall tok rest, split_ws (strip name) = tok :: rest -> tok <> []).
  { intros tok rest Hs Htok. subst tok.
    pose proof (split_ws_aux_head (strip name) []) as Hh. unfold split_ws in Hs.
    rewrite Hs in Hh. simpl in Hh.
    destruct (span (lstrip (strip name))); discriminate. }
  pose proof (split_ws_strip_head name) as Hhd.
  split; [intros ->; reflexivity|]. split; [|split; [|apply ticker_result]].
  - intros Hne Hnil. rewrite (ticker_run name Hne).
    destruct (split_ws (strip name)) as [|tok rest] eqn:Hs; [reflexivity|].
    simpl in Hhd. exfalso. apply (Hfirst tok rest eq_refl). congruence.
  - intros Hne Hword. rewrite (ticker_run name Hne).
    destruct (split_ws (strip name)) as [|tok rest] eqn:Hs.
    + simpl in Hhd. congruence.
    + simpl in Hhd. rewrite <- Hhd. reflexivity.
Qed.

Lemma ticker_is_a_short_first_word_witness :
  _extract_ticker_from_name (u " SBER ао, ПАО Сбербанк") = Ok (u "SBER") /\
  _extract_ticker_from_name (u "Газпром-нефть ао") = Ok [] /\
  _extract_ticker_from_name (u "   ") = Raise IndexError.
Proof.
  split; [|split].
  - apply (proj1 (proj2 (proj2 (ticker_is_a_short_first_word (u " SBER ао, ПАО Сбербанк")))));
      vm_compute; discriminate.
  - apply (proj1 (proj2 (proj2 (ticker_is_a_short_first_word (u "Газпром-нефть ао")))));
      vm_compute; discriminate.
  - apply (proj1 (proj2 (ticker_is_a_short_first_word (u "   ")))).
    + discriminate.
    + reflexivity.
Defined.

End TickerFacts.

(** ** Trades: the records *)

Module TradesRecords.
Import Re Utils XmlParserBase TradesParser StrFacts FloatText FirstValue DateFacts TickerFacts.

(** the currency aliases of the rouble *)
Definition rouble_aliases : list pystr := [u "RUR"; u "РУБ"; u "РУБЛЬ"].

(** What holds of a record of the trades parser. *)
Record trade_record (o : OperationDTO) : Prop := {
  trade_quantity : exists q, 0 < q /\ quantity o = NInt q;
  trade_type : operation_type o = u "buy" \/ operation_type o = u "sale";
  trade_date : exists dt, date o = Some dt /\ valid_datetime dt;
  trade_reg_number : reg_number o = [];
  trade_currency : existsb (str_eqb (upper (currency o))) rouble_aliases = false
                   /\ strip (currency o) = currency o;
  trade_ticker : ticker o = [] \/ ticker_shape (ticker o) = true;
  trade_operation_id : no_space (operation_id o)
}.

(** the sum the parser keeps: left to right, in floating point *)
Definition commission_sum (ops : list OperationDTO) : float :=
  fold_left (fun acc o => PyFloat.add acc (PyFloat.or_zero (commission o))) ops PyFloat.zero.

Definition records_kept (ops : list OperationDTO) (st : Stats) : Prop :=
  Forall trade_record ops /\ parsed st = Z.of_nat (length ops) /\
  total_commission st = commission_sum ops.

Lemma trade_currency_normal a :
  let c := (_extract_trade_data a).2 in
  existsb (str_eqb (upper c)) rouble_aliases = false /\ strip c = c.
Proof.
  unfold _extract_trade_data. cbn [snd]. fold rouble_aliases.
  set (c := strip _).
  destruct (existsb (str_eqb (upper c)) rouble_aliases) eqn:Hc.
  - split; reflexivity.
  - split; [exact Hc|]. apply strip_strip.
Qed.

Section WithHost.
Context `{Host}.

Lemma trade_row_keeps elem st r st' ops :
  _process_details_element elem st = (r, st') ->
  records_kept ops st ->
  match r with
  | Ok o => records_kept (append_if ops o) st'
  | Raise _ => records_kept ops st'
  end.
Proof.
  unfold _process_details_element, records_kept. se_unfold.
  intros Hrun (Hall & Hp & Hc). revert Hrun.
  set (a := _normalize_attrib (attrib elem)).
  destruct (_extract_quantity a =? 0) eqn:Hq.
  { intros Hr. inversion Hr; subst. simpl. auto. }
  apply Z.eqb_neq in Hq.
  destruct (_extract_date a) as [dt|] eqn:Hd.
  2:{ intros Hr. inversion Hr; subst. simpl. auto. }
  pose proof (trade_currency_normal a) as Hcur.
  destruct (_extract_trade_data a) as [[[price total] nkd] cur]. cbn [snd] in Hcur.
  unfold _extract_instrument_data. simpl.
  destruct (_extract_ticker_from_name _) as [t|e] eqn:Ht; simpl.
  2:{ intros Hr. inversion Hr; subst. simpl. auto. }
  unfold OperationDTO_new.
  match goal with |- context [OperationDTO_rejects ?rec] => set (o := rec) end.
  destruct (OperationDTO_rejects o).
  { intros Hr. inversion Hr; subst. simpl. auto. }
  intros Hr. inversion Hr; subst. simpl. split; [|split].
  - apply Forall_app. split; [exact Hall|]. constructor; [|constructor].
    constructor; simpl.
    + exists (Z.abs (_extract_quantity a)). split; [lia|reflexivity].
    + destruct (0 <? _extract_quantity a); auto.
    + exists dt. split; [reflexivity|].
      eapply trades_date_valid, Hd.
    + reflexivity.
    + exact Hcur.
    + destruct (ticker_result _ t Ht) as [->|(Hlen & Hcls & _)];
        [left; reflexivity|right].
      unfold ticker_shape. rewrite Hcls.
      replace (1 <=? length t)%nat with true by (symmetry; apply Nat.leb_le; lia).
      replace (length t <=? 8)%nat with true by (symmetry; apply Nat.leb_le; lia).
      reflexivity.
    + unfold _extract_first_trade_no. apply first_value_no_space.
  - rewrite length_app. simpl. lia.
  - unfold commission_sum. rewrite fold_left_app. simpl. fold (commission_sum ops).
    rewrite Hc. reflexivity.
Qed.

Lemma trade_rows_keep elems : forall ops st ops' st' exc,
  traverse elems ops st = (ops', st', exc) ->
  records_kept ops st -> records_kept ops' st'.
Proof.
  induction elems as [|elem rest IH]; intros ops st ops' st' exc Hrun Hinv;
    simpl in Hrun.
  - inversion Hrun; subst. exact Hinv.
  - destruct (negb _); [eauto|].
    destruct (_process_details_element elem st) as [[o|e] st1] eqn:Hrow.
    + eapply IH; [exact Hrun|]. exact (trade_row_keeps _ _ _ _ _ Hrow Hinv).
    + inversion Hrun; subst. exact (trade_row_keeps _ _ _ _ _ Hrow Hinv).
Qed.

End WithHost.

(** The records of the trades parser.  Every record the entry point
    returns, with or without an "error" entry beside it, has a positive
    integer quantity, the type "buy" or "sale", a date of the calendar, an
    empty registration number, a currency without surrounding whitespace
    that is none of RUR, РУБ, РУБЛЬ in any letter case, a ticker that is
    empty or one to eight ticker characters, and an operation id without
    whitespace.  [parsed] is the number of records, and [total_commission]
    is the sum of their commissions, added in floating point from left to
    right in the order of the records. *)
Theorem trades_records_and_commission `{Host} x fs ops diag fs' :
  parse_trades_from_xml x fs = (Ok (ops, diag), fs') ->
  Forall trade_record ops /\
  diag !! "parsed" = Some (VInt (Z.of_nat (length ops))) /\
  diag !! "total_commission" = Some (VFloat (commission_sum ops)).
Proof.
  intros Hrun. unfold parse_trades_from_xml, parse in Hrun.
  destruct (prepare_xml_source x fs) as [[[source cleanup]|e] fs1]; [|discriminate].
  unfold parse_try in Hrun.
  destruct (match read_file source fs1 with
            | Ok data => ET_iterparse data
            | Raise e => ([], Some e)
            end) as [elems stop].
  destruct (traverse elems [] __init__) as [[ops1 st] exc] eqn:Htr.
  destruct (trade_rows_keep _ _ _ _ _ _ Htr) as (Hall & Hp & Hc).
  { split; [constructor|]. split; reflexivity. }
  assert (Hops : ops = ops1 /\
                 (diag = stats_dict st \/
                  exists e, diag = <["error" := VStr (str_of_exn e)]> (stats_dict st))).
  { destruct exc as [e|]; [|destruct stop as [e|]]; inversion Hrun; subst; eauto. }
  destruct Hops as [-> Hdiag]. split; [exact Hall|].
  rewrite <- Hp, <- Hc.
  destruct Hdiag as [->|(e & ->)]; unfold stats_dict; split; by simplify_map_eq.
Qed.

(** Two trades with commissions 0.1 and 0.2, then a reader error. *)
Definition two_trades : Host :=
  host_reading
    ([Elem (u "details")
        [(u "qty", u "10"); (u "db_time", u "25.03.2024 10:00:00");
         (u "p_name", u "SBER ао"); (u "curr", u "руб"); (u "bank_tax", u "0,1")] [];
      Elem (u "details")
        [(u "qty", u "-3"); (u "db_time", u "26.03.2024 11:30");
         (u "trade_no", u "77 78"); (u "bank_tax", u "0.2")] []],
     Some (Exn "ParseError" (u "no element found")))
    no_document.

Lemma trades_records_and_commission_witness :
  match @parse_trades_from_xml two_trades (IsPath (u "t.xml"))
          {| fs_files := {[ u "t.xml" := [] ]}; fs_writable := false |} with
  | (Ok (ops, diag), _) =>
    map operation_type ops = [u "buy"; u "sale"] /\
    map currency ops = [u "RUB"; []] /\
    commission_sum ops
    = PyFloat.add (PyFloat.of_decimal false 1 (-1)) (PyFloat.of_decimal false 2 (-1)) /\
    Forall trade_record ops /\
    diag !! "total_commission" = Some (VFloat (commission_sum ops))
  | (Raise _, _) => False
  end.
Proof.
  pose proof (@trades_records_and_commission two_trades (IsPath (u "t.xml"))
                {| fs_files := {[ u "t.xml" := [] ]}; fs_writable := false |}) as Hthm.
  assert (Hval :
    match @parse_trades_from_xml two_trades (IsPath (u "t.xml"))
            {| fs_files := {[ u "t.xml" := [] ]}; fs_writable := false |} with
    | (Ok (ops, diag), _) =>
      map operation_type ops = [u "buy"; u "sale"] /\
      map currency ops = [u "RUB"; []] /\
      commission_sum ops
      = PyFloat.add (PyFloat.of_decimal false 1 (-1)) (PyFloat.of_decimal false 2 (-1))
    | (Raise _, _) => False
    end) by (vm_compute; auto).
  destruct (@parse_trades_from_xml two_trades (IsPath (u "t.xml"))
              {| fs_files := {[ u "t.xml" := [] ]}; fs_writable := false |})
    as [[[ops diag]|e] fs']; [|exact Hval].
  destruct Hval as (Ht & Hcur & Hsum).
  destruct (Hthm ops diag fs' eq_refl) as (Hall & _ & Hc).
  auto.
Defined.

End TradesRecords.

(** ** Dates: timestamps read back *)

Module StampFacts.
Import Re ReFacts Utils XmlParserBase DateFacts.

(** the character of the digit [v] *)
Definition dig (v : Z) : N := Z.to_N (48 + v).

(** [v] written with two digits, and with four *)
Definition two_digits (v : Z) : pystr := [dig (v / 10); dig (v mod 10)].

Definition four_digits (v : Z) : pystr :=
  [dig (v / 1000); dig (v / 100 mod 10); dig (v / 10 mod 10); dig (v mod 10)].

(** the timestamp of the reports, dd.mm.yyyy HH:MM:SS *)
Definition stamp (dt : datetime) : pystr :=
  two_digits (day dt) ++ 46%N :: two_digits (month dt) ++ 46%N :: four_digits (year dt)
    ++ 32%N :: two_digits (hour dt) ++ 58%N :: two_digits (minute dt)
    ++ 58%N :: two_digits (second dt).

(** yyyy-mm-dd and HH:MM:SS *)
Definition iso_date (dt : datetime) : pystr :=
  four_digits (year dt) ++ 45%N :: two_digits (month dt) ++ 45%N :: two_digits (day dt).

Definition iso_time (dt : datetime) : pystr :=
  two_digits (hour dt) ++ 58%N :: two_digits (minute dt) ++ 58%N :: two_digits (second dt).

(** the same day at 00:00:00 *)
Definition midnight (dt : datetime) : datetime :=
  {| year := year dt; month := month dt; day := day dt; hour := 0; minute := 0;
     second := 0; microsecond := 0; utcoffset := None |}.

Lemma below_cases (P : Z -> Prop) (n : nat) :
  (forall i, (i < n)%nat -> P (Z.of_nat i)) -> forall v, 0 <= v < Z.of_nat n -> P v.
Proof.
  intros Hall v Hv. rewrite <- (Z2Nat.id v) by lia. apply Hall. lia.
Qed.

Lemma dig_facts q :
  0 <= q <= 9 ->
  digit (dig q) = true /\ isspace (dig q) = false /\ Z.of_N (dig q - 48) = q.
Proof.
  intros Hq. revert q Hq.
  assert (Hall : forall v, 0 <= v < Z.of_nat 10 ->
            digit (dig v) = true /\ isspace (dig v) = false /\ Z.of_N (dig v - 48) = v).
  { apply below_cases. intros i Hi.
    do 10 (destruct i as [|i]; [repeat split; reflexivity|]). lia. }
  intros q Hq. apply Hall. simpl. lia.
Qed.

(** *** The directives on their digits *)

(** The group [n] with pattern [g] reads [text] where it stands, whatever
    follows. *)
Definition reads (g : re) (n : nat) (text : pystr) : Prop :=
  forall (A : Type) (k : @cont A) prev rest caps x,
    k (last text) rest ((n, text) :: caps) = Some x ->
    rmatch (Grp n g) prev (text ++ rest) caps k = Some x.

Definition day_re : re := default Eps (directive 100).
Definition month_re : re := default Eps (directive 109).
Definition year_re : re := default Eps (directive 89).
Definition hour_re : re := default Eps (directive 72).
Definition minute_re : re := default Eps (directive 77).
Definition second_re : re := default Eps (directive 83).

Lemma take_text (m rest : pystr) :
  take (length (m ++ rest) - length rest) (m ++ rest) = m.
Proof.
  rewrite length_app. replace (length m + length rest - length rest)%nat
    with (length m) by lia.
  apply take_app_length.
Qed.

Lemma rmatch_grp {A} n a prev s caps (k : @cont A) :
  rmatch (Grp n a) prev s caps k
  = rmatch a prev s caps (fun prev' s' caps' =>
      k prev' s' ((n, take (length s - length s') s) :: caps')).
Proof. reflexivity. Qed.

Ltac read_two :=
  let K := fresh "K" in let HK := fresh "HK" in
  match goal with |- reads _ _ ?text =>
    let t := eval vm_compute in text in change text with t end;
  intros A k prev rest caps x Hk; rewrite rmatch_grp;
  match goal with |- rmatch _ _ _ _ ?f = _ => remember f as K eqn:HK end;
  cbn; subst K; rewrite take_text;
  match goal with |- match ?t with _ => _ end = _ =>
    replace t with (Some x) by (symmetry; exact Hk) end;
  reflexivity.

Lemma day_reads v : 1 <= v <= 31 -> reads day_re 100 (two_digits v).
Proof.
  intros Hv. revert v Hv.
  assert (Hall : forall v, 0 <= v < Z.of_nat 32 -> 1 <= v -> reads day_re 100 (two_digits v)).
  { apply (below_cases (fun v => 1 <= v -> reads day_re 100 (two_digits v)) 32).
    intros i Hi.
    do 32 (destruct i as [|i]; [first [intros; lia | intros _; read_two]|]). lia. }
  intros v Hv. apply Hall; simpl; lia.
Qed.

Lemma month_reads v : 1 <= v <= 12 -> reads month_re 109 (two_digits v).
Proof.
  intros Hv. revert v Hv.
  assert (Hall : forall v, 0 <= v < Z.of_nat 13 -> 1 <= v -> reads month_re 109 (two_digits v)).
  { apply (below_cases (fun v => 1 <= v -> reads month_re 109 (two_digits v)) 13).
    intros i Hi.
    do 13 (destruct i as [|i]; [first [intros; lia | intros _; read_two]|]). lia. }
  intros v Hv. apply Hall; simpl; lia.
Qed.

Lemma hour_reads v : 0 <= v <= 23 -> reads hour_re 72 (two_digits v).
Proof.
  intros Hv. revert v Hv.
  assert (Hall : forall v, 0 <= v < Z.of_nat 24 -> reads hour_re 72 (two_digits v)).
  { apply below_cases. intros i Hi.
    do 24 (destruct i as [|i]; [read_two|]). lia. }
  intros v Hv. apply Hall; simpl; lia.
Qed.

Lemma minute_reads v : 0 <= v <= 59 -> reads minute_re 77 (two_digits v).
Proof.
  intros Hv. revert v Hv.
  assert (Hall : forall v, 0 <= v < Z.of_nat 60 -> reads minute_re 77 (two_digits v)).
  { apply below_cases. intros i Hi.
    do 60 (destruct i as [|i]; [read_two|]). lia. }
  intros v Hv. apply Hall; simpl; lia.
Qed.

Lemma second_reads v : 0 <= v <= 59 -> reads second_re 83 (two_digits v).
Proof.
  intros Hv. revert v Hv.
  assert (Hall : forall v, 0 <= v < Z.of_nat 60 -> reads second_re 83 (two_digits v)).
  { apply below_cases. intros i Hi.
    do 60 (destruct i as [|i]; [read_two|]). lia. }
  intros v Hv. apply Hall; simpl; lia.
Qed.

Lemma rmatch_digit {A} c prev s caps (k : @cont A) :
  digit c = true -> rmatch d prev (c :: s) caps k = k (Some c) s caps.
Proof. intros Hc. simpl. rewrite Hc. reflexivity. Qed.

Lemma year_digits v :
  0 <= v <= 9999 ->
  0 <= v / 1000 <= 9 /\ 0 <= v / 100 mod 10 <= 9 /\ 0 <= v / 10 mod 10 <= 9 /\
  0 <= v mod 10 <= 9.
Proof.
  intros Hv. pose proof (Z.mod_pos_bound (v / 100) 10 ltac:(lia)).
  pose proof (Z.mod_pos_bound (v / 10) 10 ltac:(lia)).
  pose proof (Z.mod_pos_bound v 10 ltac:(lia)).
  assert (v / 1000 < 10) by (apply Z.div_lt_upper_bound; lia).
  assert (0 <= v / 1000) by (apply Z.div_pos; lia). lia.
Qed.

Lemma year_reads v : 0 <= v <= 9999 -> reads year_re 89 (four_digits v).
Proof.
  intros Hv A k prev rest caps x Hk.
  destruct (year_digits v Hv) as (H1 & H2 & H3 & H4).
  apply dig_facts in H1 as (D1 & _). apply dig_facts in H2 as (D2 & _).
  apply dig_facts in H3 as (D3 & _). apply dig_facts in H4 as (D4 & _).
  rewrite rmatch_grp.
  change year_re with (Cat d (Cat d (Cat d d))).
  unfold four_digits in *. cbn [app].
  cbn [rmatch]. fold (@rmatch A d).
  rewrite !rmatch_digit by assumption.
  change (dig (v / 1000) :: dig (v / 100 mod 10) :: dig (v / 10 mod 10)
            :: dig (v mod 10) :: rest)
    with ([dig (v / 1000); dig (v / 100 mod 10); dig (v / 10 mod 10); dig (v mod 10)]
            ++ rest).
  rewrite take_text. exact Hk.
Qed.

Lemma literal_reads {A} c r prev rest caps (k : @cont A) :
  rmatch (Cat (chr_i c) r) prev (c :: rest) caps k = rmatch r (Some c) rest caps k.
Proof. cbn [rmatch chr_i]. rewrite N.eqb_refl. reflexivity. Qed.

(** [\s+] before a character that is no whitespace takes one space. *)
Lemma space_reads {A} r prev c rest caps (k : @cont A) :
  isspace c = false ->
  rmatch (Cat (plus ws) r) prev (32%N :: c :: rest) caps k
  = rmatch r (Some 32%N) (c :: rest) caps k.
Proof.
  intros Hc. cbn [rmatch plus ws rep_loop may_iterate length]. cbn [isspace].
  replace (isspace 32) with true by reflexivity.
  replace (S (length rest) <? S (S (length rest)))%nat with true
    by (symmetry; apply Nat.ltb_lt; lia).
  cbn [Nat.pred fmap option_fmap option_map rep_loop may_iterate rmatch].
  rewrite Hc.
  destruct (rmatch r (Some 32%N) (c :: rest) caps k); reflexivity.
Qed.

Lemma rmatch_cat_grp {A} n g r prev s caps (k : @cont A) :
  rmatch (Cat (Grp n g) r) prev s caps k
  = rmatch (Grp n g) prev s caps (fun prev' s' caps' => rmatch r prev' s' caps' k).
Proof. reflexivity. Qed.

(** *** The two formats *)

Definition full_format : re :=
  Cat (Grp 100 day_re) (Cat (chr_i 46) (Cat (Grp 109 month_re) (Cat (chr_i 46)
  (Cat (Grp 89 year_re) (Cat (plus ws) (Cat (Grp 72 hour_re) (Cat (chr_i 58)
  (Cat (Grp 77 minute_re) (Cat (chr_i 58) (Cat (Grp 83 second_re) Eps)))))))))).

Definition iso_format : re :=
  Cat (Grp 89 year_re) (Cat (chr_i 45) (Cat (Grp 109 month_re) (Cat (chr_i 45)
  (Cat (Grp 100 day_re) (Cat (plus ws) (Cat (Grp 72 hour_re) (Cat (chr_i 58)
  (Cat (Grp 77 minute_re) (Cat (chr_i 58) (Cat (Grp 83 second_re) Eps)))))))))).

Definition iso_date_format : re :=
  Cat (Grp 89 year_re) (Cat (chr_i 45) (Cat (Grp 109 month_re) (Cat (chr_i 45)
  (Cat (Grp 100 day_re) Eps)))).

Lemma format_full : format_re (u "%d.%m.%Y %H:%M:%S") = Some full_format.
Proof. reflexivity. Qed.

Lemma format_iso : format_re (u "%Y-%m-%d %H:%M:%S") = Some iso_format.
Proof. reflexivity. Qed.

Lemma format_iso_date : format_re (u "%Y-%m-%d") = Some iso_date_format.
Proof. reflexivity. Qed.

Lemma int_of_two v : 0 <= v <= 99 -> int_of_digits (two_digits v) = v.
Proof.
  intros Hv.
  assert (H1 : 0 <= v / 10 <= 9).
  { assert (v / 10 < 10) by (apply Z.div_lt_upper_bound; lia).
    assert (0 <= v / 10) by (apply Z.div_pos; lia). lia. }
  pose proof (Z.mod_pos_bound v 10 ltac:(lia)) as H2.
  destruct (dig_facts (v / 10) H1) as (_ & S1 & V1).
  destruct (dig_facts (v mod 10) ltac:(lia)) as (_ & _ & V2).
  unfold int_of_digits, two_digits. cbn [lstrip]. rewrite S1. cbn [fold_left].
  rewrite N2Z.inj_add, N2Z.inj_mul, N2Z.inj_add, V1, V2. simpl Z.of_N.
  pose proof (Z.div_mod v 10 ltac:(lia)). lia.
Qed.

Lemma int_of_four v : 0 <= v <= 9999 -> int_of_digits (four_digits v) = v.
Proof.
  intros Hv. destruct (year_digits v Hv) as (H1 & H2 & H3 & H4).
  destruct (dig_facts _ H1) as (_ & S1 & V1). destruct (dig_facts _ H2) as (_ & _ & V2).
  destruct (dig_facts _ H3) as (_ & _ & V3). destruct (dig_facts _ H4) as (_ & _ & V4).
  unfold int_of_digits, four_digits. cbn [lstrip]. rewrite S1. cbn [fold_left].
  repeat (rewrite N2Z.inj_add || rewrite N2Z.inj_mul). rewrite V1, V2, V3, V4.
  simpl Z.of_N.
  pose proof (Z.div_mod v 10 ltac:(lia)).
  pose proof (Z.div_mod (v / 10) 10 ltac:(lia)).
  pose proof (Z.div_mod (v / 100) 10 ltac:(lia)).
  assert (v / 10 / 10 = v / 100) by (rewrite Z.div_div by lia; reflexivity).
  assert (v / 100 / 10 = v / 1000) by (rewrite Z.div_div by lia; reflexivity).
  lia.
Qed.

Lemma make_of_valid dt :
  valid_datetime dt ->
  make (year dt) (month dt) (day dt) (hour dt) (minute dt) (second dt) = Ok dt.
Proof.
  intros (Hy & Hmo & Hd & Hh & Hmi & Hs & Hus & Hz). unfold make.
  replace ((1 <=? year dt) && (year dt <=? 9999) && (1 <=? month dt) && (month dt <=? 12)
            && (1 <=? day dt) && (day dt <=? days_in_month (year dt) (month dt))
            && (0 <=? hour dt) && (hour dt <=? 23) && (0 <=? minute dt)
            && (minute dt <=? 59) && (0 <=? second dt) && (second dt <=? 59)) with true.
  - destruct dt; simpl in *; subst; reflexivity.
  - symmetry. repeat (apply andb_true_iff; split); apply Z.leb_le; lia.
Qed.

Lemma day_bound dt : valid_datetime dt -> 1 <= day dt <= 31.
Proof.
  intros (_ & _ & Hd & _). unfold days_in_month in Hd.
  destruct (month dt =? 2); [destruct (is_leap (year dt)); lia|].
  destruct ((month dt =? 4) || (month dt =? 6) || (month dt =? 9) || (month dt =? 11)); lia.
Qed.

Lemma space_of_digit q : 0 <= q <= 9 -> isspace (dig q) = false.
Proof. intros Hq. apply dig_facts, Hq. Qed.

Lemma tens_digit v : 0 <= v <= 99 -> 0 <= v / 10 <= 9.
Proof.
  intros Hv. assert (v / 10 < 10) by (apply Z.div_lt_upper_bound; lia).
  assert (0 <= v / 10) by (apply Z.div_pos; lia). lia.
Qed.

(** the groups of a timestamp, last read first *)
Definition stamp_groups (dt : datetime) (g1 g2 g3 : nat * pystr) : captures :=
  [(83%nat, two_digits (second dt)); (77%nat, two_digits (minute dt));
   (72%nat, two_digits (hour dt)); g3; g2; g1].

Lemma field_of_group g (c : string) (n : N) dflt text :
  u c = [n] -> group (N.to_nat n) g = Some text -> field g c dflt = int_of_digits text.
Proof. intros Hc Hg. unfold field. rewrite Hc, Hg. reflexivity. Qed.

Lemma date_of_groups dt g :
  valid_datetime dt ->
  group 89 g = Some (four_digits (year dt)) ->
  group 109 g = Some (two_digits (month dt)) ->
  group 100 g = Some (two_digits (day dt)) ->
  field g "Y" 1900 = year dt /\ field g "m" 1 = month dt /\ field g "d" 1 = day dt.
Proof.
  intros Hv Hy Hm Hd. pose proof (day_bound dt Hv) as Hday.
  destruct Hv as (Hyear & Hmonth & _).
  rewrite (field_of_group g "Y" 89 1900 _ eq_refl Hy).
  rewrite (field_of_group g "m" 109 1 _ eq_refl Hm).
  rewrite (field_of_group g "d" 100 1 _ eq_refl Hd).
  rewrite int_of_four, !int_of_two by lia. auto.
Qed.

Lemma time_of_groups dt g :
  valid_datetime dt ->
  group 72 g = Some (two_digits (hour dt)) ->
  group 77 g = Some (two_digits (minute dt)) ->
  group 83 g = Some (two_digits (second dt)) ->
  field g "H" 0 = hour dt /\ field g "M" 0 = minute dt /\ field g "S" 0 = second dt.
Proof.
  intros (_ & _ & _ & Hh & Hmi & Hs & _) H1 H2 H3.
  rewrite (field_of_group g "H" 72 0 _ eq_refl H1).
  rewrite (field_of_group g "M" 77 0 _ eq_refl H2).
  rewrite (field_of_group g "S" 83 0 _ eq_refl H3).
  rewrite !int_of_two by lia. auto.
Qed.

Ltac read_field lemma :=
  rewrite rmatch_cat_grp; apply lemma; [lia|]; cbv beta; cbn [last two_digits four_digits].

(** What the full format reads from a timestamp followed by [post]. *)
Lemma full_format_reads {A} dt post (k : @cont A) x :
  valid_datetime dt ->
  k (Some (dig (second dt mod 10))) post
    (stamp_groups dt (100%nat, two_digits (day dt)) (109%nat, two_digits (month dt))
       (89%nat, four_digits (year dt))) = Some x ->
  rmatch full_format None (stamp dt ++ post) [] k = Some x.
Proof.
  intros Hv Hk. pose proof (day_bound dt Hv) as Hday.
  destruct Hv as (Hy & Hmo & _ & Hh & Hmi & Hs & _).
  unfold full_format.
  change (stamp dt ++ post)
    with (two_digits (day dt) ++ 46%N :: two_digits (month dt) ++ 46%N
            :: four_digits (year dt) ++ 32%N :: two_digits (hour dt) ++ 58%N
            :: two_digits (minute dt) ++ 58%N :: two_digits (second dt) ++ post).
  read_field day_reads. rewrite literal_reads.
  read_field month_reads. rewrite literal_reads.
  read_field year_reads.
  change (two_digits (hour dt) ++ ?r) with (dig (hour dt / 10) :: dig (hour dt mod 10) :: r).
  rewrite space_reads by (apply space_of_digit, tens_digit; lia).
  change (dig (hour dt / 10) :: dig (hour dt mod 10) :: ?r) with (two_digits (hour dt) ++ r).
  read_field hour_reads. rewrite literal_reads.
  read_field minute_reads. rewrite literal_reads.
  read_field second_reads. exact Hk.
Qed.

Lemma strptime_stamp dt :
  valid_datetime dt -> strptime (stamp dt) (u "%d.%m.%Y %H:%M:%S") = Ok dt.
Proof.
  intros Hv. unfold strptime. rewrite format_full. unfold match_, match_here.
  match goal with |- context [rmatch full_format None (stamp dt) [] ?k] =>
    assert (Hm : rmatch full_format None (stamp dt ++ []) [] k
                 = Some {| m_text := take (length (stamp dt) - 0) (stamp dt);
                           m_rest := [];
                           m_groups := stamp_groups dt (100%nat, two_digits (day dt))
                                         (109%nat, two_digits (month dt))
                                         (89%nat, four_digits (year dt)) |})
      by (apply full_format_reads; [exact Hv|reflexivity]) end.
  rewrite app_nil_r in Hm. rewrite Hm. cbn [m_rest m_groups].
  destruct (date_of_groups dt (stamp_groups dt (100%nat, two_digits (day dt))
              (109%nat, two_digits (month dt)) (89%nat, four_digits (year dt))) Hv)
    as (-> & -> & ->); try reflexivity.
  destruct (time_of_groups dt (stamp_groups dt (100%nat, two_digits (day dt))
              (109%nat, two_digits (month dt)) (89%nat, four_digits (year dt))) Hv)
    as (-> & -> & ->); try reflexivity.
  apply make_of_valid, Hv.
Qed.

(** *** The search for a timestamp in a text *)

Lemma rmatch_cat_unfold {A} a b prev s caps (k : @cont A) :
  rmatch (Cat a b) prev s caps k
  = rmatch a prev s caps (fun prev' s' caps' => rmatch b prev' s' caps' k).
Proof. reflexivity. Qed.

Lemma class_literal {A} c r prev rest caps (k : @cont A) :
  rmatch (Cat (chr c) r) prev (c :: rest) caps k = rmatch r (Some c) rest caps k.
Proof. cbn [rmatch chr]. rewrite N.eqb_refl. reflexivity. Qed.

Lemma two_digits_class v prev rest :
  0 <= v <= 99 ->
  take_class digit 2 prev (two_digits v ++ rest) = Some (Some (dig (v mod 10)), rest).
Proof.
  intros Hv. pose proof (tens_digit v Hv) as H1.
  pose proof (Z.mod_pos_bound v 10 ltac:(lia)) as H2.
  destruct (dig_facts _ H1) as (D1 & _). destruct (dig_facts (v mod 10) ltac:(lia)) as (D2 & _).
  unfold two_digits. cbn [app take_class]. rewrite D1, D2. reflexivity.
Qed.

Lemma four_digits_class v prev rest :
  0 <= v <= 9999 ->
  take_class digit 4 prev (four_digits v ++ rest) = Some (Some (dig (v mod 10)), rest).
Proof.
  intros Hv. destruct (year_digits v Hv) as (H1 & H2 & H3 & H4).
  destruct (dig_facts _ H1) as (D1 & _). destruct (dig_facts _ H2) as (D2 & _).
  destruct (dig_facts _ H3) as (D3 & _). destruct (dig_facts _ H4) as (D4 & _).
  unfold four_digits. cbn [app take_class]. rewrite D1, D2, D3, D4. reflexivity.
Qed.

Ltac class_two := rewrite rmatch_cat_unfold, rmatch_times, two_digits_class by lia.

Lemma full_pattern_matches dt prev post :
  valid_datetime dt ->
  match_here RE_FULL prev (stamp dt ++ post)
  = Some {| m_text := stamp dt; m_rest := post; m_groups := [] |}.
Proof.
  intros Hv. pose proof (day_bound dt Hv) as Hday.
  destruct Hv as (Hy & Hmo & _ & Hh & Hmi & Hs & _).
  unfold match_here, RE_FULL. cbn [seq].
  match goal with |- rmatch _ _ _ _ ?f = _ => remember f as K eqn:HK end.
  change (stamp dt ++ post)
    with (two_digits (day dt) ++ 46%N :: two_digits (month dt) ++ 46%N
            :: four_digits (year dt) ++ 32%N :: two_digits (hour dt) ++ 58%N
            :: two_digits (minute dt) ++ 58%N :: two_digits (second dt) ++ post).
  unfold d.
  class_two. rewrite class_literal. class_two. rewrite class_literal.
  rewrite rmatch_cat_unfold, rmatch_times, four_digits_class by lia.
  change (two_digits (hour dt) ++ ?r) with (dig (hour dt / 10) :: dig (hour dt mod 10) :: r).
  rewrite space_reads by (apply space_of_digit, tens_digit; lia).
  change (dig (hour dt / 10) :: dig (hour dt mod 10) :: ?r) with (two_digits (hour dt) ++ r).
  class_two. rewrite class_literal. class_two. rewrite class_literal.
  rewrite rmatch_times, two_digits_class by lia.
  subst K. cbv beta. rewrite take_text. reflexivity.
Qed.

Lemma full_pattern_wants_digit prev c rest :
  digit c = false -> match_here RE_FULL prev (c :: rest) = None.
Proof.
  intros Hc. unfold match_here, RE_FULL. cbn [seq]. unfold d.
  rewrite rmatch_cat_unfold, rmatch_times. cbn [take_class]. rewrite Hc. reflexivity.
Qed.

(** No character of the text is a decimal digit: the characters are below
    U+0660, where the ASCII digits are the only decimal digits, and none is
    an ASCII digit. *)
Definition no_digit (s : pystr) : Prop :=
  forallb (fun c => negb (digit c) && (c <? 1632)%N) s = true.

Lemma stamp_found pre dt post :
  valid_datetime dt -> no_digit pre ->
  search RE_FULL (pre ++ stamp dt ++ post)
  = Some (length pre, {| m_text := stamp dt; m_rest := post; m_groups := [] |}).
Proof.
  intros Hv Hpre. unfold search. apply search_from_some.
  exists pre, (stamp dt ++ post). split; [reflexivity|]. split; [reflexivity|].
  split; [apply full_pattern_matches, Hv|].
  intros pre' rest' Heq Hlen.
  apply app_eq_app in Heq as [l [[Hp Hr]|[Hp Hr]]].
  - destruct l as [|c l].
    { rewrite app_nil_r in Hp. subst. lia. }
    subst rest'. apply full_pattern_wants_digit.
    unfold no_digit in Hpre. rewrite Hp, forallb_app in Hpre.
    apply andb_true_iff in Hpre as [_ Hl]. simpl in Hl.
    apply andb_true_iff in Hl as [Hc _]. apply andb_true_iff in Hc as [Hc _].
    destruct (digit c); [discriminate|reflexivity].
  - subst pre'. rewrite length_app in Hlen. lia.
Qed.

(** A timestamp dd.mm.yyyy HH:MM:SS of a date and time of the calendar is
    read back by [parse_datetime_from_text] as that date and time, also when
    it stands inside a text: after any text without decimal digits, and
    before any text at all. *)
Theorem timestamp_is_read_back dt pre post :
  valid_datetime dt -> no_digit pre ->
  parse_datetime_from_text (Some (pre ++ stamp dt ++ post)) = Some dt.
Proof.
  intros Hv Hpre. pose proof (stamp_found pre dt post Hv Hpre) as Hs.
  unfold parse_datetime_from_text.
  destruct (pre ++ stamp dt ++ post) as [|c r] eqn:Htext.
  { apply (f_equal length) in Htext. rewrite !length_app in Htext.
    simpl in Htext. lia. }
  rewrite Hs. cbn [m_text]. rewrite (strptime_stamp dt Hv). reflexivity.
Qed.

Lemma timestamp_is_read_back_witness :
  parse_datetime_from_text (Some (u "Сделка от 29.02.2024 09:05:59 (МСК), N 77"))
  = Some {| year := 2024; month := 2; day := 29; hour := 9; minute := 5; second := 59;
            microsecond := 0; utcoffset := None |}.
Proof.
  apply (timestamp_is_read_back
           {| year := 2024; month := 2; day := 29; hour := 9; minute := 5; second := 59;
              microsecond := 0; utcoffset := None |}
           (u "Сделка от ") (u " (МСК), N 77")).
  - vm_compute. repeat split; congruence.
  - reflexivity.
Defined.

(** *** Date and time given apart *)

Lemma iso_format_reads {A} dt post (k : @cont A) x :
  valid_datetime dt ->
  k (Some (dig (second dt mod 10))) post
    (stamp_groups dt (89%nat, four_digits (year dt)) (109%nat, two_digits (month dt))
       (100%nat, two_digits (day dt))) = Some x ->
  rmatch iso_format None (iso_date dt ++ 32%N :: iso_time dt ++ post) [] k = Some x.
Proof.
  intros Hv Hk. pose proof (day_bound dt Hv) as Hday.
  destruct Hv as (Hy & Hmo & _ & Hh & Hmi & Hs & _).
  unfold iso_format.
  change (iso_date dt ++ 32%N :: iso_time dt ++ post)
    with (four_digits (year dt) ++ 45%N :: two_digits (month dt) ++ 45%N
            :: two_digits (day dt) ++ 32%N :: two_digits (hour dt) ++ 58%N
            :: two_digits (minute dt) ++ 58%N :: two_digits (second dt) ++ post).
  read_field year_reads. rewrite literal_reads.
  read_field month_reads. rewrite literal_reads.
  read_field day_reads.
  change (two_digits (hour dt) ++ ?r) with (dig (hour dt / 10) :: dig (hour dt mod 10) :: r).
  rewrite space_reads by (apply space_of_digit, tens_digit; lia).
  change (dig (hour dt / 10) :: dig (hour dt mod 10) :: ?r) with (two_digits (hour dt) ++ r).
  read_field hour_reads. rewrite literal_reads.
  read_field minute_reads. rewrite literal_reads.
  read_field second_reads. exact Hk.
Qed.

Lemma strptime_iso dt :
  valid_datetime dt ->
  strptime (iso_date dt ++ u " " ++ iso_time dt) (u "%Y-%m-%d %H:%M:%S") = Ok dt.
Proof.
  intros Hv. unfold strptime. rewrite format_iso. unfold match_, match_here.
  change (u " " ++ iso_time dt) with (32%N :: iso_time dt).
  set (data := iso_date dt ++ 32%N :: iso_time dt).
  match goal with |- context [rmatch iso_format None data [] ?k] =>
    assert (Hm : rmatch iso_format None (iso_date dt ++ 32%N :: iso_time dt ++ []) [] k
                 = Some {| m_text := take (length data - 0) data;
                           m_rest := [];
                           m_groups := stamp_groups dt (89%nat, four_digits (year dt))
                                         (109%nat, two_digits (month dt))
                                         (100%nat, two_digits (day dt)) |})
      by (apply iso_format_reads; [exact Hv|reflexivity]) end.
  rewrite app_nil_r in Hm. fold data in Hm. rewrite Hm. cbn [m_rest m_groups].
  destruct (date_of_groups dt (stamp_groups dt (89%nat, four_digits (year dt))
              (109%nat, two_digits (month dt)) (100%nat, two_digits (day dt))) Hv)
    as (-> & -> & ->); try reflexivity.
  destruct (time_of_groups dt (stamp_groups dt (89%nat, four_digits (year dt))
              (109%nat, two_digits (month dt)) (100%nat, two_digits (day dt))) Hv)
    as (-> & -> & ->); try reflexivity.
  apply make_of_valid, Hv.
Qed.

Lemma midnight_valid dt : valid_datetime dt -> valid_datetime (midnight dt).
Proof.
  intros (Hy & Hmo & Hd & _). unfold valid_datetime, midnight. simpl.
  repeat split; try lia; reflexivity.
Qed.

Lemma strptime_iso_date dt :
  valid_datetime dt -> strptime (iso_date dt) (u "%Y-%m-%d") = Ok (midnight dt).
Proof.
  intros Hv. pose proof (day_bound dt Hv) as Hday.
  pose proof (midnight_valid dt Hv) as Hmid.
  destruct Hv as (Hy & Hmo & Hd & _).
  unfold strptime. rewrite format_iso_date. unfold match_, match_here.
  match goal with |- context [rmatch iso_date_format None (iso_date dt) [] ?k] =>
    assert (Hm : rmatch iso_date_format None (iso_date dt) [] k
                 = Some {| m_text := take (length (iso_date dt) - 0) (iso_date dt);
                           m_rest := [];
                           m_groups := [(100%nat, two_digits (day dt));
                                        (109%nat, two_digits (month dt));
                                        (89%nat, four_digits (year dt))] |}) end.
  { unfold iso_date_format.
    change (iso_date dt)
      with (four_digits (year dt) ++ 45%N :: two_digits (month dt) ++ 45%N
              :: two_digits (day dt) ++ []) at 1.
    read_field year_reads. rewrite literal_reads.
    read_field month_reads. rewrite literal_reads.
    read_field day_reads. reflexivity. }
  rewrite Hm. cbn [m_rest m_groups].
  set (g := [(100%nat, two_digits (day dt)); (109%nat, two_digits (month dt));
             (89%nat, four_digits (year dt))]).
  rewrite (field_of_group g "Y" 89 1900 (four_digits (year dt)) eq_refl eq_refl).
  rewrite (field_of_group g "m" 109 1 (two_digits (month dt)) eq_refl eq_refl).
  rewrite (field_of_group g "d" 100 1 (two_digits (day dt)) eq_refl eq_refl).
  rewrite int_of_four, !int_of_two by lia.
  change (field _ "H" 0) with 0. change (field _ "M" 0) with 0.
  change (field _ "S" 0) with 0.
  exact (make_of_valid (midnight dt) Hmid).
Qed.

Lemma contains_char (c : N) s : contains [c] s = existsb (N.eqb c) s.
Proof.
  induction s as [|x s IH]; [reflexivity|].
  change (contains [c] (x :: s)) with (((c =? x)%N && true) || contains [c] s).
  rewrite IH, andb_true_r. reflexivity.
Qed.

(** a string of digits, hyphens and colons *)
Definition plain (s : pystr) : Prop :=
  forallb (fun c => digit c || (c =? 45)%N || (c =? 58)%N) s = true.

Lemma plain_without (c : N) s :
  plain s -> digit c = false -> c <> 45%N -> c <> 58%N -> existsb (N.eqb c) s = false.
Proof.
  intros Hs Hd H45 H58. unfold plain in Hs. induction s as [|x s IH]; [reflexivity|].
  simpl in Hs. apply andb_true_iff in Hs as [Hx Hs]. cbn [existsb].
  rewrite (IH Hs), orb_false_r. apply N.eqb_neq. intros ->.
  rewrite Hd in Hx. simpl in Hx.
  apply orb_true_iff in Hx as [Hx|Hx]; apply N.eqb_eq in Hx; congruence.
Qed.

Lemma before_first_app (c : N) s rest :
  existsb (N.eqb c) s = false -> before_first c (s ++ c :: rest) = s.
Proof.
  induction s as [|x s IH]; cbn [app before_first existsb].
  - rewrite N.eqb_refl. reflexivity.
  - intros Hx. apply orb_false_iff in Hx as [Hx Hs].
    rewrite N.eqb_sym, Hx, (IH Hs). reflexivity.
Qed.

Lemma plain_two v : 0 <= v <= 99 -> plain (two_digits v).
Proof.
  intros Hv. pose proof (tens_digit v Hv) as H1.
  pose proof (Z.mod_pos_bound v 10 ltac:(lia)) as H2.
  destruct (dig_facts _ H1) as (D1 & _). destruct (dig_facts (v mod 10) ltac:(lia)) as (D2 & _).
  unfold plain, two_digits. simpl. rewrite D1, D2. reflexivity.
Qed.

Lemma plain_four v : 0 <= v <= 9999 -> plain (four_digits v).
Proof.
  intros Hv. destruct (year_digits v Hv) as (H1 & H2 & H3 & H4).
  destruct (dig_facts _ H1) as (D1 & _). destruct (dig_facts _ H2) as (D2 & _).
  destruct (dig_facts _ H3) as (D3 & _). destruct (dig_facts _ H4) as (D4 & _).
  unfold plain, four_digits. simpl. rewrite D1, D2, D3, D4. reflexivity.
Qed.

Lemma plain_app a b : plain a -> plain b -> plain (a ++ b).
Proof. unfold plain. intros Ha Hb. rewrite forallb_app, Ha, Hb. reflexivity. Qed.

Lemma plain_cons c s :
  (digit c || (c =? 45)%N || (c =? 58)%N) = true -> plain s -> plain (c :: s).
Proof. unfold plain. intros Hc Hs. simpl. rewrite Hc, Hs. reflexivity. Qed.

Lemma plain_iso_date dt : valid_datetime dt -> plain (iso_date dt).
Proof.
  intros Hv. pose proof (day_bound dt Hv) as Hday. destruct Hv as (Hy & Hmo & _).
  unfold iso_date.
  apply plain_app; [apply plain_four; lia|]. apply plain_cons; [reflexivity|].
  apply plain_app; [apply plain_two; lia|]. apply plain_cons; [reflexivity|].
  apply plain_two; lia.
Qed.

Lemma plain_iso_time dt : valid_datetime dt -> plain (iso_time dt).
Proof.
  intros (_ & _ & _ & Hh & Hmi & Hs & _). unfold iso_time.
  apply plain_app; [apply plain_two; lia|]. apply plain_cons; [reflexivity|].
  apply plain_app; [apply plain_two; lia|]. apply plain_cons; [reflexivity|].
  apply plain_two; lia.
Qed.

(** Date and time given apart.  For a date and time of the calendar,
    [parse_datetime_from_components] reads the date yyyy-mm-dd and the time
    HH:MM:SS back as that date and time.  When the date string goes on with
    "T" and anything, what follows the "T" is not read, and of the time
    string only what stands before its first point: fractions of a second
    are dropped.  Without a time string (or with an empty one) the date
    alone gives midnight of that day. *)
Theorem date_and_time_are_read_back `{Host} dt :
  valid_datetime dt ->
  parse_datetime_from_components (Some (iso_date dt)) (Some (iso_time dt)) = Some dt /\
  (forall tail fraction,
      parse_datetime_from_components (Some (iso_date dt ++ u "T" ++ tail))
                                     (Some (iso_time dt ++ u "." ++ fraction))
      = Some dt) /\
  parse_datetime_from_components (Some (iso_date dt)) None = Some (midnight dt) /\
  parse_datetime_from_components (Some (iso_date dt)) (Some []) = Some (midnight dt).
Proof.
  intros Hv.
  pose proof (plain_iso_date dt Hv) as Hpd. pose proof (plain_iso_time dt Hv) as Hpt.
  assert (HnoT : contains (u "T") (iso_date dt) = false).
  { change (u "T") with [84%N]. rewrite contains_char.
    apply plain_without; [exact Hpd|reflexivity|discriminate|discriminate]. }
  assert (Hdate : exists c r, iso_date dt = c :: r) by (unfold iso_date, four_digits; eauto).
  assert (Htime : exists c r, iso_time dt = c :: r) by (unfold iso_time, two_digits; eauto).
  destruct Hdate as (c & r & Hdate). destruct Htime as (t & tr & Htime).
  split; [|split; [|split]].
  - unfold parse_datetime_from_components. rewrite Hdate, Htime.
    rewrite <- Hdate, <- Htime at 1. rewrite <- Hdate, HnoT.
    rewrite <- Htime, (strptime_iso dt Hv). reflexivity.
  - intros tail fraction. unfold parse_datetime_from_components.
    change (u "T" ++ tail) with (84%N :: tail).
    change (u "." ++ fraction) with (46%N :: fraction).
    assert (HT : contains (u "T") (iso_date dt ++ 84%N :: tail) = true).
    { change (u "T") with [84%N]. rewrite contains_char, existsb_app. cbn [existsb].
      rewrite N.eqb_refl, orb_true_r. reflexivity. }
    assert (Hbd : before_first 84 (iso_date dt ++ 84%N :: tail) = iso_date dt).
    { apply before_first_app.
      apply plain_without; [exact Hpd|reflexivity|discriminate|discriminate]. }
    assert (Hbt : before_first 46 (iso_time dt ++ 46%N :: fraction) = iso_time dt).
    { apply before_first_app.
      apply plain_without; [exact Hpt|reflexivity|discriminate|discriminate]. }
    destruct (iso_date dt ++ 84%N :: tail) as [|c' r'] eqn:Hd.
    { rewrite Hdate in Hd. discriminate. }
    destruct (iso_time dt ++ 46%N :: fraction) as [|t' tr'] eqn:Ht.
    { rewrite Htime in Ht. discriminate. }
    rewrite HT, Hbd, Hbt, (strptime_iso dt Hv). reflexivity.
  - unfold parse_datetime_from_components. rewrite Hdate. rewrite <- Hdate, HnoT.
    rewrite (strptime_iso_date dt Hv). reflexivity.
  - unfold parse_datetime_from_components. rewrite Hdate. rewrite <- Hdate, HnoT.
    rewrite (strptime_iso_date dt Hv). reflexivity.
Qed.

Lemma date_and_time_are_read_back_witness :
  @parse_datetime_from_components (host_reading ([], None) no_document)
    (Some (u "2024-03-25T00:00:00")) (Some (u "12:30:45.1234567"))
  = Some {| year := 2024; month := 3; day := 25; hour := 12; minute := 30; second := 45;
            microsecond := 0; utcoffset := None |}.
Proof.
  refine (proj1 (proj2 (@date_and_time_are_read_back (host_reading ([], None) no_document)
            {| year := 2024; month := 3; day := 25; hour := 12; minute := 30; second := 45;
               microsecond := 0; utcoffset := None |} _))
            (u "00:00:00") (u "1234567")).
  vm_compute. repeat split; congruence.
Defined.

End StampFacts.

(** ** The streaming parsers: which elements are rows *)

Module DetailsRows.
Import Utils XmlParserBase NameFacts.

(** the test of the two [parse] loops *)
Definition is_details (e : Element) : bool :=
  str_eqb (lower (_local_name (tag e))) (u "details").

Lemma trades_rows_only `{Host} elems : forall ops st,
  TradesParser.traverse elems ops st
  = TradesParser.traverse (List.filter is_details elems) ops st.
Proof.
  induction elems as [|e rest IH]; intros ops st; [reflexivity|].
  cbn [List.filter]. unfold is_details at 1.
  destruct (str_eqb (lower (_local_name (tag e))) (u "details")) eqn:He.
  - cbn [TradesParser.traverse]. rewrite He. cbn [negb].
    destruct (TradesParser._process_details_element e st) as [[o|err] st1];
      [apply IH|reflexivity].
  - cbn [TradesParser.traverse]. rewrite He. cbn [negb]. apply IH.
Qed.

Lemma transfers_rows_only `{Host} elems : forall ops st,
  TransfersParser.traverse elems ops st
  = TransfersParser.traverse (List.filter is_details elems) ops st.
Proof.
  induction elems as [|e rest IH]; intros ops st; [reflexivity|].
  cbn [List.filter]. unfold is_details at 1.
  destruct (str_eqb (lower (_local_name (tag e))) (u "details")) eqn:He.
  - cbn [TransfersParser.traverse]. rewrite He. cbn [negb].
    destruct (TransfersParser._process_details_element e st) as [[o|err] st1];
      [apply IH|reflexivity].
  - cbn [TransfersParser.traverse]. rewrite He. cbn [negb]. apply IH.
Qed.

(** The trades and transfers parsers read rows from the elements whose
    local name is "details" in any letter case, whatever their namespace and
    wherever they stand in the document; every other element the reader
    yields is passed over, so that the records and the statistics are those
    of the sequence of "details" elements alone. *)
Theorem only_details_elements_are_rows `{Host} :
  (forall elems ops st,
      TradesParser.traverse elems ops st
      = TradesParser.traverse (List.filter is_details elems) ops st) /\
  (forall elems ops st,
      TransfersParser.traverse elems ops st
      = TransfersParser.traverse (List.filter is_details elems) ops st) /\
  (forall ns name attrs kids,
      no_brace name -> lower name = u "details" ->
      is_details (Elem (ns ++ u "}" ++ name) attrs kids) = true).
Proof.
  split; [exact trades_rows_only|]. split; [exact transfers_rows_only|].
  intros ns name attrs kids Hb Hl. unfold is_details, _local_name. cbn [tag].
  rewrite contains_brace. change (u "}" ++ name) with (125%N :: name).
  rewrite existsb_app. cbn [existsb]. rewrite N.eqb_refl, orb_true_r.
  rewrite (after_last_app ns name Hb), Hl. reflexivity.
Qed.

Lemma only_details_elements_are_rows_witness :
  is_details (Elem (u "{urn:report}" ++ u "Details") [] []) = true /\
  List.filter is_details [Elem (u "Report") [] []; Elem (u "details_Collection") [] [];
                          Elem (u "DETAILS") [(u "qty", u "1")] []]
  = [Elem (u "DETAILS") [(u "qty", u "1")] []].
Proof.
  split; [|reflexivity].
  apply (proj2 (proj2 (@only_details_elements_are_rows (host_reading ([], None) no_document)))
           (u "{urn:report") (u "Details") [] []); reflexivity.
Defined.

End DetailsRows.

(** ** Financial operations: attributes and records *)

Module FinOpsRecords.
Import Utils XmlParserBase FinancialOperationsParser StrFacts FloatText FinOpsLoop.

Lemma safe_attr_stripped elem name v :
  _safe_attr elem name = Some v -> v <> [] /\ strip v = v.
Proof.
  unfold _safe_attr. destruct elem as [e|]; [|discriminate].
  destruct (or_ _ _) as [raw|]; [|discriminate].
  destruct (truthy raw && truthy (strip raw)) eqn:Ht; [|discriminate].
  intros Hv. inversion Hv; subst. apply andb_true_iff in Ht as [_ Ht]. split.
  - intros Hnil. rewrite Hnil in Ht. discriminate.
  - apply strip_strip.
Qed.

(** [_safe_attr] returns [None] or the stripped value of an attribute, never
    the empty string and never a string with surrounding whitespace.  The
    value is that of the attribute of the given name, or, when that one is
    absent or empty, of the attribute of the lowercased name; a value of
    white space alone under the given name gives [None], whatever stands
    under the lowercased name. *)
Theorem safe_attr_is_none_or_stripped elem name :
  (forall v, _safe_attr elem name = Some v ->
     v <> [] /\ strip v = v /\
     exists e raw, elem = Some e /\ v = strip raw /\
       (attrib_get e name = Some raw \/
        (otruthy (attrib_get e name) = false /\ attrib_get e (lower name) = Some raw))) /\
  (forall e raw, elem = Some e -> attrib_get e name = Some raw ->
     raw <> [] -> strip raw = [] -> _safe_attr elem name = None).
Proof.
  split.
  - intros v Hv. destruct (safe_attr_stripped _ _ _ Hv) as [Hne Hs].
    split; [exact Hne|]. split; [exact Hs|].
    unfold _safe_attr in Hv. destruct elem as [e|]; [|discriminate].
    unfold or_ in Hv.
    destruct (otruthy (attrib_get e name)) eqn:Ho.
    + destruct (attrib_get e name) as [raw|] eqn:Hr; [|discriminate].
      destruct (truthy raw && truthy (strip raw)); [|discriminate].
      inversion Hv; subst. exists e, raw. auto.
    + destruct (attrib_get e (lower name)) as [raw|] eqn:Hr; [|discriminate].
      destruct (truthy raw && truthy (strip raw)); [|discriminate].
      inversion Hv; subst. exists e, raw. auto.
  - intros e raw -> Hr Hne Hblank. unfold _safe_attr, or_. rewrite Hr.
    destruct raw as [|c raw]; [congruence|]. cbn [otruthy truthy].
    rewrite Hblank. reflexivity.
Qed.

Lemma safe_attr_is_none_or_stripped_witness :
  _safe_attr (Some (Elem (u "rn") [(u "Comment", u "  "); (u "comment", u "x")] []))
    (u "Comment") = None /\
  _safe_attr (Some (Elem (u "rn") [(u "Comment", u ""); (u "comment", u " x ")] []))
    (u "Comment") = Some (u "x").
Proof.
  split.
  - apply (proj2 (safe_attr_is_none_or_stripped
                    (Some (Elem (u "rn") [(u "Comment", u "  "); (u "comment", u "x")] []))
                    (u "Comment")) _ (u "  ") eq_refl); [reflexivity|discriminate|reflexivity].
  - reflexivity.
Defined.

(** the currency read from the "p_code" elements *)
Lemma currency_stripped rn_node :
  strip (_extract_currency_and_amount rn_node).1 = (_extract_currency_and_amount rn_node).1.
Proof.
  unfold _extract_currency_and_amount.
  destruct (_find_first_descendant_by_local_name rn_node (u "comment")) as [ce|];
    [|reflexivity].
  cbv zeta.
  match goal with |- context [foldl ?f ?i ?l] =>
    assert (Hinv : forall cs acc, strip acc.1 = acc.1 -> strip (foldl f acc cs).1 = (foldl f acc cs).1)
  end.
  { induction cs as [|c cs IH]; intros [cur am] Hacc; [exact Hacc|].
    cbn [foldl]. apply IH. cbn [fst] in *.
    destruct (otruthy _ && negb (truthy cur)); cbn [fst];
      [apply strip_strip|exact Hacc]. }
  match goal with |- context [foldl ?f ?i ?l] =>
    specialize (Hinv l i eq_refl); destruct (foldl f i l) as [cur am]
  end.
  exact Hinv.
Qed.

Lemma or_str_self (s : pystr) : or_str (Some s) (u "") = s.
Proof. destruct s; reflexivity. Qed.

Lemma comment_stripped rn_node :
  strip (_extract_oper_type_and_comment rn_node).2 = (_extract_oper_type_and_comment rn_node).2.
Proof.
  unfold _extract_oper_type_and_comment. cbv zeta. cbn [snd].
  match goal with |- context [_safe_attr ?e ?n] =>
    destruct (_safe_attr e n) as [v|] eqn:Hv end; [|reflexivity].
  apply safe_attr_stripped in Hv as [Hne Hs].
  destruct v as [|c v]; [congruence|]. exact Hs.
Qed.

(** What every record of the financial-operations parser looks like. *)
Definition fin_record (o : OperationDTO) : Prop :=
  operation_type o <> u "_skip_" /\
  isin o = _extract_isin (comment o) /\
  reg_number o = _extract_reg_number (comment o) /\
  strip (comment o) = comment o /\
  strip (currency o) = currency o /\
  quantity o = NInt 0 /\ price o = PyFloat.zero /\ aci o = PyFloat.zero /\
  commission o = PyFloat.zero /\ ticker o = [] /\ operation_id o = [].

Lemma row_keeps_fin_record `{Host} rn_node settlement_date st o st' ops :
  _process_rn_node rn_node settlement_date st = (Ok o, st') ->
  Forall fin_record ops -> Forall fin_record (append_if ops o).
Proof.
  intros Hrun Hinv.
  destruct (process_rn_node_cases rn_node settlement_date st)
    as [(e & Hc)|[Hc|[(op_type & o' & st2 & Hskip & _ & Hrec & _ & Hc)
                     |(op_type & e & st2 & _ & Hc)]]];
    rewrite Hc in Hrun; inversion Hrun; subst; clear Hrun; [exact Hinv|].
  cbn [append_if]. apply Forall_app. split; [exact Hinv|].
  constructor; [|constructor].
  destruct Hrec as (Hty & Hcom & Hisin & Hreg & Hcur & _ & Hq & Hp & Ha & Hco & Hti & Hid).
  unfold fin_record. rewrite Hty, Hcom, Hisin, Hreg, Hcur, or_str_self.
  repeat split; try assumption.
  - apply comment_stripped.
  - apply currency_stripped.
Qed.

(** Every record that the financial-operations parser returns is a money
    movement and nothing else: quantity, price, accrued interest and
    commission are zero, ticker and operation id are empty; its ISIN and its
    registration number are those found in its own comment; its comment and
    its currency carry no surrounding white space; and its type is never the
    classifier's "_skip_" marker. *)
Theorem fin_ops_records_shape `{Host} x fs ops diag fs' :
  parse_fin_operations_from_xml x fs = (Ok (ops, diag), fs') ->
  Forall fin_record ops.
Proof.
  intros Hrun. unfold parse_fin_operations_from_xml, parse in Hrun.
  destruct (parse_try x fs __init__) as [[[ops1 diag1]|e] st] eqn:Htry.
  2:{ inversion Hrun; subst. constructor. }
  inversion Hrun; subst.
  apply parse_try_run in Htry as [(e & He & _)|(root & Hroot)]; [discriminate|].
  apply parse_root_run in Hroot as [Hloop ->].
  eapply (process_settlement_nodes_keep (fun ops _ => Forall fin_record ops));
    [|exact Hloop|constructor].
  intros. eapply row_keeps_fin_record; eauto.
Qed.

(** A report with a coupon row and a row without a comment. *)
Definition coupon_rows : Element :=
  Elem (u "Report") []
    [Elem (u "settlement_date") [(u "settlement_date", u "2024-03-25")]
       [Elem (u "rn") []
          [Elem (u "oper_type") [(u "oper_type", u "Купон")]
             [Elem (u "comment") [(u "comment", u "  купон RU000A0JX0J2  ")]
                [Elem (u "p_code") [(u "p_code", u " RUB "); (u "volume", u "12,5")] []]]];
        Elem (u "rn") []
          [Elem (u "oper_type") [(u "oper_type", u "Зачисление")]
             [Elem (u "p_code") [(u "p_code", u "USD"); (u "volume", u "1")] []]]]].

Definition reading_coupons : Host := host_reading ([], None) (Ok coupon_rows).

Lemma fin_ops_records_shape_witness :
  match @parse_fin_operations_from_xml reading_coupons (IsBytes 1 [x3c])
          {| fs_files := ∅; fs_writable := false |} with
  | (Ok (ops, diag), _) =>
    map comment ops = [u "купон RU000A0JX0J2"; u ""] /\
    map isin ops = [u "RU000A0JX0J2"; u ""] /\
    map currency ops = [u "RUB"; u ""] /\
    Forall fin_record ops
  | (Raise _, _) => False
  end.
Proof.
  pose proof (@fin_ops_records_shape reading_coupons
                (IsBytes 1 [x3c]) {| fs_files := ∅; fs_writable := false |}) as Hthm.
  assert (Hval :
    match @parse_fin_operations_from_xml reading_coupons (IsBytes 1 [x3c])
            {| fs_files := ∅; fs_writable := false |} with
    | (Ok (ops, diag), _) =>
      map comment ops = [u "купон RU000A0JX0J2"; u ""] /\
      map isin ops = [u "RU000A0JX0J2"; u ""] /\
      map currency ops = [u "RUB"; u ""]
    | (Raise _, _) => False
    end) by (vm_compute; auto).
  destruct (@parse_fin_operations_from_xml reading_coupons (IsBytes 1 [x3c])
              {| fs_files := ∅; fs_writable := false |})
    as [[[ops diag]|e] fs']; [|exact Hval].
  destruct Hval as (Hcom & Hisin & Hcur).
  split; [exact Hcom|]. split; [exact Hisin|]. split; [exact Hcur|].
  exact (Hthm ops diag fs' eq_refl).
Defined.

End FinOpsRecords.

(** ** Transfers: the records *)

Module TransfersRecords.
Import Utils XmlParserBase TransfersParser.

(** What every record of the transfers parser looks like. *)
Definition transfer_record (o : OperationDTO) : Prop :=
  (exists dt, date o = Some dt) /\
  (operation_type o = u "asset_receive" \/ operation_type o = u "asset_withdrawal") /\
  (exists q, quantity o = NFloat q /\
     (PyFloat.is_pos q = true \/
      (q = S754_nan /\ operation_type o = u "asset_withdrawal"))) /\
  contains (u "конвертация") (lower (strip (comment o))) = true /\
  payment_sum o = PyFloat.zero /\ price o = PyFloat.zero /\ aci o = PyFloat.zero /\
  commission o = PyFloat.zero /\
  currency o = [] /\ ticker o = [] /\ reg_number o = [] /\ operation_id o = [].

(** The absolute value of a float that is not zero is positive, or the
    float is not a number, and then it is not positive. *)
Lemma abs_of_nonzero (q : PyFloat.float) :
  PyFloat.is_zero q = false ->
  PyFloat.is_pos (PyFloat.abs q) = true \/
  (PyFloat.abs q = S754_nan /\ PyFloat.is_pos q = false).
Proof.
  destruct q as [s|s| |s m e]; intros Hz.
  - destruct s; discriminate.
  - left. reflexivity.
  - right. split; reflexivity.
  - left. reflexivity.
Qed.

Section WithHost.
Context `{Host}.

Lemma conversion_row_shape elem st o st' ops :
  _process_details_element elem st = (Ok o, st') ->
  Forall transfer_record ops -> Forall transfer_record (append_if ops o).
Proof.
  unfold _process_details_element. se_unfold.
  set (qty := to_float_safe _). clearbody qty.
  destruct (negb (_is_conversion_operation _)) eqn:Hconv.
  { intros Hr; inversion Hr; subst. auto. }
  destruct (PyFloat.is_zero qty) eqn:Hz.
  { intros Hr; inversion Hr; subst. auto. }
  destruct (_extract_date _) as [dt|].
  2:{ intros Hr; inversion Hr; subst. auto. }
  unfold OperationDTO_new.
  match goal with |- context [OperationDTO_rejects ?r] =>
    destruct (OperationDTO_rejects r) end.
  { intros Hr; inversion Hr; subst. auto. }
  intros Hr; inversion Hr; subst; clear Hr. intros Hops.
  cbn [append_if]. apply Forall_app. split; [exact Hops|].
  constructor; [|constructor].
  apply negb_false_iff in Hconv. unfold _is_conversion_operation in Hconv.
  apply andb_true_iff in Hconv as [_ Hcom].
  unfold transfer_record. cbn [date operation_type quantity comment payment_sum price
    aci commission currency ticker reg_number operation_id].
  split; [eauto|]. split.
  { destruct (PyFloat.is_pos qty); auto. }
  split.
  { eexists. split; [reflexivity|].
    destruct (abs_of_nonzero qty Hz) as [Hpos|[Hnan Hnp]]; [left; exact Hpos|].
    right. rewrite Hnp. auto. }
  split; [exact Hcom|]. repeat split.
Qed.

Lemma conversions_records elems : forall ops st ops' st' exc,
  traverse elems ops st = (ops', st', exc) ->
  Forall transfer_record ops -> Forall transfer_record ops'.
Proof.
  induction elems as [|elem rest IH]; intros ops st ops' st' exc; simpl.
  - intros Hr; inversion Hr; subst. auto.
  - destruct (negb _); [apply IH|].
    destruct (_process_details_element elem st) as [[o|e] st1] eqn:Hrow.
    + intros Hr Hops. eapply IH; [exact Hr|].
      eapply conversion_row_shape; eauto.
    + intros Hr; inversion Hr; subst. auto.
Qed.

End WithHost.

(** Every record that the transfers parser returns is a dated conversion of
    securities and nothing else: its type is "asset_receive" or
    "asset_withdrawal"; its quantity is a float that is positive, or not a
    number, and then the record is a withdrawal; its comment contains
    "конвертация" in some letter case; payment sum, price, accrued interest
    and commission are zero, and currency, ticker, registration number and
    operation id are empty. *)
Theorem transfers_records_shape `{Host} x fs ops diag fs' :
  parse_transfers_from_xml x fs = (Ok (ops, diag), fs') ->
  Forall transfer_record ops.
Proof.
  intros Hrun. unfold parse_transfers_from_xml, parse in Hrun.
  destruct (prepare_xml_source x fs) as [[[source cleanup]|e] fs1]; [|discriminate].
  unfold parse_try in Hrun.
  destruct (match read_file source fs1 with
            | Ok data => ET_iterparse data
            | Raise e => ([], Some e)
            end) as [elems stop].
  destruct (traverse elems [] __init__) as [[ops1 st] exc] eqn:Htr.
  apply conversions_records in Htr; [|constructor].
  destruct exc as [e|]; [|destruct stop as [e|]]; inversion Hrun; subst; exact Htr.
Qed.

(** A conversion whose quantity is not a number, and a regular one. *)
Definition odd_transfers : Host :=
  host_reading
    ([Elem (u "Details")
        [(u "oper_type", u "Перевод"); (u "comment_new", u "Конвертация ЦБ");
         (u "qty", u "nan"); (u "settlement_date", u "2024-03-25")] [];
      Elem (u "details")
        [(u "oper_type", u " перевод "); (u "comment_new", u "конвертация паёв");
         (u "qty", u "-1 500,5"); (u "settlement_date", u "2024-03-26")] []],
     None)
    no_document.

Lemma transfers_records_shape_witness :
  match @parse_transfers_from_xml odd_transfers (IsBytes 5 [x3c])
          {| fs_files := ∅; fs_writable := true |} with
  | (Ok (ops, diag), _) =>
    map operation_type ops = [u "asset_withdrawal"; u "asset_withdrawal"] /\
    map quantity ops = [NFloat S754_nan; NFloat (PyFloat.of_decimal false 15005 (-1))] /\
    Forall transfer_record ops
  | (Raise _, _) => False
  end.
Proof.
  pose proof (@transfers_records_shape odd_transfers
                (IsBytes 5 [x3c]) {| fs_files := ∅; fs_writable := true |}) as Hthm.
  assert (Hval :
    match @parse_transfers_from_xml odd_transfers (IsBytes 5 [x3c])
            {| fs_files := ∅; fs_writable := true |} with
    | (Ok (ops, diag), _) =>
      map operation_type ops = [u "asset_withdrawal"; u "asset_withdrawal"] /\
      map quantity ops = [NFloat S754_nan; NFloat (PyFloat.of_decimal false 15005 (-1))]
    | (Raise _, _) => False
    end) by (vm_compute; auto).
  destruct (@parse_transfers_from_xml odd_transfers (IsBytes 5 [x3c])
              {| fs_files := ∅; fs_writable := true |})
    as [[[ops diag]|e] fs']; [|exact Hval].
  destruct Hval as (Hty & Hq).
  split; [exact Hty|]. split; [exact Hq|].
  exact (Hthm ops diag fs' eq_refl).
Defined.

End TransfersRecords.

(** ** Dates in running text: [extract_date] *)

Module DateText.
Import Re ReFacts Utils StrFacts.

Definition comma_or_dot (c : N) : bool := ((c =? 44) || (c =? 46))%N.

(** [s] begins with two digits, a comma or a dot, two digits, a comma or a
    dot, and four digits. *)
Definition date_prefix (s : pystr) : bool :=
  match s with
  | d1 :: d2 :: p :: m1 :: m2 :: q :: y1 :: y2 :: y3 :: y4 :: _ =>
    digit d1 && digit d2 && comma_or_dot p && digit m1 && digit m2 && comma_or_dot q
    && digit y1 && digit y2 && digit y3 && digit y4
  | _ => false
  end.

(** the text without its white space *)
Definition despace (s : pystr) : pystr := List.filter (fun c => negb (isspace c)) s.

(** a comma becomes a dot *)
Definition dot (c : N) : N := if (c =? 44)%N then 46%N else c.

Lemma replace_comma s : replace_char 44 (u ".") s = map dot s.
Proof.
  unfold replace_char. induction s as [|c s IH]; [reflexivity|].
  cbn [flat_map map]. rewrite IH. unfold dot. destruct (c =? 44)%N; reflexivity.
Qed.

Lemma class_filter s :
  List.filter (fun c => negb (isspace c || (c =? nbsp)%N)) s = despace s.
Proof.
  unfold despace. apply List.filter_ext. intros c. f_equal.
  destruct (c =? nbsp)%N eqn:Hc; [|apply orb_false_r].
  apply N.eqb_eq in Hc. subst c. reflexivity.
Qed.

Lemma despace_spaces sp : forallb isspace sp = true -> despace sp = [].
Proof.
  induction sp as [|c sp IH]; [reflexivity|]. cbn [forallb]. intros Hs.
  apply andb_true_iff in Hs as [Hc Hs]. unfold despace. cbn [List.filter].
  rewrite Hc. cbn [negb]. apply IH, Hs.
Qed.

Lemma despace_app a b : despace (a ++ b) = despace a ++ despace b.
Proof. apply List.filter_app. Qed.

(** stripping before deleting the white space changes nothing *)
Lemma despace_strip v : despace (strip v) = despace v.
Proof.
  unfold strip.
  destruct (lstrip_spec v) as (sp1 & H1 & Hs1 & _).
  destruct (rstrip_spec (lstrip v)) as (sp2 & H2 & Hs2).
  rewrite H1 at 2. rewrite H2 at 2.
  rewrite !despace_app, (despace_spaces sp1 Hs1), (despace_spaces sp2 Hs2).
  rewrite app_nil_r. reflexivity.
Qed.

Lemma despace_no_space s : no_space (despace s).
Proof.
  unfold no_space, despace. apply forallb_forall. intros c Hc.
  apply filter_In in Hc as [_ Hc]. exact Hc.
Qed.

Lemma despace_fixed s : no_space s -> despace s = s.
Proof.
  unfold no_space, despace. induction s as [|c s IH]; [reflexivity|].
  cbn [forallb List.filter]. intros Hs. apply andb_true_iff in Hs as [Hc Hs].
  rewrite Hc, (IH Hs). reflexivity.
Qed.

Lemma dot_no_space s : no_space s -> no_space (map dot s).
Proof.
  unfold no_space. induction s as [|c s IH]; [reflexivity|].
  cbn [forallb map]. intros Hs. apply andb_true_iff in Hs as [Hc Hs].
  rewrite (IH Hs), andb_true_r. unfold dot.
  destruct (c =? 44)%N; [reflexivity|exact Hc].
Qed.

Lemma dot_dot c : dot (dot c) = dot c.
Proof.
  unfold dot. destruct (c =? 44)%N eqn:Hc; [reflexivity|]. rewrite Hc. reflexivity.
Qed.

Lemma dot_digit c : digit c = true -> dot c = c.
Proof.
  unfold dot. destruct (c =? 44)%N eqn:Hc; [|reflexivity].
  apply N.eqb_eq in Hc. subst c. discriminate.
Qed.

Lemma dot_separator c : comma_or_dot c = true -> comma_or_dot (dot c) = true.
Proof.
  unfold dot. destruct (c =? 44)%N eqn:Hc; [reflexivity|]. auto.
Qed.

Lemma date_prefix_dot s : date_prefix s = true -> date_prefix (map dot s) = true.
Proof.
  destruct s as [|d1 [|d2 [|p [|m1 [|m2 [|q [|y1 [|y2 [|y3 [|y4 s]]]]]]]]]];
    try discriminate.
  cbn [date_prefix map]. intros H.
  do 9 (apply andb_true_iff in H as [H ?]).
  rewrite (dot_digit d1), (dot_digit d2), (dot_digit m1), (dot_digit m2),
    (dot_digit y1), (dot_digit y2), (dot_digit y3), (dot_digit y4) by assumption.
  rewrite (dot_separator p), (dot_separator q) by assumption.
  repeat match goal with Hd : digit _ = true |- _ => rewrite Hd; clear Hd end.
  reflexivity.
Qed.

Lemma cat_unfold {A} a b prev s caps (k : @cont A) :
  rmatch (Cat a b) prev s caps k
  = rmatch a prev s caps (fun prev' s' caps' => rmatch b prev' s' caps' k).
Proof. reflexivity. Qed.

(** what the pattern of [extract_date] matches at the start of a text *)
Lemma date_pattern_prefix s :
  let sep := Cls (fun c => (c =? 44) || (c =? 46))%N in
  match match_ (seq [times 2 d; sep; times 2 d; sep; times 4 d]) s with
  | Some _ => true
  | None => false
  end = date_prefix s.
Proof.
  cbv zeta. unfold match_, match_here, d. cbn [seq].
  destruct s as [|d1 [|d2 [|p [|m1 [|m2 [|q [|y1 [|y2 [|y3 [|y4 s']]]]]]]]]];
    cbn [date_prefix]; unfold comma_or_dot;
    repeat (rewrite ?cat_unfold, ?rmatch_times; cbn [take_class rmatch];
            try match goal with
                | |- context [if digit ?c then _ else _] => destruct (digit c)
                | |- context [if (?c =? 44)%N || (?c =? 46)%N then _ else _] =>
                  destruct ((c =? 44)%N || (c =? 46)%N)
                end;
            cbn [andb]);
    reflexivity.
Qed.

Lemma dot_no_comma s : existsb (N.eqb 44) (map dot s) = false.
Proof.
  induction s as [|c s IH]; [reflexivity|]. cbn [map existsb].
  rewrite IH, orb_false_r. unfold dot.
  destruct (c =? 44)%N eqn:Hc; [reflexivity|]. rewrite N.eqb_sym. exact Hc.
Qed.

(** [extract_date] on a string, in one test *)
Lemma extract_date_str strftime v :
  extract_date strftime (DateOfStr v)
  = if date_prefix (despace v) then Some (replace_char 44 (u ".") (despace v)) else None.
Proof.
  unfold extract_date. cbv zeta. rewrite class_filter.
  replace (despace (if truthy v then strip v else u "")) with (despace v)
    by (destruct v; [reflexivity|symmetry; apply despace_strip]).
  pose proof (date_pattern_prefix (despace v)) as Hm. cbv zeta in Hm.
  destruct (match_ _ (despace v)); rewrite <- Hm; reflexivity.
Qed.

(** [extract_date] looks at the text with all its white space deleted, and
    only at its first ten characters: when these are two digits, a comma or
    a dot, two digits, a comma or a dot and four digits, the result is the
    whole of that text, what follows the date included, with every comma
    turned into a dot; day and month are not checked.  Otherwise (for a text
    of code points below U+0660, where the digits are the ASCII digits) the
    result is [None], as it is for [None].  A result contains no white
    space and no comma, and [extract_date] returns it unchanged. *)
Theorem extract_date_keeps_what_follows strftime v :
  (date_prefix (despace v) = true ->
   extract_date strftime (DateOfStr v) = Some (replace_char 44 (u ".") (despace v))) /\
  (Forall (fun c => (c < 1632)%N) v -> date_prefix (despace v) = false ->
   extract_date strftime (DateOfStr v) = None) /\
  (forall r, extract_date strftime (DateOfStr v) = Some r ->
     no_space r /\ existsb (N.eqb 44) r = false /\
     extract_date strftime (DateOfStr r) = Some r) /\
  extract_date strftime DateOfNone = None.
Proof.
  split; [|split; [|split]].
  - intros Hp. rewrite extract_date_str, Hp. reflexivity.
  - intros _ Hp. rewrite extract_date_str, Hp. reflexivity.
  - intros r. rewrite extract_date_str.
    destruct (date_prefix (despace v)) eqn:Hp; [|discriminate].
    intros Hr. inversion Hr as [Hr']; clear Hr. rewrite replace_comma.
    pose proof (dot_no_space _ (despace_no_space v)) as Hns.
    split; [exact Hns|]. split.
    { apply dot_no_comma. }
    rewrite extract_date_str, (despace_fixed _ Hns), (date_prefix_dot _ Hp).
    rewrite replace_comma, map_map. f_equal. apply map_ext. intros c. apply dot_dot.
  - reflexivity.
Qed.

Lemma extract_date_keeps_what_follows_witness :
  extract_date (fun _ => []) (DateOfStr (u " 25,03.2024 г., 10:00 "))
  = Some (u "25.03.2024г..10:00") /\
  extract_date (fun _ => []) (DateOfStr (u "99.99.0000")) = Some (u "99.99.0000") /\
  extract_date (fun _ => []) (DateOfStr (u "от 25.03.2024")) = None /\
  extract_date (fun _ => []) (DateOfStr (u "25.03.2024г..10:00"))
  = Some (u "25.03.2024г..10:00").
Proof.
  pose proof (extract_date_keeps_what_follows (fun _ => []) (u " 25,03.2024 г., 10:00 "))
    as (H1 & _ & H3 & _).
  pose proof (extract_date_keeps_what_follows (fun _ => []) (u "99.99.0000")) as (H2 & _).
  pose proof (extract_date_keeps_what_follows (fun _ => []) (u "от 25.03.2024"))
    as (_ & H4 & _).
  split; [exact (H1 eq_refl)|]. split; [exact (H2 eq_refl)|]. split.
  - apply H4; [|reflexivity]. repeat constructor.
  - exact (proj2 (proj2 (H3 _ (H1 eq_refl)))).
Defined.

End DateText.

(** ** The examples of the specification, run on the model *)

Module SpecExamples.
Import Re Utils XmlParserBase.

(** "1 234,56", "1234.56" and the same with a no-break space parse to the
    same float, 1234.56. *)
Example float_parse_separators :
  map to_float_safe
      [Some (u "1 234,56"); Some (u "1234.56"); Some (u "1" ++ [160%N] ++ u "234,56")]
  = [PyFloat.of_decimal false 123456 (-2); PyFloat.of_decimal false 123456 (-2);
     PyFloat.of_decimal false 123456 (-2)].
Proof. vm_compute. reflexivity. Qed.

Example local_name_strips_namespace :
  _local_name (u "{urn:x}Report") = u "Report" /\ _local_name (u "Report") = u "Report".
Proof. split; vm_compute; reflexivity. Qed.

Example first_value_of_two_lines :
  extract_first_value (Some (u "14533071091" ++ [13%N; 10%N] ++ u "1280737003"))
  = u "14533071091".
Proof. vm_compute. reflexivity. Qed.

(** The conversion row of the specification gives one withdrawal of 500. *)
Example conversion_row_record :
  match @TransfersParser._process_details_element
          (host_reading ([], None) no_document)
          (Elem (u "details")
             [(u "oper_type", u "Перевод");
              (u "comment_new", u "Перевод ЦБ. Конвертация паев");
              (u "qty", u "-500"); (u "settlement_date", u "2024-03-25");
              (u "settlement_time", u "12:00:00")] [])
          TransfersParser.__init__ with
  | (Ok (Some o), st) =>
    operation_type o = u "asset_withdrawal" /\
    quantity o = NFloat (PyFloat.of_decimal false 500 0) /\
    TransfersParser.parsed st = 1
  | _ => False
  end.
Proof. vm_compute. auto. Qed.

(** The two ISIN patterns are different: the one of [utils] wants a final
    digit and no word boundary, the one of the financial operations parser
    wants word boundaries and uppercase. *)
Example isin_patterns_differ :
  search ISIN_RE (u "ABCDEFGHIJKL") = None /\
  FinancialOperationsParser._extract_isin (u "ABCDEFGHIJKL") = u "ABCDEFGHIJKL" /\
  extract_isin_from_attr (Some (u "xxRU000A0JX0J2yy")) = u "XXRU000A0JX0" /\
  FinancialOperationsParser._extract_isin (u "xxRU000A0JX0J2yy") = u "".
Proof. repeat split; vm_compute; reflexivity. Qed.

End SpecExamples.
